(* ===== verification/_CoqProject ===== *)
-Q . S2P
Prelude.v
Json.v
PyDict.v
FileStore.v
Denormalizer.v
Fetcher.v
JsonText.v
TextStore.v
FetchConfig.v
Pipeline.v
Report.v
Dashboard.v
DashStats.v
DashViews.v
DashPage.v
