(* ===== verification/Prelude.v ===== *)
(** * Verification of the Baserow snapshot pipeline (Tool_Kit)

    This development models, in Rocq, the two-stage data pipeline of the
    repository and proves the properties that make it correct.

    ** The program
    - [src/baserow_api/scripts/baserow/fetch_baserow_tables.py] (the
      Fetcher) pulls every row of three Baserow tables through a paginated
      HTTP API, retries transient failures ([MAX_RETRIES = 3],
      [RETRY_DELAYS = [1, 2, 4]]) and writes one JSON snapshot per table.
    - [src/baserow_api/scripts/process_for_web.py] (the Denormalizer) loads
      the three snapshots, indexes companies and tools by their internal
      id, embeds each side's references into the other, and derives a
      search index, a tag catalog and summary statistics, all written as
      JSON files.
    - [src/dashboard/tools_dashboard.py] is a Panel dashboard over the
      tools snapshot: it derives columns from the rows, offers four filter
      widgets and a reset button, draws statistics cards and five charts
      and a table from the filtered rows, and exports itself as a
      timestamped HTML file.
    The components interact only through files: the Fetcher writes
    [<dir>/<table>.json], the Denormalizer reads them and writes
    [data/web/*.json]; the dashboard reads the Fetcher's tools snapshot
    directly (not the Denormalizer's output).

    ** Layout of the library (in dependency order)
    - [Prelude] (this file): Python's exceptions ([exn]), the result type
      [res] and the state-and-exception monad [PyM] through which stateful
      Python code is threaded (exceptions do not roll the state back, as
      in Python), the [try/except] combinator, generic lemmas on them, the
      hint databases [pyres] and [pyres_rw] and the tactic [res_inv].
    - [Json]: the JSON values the code manipulates ([json], the result of
      [json.load]), and the Python builtins the code applies to them:
      truthiness, [d[k]], [d.get(k, v)], [k in d], iteration, [len],
      [str], [str.lower], [' '.join], slicing [l[:n]].
    - [PyDict]: Python's insertion-ordered [dict] as an association list
      ([dict_set] updates in place, [dict_get] looks up), its hashable
      keys [pykey], the equivalence [dict_equiv] (same lookups) with its
      [Proper] instances, and the refinement of [dict_get] by stdpp's
      [gmap] ([dict_to_gmap]).
    - [FileStore]: the file system as an interface, the class
      [FileSystem] (read, write, mkdir, isdir) with its laws
      [FileSystemLaws]; [Disk] (a [gmap] of files, a [gset] of
      directories) implements it; [path_join] and [read_json]
      ([open] + [json.load], raising [FileNotFoundError]).
    - [Denormalizer] (Module [Denormalizer]): [process_for_web.py] from the
      lookup tables of [main] (lines 195-196, [by_id]) through
      [create_web_companies], [create_web_tools] (with the tag loop
      [tag_loop]), [create_search_index], [extract_all_tags] (with
      Python's stable [sorted] as stdpp's [merge_sort]) and
      [calculate_stats] to [process], the pure part of [main].  Each
      Python function is one [Definition] of the same name returning [res]:
      every [d[k]] that can raise [KeyError] is kept.
    - [Fetcher] (Module and Section [Fetcher]): [fetch_baserow_tables.py]
      in the monad [PyM] over a [World] (request clock, slept delays, file
      system), the network being a Section variable [net] and the
      configuration a Section variable [cfg].  [attempt_loop] is the retry
      [for] loop, [page_loop] the pagination [while] loop,
      [fetch_table_with_pagination], [export_to_json], [validate_config],
      [ensure_output_directory], and [main] with its per-table
      [try/except Exception] ([fetch_one], [fetch_all]); the theorems use
      only the [FileSystemLaws] of the file system.
    - [Pipeline] (Module and Section [Pipeline]): the I/O of
      [process_for_web.py], [load_snapshots] and the six [json.dump]
      writes of its [main] (with the dicts [json.dump] writes for the
      output records), and the theorems on the hand-off of the snapshot
      files from the Fetcher's [main] to the Denormalizer's.  The shapes
      of the six output files are values of [Json.jty] ([web_schema]).
    - [Report] (Module [Report]): the same [main] with its [print]s
      ([main_io]), over the file system together with the trace of the
      lines printed (a writer of [print] calls); erasing the trace gives
      [Pipeline.main] ([main_io_erase]).
    - [Dashboard] (Module [Dashboard], Section [Filter]): the derived
      columns of [tools_dashboard.py] column by column ([prepare], cells as
      [option json], [None] being pandas' [NaN]), [categorize_cost], the
      filter options, the four widget values as a record [UI] with the
      user events as a step relation [step] and its [reachable] states,
      [reset_filters] (four assignments, each re-rendering the views),
      [get_filtered_data] (the regular-expression engine is the pair of
      Section variables [compile_ci]/[rsearch]), and the numbers behind
      [stats_cards], [market_segmentation] and [tag_chart].
    - [DashStats] (Module [DashStats]): [calculate_statistics] over exact
      rationals: count, mean, numpy's median, the sample variance (the
      square of [std]), extremes and numpy's linear quantiles.
    - [DashViews] (Module [DashViews]): what each chart is drawn from
      ([cost_boxplot], [cost_histogram], [company_chart] with pandas'
      [value_counts], the bars of [tag_chart], [data_table]), the loading
      of the snapshot ([load_tools]) and the HTML export
      ([strftime_ts], [export_filename], [export_dashboard]) over the
      [FileSystem] interface.
    - [JsonText] (Module [JsonText]): the text of the files.  The encoder
      is CPython's pure-Python [_make_iterencode] as called by
      [json.dump(v, f, indent=2, ensure_ascii=False)] ([escape] is
      [py_encode_basestring], [dump] the nested [_iterencode_list] and
      [_iterencode_dict]); the decoder is the C scanner of [_json.c] that
      [json.load] runs ([scan_value] is [scan_once_unicode], [scan_items]
      and [scan_members] are [_parse_array] and [_parse_object],
      [scan_string] is [scanstring_unicode] in strict mode with surrogate
      pairs, [scan_number] is [_match_number_unicode] with the longest
      accepted prefix of a number automaton [nstate]/[nstep]), and
      [loads] checks the BOM and the trailing text.  Floats are the
      Section variables [float_of] (text to value) and [float_repr]
      ([float.__repr__]).
    - [TextStore] (Module [TextStore]): a disk of text files
      ([TextDisk]) with the writes, reads and [mkdir]s of the scripts,
      and its refinement of [FileStore.Disk].
    - [FetchConfig] (Module [FetchConfig]): the import of
      [fetch_baserow_tables.py] (lines 14-34): the [requests] check,
      [load_dotenv] (the process environment keeps its values), the four
      [os.getenv] reads and Python's [int()] on the page size ([py_int],
      CPython's base-10 parser), and [run], the script: the import, then
      [Fetcher.main] on the configuration it read.
    - [DashPage] (Module [DashPage]): the page of the dashboard: the
      decorator [@pn.depends] as [depends] (each view calls
      [get_filtered_data] with the widgets' values), the seven views of a
      widget state ([views], each with its own exceptions), the card grid
      with its median card ([stats_view]), the [FastListTemplate] layout
      as data ([template], nested [pn.Row]/[pn.Column] as the nested
      inductive [item]) and the page [template.servable()] serves
      ([serve]).

    ** The theorems (claim ids in order of importance)
    - Reference resolution (Denormalizer): every embedded tool or company
      is the summary of a snapshot row whose id is one of the row's
      references of the same row (C1, C2); [tool_count] counts exactly
      the references that resolve (C3); dangling references are dropped without error
      (C15); a company without [uuid] raises [KeyError] (C38).
    - Hand-off (Pipeline): when the Fetcher writes where the Denormalizer
      reads and the server serves each table as a finite chain of pages,
      [load_snapshots] reads back exactly the concatenation of each
      table's pages (C4); a failed table keeps a stale snapshot
      ([handoff_stale], the failed case of C8), and a table that never
      had one makes the Denormalizer fail (C10).
    - Retry loop (Fetcher): exact number of requests and sequence of
      sleeps on success (C5), exhaustion (C6: 1s and 2s, the 4s delay is
      never slept), fatal statuses (C27); every run of the loop ends in a
      200 or [SystemExit 1] after one to three requests, sleeping the
      first delays between them and touching no file (C28).
    - Pagination: on a finite chain of pages the fetch returns their
      concatenation (C7); with a row limit it returns the first rows and
      stops at the first page that reaches the limit (C29); a limit of 0
      is ignored (C30); fuel monotonicity ([fetch_table_fuel_mono]).
    - The import of the Fetcher: it ends the script before [main], the
      world untouched, without [requests], on a page size that is not an
      integer literal (an empty one included) and without a token (C31);
      [int()] reads back every integer [str()] prints, white space
      around it, up to 4300 digits (C32).
    - The Fetcher's [main]: its summary is true of the snapshot files
      (C8); a server that is down ends the whole run at the first table,
      since [SystemExit] is not an [Exception] (C9).
    - The Denormalizer's [main]: the six output files with their
      contents (C11; [all_data.json] has no search index), and their
      shapes ([main_output_shapes]); a missing
      snapshot is fatal before any write; the summary it prints is the
      content of [stats.json], and its counts are the numbers of records
      of [companies.json], [tools.json] and [tags.json] (C26).
    - Tags: within one tool the last colour of a name wins (C12), across
      tools the first (C13); the catalog is duplicate-free and sorted
      (C14); the tags of the two code paths agree
      ([web_tool_tags_agree]).
    - JSON text: [json.load] of the text [json.dump] writes gives the
      value back, for every value with distinct keys and floats printed
      by [repr] (C16); the files of the scripts therefore refine the
      value store [Disk], over any sequence of writes and [mkdir]s (C17);
      whatever [json.load] accepts is such a value, so it is written and
      read back unchanged (C18); the fuel of the scanner never runs out
      (C19).
    - Dashboard widgets: from any state the reset shows the whole table
      and every reachable state stays reachable (C20, liveness of the
      step relation); the tier filter hides every tool without a cost
      (C33); a literal search is a case-insensitive substring filter
      (C34).
    - Dashboard page: the seven views of one widget state are drawn
      from the same rows, so every count the page shows agrees with the
      table (C21); a search the regular-expression engine rejects breaks
      every view alike, and the template shows each view once
      ([page_search_error], [serve_views]).
    - Dashboard views: the company chart shows the top 15 companies
      (C22; a [None] company has no bar, as pandas drops missing values);
      the histogram never raises
      ([cost_histogram_total]); tag counts (C35); a record
      without [ToolCompany] breaks the load (C36); price tiers are
      monotone (C37).
    - Statistics: the median card is the 1/2 quantile (C24); min <= q25 <=
      median <= q75 <= max and the mean between the extremes (C25).
    - Export: two exports in the same second overwrite each other, in
      different seconds they do not (C23, via the injectivity of the
      fixed-width [strftime] on valid dates).

    ** Fuel
    The unbounded loop of the program is [while url] ([page_loop]).  Its
    fuel counts page requests: C7 and C29 show that fuel [n] is enough
    for a chain of [n] pages, [fetch_table_fuel_mono] that more fuel
    never changes a result that did not run out, so the fuel bound is
    no restriction.  The retry loop is bounded by [range(MAX_RETRIES)]
    and needs no fuel.  The JSON scanner is recursive; [loads] gives it one more unit of fuel than
    twice the length of the text, and C19 shows it never runs out: each
    call either consumes a character or is one of at most two calls made
    per character consumed by its caller.

    ** Bounds
    Timestamps are taken with four-digit years (1000-9999), where [%Y]
    has a fixed width ([valid_dt]); [datetime.now()] returns such dates.

    ** What is not modelled
    The Fetcher's [print]s (its progress messages; the Denormalizer's
    and the export's are modelled), the HTTP transport itself (an oracle [net] answers each
    request), Unicode case folding ([str.lower] is modelled on ASCII;
    other bytes are unchanged), the plotting itself (hvplot figures,
    colours, sizes, the Tabulator options and the HTML the template
    renders from its layout, which is a parameter of the export), float
    rounding in the statistics (exact rationals are used; the standard deviation is
    modelled by its square, and scipy's skewness and kurtosis are not
    modelled), Python's regular-expression engine (a parameter of the
    filter), and the order pandas gives equal counts in [value_counts]
    (the theorems do not depend on it).  Of the JSON text: the binary
    value of a float (the conversions are Section variables), the
    decoding of the bytes of a file as UTF-8 (strings are byte strings;
    [\u] escapes are encoded to UTF-8), the lexemes [NaN] and
    [Infinity] and floats that overflow (reported as [NonFinite]),
    Python's recursion limit and the 4300-digit limit of [int] (the
    scanner has neither), a file left half-written when [json.dump]
    raises (the values written are built before the write), and
    [pd.read_json], which the dashboard uses instead of [json.load].  Of the
    configuration: the parsing of [.env] and the search for the file
    (python-dotenv's; [.env] is given as a parsed map), and the non-ASCII
    white space and digits [int()] accepts. *)

From stdpp Require Export base list gmap strings sorting pretty.
From Stdlib Require Export ZArith.

(** ** Python exceptions *)

(** The exceptions the modelled code can raise.  [SystemExit] is raised by
    [sys.exit]; [OutOfFuel] is not a Python exception: it marks a loop
    model that ran out of fuel, and theorems show it does not happen when
    the fuel is large enough. *)
Inductive exn :=
| KeyError (k : string)
| TypeError
| AttributeError
| ValueError
| IndexError
| FileNotFoundError (path : string)
| SystemExit (code : Z)
| OutOfFuel.

#[export] Instance exn_eq_dec : EqDecision exn.
Proof. solve_decision. Defined.

(** [except Exception] catches every exception except [SystemExit] (a
    [BaseException]); [OutOfFuel] is never caught. *)
Definition is_Exception (e : exn) : bool :=
  match e with
  | SystemExit _ | OutOfFuel => false
  | _ => true
  end.

(** ** Results *)

Inductive res (A : Type) := Ok (a : A) | Err (e : exn).
Arguments Ok {A} a.
Arguments Err {A} e.

#[export] Instance res_eq_dec `{EqDecision A} : EqDecision (res A).
Proof. solve_decision. Defined.

#[export] Instance res_ret : MRet res := λ A a, Ok a.
#[export] Instance res_bind : MBind res :=
  λ A B f m, match m with Ok a => f a | Err e => Err e end.
#[export] Instance res_fmap : FMap res :=
  λ A B f m, match m with Ok a => Ok (f a) | Err e => Err e end.

Definition res_default {A} (d : A) (r : res A) : A :=
  match r with Ok a => a | Err _ => d end.

Definition of_option {A} (e : exn) (o : option A) : res A :=
  match o with Some a => Ok a | None => Err e end.

(** ** The state-and-exception monad *)

(** A Python statement sequence over a state [S]: it returns a value or
    raises, and the state reached so far is kept either way. *)
Definition PyM (S A : Type) : Type := S → res A * S.

#[export] Instance pym_ret {S} : MRet (PyM S) := λ A a s, (Ok a, s).
#[export] Instance pym_bind {S} : MBind (PyM S) :=
  λ A B f m s,
    match m s with
    | (Ok a, s') => f a s'
    | (Err e, s') => (Err e, s')
    end.

Definition raise {S A} (e : exn) : PyM S A := λ s, (Err e, s).
Definition lift {S A} (r : res A) : PyM S A := λ s, (r, s).
Definition gets {S A} (f : S → A) : PyM S A := λ s, (Ok (f s), s).
Definition modify {S} (f : S → S) : PyM S unit := λ s, (Ok tt, f s).

(** [try: m except <caught e>: h e]. *)
Definition try_except {S A} (m : PyM S A) (caught : exn → bool)
    (h : exn → PyM S A) : PyM S A :=
  λ s, match m s with
       | (Err e, s') => if caught e then h e s' else (Err e, s')
       | r => r
       end.

Declare Scope py_scope.
Delimit Scope py_scope with py.
Notation "'try' m 'except' c '=>' h" := (try_except m c h)
  (at level 10, m at level 100, c at level 9, h at level 200) : py_scope.

(** ** Generic lemmas *)

Section ResLemmas.
Context {A B : Type}.

Lemma res_bind_Ok_inv (m : res A) (f : A → res B) b :
  (m ≫= f) = Ok b → ∃ a, m = Ok a ∧ f a = Ok b.
Proof. destruct m; simpl; [eauto | discriminate]. Qed.

Lemma res_bind_Ok (a : A) (f : A → res B) : (Ok a ≫= f) = f a.
Proof. reflexivity. Qed.

Lemma res_bind_Err e (f : A → res B) : (Err e ≫= f) = Err e.
Proof. reflexivity. Qed.

Lemma res_fmap_Ok (f : A → B) a : f <$> Ok a = Ok (f a).
Proof. reflexivity. Qed.

(** [mapM] succeeds exactly when the function succeeds on every
    element, pointwise. *)
Lemma mapM_res_Ok_Forall2 (f : A → res B) (l : list A) (l' : list B) :
  mapM f l = Ok l' ↔ Forall2 (λ a b, f a = Ok b) l l'.
Proof.
  revert l'; induction l as [|a l IH]; intros l'; simpl.
  - split; [intros [= <-]; constructor | inversion 1; reflexivity].
  - split.
    + destruct (f a) eqn:Ha; simpl; [|discriminate].
      destruct (mapM f l) eqn:Hl; simpl; [|discriminate].
      intros [= <-]. constructor; [done|]. by apply IH.
    + inversion 1 as [|? b ? l'' Hab Hrest]; subst.
      rewrite Hab; simpl. apply IH in Hrest. by rewrite Hrest.
Qed.

Lemma mapM_res_Ok_length (f : A → res B) l l' :
  mapM f l = Ok l' → length l' = length l.
Proof. intros H%mapM_res_Ok_Forall2. symmetry. by eapply Forall2_length. Qed.

Lemma mapM_res_elem (f : A → res B) l l' b :
  mapM f l = Ok l' → b ∈ l' → ∃ a, a ∈ l ∧ f a = Ok b.
Proof.
  intros H%mapM_res_Ok_Forall2 Hb. induction H as [|a b' l l' Hab _ IH]; [set_solver|].
  apply elem_of_cons in Hb as [->|Hb]; [exists a; set_solver|].
  destruct (IH Hb) as (a' & ? & ?). exists a'. set_solver.
Qed.

Lemma mapM_res_ext (f g : A → res B) l :
  (∀ a, a ∈ l → f a = g a) → mapM f l = mapM g l.
Proof.
  induction l as [|a l IH]; intros Hfg; simpl; [done|].
  rewrite Hfg by set_solver. rewrite IH by set_solver. done.
Qed.

Lemma mapM_res_app (f : A → res B) l1 l2 :
  mapM f (l1 ++ l2) = (r1 ← mapM f l1; r2 ← mapM f l2; Ok (r1 ++ r2)).
Proof.
  induction l1 as [|a l1 IH]; simpl.
  - destruct (mapM f l2); reflexivity.
  - destruct (f a); simpl; [|done]. rewrite IH.
    destruct (mapM f l1); simpl; [|done]. by destruct (mapM f l2).
Qed.
(** A map whose function succeeds on every element succeeds. *)
Lemma mapM_res_total (f : A → res B) l :
  (∀ a, a ∈ l → ∃ b, f a = Ok b) → ∃ l', mapM f l = Ok l'.
Proof.
  induction l as [|a l IH]; intros Hf; simpl; [by exists []|].
  destruct (Hf a) as [b ->]; [set_solver|].
  destruct IH as [l' ->]; [set_solver|]. by exists (b :: l').
Qed.
(** A map whose function raises on some element raises. *)
Lemma mapM_res_Err_elem (f : A → res B) l a e :
  a ∈ l → f a = Err e → ∃ e', mapM f l = Err e'.
Proof.
  induction l as [|x l IH]; intros Ha Hf; [set_solver|]. simpl.
  apply elem_of_cons in Ha as [->|Ha]; [rewrite Hf; by eexists|].
  destruct (f x); simpl; [|by eexists].
  destruct (IH Ha Hf) as [e' ->]. by eexists.
Qed.
End ResLemmas.

Section PyMLemmas.
Context {S A B : Type}.

Lemma pym_bind_run (m : PyM S A) (f : A → PyM S B) s :
  (m ≫= f) s = match m s with
               | (Ok a, s') => f a s'
               | (Err e, s') => (Err e, s')
               end.
Proof. reflexivity. Qed.

Lemma pym_bind_Ok (m : PyM S A) (f : A → PyM S B) s a s' :
  m s = (Ok a, s') → (m ≫= f) s = f a s'.
Proof. intros H. by rewrite pym_bind_run, H. Qed.

Lemma pym_bind_Err (m : PyM S A) (f : A → PyM S B) s e s' :
  m s = (Err e, s') → (m ≫= f) s = (Err e, s').
Proof. intros H. by rewrite pym_bind_run, H. Qed.

Lemma try_except_Ok (m : PyM S A) c h s a s' :
  m s = (Ok a, s') → try_except m c h s = (Ok a, s').
Proof. intros H. unfold try_except. by rewrite H. Qed.

Lemma try_except_caught (m : PyM S A) c h s e s' :
  m s = (Err e, s') → c e = true → try_except m c h s = h e s'.
Proof. intros H Hc. unfold try_except. by rewrite H, Hc. Qed.

Lemma try_except_uncaught (m : PyM S A) c h s e s' :
  m s = (Err e, s') → c e = false → try_except m c h s = (Err e, s').
Proof. intros H Hc. unfold try_except. by rewrite H, Hc. Qed.
End PyMLemmas.

Lemma filter_ext_elem {A} (P Q : A → Prop) `{∀ x, Decision (P x)} `{∀ x, Decision (Q x)}
    (l : list A) :
  (∀ x, x ∈ l → P x ↔ Q x) → filter P l = filter Q l.
Proof.
  induction l as [|x l IH]; intros HPQ; [done|]. rewrite !filter_cons.
  rewrite IH by set_solver.
  destruct (decide (P x)), (decide (Q x)); naive_solver set_solver.
Qed.

Lemma Forall2_filter_length {A B} (R : A → B → Prop) (P : A → Prop) (Q : B → Prop)
    `{∀ x, Decision (P x)} `{∀ y, Decision (Q y)} l1 l2 :
  Forall2 R l1 l2 → (∀ x y, R x y → P x ↔ Q y) →
  length (filter P l1) = length (filter Q l2).
Proof.
  induction 1 as [|x y l1 l2 Hxy _ IH]; intros HPQ; [done|].
  rewrite !filter_cons. pose proof (HPQ x y Hxy) as Hxy'.
  destruct (decide (P x)), (decide (Q y)); simpl; rewrite ?IH by done; tauto.
Qed.

Lemma list_filter_all {A} (P : A → Prop) `{∀ x, Decision (P x)} (l : list A) :
  (∀ x, x ∈ l → P x) → filter P l = l.
Proof.
  induction l as [|x l IH]; intros Hall; [done|].
  rewrite filter_cons_True; [f_equal; apply IH|]; intros; apply Hall; set_solver.
Qed.

(** An element of [l] is kept by [take n] or dropped by [drop n]. *)
Lemma elem_of_take_drop {A} (x : A) n l : x ∈ l → x ∈ take n l ∨ x ∈ drop n l.
Proof. rewrite <- (take_drop n l) at 1. by rewrite elem_of_app. Qed.

(** When [drop n] leaves something, [take n] has all [n] elements. *)
Lemma take_full {A} (x : A) n l : x ∈ drop n l → length (take n l) = n.
Proof.
  intros Hx. rewrite length_take. destruct (drop n l) eqn:Hd; [set_solver|].
  apply (f_equal length) in Hd. rewrite length_drop in Hd. simpl in Hd. lia.
Qed.

(** Dropping the zero terms of a sum does not change it. *)
Lemma sum_list_filter_pos {A} (f : A → nat) (xs : list A) :
  sum_list (f <$> filter (λ x, (0 <? f x)%nat) xs) = sum_list (f <$> xs).
Proof.
  induction xs as [|x xs IH]; [done|]. rewrite filter_cons.
  destruct (decide _) as [Hp|Hp]; rewrite ?fmap_cons; cbn [sum_list]; rewrite IH; [done|].
  destruct (f x); [done|]. by destruct Hp.
Qed.

Lemma filter_length_pos {A} (P : A → Prop) `{∀ x, Decision (P x)} l :
  (0 < length (filter P l))%nat ↔ Exists P l.
Proof.
  induction l as [|x l IH]; simpl; [split; [lia|inversion 1]|].
  rewrite filter_cons, Exists_cons. destruct (decide (P x)); simpl; naive_solver lia.
Qed.

(** Lists: Python's [l[:n]] for [n ≥ 0] and the shape of [take]. *)
Lemma take_app_length_ge {A} (l1 l2 : list A) n :
  length l1 ≤ n → take n (l1 ++ l2) = l1 ++ take (n - length l1) l2.
Proof. intros H. by rewrite take_app, take_ge by lia. Qed.

Create HintDb pyres.
Create Rewrite HintDb pyres_rw.
#[export] Hint Rewrite @res_bind_Ok @res_bind_Err @res_fmap_Ok : pyres_rw.
#[export] Hint Resolve pym_bind_Ok try_except_Ok try_except_caught : pyres.

(** Decompose a successful chain of [res] binds in a hypothesis. *)
Ltac res_inv :=
  repeat match goal with
  | H : (_ ≫= _) = Ok _ |- _ =>
      let a := fresh "a" in let Ha := fresh "Ha" in
      apply res_bind_Ok_inv in H as (a & Ha & H)
  | H : Ok _ = Ok _ |- _ => injection H as H
  | H : Err _ = Ok _ |- _ => discriminate H
  end.
