(* ===== verification/Json.v ===== *)
(** * JSON values and the Python builtins applied to them

    A row of a snapshot is whatever [json.load] returns: [None], a bool,
    an int, a float, a str, a list or a dict.  This file gives the
    inductive type [json] of those values and, as total functions into
    [res], the Python operations the scripts apply to them, with the
    exception each one raises on a value of the wrong shape:
    truthiness ([if x:]), subscription [o[k]] ([getitem]), [o.get(k, d)]
    ([get]), [k in o] ([contains]), iteration ([py_iter]), [str()]
    ([py_str]), [str.lower] ([lower]), [sep.join] ([py_join], [join_space]) and the
    slice [l[:n]] ([slice_to]).

    A Python float is modelled by its exact value (a rational: binary
    floats are dyadic rationals) together with its [repr] text, which is
    what [str()] prints.  Strings are byte strings (UTF-8): iteration and
    [lower] act on bytes, which agrees with Python on ASCII text. *)

From S2P Require Import Prelude.
From Stdlib Require Import QArith.

(** ** Values *)

#[warnings="-register-all"]
Inductive json :=
| JNull
| JBool (b : bool)
| JInt (z : Z)
| JFloat (q : Q) (repr : string)
| JStr (s : string)
| JArr (items : list json)
| JObj (fields : list (string * json)).

(** A dict read by [json.load] has one entry per key; lookup returns the
    first (and only) binding. *)
Fixpoint assoc {A} (k : string) (l : list (string * A)) : option A :=
  match l with
  | [] => None
  | (k', v) :: l' => if String.eqb k' k then Some v else assoc k l'
  end.

(** ** Truthiness: [bool(x)] *)

Definition truthy (j : json) : bool :=
  match j with
  | JNull => false
  | JBool b => b
  | JInt z => negb (Z.eqb z 0)
  | JFloat q _ => negb (Qeq_bool q 0)
  | JStr s => negb (String.eqb s "")
  | JArr l => negb (bool_decide (l = []))
  | JObj fs => negb (bool_decide (fs = []))
  end.

(** ** Subscription and lookup *)

(** [o[k]] with a string key: a dict raises [KeyError] on a missing key;
    a list, a str or a scalar raises [TypeError]. *)
Definition getitem (o : json) (k : string) : res json :=
  match o with
  | JObj fs => of_option (KeyError k) (assoc k fs)
  | _ => Err TypeError
  end.

(** [o.get(k, d)]: only dicts have [.get]. *)
Definition get (o : json) (k : string) (d : json) : res json :=
  match o with
  | JObj fs => Ok (default d (assoc k fs))
  | _ => Err AttributeError
  end.

Fixpoint str_prefix (p s : string) : bool :=
  match p, s with
  | EmptyString, _ => true
  | String a p', String b s' => Ascii.eqb a b && str_prefix p' s'
  | String _ _, EmptyString => false
  end.

Fixpoint substring (p s : string) : bool :=
  str_prefix p s ||
  match s with
  | EmptyString => false
  | String _ s' => substring p s'
  end.

Definition is_str (s : string) (j : json) : bool :=
  match j with JStr s' => String.eqb s s' | _ => false end.

(** [k in o] for a string [k]: key of a dict, element of a list,
    substring of a str; [TypeError] on scalars. *)
Definition contains (o : json) (k : string) : res bool :=
  match o with
  | JObj fs => Ok (bool_decide (is_Some (assoc k fs)))
  | JArr l => Ok (existsb (is_str k) l)
  | JStr s => Ok (substring k s)
  | _ => Err TypeError
  end.

(** ** Iteration: [for x in o] *)

Fixpoint chars (s : string) : list json :=
  match s with
  | EmptyString => []
  | String c s' => JStr (String c EmptyString) :: chars s'
  end.

Definition py_iter (o : json) : res (list json) :=
  match o with
  | JArr l => Ok l
  | JObj fs => Ok (map (λ kv, JStr kv.1) fs)
  | JStr s => Ok (chars s)
  | _ => Err TypeError
  end.

(** ** Strings *)

Definition ascii_lower (c : Ascii.ascii) : Ascii.ascii :=
  let n := Ascii.nat_of_ascii c in
  if (65 <=? n)%nat && (n <=? 90)%nat then Ascii.ascii_of_nat (n + 32) else c.

Fixpoint lower (s : string) : string :=
  match s with
  | EmptyString => EmptyString
  | String c s' => String (ascii_lower c) (lower s')
  end.

Fixpoint intercalate (sep : string) (l : list string) : string :=
  match l with
  | [] => ""
  | [s] => s
  | s :: l' => s +:+ sep +:+ intercalate sep l'
  end.

(** [sep.join(l)]: every element must be a str. *)
Definition py_join (sep : string) (l : list json) : res string :=
  strs ← mapM (λ j, match j with JStr s => Ok s | _ => Err TypeError end) l;
  Ok (intercalate sep strs).

Definition join_space (l : list json) : res string := py_join " " l.

(** [repr] of a value, as [str()] prints the elements of a container
    (the escaping of quotes inside strings is not modelled). *)
Fixpoint py_repr (j : json) : string :=
  match j with
  | JNull => "None"
  | JBool true => "True"
  | JBool false => "False"
  | JInt z => pretty z
  | JFloat _ r => r
  | JStr s => "'" +:+ s +:+ "'"
  | JArr l => "[" +:+ intercalate ", " (map py_repr l) +:+ "]"
  | JObj fs =>
      "{" +:+ intercalate ", " (map (λ kv, "'" +:+ kv.1 +:+ "': " +:+ py_repr kv.2) fs)
      +:+ "}"
  end.

(** [str(x)], as used by an f-string. *)
Definition py_str (j : json) : string :=
  match j with JStr s => s | _ => py_repr j end.

(** ** Equality: [a == b] *)

(** The numeric value of a bool, an int or a float. *)
Definition num_val (j : json) : option Q :=
  match j with
  | JBool b => Some (if b then 1 else 0)%Q
  | JInt z => Some (inject_Z z)
  | JFloat q _ => Some q
  | _ => None
  end.

(** Python's [==] on the values [json.load] returns: numbers by value
    ([True == 1 == 1.0]), strs by content, lists elementwise, dicts as
    maps (the dicts of [json.load] have distinct keys). *)
Fixpoint py_eq (a b : json) : bool :=
  match a, b with
  | JNull, JNull => true
  | JStr s, JStr t => String.eqb s t
  | JArr l, JArr m =>
      (fix go l m := match l, m with
                     | [], [] => true
                     | x :: l', y :: m' => py_eq x y && go l' m'
                     | _, _ => false
                     end) l m
  | JObj f, JObj g =>
      (length f =? length g)%nat &&
      (fix go f := match f with
                   | [] => true
                   | (k, v) :: f' =>
                       match assoc k g with Some w => py_eq v w | None => false end && go f'
                   end) f
  | _, _ => match num_val a, num_val b with Some p, Some q => Qeq_bool p q | _, _ => false end
  end.

(** [x in l] for a list [l]. *)
Definition py_in (x : json) (l : list json) : bool := existsb (py_eq x) l.

(** ** Slices *)

(** [l[:n]] for an int [n]: a negative bound counts from the end. *)
Definition slice_to {A} (l : list A) (n : Z) : list A :=
  if (0 <=? n)%Z then take (Z.to_nat n) l
  else take (Z.to_nat (Z.of_nat (length l) + n)) l.

(** [l[i]] for an int [i]: a negative index counts from the end; an index
    out of range raises [IndexError]. *)
Definition py_index {A} (l : list A) (i : Z) : res A :=
  let j := if (0 <=? i)%Z then i else (Z.of_nat (length l) + i)%Z in
  if (0 <=? j)%Z then of_option IndexError (l !! Z.to_nat j) else Err IndexError.

(** ** Shapes of JSON documents

    The shape a consumer of a JSON file relies on: the exact keys of an
    object, in order, with the shape of each value; [TDict] is an object
    with any keys; [TLit s] is the string [s]. *)
Inductive jty :=
| TAny | TStr | TInt | TLit (s : string)
| TArr (t : jty)
| TDict (t : jty)
| TObj (fields : list (string * jty))
| TOr (t1 t2 : jty).

Fixpoint has_type (t : jty) (j : json) {struct t} : bool :=
  match t, j with
  | TAny, _ => true
  | TStr, JStr _ => true
  | TInt, JInt _ => true
  | TLit s, JStr s' => String.eqb s s'
  | TArr t', JArr l => forallb (has_type t') l
  | TDict t', JObj kvs => forallb (λ kv, has_type t' kv.2) kvs
  | TObj fs, JObj kvs =>
      (fix go (fs : list (string * jty)) (kvs : list (string * json)) : bool :=
         match fs, kvs with
         | [], [] => true
         | (k, t') :: fs', (k', v) :: kvs' => String.eqb k k' && has_type t' v && go fs' kvs'
         | _, _ => false
         end) fs kvs
  | TOr t1 t2, _ => has_type t1 j || has_type t2 j
  | _, _ => false
  end.

(** ** Lemmas *)

Lemma lower_app s1 s2 : lower (s1 +:+ s2) = lower s1 +:+ lower s2.
Proof.
  induction s1 as [|c s1 IH]; [done|].
  change (String c s1 +:+ s2) with (String c (s1 +:+ s2)). simpl. by rewrite IH.
Qed.

Lemma string_app_length (s1 s2 : string) :
  String.length (s1 +:+ s2) = (String.length s1 + String.length s2)%nat.
Proof. induction s1 as [|c s1 IH]; [done|]. simpl. by rewrite IH. Qed.

(** Two concatenations with first parts of equal length split alike. *)
Lemma string_app_inv (a b c d : string) :
  String.length a = String.length c → a +:+ b = c +:+ d → a = c ∧ b = d.
Proof.
  revert c. induction a as [|x a IH]; intros [|y c] Hl Heq; simpl in *; try done.
  injection Heq as -> Heq. destruct (IH c ltac:(lia) Heq) as [-> ->]. done.
Qed.

Lemma ascii_lower_idem c : ascii_lower (ascii_lower c) = ascii_lower c.
Proof. destruct c as [[] [] [] [] [] [] [] []]; reflexivity. Qed.

Lemma lower_idem s : lower (lower s) = lower s.
Proof. induction s; simpl; [done|]. by rewrite ascii_lower_idem, IHs. Qed.

Lemma getitem_obj fs k v : assoc k fs = Some v → getitem (JObj fs) k = Ok v.
Proof. intros H. simpl. by rewrite H. Qed.

Lemma get_obj fs k d : get (JObj fs) k d = Ok (default d (assoc k fs)).
Proof. reflexivity. Qed.

Lemma slice_to_nonneg {A} (l : list A) n :
  (0 <= n)%Z → slice_to l n = take (Z.to_nat n) l.
Proof. intros H. unfold slice_to. by destruct (Z.leb_spec 0 n); [|lia]. Qed.

Lemma join_space_strs (l : list string) :
  join_space (map JStr l) = Ok (intercalate " " l).
Proof.
  unfold join_space, py_join.
  enough (mapM (λ j, match j with JStr s => Ok s | _ => Err TypeError end)
            (map JStr l) = Ok l) as -> by reflexivity.
  induction l as [|s l IH]; simpl; [done|]. by rewrite IH.
Qed.

Lemma py_iter_arr l : py_iter (JArr l) = Ok l.
Proof. reflexivity. Qed.

Lemma forallb_any (l : list json) : forallb (has_type TAny) l = true.
Proof. by induction l. Qed.

Lemma forallb_any_kv (l : list (string * json)) : forallb (λ kv, has_type TAny kv.2) l = true.
Proof. by induction l. Qed.

Lemma has_type_arr_fmap {A} t (f : A → json) (l : list A) :
  (∀ x, has_type t (f x)) → has_type (TArr t) (JArr (f <$> l)).
Proof.
  intros Hf. simpl. apply Is_true_true, forallb_forall. intros j (x & -> & _)%list_elem_of_In%list_elem_of_fmap.
  apply Is_true_true, Hf.
Qed.

Lemma has_type_obj_cons k t fs v kvs :
  has_type (TObj ((k, t) :: fs)) (JObj ((k, v) :: kvs)) = has_type t v && has_type (TObj fs) (JObj kvs).
Proof. simpl. by rewrite String.eqb_refl. Qed.

Lemma has_type_obj_nil : has_type (TObj []) (JObj []) = true.
Proof. done. Qed.
Lemma has_type_any j : has_type TAny j = true.
Proof. done. Qed.
Lemma has_type_int z : has_type TInt (JInt z) = true.
Proof. done. Qed.
Lemma has_type_str s : has_type TStr (JStr s) = true.
Proof. done. Qed.
Lemma has_type_lit s : has_type (TLit s) (JStr s) = true.
Proof. apply String.eqb_refl. Qed.
Lemma has_type_arr_any l : has_type (TArr TAny) (JArr l) = true.
Proof. apply forallb_any. Qed.
Lemma has_type_dict_any kvs : has_type (TDict TAny) (JObj kvs) = true.
Proof. apply forallb_any_kv. Qed.

Lemma has_type_or t1 t2 j : has_type (TOr t1 t2) j = has_type t1 j || has_type t2 j.
Proof. by destruct t1. Qed.

Create Rewrite HintDb jty_rw.
#[export] Hint Rewrite has_type_obj_cons has_type_obj_nil has_type_any has_type_int has_type_str
  has_type_lit has_type_arr_any has_type_dict_any andb_true_r : jty_rw.

(** Checks a value against a shape, field by field. *)
Ltac typecheck :=
  repeat (autorewrite with jty_rw; cbn [andb];
          first [done | apply andb_True; split | apply has_type_arr_fmap; intros | idtac]).

#[export] Hint Rewrite lower_app lower_idem get_obj py_iter_arr : pyres_rw.
#[export] Hint Resolve getitem_obj : pyres.
