(* ===== verification/PyDict.v ===== *)
(** * Python dicts

    The scripts build four dicts: the lookup tables [tools_by_id] and
    [companies_by_id] (dict comprehensions keyed by a row's ['id']), the
    per-tool [tag_colors], and [tags_dict] in [extract_all_tags].  A
    Python dict is a hash table that remembers insertion order: setting an
    existing key replaces its value in place (the key object first
    inserted stays), a new key goes to the end.

    - [pykey] is a hashable key up to Python's [==]: [True == 1 == 1.0],
      so bools, ints and floats meet in [KNum] (a reduced rational); a
      list or a dict is unhashable ([to_key] raises [TypeError]).
    - [dict V] is the list of entries in insertion order, each with the
      key's class, the key object itself and the value.
    - [dict_get], [dict_set], [dict_mem] are [d.get(k)], [d[k] = v] and
      [k in d]; [dict_from_list] is a dict comprehension.
    - [dict_to_gmap] is the abstraction to a finite map: the refinement
      lemmas say that lookup and update of the list implementation are
      those of stdpp's [gmap]; [dict_equiv] (same lookups) is its kernel,
      and the operations are [Proper] for it. *)

From S2P Require Import Prelude Json.
From Stdlib Require Import QArith.
From Stdlib Require Import Morphisms.

(** ** Keys *)

#[export] Instance Q_eq_dec : EqDecision Q.
Proof.
  intros [a b] [c d].
  destruct (decide (a = c)), (decide (b = d));
    [left; congruence | right; congruence ..].
Defined.

#[export] Instance Qle_dec : RelDecision Qle.
Proof.
  intros x y. destruct (Qlt_le_dec y x) as [H|H]; [right; by apply Qlt_not_le|by left].
Defined.

Inductive pykey := KNone | KNum (q : Q) | KStr (s : string).

#[export] Instance pykey_eq_dec : EqDecision pykey.
Proof. solve_decision. Defined.

#[export] Instance pykey_countable : Countable pykey.
Proof.
  refine (inj_countable'
    (λ k, match k with
          | KNone => inl ()
          | KNum q => inr (inl (Qnum q, Qden q))
          | KStr s => inr (inr s)
          end)
    (λ c, match c with
          | inl _ => KNone
          | inr (inl (n, d)) => KNum (n # d)
          | inr (inr s) => KStr s
          end) _).
  by intros [|[]|].
Defined.

(** [hash(k)] and [==] on the values the code uses as keys. *)
Definition to_key (j : json) : res pykey :=
  match j with
  | JNull => Ok KNone
  | JBool b => Ok (KNum (Qred (inject_Z (if b then 1 else 0))))
  | JInt z => Ok (KNum (Qred (inject_Z z)))
  | JFloat q _ => Ok (KNum (Qred q))
  | JStr s => Ok (KStr s)
  | JArr _ | JObj _ => Err TypeError
  end.

(** ** Dicts *)

Record entry (V : Type) := Entry { e_key : pykey; e_obj : json; e_val : V }.
Arguments Entry {V} e_key e_obj e_val.
Arguments e_key {V} e.
Arguments e_obj {V} e.
Arguments e_val {V} e.

Definition dict (V : Type) := list (entry V).

Section Dict.
Context {V : Type}.
Implicit Types (d : dict V) (k : pykey) (v : V).

Fixpoint dict_lookup k d : option V :=
  match d with
  | [] => None
  | e :: d' => if decide (e_key e = k) then Some (e_val e) else dict_lookup k d'
  end.

(** [d[k] = v] once [k] is hashed: in place if present, else appended. *)
Fixpoint dict_insert k (kj : json) v d : dict V :=
  match d with
  | [] => [Entry k kj v]
  | e :: d' =>
      if decide (e_key e = k) then Entry (e_key e) (e_obj e) v :: d'
      else e :: dict_insert k kj v d'
  end.

Definition dict_get d (kj : json) : res (option V) :=
  k ← to_key kj; Ok (dict_lookup k d).

Definition dict_set d (kj : json) v : res (dict V) :=
  k ← to_key kj; Ok (dict_insert k kj v d).

Definition dict_mem d (kj : json) : res bool :=
  k ← to_key kj; Ok (bool_decide (is_Some (dict_lookup k d))).

(** [d.items()], in insertion order, with the original key objects. *)
Definition dict_items d : list (json * V) := (λ e, (e_obj e, e_val e)) <$> d.

(** [{k: v for (k, v) in l}]: later bindings of a key win. *)
Fixpoint dict_from_list_acc (acc : dict V) (l : list (json * V)) : res (dict V) :=
  match l with
  | [] => Ok acc
  | (kj, v) :: l' => acc' ← dict_set acc kj v; dict_from_list_acc acc' l'
  end.

Definition dict_from_list (l : list (json * V)) : res (dict V) :=
  dict_from_list_acc [] l.

Definition dict_wf d : Prop := NoDup (map e_key d).

(** The abstraction: the first entry of a key is its binding. *)
Definition dict_to_gmap d : gmap pykey V :=
  list_to_map (map (λ e, (e_key e, e_val e)) d).

Definition dict_equiv d1 d2 : Prop := ∀ k, dict_lookup k d1 = dict_lookup k d2.

(** *** Lookup and update *)

Lemma dict_lookup_insert_eq k kj v d : dict_lookup k (dict_insert k kj v d) = Some v.
Proof.
  induction d as [|e d IH]; simpl; [by rewrite decide_True|].
  destruct (decide (e_key e = k)); simpl; [by rewrite decide_True|].
  by rewrite decide_False.
Qed.

Lemma dict_lookup_insert_ne k k' kj v d :
  k ≠ k' → dict_lookup k' (dict_insert k kj v d) = dict_lookup k' d.
Proof.
  intros Hne. induction d as [|e d IH]; simpl; [by rewrite decide_False|].
  destruct (decide (e_key e = k)) as [Hk|Hk]; simpl.
  - by rewrite Hk, !decide_False.
  - by destruct (decide (e_key e = k')).
Qed.

Lemma dict_lookup_insert k k' kj v d :
  dict_lookup k' (dict_insert k kj v d) =
  if decide (k = k') then Some v else dict_lookup k' d.
Proof.
  case_decide; subst; [apply dict_lookup_insert_eq|by apply dict_lookup_insert_ne].
Qed.

Lemma dict_keys_insert k kj v d :
  map e_key (dict_insert k kj v d) =
  if decide (k ∈ map e_key d) then map e_key d else map e_key d ++ [k].
Proof.
  induction d as [|e d IH]; simpl; [done|].
  destruct (decide (e_key e = k)) as [->|Hne]; simpl.
  - rewrite decide_True by set_solver. done.
  - rewrite IH. destruct (decide (k ∈ map e_key d)).
    + rewrite decide_True by set_solver. done.
    + rewrite decide_False by set_solver. done.
Qed.

Lemma dict_insert_wf k kj v d : dict_wf d → dict_wf (dict_insert k kj v d).
Proof.
  unfold dict_wf. rewrite dict_keys_insert. case_decide; [done|].
  intros Hnd. apply NoDup_app. split_and!; [done| |apply NoDup_singleton].
  set_solver.
Qed.

Lemma dict_lookup_Some k v d :
  dict_lookup k d = Some v → ∃ e, e ∈ d ∧ e_key e = k ∧ e_val e = v.
Proof.
  induction d as [|e d IH]; simpl; [discriminate|].
  case_decide; [intros [= <-]; exists e; set_solver|].
  intros (e' & ? & ? & ?)%IH. exists e'. set_solver.
Qed.

(** Every entry's class is the hash of its key object. *)
Definition dict_keys_ok d : Prop := Forall (λ e, to_key (e_obj e) = Ok (e_key e)) d.

Lemma dict_insert_keys_ok k kj v d :
  to_key kj = Ok k → dict_keys_ok d → dict_keys_ok (dict_insert k kj v d).
Proof.
  intros Hk. induction 1 as [|e d He Hd IH]; simpl; [by repeat constructor|].
  case_decide; constructor; simpl; auto.
Qed.

Lemma dict_set_inv d kj v d' :
  dict_set d kj v = Ok d' → dict_wf d → dict_keys_ok d → dict_wf d' ∧ dict_keys_ok d'.
Proof.
  unfold dict_set. destruct (to_key kj) as [k|] eqn:Hk; [|discriminate].
  intros [= <-] ??. split; [by apply dict_insert_wf|by apply dict_insert_keys_ok].
Qed.

Lemma dict_wf_lookup d e : dict_wf d → e ∈ d → dict_lookup (e_key e) d = Some (e_val e).
Proof.
  unfold dict_wf. induction d as [|e' d IH]; [set_solver|]. simpl.
  intros [Hn Hnd]%NoDup_cons He. case_decide as Hk.
  - apply elem_of_cons in He as [->|He]; [done|].
    exfalso. apply Hn. rewrite Hk. by apply list_elem_of_fmap_2.
  - apply elem_of_cons in He as [->|He]; [done|]. auto.
Qed.

(** A pair of [d.items()] whose key hashes to [k] is the binding of [k]. *)
Lemma dict_items_lookup d kj v k :
  dict_wf d → dict_keys_ok d → to_key kj = Ok k →
  (kj, v) ∈ dict_items d → dict_lookup k d = Some v.
Proof.
  intros Hwf Hok Hk (e & [= -> ->] & He)%list_elem_of_fmap.
  unfold dict_keys_ok in Hok. rewrite Forall_forall in Hok. specialize (Hok e He).
  rewrite Hk in Hok. injection Hok as ->. by apply dict_wf_lookup.
Qed.

Lemma dict_lookup_items d k v :
  dict_keys_ok d → dict_lookup k d = Some v →
  ∃ kj, (kj, v) ∈ dict_items d ∧ to_key kj = Ok k.
Proof.
  intros Hok (e & He & <- & <-)%dict_lookup_Some. exists (e_obj e).
  split; [apply (list_elem_of_fmap_2 (λ e, (e_obj e, e_val e)) d e He)|]. unfold dict_keys_ok in Hok. rewrite Forall_forall in Hok. auto.
Qed.

(** The key object of a pair of [d.items()] is hashable. *)
Lemma dict_items_key d kj v :
  dict_keys_ok d → (kj, v) ∈ dict_items d → ∃ k, to_key kj = Ok k.
Proof.
  intros Hok (e & [= -> ->] & He)%list_elem_of_fmap. exists (e_key e).
  unfold dict_keys_ok in Hok. rewrite Forall_forall in Hok. auto.
Qed.

(** The keys of [d.items()] are pairwise distinct under [==]. *)
Lemma dict_items_keys_NoDup d :
  dict_wf d → dict_keys_ok d → NoDup ((λ p, to_key p.1) <$> dict_items d).
Proof.
  unfold dict_wf, dict_keys_ok, dict_items. rewrite <- list_fmap_compose.
  induction d as [|e d IH]; simpl; [constructor|].
  intros [Hn Hnd]%NoDup_cons [He Hok]%Forall_cons. constructor; [|auto].
  unfold compose at 1. simpl. rewrite He.
  intros (e' & Hk & He')%list_elem_of_fmap. apply Hn.
  rewrite Forall_forall in Hok. unfold compose in Hk. simpl in Hk.
  rewrite Hok in Hk by done. injection Hk as ->.
  apply list_elem_of_In, in_map, list_elem_of_In, He'.
Qed.

(** *** Refinement by [gmap] *)

Lemma dict_to_gmap_lookup d k : dict_to_gmap d !! k = dict_lookup k d.
Proof.
  unfold dict_to_gmap. induction d as [|e d IH]; simpl.
  - apply lookup_empty.
  - rewrite fin_maps.lookup_insert. by destruct (decide (e_key e = k)).
Qed.

Theorem dict_insert_refines k kj v d :
  dict_to_gmap (dict_insert k kj v d) = <[k:=v]> (dict_to_gmap d).
Proof.
  apply map_eq. intros k'.
  rewrite fin_maps.lookup_insert, !dict_to_gmap_lookup, dict_lookup_insert.
  done.
Qed.

Lemma dict_equiv_gmap d1 d2 : dict_equiv d1 d2 ↔ dict_to_gmap d1 = dict_to_gmap d2.
Proof.
  split.
  - intros H. apply map_eq. intros k. by rewrite !dict_to_gmap_lookup.
  - intros H k. by rewrite <- !dict_to_gmap_lookup, H.
Qed.

(** *** The setoid of dicts up to lookup *)

#[export] Instance dict_equiv_equivalence : Equivalence dict_equiv.
Proof.
  split; [done | by intros ?? H k | intros ??? H1 H2 k; by rewrite H1, H2].
Qed.

#[export] Instance dict_lookup_proper k : Proper (dict_equiv ==> eq) (dict_lookup k).
Proof. intros d1 d2 H. apply H. Qed.

#[export] Instance dict_insert_proper k kj v :
  Proper (dict_equiv ==> dict_equiv) (dict_insert k kj v).
Proof. intros d1 d2 H k'. rewrite !dict_lookup_insert. by rewrite H. Qed.

#[export] Instance dict_get_proper : Proper (dict_equiv ==> eq ==> eq) dict_get.
Proof. intros d1 d2 H kj ? <-. unfold dict_get. destruct (to_key kj); simpl; by rewrite ?H. Qed.
End Dict.

#[export] Hint Rewrite @dict_lookup_insert_eq @dict_to_gmap_lookup : pyres_rw.
#[export] Hint Resolve dict_insert_wf : pyres.
