(* ===== verification/FileStore.v ===== *)
(** * The file system the two scripts share

    The Fetcher writes [<output_dir>/<table>.json]; the Denormalizer reads
    the snapshots back.  Both are written against the interface
    [FileSystem] (read a file, write a file, make a directory, test for a
    directory) and its laws [FileSystemLaws]: the theorems about the
    scripts use only the laws.  [Disk] (a [gmap] of files and a [gset] of
    directories) implements the interface and discharges the laws.

    A file of [Disk] holds the JSON value [json.dump] wrote.  The text
    of the file is modelled in [JsonText] and [TextStore], which prove
    that a disk of text files refines [Disk] for the values the scripts
    write. *)

From S2P Require Import Prelude Json.

Class FileSystem (FS : Type) := {
  fs_read : FS → string → option json;
  fs_write : string → json → FS → FS;
  fs_mkdir : string → FS → FS;
  fs_isdir : FS → string → bool
}.

Class FileSystemLaws (FS : Type) `{FileSystem FS} := {
  fs_read_write_eq p v s : fs_read (fs_write p v s) p = Some v;
  fs_read_write_ne p q v s : p ≠ q → fs_read (fs_write p v s) q = fs_read s q;
  fs_read_mkdir d s p : fs_read (fs_mkdir d s) p = fs_read s p;
  fs_isdir_mkdir d s : fs_isdir (fs_mkdir d s) d = true;
  fs_isdir_write p v s d : fs_isdir (fs_write p v s) d = fs_isdir s d;
  fs_isdir_mkdir_mono d d' s : fs_isdir s d' = true → fs_isdir (fs_mkdir d s) d' = true
}.

(** [Path(d) / name]. *)
Definition path_join (d name : string) : string := d +:+ "/" +:+ name.

(** [open(path)] followed by [json.load]: a missing file raises
    [FileNotFoundError]. *)
Definition read_json {FS : Type} `{FileSystem FS} (s : FS) (path : string) : res json :=
  of_option (FileNotFoundError path) (fs_read s path).

(** ** The implementation *)

Record Disk := { disk_files : gmap string json; disk_dirs : gset string }.

#[export] Instance disk_fs : FileSystem Disk := {
  fs_read s p := disk_files s !! p;
  fs_write p v s := {| disk_files := <[p:=v]> (disk_files s); disk_dirs := disk_dirs s |};
  fs_mkdir d s := {| disk_files := disk_files s; disk_dirs := {[d]} ∪ disk_dirs s |};
  fs_isdir s d := bool_decide (d ∈ disk_dirs s)
}.

#[export] Instance disk_fs_laws : FileSystemLaws Disk.
Proof.
  split; intros; simpl.
  - apply lookup_insert_eq.
  - by apply lookup_insert_ne.
  - done.
  - apply bool_decide_true. set_solver.
  - done.
  - apply bool_decide_true. apply bool_decide_eq_true in H. set_solver.
Qed.

Lemma path_join_inj d a b : path_join d a = path_join d b → a = b.
Proof. unfold path_join. intros Heq. by apply (inj (String.app _)), (inj (String.app _)) in Heq. Qed.

Lemma read_json_write {FS : Type} `{FileSystemLaws FS} (s : FS) p v :
  read_json (fs_write p v s) p = Ok v.
Proof. unfold read_json. by rewrite fs_read_write_eq. Qed.
