(* ===== verification/Denormalizer.v ===== *)
(** * The Denormalizer: [src/baserow_api/scripts/process_for_web.py]

    [main] loads the three snapshots, builds the lookup tables
    [tools_by_id] and [companies_by_id] (dict comprehensions keyed by
    ['id']), and derives five artifacts:
    - [create_web_companies]: each company with its ['Tools'] references
      resolved against [tools_by_id] into embedded tool summaries;
    - [create_web_tools]: each tool with its ['ToolCompany'] references
      resolved against [companies_by_id], and its ['Tool Tags'] flattened
      into a name list and a name-to-colour dict;
    - [create_search_index]: one entry per company, then one per tool;
    - [extract_all_tags]: the tag catalog, sorted by name;
    - [calculate_stats]: the summary counts.
    The Python dicts built for the output are modelled as records
    ([WebCompany], [CompanyTool], [WebTool], [ToolCompany],
    [SearchEntry], [Stats]) whose fields are the dict's keys in the order
    of the source; every field read ([row['k']], [row.get('k', d)]) is
    evaluated in the source's order, so the exception a malformed row
    raises is the one Python raises.  The two reference loops of the
    source have the same shape and share [resolve_refs]. *)

From S2P Require Import Prelude Json PyDict.
From Stdlib Require Import QArith.

(** ** Output records *)

(** The embedded tool of a web company (lines 47-56). *)
Record CompanyTool := {
  ct_id : json; ct_name : json;
  ct_description_short : json; ct_description_long : json;
  ct_tags : list json; ct_rating : json; ct_cost : json; ct_url : json }.

(** A web company (lines 58-65). *)
Record WebCompany := {
  wc_id : json; wc_name : json; wc_url : json; wc_notes : json;
  wc_tools : list CompanyTool; wc_tool_count : nat }.

(** The embedded company of a web tool (lines 89-93). *)
Record ToolCompany := { tc_id : json; tc_name : json; tc_url : json }.

(** A web tool (lines 104-116). *)
Record WebTool := {
  wt_id : json; wt_name : json;
  wt_description_short : json; wt_description_long : json;
  wt_tags : list json; wt_tag_colors : dict json;
  wt_companies : list ToolCompany;
  wt_rating : json; wt_cost : json; wt_url : json; wt_last_modified : json }.

Module Denormalizer.

(** ** Lookup tables (lines 195-196) *)

(** The key a row is indexed under: [hash(t['id'])]. *)
Definition row_key (t : json) : res pykey :=
  kj ← getitem t "id"; to_key kj.

(** [{t['id']: t for t in rows}], one row at a time. *)
Fixpoint index_rows (acc : dict json) (ts : list json) : res (dict json) :=
  match ts with
  | [] => Ok acc
  | t :: ts' =>
      kj ← getitem t "id";
      acc' ← dict_set acc kj t;
      index_rows acc' ts'
  end.

Definition by_id (rows : json) : res (dict json) :=
  ts ← py_iter rows; index_rows [] ts.

(** ** Reference resolution *)

(** [for ref in refs: row = index.get(ref['id']); if row: out.append(embed(row))]
    (lines 44-47 and 86-88): a reference whose id is not in the index is
    skipped. *)
Fixpoint resolve_refs {B} (index : dict json) (embed : json → res B)
    (refs : list json) : res (list B) :=
  match refs with
  | [] => Ok []
  | r :: refs' =>
      rid ← getitem r "id";
      found ← dict_get index rid;
      if truthy (default JNull found) then
        (b ← embed (default JNull found);
         rest ← resolve_refs index embed refs';
         Ok (b :: rest))
      else resolve_refs index embed refs'
  end.

(** [[t['value'] for t in tool.get('Tool Tags', [])]] (line 52). *)
Definition tag_values (tool : json) : res (list json) :=
  src ← get tool "Tool Tags" (JArr []);
  tags ← py_iter src;
  mapM (λ t, getitem t "value") tags.

(** The summary of a tool embedded in a company (lines 47-56). *)
Definition company_tool_of (tool : json) : res CompanyTool :=
  id ← getitem tool "UUID";
  name ← getitem tool "ToolName";
  ds ← get tool "Tool Description Short" (JStr "");
  dl ← get tool "ToolDescription_long" (JStr "");
  tags ← tag_values tool;
  rating ← get tool "Overall Rating" (JStr "0");
  cost ← get tool "Annual License Cost" JNull;
  url ← get tool "URL" (JStr "");
  Ok {| ct_id := id; ct_name := name; ct_description_short := ds;
        ct_description_long := dl; ct_tags := tags; ct_rating := rating;
        ct_cost := cost; ct_url := url |}.

(** One iteration of the loop of [create_web_companies] (lines 42-65). *)
Definition web_company_of (tools_by_id : dict json) (company : json) : res WebCompany :=
  src ← get company "Tools" (JArr []);
  refs ← py_iter src;
  company_tools ← resolve_refs tools_by_id company_tool_of refs;
  id ← getitem company "UUID";
  name ← getitem company "Company Name";
  url ← get company "URL" (JStr "");
  notes ← get company "Notes" (JStr "");
  Ok {| wc_id := id; wc_name := name; wc_url := url; wc_notes := notes;
        wc_tools := company_tools; wc_tool_count := length company_tools |}.

(** [create_web_companies] (lines 28-67). *)
Definition create_web_companies (companies : json) (tools_by_id : dict json)
    : res (list WebCompany) :=
  cs ← py_iter companies; mapM (web_company_of tools_by_id) cs.

(** The summary of a company embedded in a tool (lines 89-93). *)
Definition tool_company_of (comp : json) : res ToolCompany :=
  id ← getitem comp "UUID";
  name ← getitem comp "Company Name";
  url ← get comp "URL" (JStr "");
  Ok {| tc_id := id; tc_name := name; tc_url := url |}.

(** The tag loop of [create_web_tools] (lines 96-102): every name is
    kept in order; [tag_colors[name] = tag['color']] when the tag has a
    colour, so a later occurrence of a name overwrites the colour. *)
Fixpoint tag_loop (tl : list json) (tags : list json) (tag_colors : dict json)
    : res (list json * dict json) :=
  match tl with
  | [] => Ok (tags, tag_colors)
  | tag :: tl' =>
      tag_name ← getitem tag "value";
      has_color ← contains tag "color";
      if (has_color : bool) then
        (c ← getitem tag "color";
         tc ← dict_set tag_colors tag_name c;
         tag_loop tl' (tags ++ [tag_name]) tc)
      else tag_loop tl' (tags ++ [tag_name]) tag_colors
  end.

(** One iteration of the loop of [create_web_tools] (lines 84-116). *)
Definition web_tool_of (companies_by_id : dict json) (tool : json) : res WebTool :=
  src ← get tool "ToolCompany" (JArr []);
  refs ← py_iter src;
  tool_companies ← resolve_refs companies_by_id tool_company_of refs;
  tsrc ← get tool "Tool Tags" (JArr []);
  tl ← py_iter tsrc;
  tt ← tag_loop tl [] [];
  let '(tags, tag_colors) := tt in
  id ← getitem tool "UUID";
  name ← getitem tool "ToolName";
  ds ← get tool "Tool Description Short" (JStr "");
  dl ← get tool "ToolDescription_long" (JStr "");
  rating ← get tool "Overall Rating" (JStr "0");
  cost ← get tool "Annual License Cost" JNull;
  url ← get tool "URL" (JStr "");
  lm ← get tool "Last modified" (JStr "");
  Ok {| wt_id := id; wt_name := name; wt_description_short := ds;
        wt_description_long := dl; wt_tags := tags; wt_tag_colors := tag_colors;
        wt_companies := tool_companies; wt_rating := rating; wt_cost := cost;
        wt_url := url; wt_last_modified := lm |}.

(** [create_web_tools] (lines 70-118). *)
Definition create_web_tools (tools : json) (companies_by_id : dict json)
    : res (list WebTool) :=
  ts ← py_iter tools; mapM (web_tool_of companies_by_id) ts.

(** ** The tag catalog (lines 163-175) *)

(** [for tag_name, color in items: if tag_name not in tags_dict:
    tags_dict[tag_name] = color] (lines 168-170): the first colour of a
    name wins. *)
Fixpoint add_tag_colors (acc : dict json) (items : list (json * json)) : res (dict json) :=
  match items with
  | [] => Ok acc
  | (name, color) :: items' =>
      present ← dict_mem acc name;
      if (present : bool) then add_tag_colors acc items'
      else (acc' ← dict_set acc name color; add_tag_colors acc' items')
  end.

(** The outer loop over the tools (line 167), reading each tool's
    [tag_colors] in insertion order. *)
Fixpoint collect_tags (acc : dict json) (tools : list WebTool) : res (dict json) :=
  match tools with
  | [] => Ok acc
  | t :: tools' =>
      acc' ← add_tag_colors acc (dict_items (wt_tag_colors t));
      collect_tags acc' tools'
  end.

(** [sorted(tags_dict.items())] (line 174).  The keys of a dict are
    distinct, so comparing two items compares their names.  Names of one
    kind sort by [<] on that kind (code points for strs, which on UTF-8
    bytes is byte order; values for numbers); a list holding names of two
    kinds (a str and an int, or [None] and anything) makes any comparison
    sort compare across kinds, which raises [TypeError].  Python's sort
    is stable, as is [merge_sort]. *)
Definition str_name (p : json * json) : string :=
  match p.1 with JStr s => s | _ => "" end.

Definition num_name (p : json * json) : Q :=
  match p.1 with
  | JBool b => inject_Z (if b then 1 else 0)
  | JInt z => inject_Z z
  | JFloat q _ => q
  | _ => 0
  end.

Definition is_str_name (p : json * json) : bool :=
  match p.1 with JStr _ => true | _ => false end.

Definition is_num_name (p : json * json) : bool :=
  match p.1 with JBool _ | JInt _ | JFloat _ _ => true | _ => false end.

Definition str_name_le (p q : json * json) : Prop := String.le (str_name p) (str_name q).
Definition num_name_le (p q : json * json) : Prop := Qle (num_name p) (num_name q).

#[export] Instance str_name_le_dec : RelDecision str_name_le.
Proof. intros p q. unfold str_name_le. apply _. Defined.
#[export] Instance num_name_le_dec : RelDecision num_name_le.
Proof. intros p q. apply Qle_dec. Defined.

Definition sort_items (l : list (json * json)) : res (list (json * json)) :=
  if (length l <=? 1)%nat then Ok l
  else if forallb is_str_name l then
    Ok (merge_sort str_name_le l)
  else if forallb is_num_name l then
    Ok (merge_sort num_name_le l)
  else Err TypeError.

(** [extract_all_tags] (lines 163-175): the [{'name', 'color'}] dicts of
    the result are the pairs of the list. *)
Definition extract_all_tags (tools : list WebTool) : res (list (json * json)) :=
  tags_dict ← collect_tags [] tools;
  sort_items (dict_items tags_dict).

(** ** The search index (lines 121-160) *)

(** An index entry; its ['type'] is the constructor. *)
Inductive SearchEntry :=
| CompanyEntry (id name url : json) (search_text : string) (tool_count : nat)
| ToolEntry (id name url : json) (tags : list json) (search_text : string)
    (company_count : nat).

Definition entry_id (e : SearchEntry) : json :=
  match e with CompanyEntry id _ _ _ _ | ToolEntry id _ _ _ _ _ => id end.

Definition entry_is_company (e : SearchEntry) : bool :=
  match e with CompanyEntry _ _ _ _ _ => true | ToolEntry _ _ _ _ _ _ => false end.

Definition search_text (e : SearchEntry) : string :=
  match e with CompanyEntry _ _ _ st _ | ToolEntry _ _ _ _ st _ => st end.

(** [x.lower()]: only a str has [.lower]. *)
Definition lower_of (j : json) : res string :=
  match j with JStr s => Ok (lower s) | _ => Err AttributeError end.

(** The entry of a company (lines 136-143). *)
Definition company_entry (c : WebCompany) : res SearchEntry :=
  st ← lower_of (wc_name c);
  Ok (CompanyEntry (wc_id c) (wc_name c) (wc_url c) st (wc_tool_count c)).

(** The entry of a tool (lines 147-158): the f-string applies [str()] to
    the name. *)
Definition tool_entry (t : WebTool) : res SearchEntry :=
  tags_text ← join_space (wt_tags t);
  companies_text ← join_space (map tc_name (wt_companies t));
  Ok (ToolEntry (wt_id t) (wt_name t) (wt_url t) (wt_tags t)
       (lower (py_str (wt_name t) +:+ " " +:+ lower tags_text +:+ " " +:+ lower companies_text))
       (length (wt_companies t))).

(** [create_search_index] (lines 121-160): companies first, then tools. *)
Definition create_search_index (companies : list WebCompany) (tools : list WebTool)
    : res (list SearchEntry) :=
  ce ← mapM company_entry companies;
  te ← mapM tool_entry tools;
  Ok (ce ++ te).

(** ** Statistics (lines 178-186) *)

Record Stats := {
  total_companies : nat; total_tools : nat;
  companies_with_tools : nat; tools_with_companies : nat; total_tags : nat }.

Definition calculate_stats (companies : list WebCompany) (tools : list WebTool) : res Stats :=
  tags ← extract_all_tags tools;
  Ok {| total_companies := length companies;
        total_tools := length tools;
        companies_with_tools := length (filter (λ c, 0 < wc_tool_count c)%nat companies);
        tools_with_companies := length (filter (λ t, 0 < length (wt_companies t))%nat tools);
        total_tags := length tags |}.

(** ** The processing of [main] (lines 192-205) *)

Record WebData := {
  web_companies : list WebCompany; web_tools : list WebTool;
  search_index : list SearchEntry; all_tags : list (json * json); stats : Stats }.

(** Lines 200-205: the records, the search index, the tag catalog and
    the statistics, from the two lookup tables. *)
Definition build_web (companies tools : json) (tools_by_id companies_by_id : dict json)
    : res WebData :=
  wcs ← create_web_companies companies tools_by_id;
  wts ← create_web_tools tools companies_by_id;
  si ← create_search_index wcs wts;
  tags ← extract_all_tags wts;
  st ← calculate_stats wcs wts;
  Ok {| web_companies := wcs; web_tools := wts; search_index := si;
        all_tags := tags; stats := st |}.

(** Lines 195-205.  The snapshot of libraries is loaded (line 192) but
    not used. *)
Definition process (companies tools libraries : json) : res WebData :=
  tools_by_id ← by_id tools;
  companies_by_id ← by_id companies;
  build_web companies tools tools_by_id companies_by_id.

(** ** Reference functions for the tag theorems *)

(** The (hashed name, colour) a tag contributes to [tag_colors], if any. *)
Definition tag_color_of (tag : json) : option (pykey * json) :=
  match getitem tag "value", getitem tag "color" with
  | Ok v, Ok c => match to_key v with Ok k => Some (k, c) | Err _ => None end
  | _, _ => None
  end.

(** The colour of the last tag of a list that names [k] with a colour. *)
Fixpoint last_color (k : pykey) (tl : list json) : option json :=
  match tl with
  | [] => None
  | tag :: tl' =>
      match last_color k tl' with
      | Some c => Some c
      | None =>
          match tag_color_of tag with
          | Some (k', c) => if decide (k' = k) then Some c else None
          | None => None
          end
      end
  end.

(** The colour of [k] in the first tool whose [tag_colors] has [k]. *)
Fixpoint first_color (k : pykey) (tools : list WebTool) : option json :=
  match tools with
  | [] => None
  | t :: tools' =>
      match dict_lookup k (wt_tag_colors t) with
      | Some c => Some c
      | None => first_color k tools'
      end
  end.

(** ** Two-phase reading of the reference loops *)

(** [index.get(ref['id'])] kept only when truthy. *)
Definition lookup_ref (index : dict json) (r : json) : res (option json) :=
  rid ← getitem r "id";
  found ← dict_get index rid;
  Ok (if truthy (default JNull found) then found else None).

(** The rows a reference list resolves to, in order. *)
Fixpoint found_rows (index : dict json) (refs : list json) : res (list json) :=
  match refs with
  | [] => Ok []
  | r :: refs' =>
      o ← lookup_ref index r;
      rest ← found_rows index refs';
      Ok (match o with Some row => row :: rest | None => rest end)
  end.

(** Does a reference resolve to a row of the index? *)
Definition resolves (index : dict json) (r : json) : bool :=
  match row_key r with
  | Ok k => match dict_lookup k index with Some row => truthy row | None => false end
  | Err _ => false
  end.

(** The references of a row: [row.get(field, [])], iterated. *)
Definition field_items (row : json) (field : string) : res (list json) :=
  src ← get row field (JArr []); py_iter src.

(** ** Lemmas on the lookup tables *)

Lemma index_rows_truthy acc ts d k t :
  index_rows acc ts = Ok d → dict_lookup k d = Some t →
  (∀ k' t', dict_lookup k' acc = Some t' → truthy t' = true) → truthy t = true.
Proof.
  revert acc. induction ts as [|t' ts IH]; intros acc Hd Hk Hacc; simpl in Hd.
  - injection Hd as ->. eauto.
  - destruct (getitem t' "id") as [kj|] eqn:Hkj; [|discriminate]. simpl in Hd.
    unfold dict_set in Hd. destruct (to_key kj) as [k'|]; [|discriminate].
    simpl in Hd. apply (IH _ Hd Hk). intros k'' t''.
    rewrite dict_lookup_insert. case_decide; [|by apply Hacc].
    intros [= <-]. destruct t'; try discriminate. simpl in Hkj.
    destruct fields; [discriminate|done].
Qed.

Lemma index_rows_sound acc ts d k t :
  index_rows acc ts = Ok d → dict_lookup k d = Some t →
  dict_lookup k acc = Some t ∨ (t ∈ ts ∧ row_key t = Ok k).
Proof.
  revert acc. induction ts as [|t' ts IH]; intros acc Hd Hk; simpl in Hd.
  - injection Hd as ->. by left.
  - destruct (getitem t' "id") as [kj|] eqn:Hkj; [|discriminate]. simpl in Hd.
    unfold dict_set in Hd. destruct (to_key kj) as [k'|] eqn:Hk'; [|discriminate].
    simpl in Hd. destruct (IH _ Hd Hk) as [Hacc|[? ?]]; [|right; set_solver].
    rewrite dict_lookup_insert in Hacc. case_decide; subst.
    + injection Hacc as ->. right. split; [set_solver|]. unfold row_key. by rewrite Hkj.
    + by left.
Qed.

Lemma index_rows_mono acc ts d k :
  index_rows acc ts = Ok d → is_Some (dict_lookup k acc) → is_Some (dict_lookup k d).
Proof.
  revert acc. induction ts as [|t' ts IH]; intros acc Hd Hk; simpl in Hd.
  - by injection Hd as <-.
  - destruct (getitem t' "id") as [kj|]; [|discriminate]. simpl in Hd.
    unfold dict_set in Hd. destruct (to_key kj) as [k'|]; [|discriminate].
    apply (IH _ Hd). rewrite dict_lookup_insert. by case_decide.
Qed.

Lemma index_rows_complete acc ts d t k :
  index_rows acc ts = Ok d → t ∈ ts → row_key t = Ok k → is_Some (dict_lookup k d).
Proof.
  revert acc. induction ts as [|t' ts IH]; intros acc Hd Ht Hk; [set_solver|].
  simpl in Hd. destruct (getitem t' "id") as [kj|] eqn:Hkj; [|discriminate]. simpl in Hd.
  unfold dict_set in Hd. destruct (to_key kj) as [k'|] eqn:Hk'; [|discriminate].
  simpl in Hd. apply elem_of_cons in Ht as [->|Ht]; [|by eapply IH].
  eapply index_rows_mono; [exact Hd|]. unfold row_key in Hk.
  rewrite Hkj in Hk. simpl in Hk. rewrite Hk' in Hk. injection Hk as ->.
  rewrite dict_lookup_insert_eq. eauto.
Qed.

(** ** Lemmas on reference resolution *)

Lemma resolve_refs_found {B} index (embed : json → res B) refs out :
  resolve_refs index embed refs = Ok out ↔
  ∃ rows, found_rows index refs = Ok rows ∧ mapM embed rows = Ok out.
Proof.
  revert out. induction refs as [|r refs IH]; intros out; simpl.
  - split; [intros [= <-]; eauto | by intros (? & [= <-] & [= <-])].
  - unfold lookup_ref. destruct (getitem r "id") as [rid|]; simpl;
      [|split; [discriminate | by intros (? & ? & ?)]].
    destruct (dict_get index rid) as [found|]; simpl;
      [|split; [discriminate | by intros (? & ? & ?)]].
    destruct (truthy (default JNull found)) eqn:Ht.
    + destruct found as [row|]; [|discriminate]. simpl.
      destruct (embed row) as [b|] eqn:Hb; simpl.
      * destruct (resolve_refs index embed refs) as [rest|] eqn:Hr; simpl.
        -- specialize (proj1 (IH rest) eq_refl) as (rows & -> & Hrows). simpl.
           split; [intros [= <-]; eexists; split; [done|]; simpl; by rewrite Hb, Hrows|].
           intros (? & [= <-] & Hm). simpl in Hm. rewrite Hb, Hrows in Hm. done.
        -- split; [discriminate|]. intros (rows' & Hf & Hm).
           destruct (found_rows index refs) as [rows|]; [|discriminate].
           injection Hf as <-. simpl in Hm. rewrite Hb in Hm. simpl in Hm.
           destruct (mapM embed rows) as [rest'|] eqn:Hm'; [|discriminate].
           discriminate (proj2 (IH rest') (ex_intro _ rows (conj eq_refl Hm'))).
      * split; [discriminate|]. intros (rows' & Hf & Hm).
        destruct (found_rows index refs); [|discriminate].
        injection Hf as <-. simpl in Hm. by rewrite Hb in Hm.
    + rewrite IH. split.
      * intros (rows & -> & ?). eauto.
      * intros (rows & Hf & ?). destruct (found_rows index refs); [|discriminate].
        injection Hf as <-. eauto.
Qed.

Lemma lookup_ref_Some index r row :
  lookup_ref index r = Ok (Some row) →
  ∃ k, row_key r = Ok k ∧ dict_lookup k index = Some row ∧ truthy row = true.
Proof.
  unfold lookup_ref, row_key. destruct (getitem r "id") as [rid|]; [|discriminate].
  simpl. unfold dict_get. destruct (to_key rid) as [k|]; [|discriminate]. simpl.
  destruct (dict_lookup k index) as [t|] eqn:Hl; simpl; [|discriminate].
  destruct (truthy t) eqn:Ht; [intros [= ->]; eauto | discriminate].
Qed.

Lemma lookup_ref_resolves index r o :
  lookup_ref index r = Ok o → resolves index r = bool_decide (is_Some o).
Proof.
  unfold lookup_ref, resolves, row_key. destruct (getitem r "id") as [rid|]; [|discriminate].
  simpl. unfold dict_get. destruct (to_key rid) as [k|]; [|discriminate]. simpl.
  destruct (dict_lookup k index) as [t|]; simpl; intros [= <-]; [|done].
  destruct (truthy t); done.
Qed.

Lemma found_rows_sound index refs rows row :
  found_rows index refs = Ok rows → row ∈ rows →
  ∃ r k, r ∈ refs ∧ row_key r = Ok k ∧ dict_lookup k index = Some row.
Proof.
  revert rows. induction refs as [|r refs IH]; intros rows Hf Hin; simpl in Hf.
  - injection Hf as <-. set_solver.
  - destruct (lookup_ref index r) as [o|] eqn:Ho; [|discriminate]. simpl in Hf.
    destruct (found_rows index refs) as [rest|]; [|discriminate]. injection Hf as <-.
    destruct o as [row'|].
    + apply elem_of_cons in Hin as [->|Hin].
      * apply lookup_ref_Some in Ho as (k & ? & ? & _). exists r, k. set_solver.
      * destruct (IH _ eq_refl Hin) as (r' & k & ? & ? & ?). exists r', k. set_solver.
    + destruct (IH _ eq_refl Hin) as (r' & k & ? & ? & ?). exists r', k. set_solver.
Qed.

Lemma found_rows_length index refs rows :
  found_rows index refs = Ok rows → length rows = length (filter (resolves index) refs).
Proof.
  revert rows. induction refs as [|r refs IH]; intros rows Hf; simpl in Hf.
  - by injection Hf as <-.
  - destruct (lookup_ref index r) as [o|] eqn:Ho; [|discriminate]. simpl in Hf.
    destruct (found_rows index refs) as [rest|]; [|discriminate]. injection Hf as <-.
    rewrite filter_cons, (lookup_ref_resolves _ _ _ Ho).
    destruct o; simpl; rewrite (IH rest eq_refl); done.
Qed.

Lemma found_rows_keys index refs rows r :
  found_rows index refs = Ok rows → r ∈ refs → ∃ k, row_key r = Ok k.
Proof.
  revert rows. induction refs as [|r' refs IH]; intros rows Hf Hr; [set_solver|].
  simpl in Hf. destruct (lookup_ref index r') as [o|] eqn:Ho; [|discriminate].
  simpl in Hf. destruct (found_rows index refs) as [rest|]; [|discriminate].
  apply elem_of_cons in Hr as [->|Hr]; [|by eapply IH].
  unfold lookup_ref, row_key in *. destruct (getitem r' "id") as [rid|]; [|discriminate].
  simpl in *. unfold dict_get in Ho. destruct (to_key rid); [eauto|discriminate].
Qed.

Lemma web_company_of_tools tools_by_id c wc :
  web_company_of tools_by_id c = Ok wc →
  ∃ refs rows, field_items c "Tools" = Ok refs ∧ found_rows tools_by_id refs = Ok rows ∧
    mapM company_tool_of rows = Ok (wc_tools wc) ∧ wc_tool_count wc = length (wc_tools wc).
Proof.
  unfold web_company_of, field_items. intros H. res_inv. subst wc. simpl.
  apply resolve_refs_found in Ha1 as (rows & ? & ?).
  exists a0, rows. rewrite Ha. simpl. auto.
Qed.

Lemma web_tool_of_companies companies_by_id t wt :
  web_tool_of companies_by_id t = Ok wt →
  ∃ refs rows, field_items t "ToolCompany" = Ok refs ∧ found_rows companies_by_id refs = Ok rows ∧
    mapM tool_company_of rows = Ok (wt_companies wt).
Proof.
  unfold web_tool_of, field_items. intros H. res_inv. destruct a4 as [tags tc]. res_inv.
  subst wt. simpl. apply resolve_refs_found in Ha1 as (rows & ? & ?).
  exists a0, rows. rewrite Ha. simpl. auto.
Qed.

Lemma by_id_sound ts index k row :
  by_id (JArr ts) = Ok index → dict_lookup k index = Some row →
  row ∈ ts ∧ row_key row = Ok k.
Proof.
  intros Hi Hk. destruct (index_rows_sound _ _ _ _ _ Hi Hk) as [[=]|?]. done.
Qed.

Lemma by_id_complete ts index t k :
  by_id (JArr ts) = Ok index → t ∈ ts → row_key t = Ok k →
  ∃ row, dict_lookup k index = Some row ∧ truthy row = true.
Proof.
  intros Hi Ht Hk. destruct (index_rows_complete _ _ _ _ _ Hi Ht Hk) as [row Hrow].
  exists row. split; [done|]. eapply index_rows_truthy; [exact Hi|exact Hrow|done].
Qed.

(** A reference resolves against a lookup table exactly when some row of
    the table's snapshot carries its id. *)
Lemma by_id_resolves ts index r k :
  by_id (JArr ts) = Ok index → row_key r = Ok k →
  resolves index r = bool_decide (Exists (λ t, row_key t = Ok k) ts).
Proof.
  intros Hi Hk. unfold resolves. rewrite Hk.
  destruct (dict_lookup k index) as [row|] eqn:Hl.
  - destruct (by_id_sound _ _ _ _ Hi Hl).
    rewrite bool_decide_true by (apply Exists_exists; eauto).
    eapply index_rows_truthy; [exact Hi|exact Hl|done].
  - rewrite bool_decide_false; [done|]. intros (t & Ht & Htk)%Exists_exists.
    destruct (by_id_complete _ _ _ _ Hi Ht Htk) as (? & ? & _). congruence.
Qed.

(** ** Lemmas on tags *)

Lemma contains_color tag v b :
  getitem tag "value" = Ok v → contains tag "color" = Ok b →
  if b then ∃ c, getitem tag "color" = Ok c else getitem tag "color" = Err (KeyError "color").
Proof.
  destruct tag as [| | | | | |fs]; try discriminate. simpl. intros _ [= <-].
  destruct (assoc "color" fs); simpl; eauto.
Qed.

(** The dict a tag leaves behind, as a function of the dict before. *)
Lemma tag_loop_step tag v b tc0 :
  getitem tag "value" = Ok v → contains tag "color" = Ok b →
  ∀ tc1, (if b then (c ← getitem tag "color"; dict_set tc0 v c) else Ok tc0) = Ok tc1 →
  ∀ k, dict_lookup k tc1 =
       match tag_color_of tag with
       | Some (k', c) => if decide (k' = k) then Some c else dict_lookup k tc0
       | None => dict_lookup k tc0
       end.
Proof.
  intros Hv Hb tc1 H k. pose proof (contains_color _ _ _ Hv Hb) as Hc.
  unfold tag_color_of. rewrite Hv. destruct b.
  - destruct Hc as [c Hc]. rewrite Hc in H |- *. simpl in H. unfold dict_set in H.
    destruct (to_key v) as [k'|]; [|discriminate]. injection H as <-.
    apply dict_lookup_insert.
  - rewrite Hc. by injection H as <-.
Qed.

Lemma tag_loop_spec tl tags0 tc0 tags tc :
  tag_loop tl tags0 tc0 = Ok (tags, tc) →
  (∃ names, mapM (λ t, getitem t "value") tl = Ok names ∧ tags = tags0 ++ names) ∧
  ∀ k, dict_lookup k tc =
       match last_color k tl with Some c => Some c | None => dict_lookup k tc0 end.
Proof.
  revert tags0 tc0. induction tl as [|tag tl IH]; intros tags0 tc0 H; simpl in H.
  - injection H as <- <-. split; [exists []; by rewrite app_nil_r|done].
  - destruct (getitem tag "value") as [v|] eqn:Hv; [|discriminate]. simpl in H.
    destruct (contains tag "color") as [b|] eqn:Hb; [|discriminate]. simpl in H.
    assert (∃ tc1, (if b then (c ← getitem tag "color"; dict_set tc0 v c) else Ok tc0) = Ok tc1
                   ∧ tag_loop tl (tags0 ++ [v]) tc1 = Ok (tags, tc)) as (tc1 & H1 & Hl).
    { destruct b; [|eauto]. destruct (getitem tag "color") as [c|]; [|discriminate].
      simpl in *. destruct (dict_set tc0 v c); [eauto|discriminate]. }
    destruct (IH _ _ Hl) as ((names & Hm & ->) & Hk). split.
    + exists (v :: names). simpl. rewrite Hv, Hm. by rewrite <- app_assoc.
    + intros k. simpl. rewrite Hk, (tag_loop_step _ _ _ _ Hv Hb _ H1).
      destruct (last_color k tl); [done|].
      destruct (tag_color_of tag) as [[k' c]|]; [by case_decide|done].
Qed.

Lemma tag_loop_inv tl tags0 tc0 tags tc :
  tag_loop tl tags0 tc0 = Ok (tags, tc) → dict_wf tc0 → dict_keys_ok tc0 →
  dict_wf tc ∧ dict_keys_ok tc.
Proof.
  revert tags0 tc0. induction tl as [|tag tl IH]; intros tags0 tc0 H Hwf Hok; simpl in H.
  - by injection H as <- <-.
  - destruct (getitem tag "value") as [v|]; [|discriminate]. simpl in H.
    destruct (contains tag "color") as [[]|]; [|eauto|discriminate]. simpl in H.
    destruct (getitem tag "color") as [c|]; [|discriminate]. simpl in H.
    destruct (dict_set tc0 v c) as [tc1|] eqn:Hs; [|discriminate]. simpl in H.
    destruct (dict_set_inv _ _ _ _ Hs Hwf Hok). eauto.
Qed.

Lemma web_tool_of_tags companies_by_id t wt :
  web_tool_of companies_by_id t = Ok wt →
  ∃ tl, field_items t "Tool Tags" = Ok tl ∧
    mapM (λ tag, getitem tag "value") tl = Ok (wt_tags wt) ∧
    dict_wf (wt_tag_colors wt) ∧ dict_keys_ok (wt_tag_colors wt) ∧
    ∀ k, dict_lookup k (wt_tag_colors wt) = last_color k tl.
Proof.
  unfold web_tool_of, field_items. intros H. res_inv. destruct a4 as [tags tc]. res_inv.
  subst wt. simpl. destruct (tag_loop_spec _ _ _ _ _ Ha4) as ((names & Hm & ->) & Hk).
  destruct (tag_loop_inv _ _ _ _ _ Ha4) as [??]; [constructor|constructor|].
  exists a3. rewrite Ha2. simpl. split_and!; auto.
  intros k. rewrite Hk. by destruct (last_color k a3).
Qed.

Lemma create_web_tools_keys_ok tools companies_by_id wts :
  create_web_tools tools companies_by_id = Ok wts →
  Forall (λ t, dict_keys_ok (wt_tag_colors t)) wts.
Proof.
  unfold create_web_tools. intros H. res_inv. apply Forall_forall. intros wt Hwt.
  destruct (mapM_res_elem _ _ _ _ H Hwt) as (t & _ & Ht).
  by destruct (web_tool_of_tags _ _ _ Ht) as (? & _ & _ & _ & ? & _).
Qed.

Lemma add_tag_colors_spec acc d acc' :
  add_tag_colors acc (dict_items d) = Ok acc' → dict_keys_ok d →
  ∀ k, dict_lookup k acc' =
       match dict_lookup k acc with Some c => Some c | None => dict_lookup k d end.
Proof.
  revert acc. induction d as [|e d IH]; intros acc H Hok k; simpl in H.
  - injection H as <-. by destruct (dict_lookup k acc).
  - apply Forall_cons in Hok as [He Hok]. unfold dict_mem in H. rewrite He in H.
    simpl in H. simpl. case_bool_decide as Hp.
    + rewrite (IH _ H Hok). destruct (dict_lookup k acc) eqn:Hk; [done|].
      case_decide; [|done]. subst. rewrite Hk in Hp. by destruct Hp.
    + unfold dict_set in H. rewrite He in H. simpl in H.
      rewrite (IH _ H Hok), dict_lookup_insert. case_decide as Hek; subst.
      * destruct (dict_lookup (e_key e) acc); [exfalso; eauto|].
        by rewrite ?decide_True.
      * destruct (dict_lookup k acc); [done|]. by rewrite ?decide_False.
Qed.

Lemma add_tag_colors_inv acc items acc' :
  add_tag_colors acc items = Ok acc' → dict_wf acc → dict_keys_ok acc →
  dict_wf acc' ∧ dict_keys_ok acc'.
Proof.
  revert acc. induction items as [|[name color] items IH]; intros acc H Hwf Hok; simpl in H.
  - by injection H as <-.
  - destruct (dict_mem acc name) as [[]|]; simpl in H; [eauto| |discriminate].
    destruct (dict_set acc name color) as [acc1|] eqn:Hs; [|discriminate]. simpl in H.
    destruct (dict_set_inv _ _ _ _ Hs Hwf Hok). eauto.
Qed.

Lemma collect_tags_spec acc tools d :
  collect_tags acc tools = Ok d → Forall (λ t, dict_keys_ok (wt_tag_colors t)) tools →
  ∀ k, dict_lookup k d =
       match dict_lookup k acc with Some c => Some c | None => first_color k tools end.
Proof.
  revert acc. induction tools as [|t tools IH]; intros acc H Hok k; simpl in H.
  - injection H as <-. by destruct (dict_lookup k acc).
  - apply Forall_cons in Hok as [Ht Hok].
    destruct (add_tag_colors acc (dict_items (wt_tag_colors t))) as [acc1|] eqn:Ha;
      [|discriminate]. simpl in H.
    rewrite (IH _ H Hok), (add_tag_colors_spec _ _ _ Ha Ht). simpl.
    by destruct (dict_lookup k acc).
Qed.

Lemma collect_tags_inv acc tools d :
  collect_tags acc tools = Ok d → dict_wf acc → dict_keys_ok acc →
  dict_wf d ∧ dict_keys_ok d.
Proof.
  revert acc. induction tools as [|t tools IH]; intros acc H Hwf Hok; simpl in H.
  - by injection H as <-.
  - destruct (add_tag_colors acc (dict_items (wt_tag_colors t))) as [acc1|] eqn:Ha;
      [|discriminate]. simpl in H.
    destruct (add_tag_colors_inv _ _ _ Ha Hwf Hok). eauto.
Qed.

Lemma sort_items_perm l l' : sort_items l = Ok l' → l' ≡ₚ l.
Proof.
  unfold sort_items. destruct (length l <=? 1)%nat; [by intros [= <-]|].
  destruct (forallb is_str_name l); [intros [= <-]; apply merge_sort_Permutation|].
  destruct (forallb is_num_name l); [intros [= <-]; apply merge_sort_Permutation|].
  discriminate.
Qed.

#[export] Instance str_name_le_total : Total str_name_le.
Proof. intros p q. apply String.le_total. Qed.

Lemma sort_items_sorted l l' :
  sort_items l = Ok l' → Forall (λ p, is_str_name p = true) l' → Sorted str_name_le l'.
Proof.
  intros Hs Hstr. pose proof (sort_items_perm _ _ Hs) as Hp. revert Hs.
  unfold sort_items. destruct (length l <=? 1)%nat eqn:Hlen.
  - intros [= <-]. apply Nat.leb_le in Hlen.
    destruct l as [|? [|??]]; simpl in Hlen; [constructor|by repeat constructor|lia].
  - destruct (forallb is_str_name l) eqn:Hall; [intros [= <-]; by apply (Sorted_merge_sort str_name_le)|].
    exfalso. apply not_true_iff_false in Hall. apply Hall, forallb_forall.
    intros p Hpl. rewrite <- list_elem_of_In, <- Hp in Hpl. rewrite Forall_forall in Hstr. auto.
Qed.

(** ** Tags: the claims *)

(** C12. Within one tool, the colour [tag_colors] records for a tag name
    is the colour of the LAST tag of ['Tool Tags'] with that name and a
    colour (the spec says the first occurrence wins). *)
Theorem web_tool_tag_colors_last companies_by_id t wt tl :
  web_tool_of companies_by_id t = Ok wt → field_items t "Tool Tags" = Ok tl →
  ∀ k, dict_lookup k (wt_tag_colors wt) = last_color k tl.
Proof.
  intros Hw Htl k. destruct (web_tool_of_tags _ _ _ Hw) as (tl' & Htl' & _ & _ & _ & Hk).
  rewrite Htl in Htl'. injection Htl' as <-. apply Hk.
Qed.

(** C13. Across tools, the tag catalog holds a name exactly with the
    colour that the first tool (in input order) carrying that name in its
    [tag_colors] gives it. *)
Theorem extract_all_tags_first_color tools companies_by_id wts out k c :
  create_web_tools tools companies_by_id = Ok wts → extract_all_tags wts = Ok out →
  (∃ name, (name, c) ∈ out ∧ to_key name = Ok k) ↔ first_color k wts = Some c.
Proof.
  intros Hw He. unfold extract_all_tags in He. res_inv.
  pose proof (create_web_tools_keys_ok _ _ _ Hw) as Hok.
  destruct (collect_tags_inv _ _ _ Ha) as [Hwf Hkok]; [constructor|constructor|].
  pose proof (collect_tags_spec _ _ _ Ha Hok k) as Hk. simpl in Hk.
  pose proof (sort_items_perm _ _ He) as Hp. rewrite <- Hk. split.
  - intros (name & Hin & Hname). rewrite Hp in Hin. by eapply dict_items_lookup.
  - intros Hl. destruct (dict_lookup_items _ _ _ Hkok Hl) as (name & Hin & Hname).
    exists name. by rewrite Hp.
Qed.

(** C14. The tag catalog names every tag once (no two names are equal
    under [==]) and, when the names are strings, lists them in
    increasing order. *)
Theorem extract_all_tags_sorted tools out :
  extract_all_tags tools = Ok out →
  NoDup ((λ p, to_key p.1) <$> out) ∧
  (Forall (λ p, is_str_name p = true) out → Sorted str_name_le out).
Proof.
  intros He. unfold extract_all_tags in He. res_inv.
  destruct (collect_tags_inv _ _ _ Ha) as [Hwf Hkok]; [constructor|constructor|].
  split; [|by eapply sort_items_sorted].
  rewrite (sort_items_perm _ _ He). by apply dict_items_keys_NoDup.
Qed.

(** The tags a web tool lists are the tag values its summary embedded
    in a company lists: the two code paths (lines 52 and 96-100) agree. *)
Theorem web_tool_tags_agree companies_by_id t wt ct :
  web_tool_of companies_by_id t = Ok wt → company_tool_of t = Ok ct →
  wt_tags wt = ct_tags ct.
Proof.
  intros Hw Hc. destruct (web_tool_of_tags _ _ _ Hw) as (tl & Htl & Hm & _).
  assert (tag_values t = Ok (wt_tags wt)) as Htv.
  { unfold tag_values. unfold field_items in Htl.
    destruct (get t "Tool Tags" (JArr [])); [|discriminate]. simpl in *. by rewrite Htl. }
  unfold company_tool_of in Hc. rewrite Htv in Hc. res_inv. by subst ct.
Qed.

(** ** Reference resolution: the claims *)

(** C1. Soundness of company enrichment, row by row: every tool
    embedded in the [i]-th web company is the summary of a row of the
    tools snapshot whose internal id is the id of one of the ['Tools']
    references of the [i]-th company row. *)
Theorem create_web_companies_refs_sound (cs ts : list json) tools_by_id wcs :
  by_id (JArr ts) = Ok tools_by_id →
  create_web_companies (JArr cs) tools_by_id = Ok wcs →
  ∀ i c wc ct, cs !! i = Some c → wcs !! i = Some wc → ct ∈ wc_tools wc →
  ∃ refs r t k, field_items c "Tools" = Ok refs ∧ r ∈ refs ∧
    t ∈ ts ∧ row_key r = Ok k ∧ row_key t = Ok k ∧ company_tool_of t = Ok ct.
Proof.
  intros Hi Hw%mapM_res_Ok_Forall2 i c wc ct Hc Hwc Hct.
  pose proof (Forall2_lookup_lr _ _ _ _ _ _ Hw Hc Hwc) as Hcw.
  destruct (web_company_of_tools _ _ _ Hcw) as (refs & rows & Hrefs & Hf & Hm & _).
  destruct (mapM_res_elem _ _ _ _ Hm Hct) as (t & Ht & Htc).
  destruct (found_rows_sound _ _ _ _ Hf Ht) as (r & k & Hr & Hrk & Hl).
  destruct (by_id_sound _ _ _ _ Hi Hl).
  exists refs, r, t, k. done.
Qed.

(** The number of references of a list that resolve against a lookup
    table built from a snapshot. *)
Lemma found_rows_count ts index refs rows :
  by_id (JArr ts) = Ok index → found_rows index refs = Ok rows →
  length rows = length (filter (λ r, Exists (λ t, row_key t = row_key r) ts) refs).
Proof.
  intros Hi Hf. rewrite (found_rows_length _ _ _ Hf). f_equal.
  apply filter_ext_elem. intros r Hr.
  destruct (found_rows_keys _ _ _ _ Hf Hr) as [k Hk].
  rewrite (by_id_resolves _ _ _ _ Hi Hk), Hk. by rewrite bool_decide_spec.
Qed.

(** C3. A web company's [tool_count] is the number of its ['Tools']
    references whose id is the id of some row of the tools snapshot:
    dangling references are dropped. *)
Theorem web_company_tool_count ts tools_by_id c wc refs :
  by_id (JArr ts) = Ok tools_by_id →
  web_company_of tools_by_id c = Ok wc →
  field_items c "Tools" = Ok refs →
  wc_tool_count wc = length (filter (λ r, Exists (λ t, row_key t = row_key r) ts) refs).
Proof.
  intros Hi Hw Hr.
  destruct (web_company_of_tools _ _ _ Hw) as (refs' & rows & Hr' & Hf & Hm & ->).
  rewrite Hr in Hr'. injection Hr' as <-.
  rewrite (mapM_res_Ok_length _ _ _ Hm). by eapply found_rows_count.
Qed.

(** C15. A reference whose id is absent from the lookup table raises
    nothing: a reference list none of whose ids is in the table resolves
    to the empty list. *)
Theorem resolve_refs_dangling {B} index (embed : json → res B) refs :
  Forall (λ r, ∃ k, row_key r = Ok k ∧ dict_lookup k index = None) refs →
  resolve_refs index embed refs = Ok [].
Proof.
  induction 1 as [|r refs (k & Hk & Hl) _ IH]; [done|]. simpl.
  unfold row_key in Hk. destruct (getitem r "id") as [rid|]; [|discriminate].
  simpl in *. unfold dict_get. rewrite Hk. simpl. by rewrite Hl.
Qed.

(** C2. Soundness of tool enrichment, row by row: every company
    embedded in the [i]-th web tool is the summary of a row of the
    companies snapshot whose internal id is the id of one of the
    ['ToolCompany'] references of the [i]-th tool row. *)
Theorem create_web_tools_refs_sound (cs ts : list json) companies_by_id wts :
  by_id (JArr cs) = Ok companies_by_id →
  create_web_tools (JArr ts) companies_by_id = Ok wts →
  ∀ i t wt tc, ts !! i = Some t → wts !! i = Some wt → tc ∈ wt_companies wt →
  ∃ refs r c k, field_items t "ToolCompany" = Ok refs ∧ r ∈ refs ∧
    c ∈ cs ∧ row_key r = Ok k ∧ row_key c = Ok k ∧ tool_company_of c = Ok tc.
Proof.
  intros Hi Hw%mapM_res_Ok_Forall2 i t wt tc Ht Hwt Htc.
  pose proof (Forall2_lookup_lr _ _ _ _ _ _ Hw Ht Hwt) as Htw.
  destruct (web_tool_of_companies _ _ _ Htw) as (refs & rows & Hrefs & Hf & Hm).
  destruct (mapM_res_elem _ _ _ _ Hm Htc) as (c & Hc & Hct).
  destruct (found_rows_sound _ _ _ _ Hf Hc) as (r & k & Hr & Hrk & Hl).
  destruct (by_id_sound _ _ _ _ Hi Hl).
  exists refs, r, c, k. done.
Qed.

(** ** The search index: lemmas and claims *)

Lemma company_entries cs ce :
  mapM company_entry cs = Ok ce →
  entry_id <$> ce = wc_id <$> cs ∧ entry_is_company <$> ce = replicate (length cs) true ∧
  Forall (λ e, lower (search_text e) = search_text e) ce.
Proof.
  intros H%mapM_res_Ok_Forall2. induction H as [|c e cs ce He _ IH]; [done|].
  unfold company_entry in He. res_inv. subst e. rewrite !fmap_cons.
  destruct IH as (-> & -> & ?). split_and!; [done|done|]. constructor; [|done].
  simpl. destruct (wc_name c); try discriminate. injection Ha as <-. apply lower_idem.
Qed.

Lemma tool_entries ts te :
  mapM tool_entry ts = Ok te →
  entry_id <$> te = wt_id <$> ts ∧ entry_is_company <$> te = replicate (length ts) false ∧
  Forall (λ e, lower (search_text e) = search_text e) te.
Proof.
  intros H%mapM_res_Ok_Forall2. induction H as [|t e ts te He _ IH]; [done|].
  unfold tool_entry in He. res_inv. subst e. rewrite !fmap_cons.
  destruct IH as (-> & -> & ?). split_and!; [done|done|]. constructor; [|done].
  simpl. apply lower_idem.
Qed.

(** The search index lists one entry per company, in input order,
    followed by one entry per tool, in input order. *)
Theorem create_search_index_order cs ts idx :
  create_search_index cs ts = Ok idx →
  entry_id <$> idx = (wc_id <$> cs) ++ (wt_id <$> ts) ∧
  entry_is_company <$> idx = replicate (length cs) true ++ replicate (length ts) false.
Proof.
  unfold create_search_index. intros H. res_inv. subst idx.
  destruct (company_entries _ _ Ha) as (Hc1 & Hc2 & _).
  destruct (tool_entries _ _ Ha0) as (Ht1 & Ht2 & _).
  rewrite !fmap_app, Hc1, Hc2, Ht1, Ht2. done.
Qed.

(** Every search text of the index is in lower case. *)
Theorem create_search_index_lower cs ts idx :
  create_search_index cs ts = Ok idx →
  Forall (λ e, lower (search_text e) = search_text e) idx.
Proof.
  unfold create_search_index. intros H. res_inv. subst idx.
  apply Forall_app. split; [apply (company_entries _ _ Ha)|apply (tool_entries _ _ Ha0)].
Qed.

(** ** Statistics and the whole run *)

(** Does a company row have a ['Tools'] reference to a row of [ts]? *)
Definition company_links (ts : list json) (c : json) : bool :=
  match field_items c "Tools" with
  | Ok refs => existsb (λ r, bool_decide (Exists (λ t, row_key t = row_key r) ts)) refs
  | Err _ => false
  end.

Lemma web_company_links ts tools_by_id c wc :
  by_id (JArr ts) = Ok tools_by_id → web_company_of tools_by_id c = Ok wc →
  (0 < wc_tool_count wc)%nat ↔ company_links ts c = true.
Proof.
  intros Hi Hw. destruct (web_company_of_tools _ _ _ Hw) as (refs & rows & Hr & Hf & Hm & ->).
  rewrite (mapM_res_Ok_length _ _ _ Hm), (found_rows_count _ _ _ _ Hi Hf).
  unfold company_links.
  rewrite Hr, filter_length_pos, existsb_exists, Exists_exists.
  setoid_rewrite list_elem_of_In. by setoid_rewrite bool_decide_eq_true.
Qed.

(** The statistics of a run count the rows of the snapshots: every
    company and every tool, the companies with at least one ['Tools']
    reference to an existing tool, and the entries of the tag catalog. *)
Theorem process_stats cs ts libraries d :
  process (JArr cs) (JArr ts) libraries = Ok d →
  total_companies (stats d) = length cs ∧ total_tools (stats d) = length ts ∧
  companies_with_tools (stats d) = length (filter (λ c, company_links ts c = true) cs) ∧
  total_tags (stats d) = length (all_tags d).
Proof.
  unfold process, build_web. intros H. res_inv. subst d. simpl.
  rename a into tbi, a1 into wcs, a2 into wts, a4 into tags, a5 into st.
  unfold calculate_stats in Ha5. rewrite Ha4 in Ha5. injection Ha5 as <-. simpl.
  unfold create_web_companies, create_web_tools in Ha1, Ha2. simpl in Ha1, Ha2.
  split_and!; [by eapply mapM_res_Ok_length|by eapply mapM_res_Ok_length| |done].
  apply mapM_res_Ok_Forall2 in Ha1. symmetry.
  eapply Forall2_filter_length; [exact Ha1|]. intros c wc Hw. simpl.
  symmetry. by eapply web_company_links.
Qed.

(** ** Error paths *)

(** C38. A company row without ['UUID'] makes [create_web_companies]
    raise [KeyError] once its references are resolved: a missing field
    read with [row['k']] is fatal (the spec says missing fields are
    tolerated). *)
Theorem web_company_missing_uuid tools_by_id fs refs out :
  field_items (JObj fs) "Tools" = Ok refs →
  resolve_refs tools_by_id company_tool_of refs = Ok out →
  assoc "UUID" fs = None →
  web_company_of tools_by_id (JObj fs) = Err (KeyError "UUID").
Proof.
  unfold field_items, web_company_of. intros Hr Hres Hu.
  destruct (get (JObj fs) "Tools" (JArr [])) as [src|]; [|discriminate]. simpl in *.
  rewrite Hr. simpl. rewrite Hres. simpl. by rewrite Hu.
Qed.

(** ** Worked examples *)

Module Examples.
Definition ml_blue := JObj [("value", JStr "ml"); ("color", JStr "blue")].

(** The example of the spec, with the ['UUID'] and ['Company Name']
    that [create_web_companies] reads. *)
Definition ex_companies : list json :=
  [JObj [("id", JInt 1); ("UUID", JStr "c1"); ("Company Name", JStr "Acme");
         ("Tools", JArr [JObj [("id", JInt 10)]])]].
Definition ex_tools : list json :=
  [JObj [("id", JInt 10); ("UUID", JStr "t1"); ("ToolName", JStr "X");
         ("Tool Tags", JArr [ml_blue])]].

(** A company whose second reference (id 99) dangles, and a second tool
    with a repeated tag name in two colours. *)
Definition ex2_companies : list json :=
  [JObj [("id", JInt 1); ("UUID", JStr "c1"); ("Company Name", JStr "Acme");
         ("Tools", JArr [JObj [("id", JInt 10)]; JObj [("id", JInt 99)]])]].
Definition ex2_tools : list json :=
  ex_tools ++
  [JObj [("id", JInt 11); ("UUID", JStr "t2"); ("ToolName", JStr "Y");
         ("ToolCompany", JArr [JObj [("id", JInt 1)]]);
         ("Tool Tags", JArr [JObj [("value", JStr "ai"); ("color", JStr "x")];
                             JObj [("value", JStr "ml"); ("color", JStr "red")];
                             JObj [("value", JStr "ai"); ("color", JStr "y")]])]].

Definition ex2_company : json := match ex2_companies with c :: _ => c | [] => JNull end.

Definition ex2_t2_tags : list json :=
  [JObj [("value", JStr "ai"); ("color", JStr "x")];
   JObj [("value", JStr "ai"); ("color", JStr "y")]].
Definition ex2_t2 : json :=
  JObj [("id", JInt 11); ("UUID", JStr "t2"); ("ToolName", JStr "Y");
        ("Tool Tags", JArr ex2_t2_tags)].

Definition ex2_tbi : dict json := res_default [] (by_id (JArr ex2_tools)).
Definition ex2_cbi : dict json := res_default [] (by_id (JArr ex2_companies)).
Definition ex2_wcs : list WebCompany :=
  res_default [] (create_web_companies (JArr ex2_companies) ex2_tbi).
Definition ex2_wts : list WebTool :=
  res_default [] (create_web_tools (JArr ex2_tools) ex2_cbi).
Definition ex2_wc : WebCompany :=
  match ex2_wcs with
  | wc :: _ => wc
  | [] => {| wc_id := JNull; wc_name := JNull; wc_url := JNull; wc_notes := JNull;
             wc_tools := []; wc_tool_count := 0 |}
  end.
Definition ex2_ct : CompanyTool :=
  match wc_tools ex2_wc with
  | ct :: _ => ct
  | [] => {| ct_id := JNull; ct_name := JNull; ct_description_short := JNull;
             ct_description_long := JNull; ct_tags := []; ct_rating := JNull;
             ct_cost := JNull; ct_url := JNull |}
  end.
(** The second tool, which references company 1. *)
Definition ex2_wt : WebTool :=
  match ex2_wts with
  | _ :: wt :: _ => wt
  | _ => {| wt_id := JNull; wt_name := JNull; wt_description_short := JNull;
            wt_description_long := JNull; wt_tags := []; wt_tag_colors := [];
            wt_companies := []; wt_rating := JNull; wt_cost := JNull; wt_url := JNull;
            wt_last_modified := JNull |}
  end.
Definition ex2_tc : ToolCompany :=
  match wt_companies ex2_wt with
  | tc :: _ => tc
  | [] => {| tc_id := JNull; tc_name := JNull; tc_url := JNull |}
  end.
End Examples.
Import Examples.

(** The spec's worked example: the company embeds the tool
    [{id: "t1", name: "X", tags: ["ml"]}] with [tool_count = 1], the tag
    catalog is [[{name: "ml", color: "blue"}]] and one company has tools. *)
Theorem spec_example_process :
  ∃ d, process (JArr ex_companies) (JArr ex_tools) (JArr []) = Ok d ∧
    ((λ wc, (wc_tool_count wc, (λ ct, (ct_id ct, ct_name ct, ct_tags ct)) <$> wc_tools wc))
       <$> web_companies d) = [(1%nat, [(JStr "t1", JStr "X", [JStr "ml"])])] ∧
    all_tags d = [(JStr "ml", JStr "blue")] ∧
    companies_with_tools (stats d) = 1%nat.
Proof. eexists. split; [vm_compute; reflexivity|]. vm_compute. auto. Qed.

(** The spec's example taken literally (a company row with no
    ['UUID'] and no ['Company Name']) makes the run raise [KeyError]. *)
Theorem spec_example_literal_keyerror :
  process (JArr [JObj [("id", JInt 1); ("Tools", JArr [JObj [("id", JInt 10)]])]])
          (JArr ex_tools) (JArr []) = Err (KeyError "UUID").
Proof. vm_compute. reflexivity. Qed.

(** ** Witnesses *)

Lemma create_web_companies_refs_sound_witness :
  ∃ refs r t k, field_items ex2_company "Tools" = Ok refs ∧ r ∈ refs ∧
    t ∈ ex2_tools ∧ row_key r = Ok k ∧ row_key t = Ok k ∧ company_tool_of t = Ok ex2_ct.
Proof.
  apply (create_web_companies_refs_sound ex2_companies ex2_tools ex2_tbi ex2_wcs
           ltac:(vm_compute; reflexivity) ltac:(vm_compute; reflexivity) 0%nat ex2_company ex2_wc);
    vm_compute; [reflexivity|reflexivity|repeat constructor].
Defined.

Lemma web_company_tool_count_witness :
  ∃ wc, web_company_of ex2_tbi ex2_company = Ok wc ∧
    wc_tool_count wc =
      length (filter (λ r, Exists (λ t, row_key t = row_key r) ex2_tools)
                [JObj [("id", JInt 10)]; JObj [("id", JInt 99)]]).
Proof.
  eexists. split; [vm_compute; reflexivity|].
  apply (web_company_tool_count ex2_tools ex2_tbi ex2_company); vm_compute; reflexivity.
Defined.

Lemma resolve_refs_dangling_witness :
  resolve_refs ex2_tbi company_tool_of [JObj [("id", JInt 99)]] = Ok [].
Proof.
  apply resolve_refs_dangling. constructor; [|constructor].
  exists (KNum (Qred (inject_Z 99))). split; vm_compute; reflexivity.
Defined.

Lemma create_web_tools_refs_sound_witness :
  ∃ refs r c k, field_items (default JNull (ex2_tools !! 1%nat)) "ToolCompany" = Ok refs ∧ r ∈ refs ∧
    c ∈ ex2_companies ∧ row_key r = Ok k ∧ row_key c = Ok k ∧ tool_company_of c = Ok ex2_tc.
Proof.
  apply (create_web_tools_refs_sound ex2_companies ex2_tools ex2_cbi ex2_wts
           ltac:(vm_compute; reflexivity) ltac:(vm_compute; reflexivity) 1%nat
           (default JNull (ex2_tools !! 1%nat)) ex2_wt);
    vm_compute; [reflexivity|reflexivity|repeat constructor].
Defined.

Lemma web_tool_tag_colors_last_witness :
  ∃ wt, web_tool_of ex2_cbi ex2_t2 = Ok wt ∧
    dict_lookup (KStr "ai") (wt_tag_colors wt) = Some (JStr "y").
Proof.
  eexists. split; [vm_compute; reflexivity|].
  rewrite (web_tool_tag_colors_last ex2_cbi ex2_t2 _ ex2_t2_tags);
    vm_compute; reflexivity.
Defined.

Lemma extract_all_tags_first_color_witness :
  ∃ out, extract_all_tags ex2_wts = Ok out ∧
    ((∃ name, (name, JStr "blue") ∈ out ∧ to_key name = Ok (KStr "ml")) ↔
     first_color (KStr "ml") ex2_wts = Some (JStr "blue")).
Proof.
  eexists. split; [vm_compute; reflexivity|].
  apply (extract_all_tags_first_color (JArr ex2_tools) ex2_cbi); vm_compute; reflexivity.
Defined.

Lemma extract_all_tags_sorted_witness :
  ∃ out, extract_all_tags ex2_wts = Ok out ∧
    NoDup ((λ p, to_key p.1) <$> out) ∧
    (Forall (λ p, is_str_name p = true) out → Sorted str_name_le out).
Proof.
  eexists. split; [vm_compute; reflexivity|].
  apply (extract_all_tags_sorted ex2_wts). vm_compute. reflexivity.
Defined.

Lemma web_tool_tags_agree_witness :
  ∃ wt ct, web_tool_of ex2_cbi ex2_t2 = Ok wt ∧ company_tool_of ex2_t2 = Ok ct ∧
    wt_tags wt = ct_tags ct.
Proof.
  do 2 eexists. split; [vm_compute; reflexivity|]. split; [vm_compute; reflexivity|].
  apply (web_tool_tags_agree ex2_cbi ex2_t2); vm_compute; reflexivity.
Defined.

Lemma create_search_index_order_witness :
  ∃ idx, create_search_index ex2_wcs ex2_wts = Ok idx ∧
    entry_id <$> idx = (wc_id <$> ex2_wcs) ++ (wt_id <$> ex2_wts) ∧
    entry_is_company <$> idx =
      replicate (length ex2_wcs) true ++ replicate (length ex2_wts) false.
Proof.
  eexists. split; [vm_compute; reflexivity|].
  apply (create_search_index_order ex2_wcs ex2_wts). vm_compute. reflexivity.
Defined.

Lemma create_search_index_lower_witness :
  ∃ idx, create_search_index ex2_wcs ex2_wts = Ok idx ∧
    Forall (λ e, lower (search_text e) = search_text e) idx.
Proof.
  eexists. split; [vm_compute; reflexivity|].
  apply (create_search_index_lower ex2_wcs ex2_wts). vm_compute. reflexivity.
Defined.

Lemma process_stats_witness :
  ∃ d, process (JArr ex2_companies) (JArr ex2_tools) (JArr []) = Ok d ∧
    total_companies (stats d) = length ex2_companies ∧
    total_tools (stats d) = length ex2_tools ∧
    companies_with_tools (stats d) =
      length (filter (λ c, company_links ex2_tools c = true) ex2_companies) ∧
    total_tags (stats d) = length (all_tags d).
Proof.
  eexists. split; [vm_compute; reflexivity|].
  apply (process_stats ex2_companies ex2_tools (JArr [])). vm_compute. reflexivity.
Defined.

Lemma web_company_missing_uuid_witness :
  web_company_of ex2_tbi (JObj [("Company Name", JStr "Acme");
                               ("Tools", JArr [JObj [("id", JInt 99)]])])
  = Err (KeyError "UUID").
Proof.
  apply (web_company_missing_uuid _ _ [JObj [("id", JInt 99)]] []);
    vm_compute; reflexivity.
Defined.

End Denormalizer.
