(* ===== verification/Fetcher.v ===== *)
(** * The Fetcher: [src/baserow_api/scripts/baserow/fetch_baserow_tables.py]

    The script reads its configuration from the environment ([Config]),
    checks the token ([validate_config]), makes the output directory
    ([ensure_output_directory]), and for each of the three [TABLES] runs
    [fetch_table_with_pagination] and [export_to_json] inside a
    [try ... except Exception] ([fetch_all]).

    - The world ([World]) is the number of HTTP requests sent so far (the
      clock of the network), the delays slept, in order, and the file
      system (any [FileSystem] with its laws).
    - The network is an oracle [net]: the response to the request sent at
      a given clock, with a given URL and token.  Theorems quantify over
      it, so they hold for every server behaviour they assume nothing of.
    - [sys.exit(1)] raises [SystemExit 1], which [except Exception] does
      not catch: it ends the whole run.
    - [attempt_loop] is the [for attempt in range(MAX_RETRIES)] loop
      (lines 92-123), [page_loop] the [while url] loop (lines 89-142),
      with fuel: one unit per page request; a loop that runs out raises
      [OutOfFuel], and the theorems show that fuel equal to the number of
      pages served is enough. *)

From S2P Require Import Prelude Json FileStore.
Local Open Scope py_scope.

(** ** Configuration (lines 31-45) *)

Record Config := {
  BASEROW_TOKEN : string;
  BASEROW_BASE_URL : string;
  BASEROW_PAGE_SIZE : Z;
  BASEROW_OUTPUT_DIR : string }.

Definition TABLES : list (string * Z) :=
  [("companies", 813469); ("tools", 813470); ("libraries", 813471)]%Z.

Definition MAX_RETRIES : Z := 3.
Definition RETRY_DELAYS : list Z := [1; 2; 4]%Z.

(** ** The network *)

(** What [requests.get] does with one request: raise a
    [RequestException] ([Transport]), or return a status and a body that
    [response.json()] parses ([Some]) or not ([None]). *)
Inductive outcome :=
| Transport
| Response (status : Z) (body : option json).

(** A request as the server sees it: its URL and its token header. *)
Record request := { req_url : json; req_token : string }.

Record World (FS : Type) := {
  w_clock : nat;
  w_sleeps : list Z;
  w_fs : FS }.
Arguments w_clock {FS} w.
Arguments w_sleeps {FS} w.
Arguments w_fs {FS} w.

Module Fetcher.
Section Fetcher.
Context {FS : Type} `{FileSystem FS}.
(** The server: its response to the request sent at each clock tick. *)
Variable net : nat → request → outcome.
Variable cfg : Config.

Notation M := (PyM (World FS)).

(** [requests.get(url, headers=headers, timeout=30)]: one request. *)
Definition http_get (url : json) : M outcome :=
  λ w, (Ok (net (w_clock w) {| req_url := url; req_token := BASEROW_TOKEN cfg |}),
        {| w_clock := S (w_clock w); w_sleeps := w_sleeps w; w_fs := w_fs w |}).

(** [time.sleep(delay)]. *)
Definition sleep (d : Z) : M unit :=
  modify (λ w, {| w_clock := w_clock w; w_sleeps := w_sleeps w ++ [d]; w_fs := w_fs w |}).

(** Line 101. *)
Definition retryable (status : Z) : bool :=
  bool_decide (status ∈ [429; 500; 502; 503; 504]%Z).

(** [delay = RETRY_DELAYS[attempt]; time.sleep(delay)]. *)
Definition backoff (attempt : Z) : M unit :=
  delay ← lift (py_index RETRY_DELAYS attempt); sleep delay.

(** The retry loop (lines 91-123); [response] is the variable of line 91,
    kept across iterations: a transport failure leaves it unchanged. *)
Fixpoint attempt_loop (url : json) (attempts : list Z)
    (response : option (Z * option json)) : M (option (Z * option json)) :=
  match attempts with
  | [] => mret response
  | attempt :: rest =>
      o ← http_get url;
      match o with
      | Response status body =>
          if Z.eqb status 200 then mret (Some (status, body))
          else if retryable status then
            if Z.ltb attempt (MAX_RETRIES - 1) then
              backoff attempt;; attempt_loop url rest (Some (status, body))
            else raise (SystemExit 1)
          else raise (SystemExit 1)
      | Transport =>
          if Z.ltb attempt (MAX_RETRIES - 1) then
            backoff attempt;; attempt_loop url rest response
          else raise (SystemExit 1)
      end
  end.

(** [data = response.json()] (line 126): [response] is [None] only if the
    loop fell through, which raises [AttributeError]. *)
Definition response_json (response : option (Z * option json)) : res json :=
  match response with
  | None => Err AttributeError
  | Some (_, body) => of_option ValueError body
  end.

(** [if limit and len(all_rows) >= limit] (line 136). *)
Definition limit_reached (limit : option Z) (n : nat) : bool :=
  match limit with
  | Some l => negb (Z.eqb l 0) && Z.leb l (Z.of_nat n)
  | None => false
  end.

(** The pagination loop (lines 89-142). *)
Fixpoint page_loop (fuel : nat) (limit : option Z) (url : json) (all_rows : list json)
    : M (list json) :=
  if negb (truthy url) then mret all_rows else
  match fuel with
  | O => raise OutOfFuel
  | S fuel' =>
      response ← attempt_loop url (seqZ 0 MAX_RETRIES) None;
      data ← lift (response_json response);
      rows ← lift (get data "results" (JArr []));
      if negb (truthy rows) then mret all_rows else
      items ← lift (py_iter rows);
      let all_rows' := all_rows ++ items in
      if limit_reached limit (length all_rows')
      then mret (slice_to all_rows' (default 0%Z limit))
      else (next ← lift (get data "next" JNull);
            page_loop fuel' limit next all_rows')
  end.

(** The first URL (line 86). *)
Definition table_url (table_id : Z) : json :=
  JStr (BASEROW_BASE_URL cfg +:+ "/api/database/rows/table/" +:+ pretty table_id
        +:+ "/?size=" +:+ pretty (BASEROW_PAGE_SIZE cfg)).

(** [fetch_table_with_pagination] (lines 64-145). *)
Definition fetch_table_with_pagination (fuel : nat) (table_id : Z) (limit : option Z)
    : M (list json) :=
  page_loop fuel limit (table_url table_id) [].

(** [Path(BASEROW_OUTPUT_DIR) / f"{table_name}.json"] (line 150). *)
Definition output_file (table_name : string) : string :=
  path_join (BASEROW_OUTPUT_DIR cfg) (table_name +:+ ".json").

(** [export_to_json] (lines 148-155): [open(..., 'w')] raises
    [FileNotFoundError] when the directory does not exist. *)
Definition export_to_json (table_name : string) (rows : list json) : M unit :=
  λ w, if fs_isdir (w_fs w) (BASEROW_OUTPUT_DIR cfg)
       then (Ok tt, {| w_clock := w_clock w; w_sleeps := w_sleeps w;
                      w_fs := fs_write (output_file table_name) (JArr rows) (w_fs w) |})
       else (Err (FileNotFoundError (output_file table_name)), w).

(** [validate_config] (lines 48-55). *)
Definition validate_config : M unit :=
  if String.eqb (BASEROW_TOKEN cfg) "" then raise (SystemExit 1) else mret tt.

(** [ensure_output_directory] (lines 58-61). *)
Definition ensure_output_directory : M unit :=
  modify (λ w, {| w_clock := w_clock w; w_sleeps := w_sleeps w;
                  w_fs := fs_mkdir (BASEROW_OUTPUT_DIR cfg) (w_fs w) |}).

(** The entry of [results_summary] for one table (lines 173-183). *)
Inductive table_status := TableOk (rows : nat) | TableFailed (e : exn).

(** One iteration of the loop of [main] (lines 169-183). *)
Definition fetch_one (fuel : nat) (table_name : string) (table_id : Z) : M table_status :=
  try (rows ← fetch_table_with_pagination fuel table_id None;
       export_to_json table_name rows;;
       mret (TableOk (length rows)))
  except is_Exception => (λ e, mret (TableFailed e)).

(** The loop of [main] over [TABLES] (lines 168-183). *)
Fixpoint fetch_all (fuel : nat) (tables : list (string * Z))
    (summary : list (string * table_status)) : M (list (string * table_status)) :=
  match tables with
  | [] => mret summary
  | (name, id) :: rest =>
      st ← fetch_one fuel name id;
      fetch_all fuel rest (summary ++ [(name, st)])
  end.

(** [main] (lines 159-185); it returns [results_summary], which the
    script computes and never prints. *)
Definition main (fuel : nat) : M (list (string * table_status)) :=
  validate_config;;
  ensure_output_directory;;
  fetch_all fuel TABLES [].

(** ** The retry loop *)

Definition req (url : json) : request := {| req_url := url; req_token := BASEROW_TOKEN cfg |}.

(** A response the loop retries: a transport failure or a retryable status. *)
Definition transient (o : outcome) : Prop :=
  o = Transport ∨ ∃ status body, o = Response status body ∧ retryable status = true.

(** The world after one request and a sleep of [d]. *)
Definition after (w : World FS) (d : Z) : World FS :=
  {| w_clock := S (w_clock w); w_sleeps := w_sleeps w ++ [d]; w_fs := w_fs w |}.

Definition tick (w : World FS) : World FS :=
  {| w_clock := S (w_clock w); w_sleeps := w_sleeps w; w_fs := w_fs w |}.

Lemma retryable_not_200 status : retryable status = true → Z.eqb status 200 = false.
Proof.
  unfold retryable. rewrite bool_decide_eq_true. intros Hin.
  repeat (apply elem_of_cons in Hin as [->|Hin]; [done|]). set_solver.
Qed.

Lemma attempt_loop_transient url attempt rest resp w d :
  transient (net (w_clock w) (req url)) → (attempt < MAX_RETRIES - 1)%Z →
  py_index RETRY_DELAYS attempt = Ok d →
  ∃ resp', attempt_loop url (attempt :: rest) resp w = attempt_loop url rest resp' (after w d).
Proof.
  intros Ht Ha Hd. simpl. unfold http_get, backoff. rewrite pym_bind_run.
  fold (req url). rewrite (proj2 (Z.ltb_lt _ _) Ha).
  destruct Ht as [-> | (st & b & -> & Hr)]; [eexists|exists (Some (st, b))];
    [|rewrite (retryable_not_200 _ Hr), Hr]; simpl; rewrite Hd; reflexivity.
Qed.

Lemma attempt_loop_last url attempt rest resp w :
  transient (net (w_clock w) (req url)) → (MAX_RETRIES - 1 <= attempt)%Z →
  attempt_loop url (attempt :: rest) resp w = (Err (SystemExit 1), tick w).
Proof.
  intros Ht Ha. simpl. unfold http_get. rewrite pym_bind_run. fold (req url).
  rewrite (proj2 (Z.ltb_ge _ _) Ha).
  destruct Ht as [-> | (st & b & -> & Hr)]; [|rewrite (retryable_not_200 _ Hr), Hr]; done.
Qed.

Lemma attempt_loop_ok url attempt rest resp w body :
  net (w_clock w) (req url) = Response 200 body →
  attempt_loop url (attempt :: rest) resp w = (Ok (Some (200%Z, body)), tick w).
Proof. intros Hn. simpl. unfold http_get. rewrite pym_bind_run. fold (req url). by rewrite Hn. Qed.

Lemma attempt_loop_fatal url attempt rest resp w status body :
  net (w_clock w) (req url) = Response status body → status ≠ 200%Z →
  retryable status = false →
  attempt_loop url (attempt :: rest) resp w = (Err (SystemExit 1), tick w).
Proof.
  intros Hn Hs Hr. simpl. unfold http_get. rewrite pym_bind_run. fold (req url).
  rewrite Hn, Hr. by rewrite (proj2 (Z.eqb_neq _ _) Hs).
Qed.

Lemma attempt_loop_cases url attempt rest resp w d :
  (attempt < MAX_RETRIES - 1)%Z → py_index RETRY_DELAYS attempt = Ok d →
  (∃ b, attempt_loop url (attempt :: rest) resp w = (Ok (Some (200%Z, b)), tick w)) ∨
  attempt_loop url (attempt :: rest) resp w = (Err (SystemExit 1), tick w) ∨
  ∃ resp', attempt_loop url (attempt :: rest) resp w = attempt_loop url rest resp' (after w d).
Proof.
  intros Ha Hd. destruct (net (w_clock w) (req url)) as [|st b] eqn:Hn.
  - right; right. apply attempt_loop_transient; [left|..]; done.
  - destruct (decide (st = 200%Z)) as [->|Hst]; [left; exists b; by apply attempt_loop_ok|].
    destruct (retryable st) eqn:Hr.
    + right; right. apply attempt_loop_transient; [right; eauto|done|done].
    + right; left. by eapply attempt_loop_fatal.
Qed.

Lemma attempt_loop_last_cases url attempt rest resp w :
  (MAX_RETRIES - 1 <= attempt)%Z →
  (∃ b, attempt_loop url (attempt :: rest) resp w = (Ok (Some (200%Z, b)), tick w)) ∨
  attempt_loop url (attempt :: rest) resp w = (Err (SystemExit 1), tick w).
Proof.
  intros Ha. destruct (net (w_clock w) (req url)) as [|st b] eqn:Hn.
  - right. apply attempt_loop_last; [left|]; done.
  - destruct (decide (st = 200%Z)) as [->|Hst]; [left; exists b; by apply attempt_loop_ok|].
    right. destruct (retryable st) eqn:Hr.
    + apply attempt_loop_last; [right; eauto|done].
    + by eapply attempt_loop_fatal.
Qed.

Lemma seqZ_retries : seqZ 0 MAX_RETRIES = [0; 1; 2]%Z.
Proof. reflexivity. Qed.

Lemma world_eq c1 c2 s1 s2 (f1 f2 : FS) :
  c1 = c2 → s1 = s2 → f1 = f2 →
  {| w_clock := c1; w_sleeps := s1; w_fs := f1 |} = {| w_clock := c2; w_sleeps := s2; w_fs := f2 |}.
Proof. by intros -> -> ->. Qed.

(** The answers at the first three clock ticks of a retry loop. *)
Definition answers (w : World FS) (url : json) (i : nat) : outcome :=
  net (w_clock w + i) (req url).

Lemma answers_0 w url : answers w url 0 = net (w_clock w) (req url).
Proof. unfold answers. by rewrite Nat.add_0_r. Qed.
Lemma answers_1 w url d : answers w url 1 = net (w_clock (after w d)) (req url).
Proof. unfold answers. simpl. by rewrite Nat.add_1_r. Qed.
Lemma answers_2 w url d d' : answers w url 2 = net (w_clock (after (after w d) d')) (req url).
Proof. unfold answers. simpl. f_equal. lia. Qed.

(** C5. Retry: after [k < 3] transient answers (HTTP 429/5xx or a
    transport failure), a 200 answer ends the retry loop with that
    response, after exactly [k + 1] requests, having slept the first [k]
    delays of [RETRY_DELAYS] in order. *)
Theorem attempt_loop_retry_success url w k body :
  (k < 3)%nat →
  (∀ i, (i < k)%nat → transient (answers w url i)) →
  answers w url k = Response 200 body →
  attempt_loop url (seqZ 0 MAX_RETRIES) None w =
    (Ok (Some (200%Z, body)),
     {| w_clock := w_clock w + S k; w_sleeps := w_sleeps w ++ take k RETRY_DELAYS;
        w_fs := w_fs w |}).
Proof.
  intros Hk Ht Hn. rewrite seqZ_retries.
  destruct k as [|[|[|k]]]; [| | |lia].
  - rewrite answers_0 in Hn. rewrite (attempt_loop_ok _ _ _ _ _ _ Hn).
    f_equal. apply world_eq; simpl; [lia|by rewrite app_nil_r|done].
  - destruct (attempt_loop_transient url 0 [1; 2]%Z None w 1)
      as [r1 ->]; [rewrite <- answers_0; apply Ht; lia|done|done|].
    rewrite (answers_1 _ _ 1) in Hn. rewrite (attempt_loop_ok _ _ _ _ _ _ Hn).
    f_equal. apply world_eq; simpl; [lia|done|done].
  - destruct (attempt_loop_transient url 0 [1; 2]%Z None w 1)
      as [r1 ->]; [rewrite <- answers_0; apply Ht; lia|done|done|].
    destruct (attempt_loop_transient url 1 [2]%Z r1 (after w 1) 2)
      as [r2 ->]; [rewrite <- answers_1; apply Ht; lia|done|done|].
    rewrite (answers_2 _ _ 1 2) in Hn. rewrite (attempt_loop_ok _ _ _ _ _ _ Hn).
    f_equal. apply world_eq; simpl; [lia|by rewrite <- app_assoc|done].
Qed.

(** C6. Retry budget: three transient answers in a row make the loop
    raise [SystemExit 1] after exactly three requests, having slept 1s
    and 2s: the third delay of [RETRY_DELAYS] (4s) is never used. *)
Theorem attempt_loop_exhausted url w :
  (∀ i, (i < 3)%nat → transient (answers w url i)) →
  attempt_loop url (seqZ 0 MAX_RETRIES) None w =
    (Err (SystemExit 1),
     {| w_clock := w_clock w + 3; w_sleeps := w_sleeps w ++ [1; 2]%Z; w_fs := w_fs w |}).
Proof.
  intros Ht. rewrite seqZ_retries.
  destruct (attempt_loop_transient url 0 [1; 2]%Z None w 1)
    as [r1 ->]; [rewrite <- answers_0; apply Ht; lia|done|done|].
  destruct (attempt_loop_transient url 1 [2]%Z r1 (after w 1) 2)
    as [r2 ->]; [rewrite <- answers_1; apply Ht; lia|done|done|].
  rewrite attempt_loop_last; [|rewrite <- answers_2; apply Ht; lia|done].
  f_equal. apply world_eq; simpl; [lia|by rewrite <- app_assoc|done].
Qed.

(** C27. A status other than 200, 429, 500, 502, 503 and 504 (a 201, a
    404, a 501 ...) after [k < 3] transient answers makes the loop raise
    [SystemExit 1] at once: no further request is sent. *)
Theorem attempt_loop_fatal_status url w k status body :
  (k < 3)%nat →
  (∀ i, (i < k)%nat → transient (answers w url i)) →
  answers w url k = Response status body → status ≠ 200%Z → retryable status = false →
  attempt_loop url (seqZ 0 MAX_RETRIES) None w =
    (Err (SystemExit 1),
     {| w_clock := w_clock w + S k; w_sleeps := w_sleeps w ++ take k RETRY_DELAYS;
        w_fs := w_fs w |}).
Proof.
  intros Hk Ht Hn Hs Hr. rewrite seqZ_retries.
  destruct k as [|[|[|k]]]; [| | |lia].
  - rewrite answers_0 in Hn. rewrite (attempt_loop_fatal _ _ _ _ _ _ _ Hn Hs Hr).
    f_equal. apply world_eq; simpl; [lia|by rewrite app_nil_r|done].
  - destruct (attempt_loop_transient url 0 [1; 2]%Z None w 1)
      as [r1 ->]; [rewrite <- answers_0; apply Ht; lia|done|done|].
    rewrite (answers_1 _ _ 1) in Hn. rewrite (attempt_loop_fatal _ _ _ _ _ _ _ Hn Hs Hr).
    f_equal. apply world_eq; simpl; [lia|done|done].
  - destruct (attempt_loop_transient url 0 [1; 2]%Z None w 1)
      as [r1 ->]; [rewrite <- answers_0; apply Ht; lia|done|done|].
    destruct (attempt_loop_transient url 1 [2]%Z r1 (after w 1) 2)
      as [r2 ->]; [rewrite <- answers_1; apply Ht; lia|done|done|].
    rewrite (answers_2 _ _ 1 2) in Hn. rewrite (attempt_loop_fatal _ _ _ _ _ _ _ Hn Hs Hr).
    f_equal. apply world_eq; simpl; [lia|by rewrite <- app_assoc|done].
Qed.

(** C28. Whatever the server answers, the retry loop ends in one of two
    ways: with a 200 response, or with [SystemExit 1].  It never falls
    through with [response] unset or holding a failure, and
    [RETRY_DELAYS[attempt]] never raises [IndexError].  It sends one to
    three requests, sleeps the first delays of [RETRY_DELAYS] between
    them (one fewer than the requests) and leaves the files alone. *)
Theorem attempt_loop_outcomes url w :
  let '(r, w') := attempt_loop url (seqZ 0 MAX_RETRIES) None w in
  (r = Err (SystemExit 1) ∨ ∃ body, r = Ok (Some (200%Z, body))) ∧
  ∃ k, (1 ≤ k ≤ 3)%nat ∧ w_clock w' = (w_clock w + k)%nat ∧
    w_sleeps w' = w_sleeps w ++ take (k - 1) RETRY_DELAYS ∧ w_fs w' = w_fs w.
Proof.
  rewrite seqZ_retries.
  destruct (attempt_loop_cases url 0 [1; 2]%Z None w 1) as [[b ->]|[->|[r1 ->]]];
    [done|done| |split; [by left|exists 1%nat; simpl; rewrite ?app_nil_r; split_and!; done || lia]|].
  { split; [by eauto|exists 1%nat; simpl; rewrite ?app_nil_r; split_and!; done || lia]. }
  destruct (attempt_loop_cases url 1 [2]%Z r1 (after w 1) 2) as [[b ->]|[->|[r2 ->]]];
    [done|done| |split; [by left|exists 2%nat; simpl; split_and!; done || lia]|].
  { split; [by eauto|exists 2%nat; simpl; split_and!; done || lia]. }
  destruct (attempt_loop_last_cases url 2 [] r2 (after (after w 1) 2)) as [[b ->]| ->]; [done| |].
  - split; [by eauto|exists 3%nat; simpl; rewrite <- app_assoc; split_and!; done || lia].
  - split; [by left|exists 3%nat; simpl; rewrite <- app_assoc; split_and!; done || lia].
Qed.

(** ** The pagination loop *)

(** One iteration of the [while url] loop: [inl] when it breaks (with the
    rows it returns), [inr] with the next URL and the rows so far. *)
Definition page_step (limit : option Z) (url : json) (all_rows : list json)
    : M (list json + json * list json) :=
  response ← attempt_loop url (seqZ 0 MAX_RETRIES) None;
  data ← lift (response_json response);
  rows ← lift (get data "results" (JArr []));
  if negb (truthy rows) then mret (inl all_rows) else
  items ← lift (py_iter rows);
  let all_rows' := all_rows ++ items in
  if limit_reached limit (length all_rows')
  then mret (inl (slice_to all_rows' (default 0%Z limit)))
  else (next ← lift (get data "next" JNull); mret (inr (next, all_rows'))).

Lemma page_loop_unfold fuel limit url acc w :
  truthy url = true →
  page_loop (S fuel) limit url acc w =
    match page_step limit url acc w with
    | (Ok (inl r), w') => (Ok r, w')
    | (Ok (inr (next, acc')), w') => page_loop fuel limit next acc' w'
    | (Err e, w') => (Err e, w')
    end.
Proof.
  intros Hu. cbn [page_loop]. rewrite Hu. cbn [negb].
  unfold page_step, mbind, pym_bind, lift, mret, pym_ret.
  destruct (attempt_loop url (seqZ 0 MAX_RETRIES) None w) as [[r|e] w1]; simpl; [|done].
  destruct (response_json r) as [data|]; [|done].
  destruct (get data "results" (JArr [])) as [rows|]; [|done].
  destruct (truthy rows); [|done]. simpl.
  destruct (py_iter rows) as [items|]; [|done].
  destruct (limit_reached limit (length (acc ++ items))); [done|].
  by destruct (get data "next" JNull).
Qed.

Lemma page_loop_falsy fuel limit url acc w :
  truthy url = false → page_loop fuel limit url acc w = (Ok acc, w).
Proof. intros Hu. destruct fuel; simpl; by rewrite Hu. Qed.

(** A page served with status 200. *)
Definition ok_page (p : list json) (next : json) : outcome :=
  Response 200 (Some (JObj [("results", JArr p); ("next", next)])).

Lemma page_step_ok limit url acc w p next :
  net (w_clock w) (req url) = ok_page p next →
  page_step limit url acc w =
    (Ok (if bool_decide (p = []) then inl acc
         else if limit_reached limit (length (acc ++ p))
              then inl (slice_to (acc ++ p) (default 0%Z limit))
              else inr (next, acc ++ p)), tick w).
Proof.
  intros Hn. unfold page_step. rewrite pym_bind_run, seqZ_retries.
  rewrite (attempt_loop_ok _ _ _ _ _ _ Hn).
  unfold mbind, pym_bind, lift, mret, pym_ret. simpl.
  destruct (bool_decide (p = [])); simpl; [done|].
  by destruct (limit_reached limit (length (acc ++ p))).
Qed.

(** A finite chain of pages the server serves at the first attempt, each
    request one clock tick after the previous one: [serves c url ps n]
    says that from clock [c] the chain starting at [url] yields the
    non-empty pages [ps] in [n] requests (the last one may be an empty
    page, which stops the loop). *)
Inductive serves : nat → json → list (list json) → nat → Prop :=
| serves_empty c url next :
    truthy url = true → net c (req url) = ok_page [] next → serves c url [] 1
| serves_last c url p next :
    truthy url = true → p ≠ [] → net c (req url) = ok_page p next → truthy next = false →
    serves c url [p] 1
| serves_next c url p next ps n :
    truthy url = true → p ≠ [] → net c (req url) = ok_page p next →
    serves (S c) next ps n → serves c url (p :: ps) (S n).

Lemma page_loop_serves_acc c url ps n fuel acc w :
  serves c url ps n → w_clock w = c → (n ≤ fuel)%nat →
  page_loop fuel None url acc w =
    (Ok (acc ++ concat ps), {| w_clock := c + n; w_sleeps := w_sleeps w; w_fs := w_fs w |}).
Proof.
  intros Hs. revert fuel acc w.
  induction Hs as [c url next Hu Hn|c url p next Hu Hp Hn Hnx|c url p next ps n Hu Hp Hn Hs IH];
    intros fuel acc w Hc Hf; (destruct fuel as [|fuel]; [lia|]); subst c;
    rewrite page_loop_unfold by done; rewrite (page_step_ok _ _ _ _ _ _ Hn).
  - simpl. rewrite app_nil_r. f_equal. apply world_eq; simpl; [lia|done|done].
  - rewrite bool_decide_false by done. simpl. rewrite page_loop_falsy by done.
    rewrite app_nil_r. f_equal. apply world_eq; simpl; [lia|done|done].
  - rewrite bool_decide_false by done. simpl.
    rewrite (IH fuel (acc ++ p) (tick w)); [|done|lia].
    rewrite app_assoc. f_equal. apply world_eq; simpl; [lia|done|done].
Qed.

Lemma limit_reached_pos l n :
  (0 < l)%Z → limit_reached (Some l) n = Z.leb l (Z.of_nat n).
Proof. intros Hl. simpl. by rewrite (proj2 (Z.eqb_neq l 0)) by lia. Qed.

(** The number of pages the loop requests under a positive [limit] when
    [acc] rows are already collected: up to the first page that brings the
    total to [limit] ([None] when no page of [ps] does, and the chain is
    then followed to its end). *)
Fixpoint limit_pages (l : Z) (acc : nat) (ps : list (list json)) : option nat :=
  match ps with
  | [] => None
  | p :: ps' => if (l <=? Z.of_nat (acc + length p))%Z then Some 1%nat
                else S <$> limit_pages l (acc + length p) ps'
  end.

Lemma page_loop_serves_limit_acc c url ps n fuel acc w l :
  serves c url ps n → w_clock w = c → (n ≤ fuel)%nat → (0 < l)%Z →
  (Z.of_nat (length acc) < l)%Z →
  page_loop fuel (Some l) url acc w =
    (Ok (take (Z.to_nat l) (acc ++ concat ps)),
     {| w_clock := c + default n (limit_pages l (length acc) ps);
        w_sleeps := w_sleeps w; w_fs := w_fs w |}).
Proof.
  intros Hs. revert fuel acc w.
  induction Hs as [c url next Hu Hn|c url p next Hu Hp Hn Hnx|c url p next ps n Hu Hp Hn Hs IH];
    intros fuel acc w Hc Hf Hl Hacc; (destruct fuel as [|fuel]; [lia|]); subst c;
    rewrite page_loop_unfold by done; rewrite (page_step_ok _ _ _ _ _ _ Hn).
  - simpl. rewrite app_nil_r, take_ge by lia. f_equal. apply world_eq; simpl; (lia || done).
  - rewrite bool_decide_false by done. rewrite limit_reached_pos by done.
    simpl. rewrite app_nil_r, <- length_app. destruct (Z.leb_spec l (Z.of_nat (length (acc ++ p)))).
    + rewrite slice_to_nonneg by lia. f_equal. apply world_eq; simpl; (lia || done).
    + rewrite page_loop_falsy by done. rewrite take_ge by lia. f_equal.
      apply world_eq; simpl; (lia || done).
  - rewrite bool_decide_false by done. rewrite limit_reached_pos by done. simpl.
    rewrite <- length_app. destruct (Z.leb_spec l (Z.of_nat (length (acc ++ p)))).
    + rewrite slice_to_nonneg by lia.
      rewrite app_assoc, (take_app_le (acc ++ p) (concat ps)) by lia. f_equal.
      apply world_eq; simpl; (lia || done).
    + rewrite (IH fuel (acc ++ p) (tick w)) by (simpl; lia). rewrite app_assoc.
      f_equal. apply world_eq; [|done|done]. simpl.
      destruct (limit_pages l (length (acc ++ p)) ps); simpl; lia.
Qed.

(** A limit of 0 is falsy: the loop runs as with no limit. *)
Lemma page_step_limit_zero url acc : page_step (Some 0%Z) url acc = page_step None url acc.
Proof. reflexivity. Qed.

Lemma page_loop_limit_zero_acc fuel url acc w :
  page_loop fuel (Some 0%Z) url acc w = page_loop fuel None url acc w.
Proof.
  revert url acc w. induction fuel as [|fuel IH]; intros url acc w.
  - destruct (truthy url) eqn:Hu; [done|by rewrite !page_loop_falsy].
  - destruct (truthy url) eqn:Hu; [|by rewrite !page_loop_falsy].
    rewrite !page_loop_unfold by done. rewrite page_step_limit_zero.
    destruct (page_step None url acc w) as [[[r|[next acc']]|e] w']; auto.
Qed.

Lemma page_loop_fuel_mono fuel fuel' limit url acc w r w' :
  page_loop fuel limit url acc w = (r, w') → r ≠ Err OutOfFuel → (fuel ≤ fuel')%nat →
  page_loop fuel' limit url acc w = (r, w').
Proof.
  revert fuel' url acc w. induction fuel as [|fuel IH]; intros fuel' url acc w Hrun Hr Hle.
  - destruct (truthy url) eqn:Hu; [|by rewrite page_loop_falsy in Hrun |- *].
    cbn [page_loop] in Hrun. rewrite Hu in Hrun. by injection Hrun as <- <-.
  - destruct (truthy url) eqn:Hu; [|by rewrite page_loop_falsy in Hrun |- *].
    destruct fuel' as [|fuel']; [lia|].
    rewrite page_loop_unfold in Hrun |- * by done.
    destruct (page_step limit url acc w) as [[[r1|[next acc']]|e] w1]; [done| |done].
    apply IH; [done|done|lia].
Qed.

(** C7. Pagination: when the server serves a finite chain of pages from
    the table's first URL, [fetch_table_with_pagination] with no limit
    follows the [next] links to the end and returns exactly the
    concatenation of the pages, in order (no row dropped or duplicated),
    after one request per page and without sleeping; fuel equal to the
    number of requests is enough, so the loop terminates. *)
Theorem fetch_table_serves fuel table_id ps n w :
  serves (w_clock w) (table_url table_id) ps n → (n ≤ fuel)%nat →
  fetch_table_with_pagination fuel table_id None w =
    (Ok (concat ps), {| w_clock := w_clock w + n; w_sleeps := w_sleeps w; w_fs := w_fs w |}).
Proof.
  intros Hs Hf. unfold fetch_table_with_pagination.
  by rewrite (page_loop_serves_acc _ _ _ _ _ [] w Hs eq_refl Hf).
Qed.

(** C29. Row limit: with a positive [limit], the fetch returns exactly the
    first [limit] rows of the pages served (all of them if there are
    fewer), and stops requesting at the first page that brings the rows to
    the limit ([limit_pages]; the whole chain when none does), without
    sleeping or touching the files. *)
Theorem fetch_table_limit fuel table_id ps n w l :
  serves (w_clock w) (table_url table_id) ps n → (n ≤ fuel)%nat → (0 < l)%Z →
  fetch_table_with_pagination fuel table_id (Some l) w =
    (Ok (take (Z.to_nat l) (concat ps)),
     {| w_clock := w_clock w + default n (limit_pages l 0 ps);
        w_sleeps := w_sleeps w; w_fs := w_fs w |}).
Proof.
  intros Hs Hf Hl. unfold fetch_table_with_pagination.
  apply (page_loop_serves_limit_acc _ _ _ _ _ [] w l Hs); simpl; lia.
Qed.

(** C30. A row limit of 0 is ignored ([if limit and ...] tests its
    truthiness): the fetch behaves exactly as with no limit. *)
Theorem fetch_table_limit_zero fuel table_id w :
  fetch_table_with_pagination fuel table_id (Some 0%Z) w =
  fetch_table_with_pagination fuel table_id None w.
Proof. apply page_loop_limit_zero_acc. Qed.

(** Fuel is only a bound: a fetch that returns (or raises a Python
    exception) with some fuel returns the same, in the same world, with
    any larger fuel. *)
Theorem fetch_table_fuel_mono fuel fuel' table_id limit w r w' :
  fetch_table_with_pagination fuel table_id limit w = (r, w') → r ≠ Err OutOfFuel →
  (fuel ≤ fuel')%nat →
  fetch_table_with_pagination fuel' table_id limit w = (r, w').
Proof. apply page_loop_fuel_mono. Qed.

(** ** Effects on the file system *)

(** A computation that leaves the file system alone. *)
Definition fs_preserving {A} (m : M A) : Prop := ∀ w, w_fs (m w).2 = w_fs w.

Lemma fs_pres_bind {A B} (m : M A) (f : A → M B) :
  fs_preserving m → (∀ a, fs_preserving (f a)) → fs_preserving (m ≫= f).
Proof.
  intros Hm Hf w. rewrite pym_bind_run. specialize (Hm w).
  destruct (m w) as [[a|e] w1]; simpl in *; [by rewrite Hf|done].
Qed.

Lemma fs_pres_ret {A} (a : A) : fs_preserving (mret a : M A).
Proof. done. Qed.
Lemma fs_pres_raise {A} e : fs_preserving (raise e : M A).
Proof. done. Qed.
Lemma fs_pres_lift {A} (r : res A) : fs_preserving (lift r : M A).
Proof. done. Qed.
Lemma fs_pres_http url : fs_preserving (http_get url).
Proof. done. Qed.
Lemma fs_pres_sleep d : fs_preserving (sleep d).
Proof. done. Qed.

Create HintDb fs_pres.
#[local] Hint Resolve fs_pres_ret fs_pres_raise fs_pres_lift fs_pres_http fs_pres_sleep : fs_pres.

Ltac fs_pres :=
  repeat (intros; first [ apply fs_pres_bind | solve [eauto with fs_pres] | case_match ]).

Lemma attempt_loop_fs url atts resp : fs_preserving (attempt_loop url atts resp).
Proof.
  revert resp. induction atts as [|a atts IH]; intros resp; simpl; [fs_pres|].
  unfold backoff. fs_pres; apply IH.
Qed.

Lemma page_step_fs limit url acc : fs_preserving (page_step limit url acc).
Proof. unfold page_step. fs_pres; apply attempt_loop_fs. Qed.

Lemma page_loop_fs fuel limit url acc : fs_preserving (page_loop fuel limit url acc).
Proof.
  revert url acc. induction fuel as [|fuel IH]; intros url acc w.
  - destruct (truthy url) eqn:Hu; [|by rewrite page_loop_falsy].
    unfold fs_preserving. cbn [page_loop]. by rewrite Hu.
  - destruct (truthy url) eqn:Hu; [|by rewrite page_loop_falsy].
    rewrite page_loop_unfold by done. pose proof (page_step_fs limit url acc w) as Hs.
    destruct (page_step limit url acc w) as [[[r|[next acc']]|e] w1]; simpl in *;
      [done| |done]. by rewrite IH.
Qed.

(** ** The run of [main] *)

Lemma table_url_truthy table_id : truthy (table_url table_id) = true.
Proof. unfold table_url. by destruct (BASEROW_BASE_URL cfg). Qed.

Lemma page_step_Err limit url acc w e w' :
  attempt_loop url (seqZ 0 MAX_RETRIES) None w = (Err e, w') →
  page_step limit url acc w = (Err e, w').
Proof. intros Ha. unfold page_step. by rewrite pym_bind_run, Ha. Qed.

(** Without a token, [main] raises [SystemExit 1] before anything
    else: no request, no sleep, no directory, no file. *)
Theorem main_no_token fuel w :
  BASEROW_TOKEN cfg = "" → main fuel w = (Err (SystemExit 1), w).
Proof. intros Ht. unfold main, validate_config. rewrite Ht. reflexivity. Qed.

(** C9. If the server answers every request with a transient failure,
    the first table exhausts its retries and [sys.exit(1)] ends the whole
    run after exactly three requests: [except Exception] does not catch
    [SystemExit], so the remaining tables are never fetched and no
    snapshot is written (the spec says the driver goes on with the other
    tables). *)
Theorem main_server_down fuel w :
  BASEROW_TOKEN cfg ≠ "" → (∀ c r, transient (net c r)) → (0 < fuel)%nat →
  main fuel w =
    (Err (SystemExit 1),
     {| w_clock := w_clock w + 3; w_sleeps := w_sleeps w ++ [1; 2]%Z;
        w_fs := fs_mkdir (BASEROW_OUTPUT_DIR cfg) (w_fs w) |}).
Proof.
  intros Ht Hnet Hf. destruct fuel as [|fuel]; [lia|].
  unfold main, validate_config. rewrite (proj2 (String.eqb_neq _ _) Ht).
  rewrite !pym_bind_run. unfold ensure_output_directory, modify. simpl.
  unfold fetch_one, fetch_table_with_pagination. rewrite !pym_bind_run.
  erewrite (try_except_uncaught _ _ _ _ (SystemExit 1)); [reflexivity| |done].
  rewrite pym_bind_run, page_loop_unfold by apply table_url_truthy.
  rewrite (page_step_Err _ _ _ _ _ _ (attempt_loop_exhausted _ _ (fun i _ => Hnet _ _))).
  reflexivity.
Qed.

(** What [main]'s summary says about the snapshot file of a table: a
    table reported with [n] rows has a file of [n] rows; a failed table
    (a caught exception) has the file it had before the run. *)
Definition file_contract (fs0 fs1 : FS) (name : string) (st : table_status) : Prop :=
  match st with
  | TableOk n => ∃ rows, length rows = n ∧ fs_read fs1 (output_file name) = Some (JArr rows)
  | TableFailed e => is_Exception e = true ∧ fs_read fs1 (output_file name) = fs_read fs0 (output_file name)
  end.

Context `{!FileSystemLaws FS}.

Lemma fetch_one_spec fuel name id w r w' :
  fetch_one fuel name id w = (r, w') → fs_isdir (w_fs w) (BASEROW_OUTPUT_DIR cfg) = true →
  (∃ rows, r = Ok (TableOk (length rows)) ∧
           w_fs w' = fs_write (output_file name) (JArr rows) (w_fs w)) ∨
  (∃ e, r = Ok (TableFailed e) ∧ is_Exception e = true ∧ w_fs w' = w_fs w) ∨
  (∃ e, r = Err e ∧ w_fs w' = w_fs w).
Proof.
  intros Hrun Hdir. unfold fetch_one, try_except in Hrun. rewrite pym_bind_run in Hrun.
  unfold fetch_table_with_pagination in Hrun.
  pose proof (page_loop_fs fuel None (table_url id) [] w) as Hfs.
  destruct (page_loop fuel None (table_url id) [] w) as [[rows|e] w1]; simpl in Hfs.
  - unfold export_to_json in Hrun. rewrite pym_bind_run in Hrun. cbv beta in Hrun.
    rewrite Hfs, Hdir in Hrun.
    injection Hrun as <- <-. left. by exists rows.
  - destruct (is_Exception e) eqn:He; injection Hrun as <- <-; right; [left|right]; eauto.
Qed.

Lemma fetch_one_isdir fuel name id w r w' d :
  fetch_one fuel name id w = (r, w') → fs_isdir (w_fs w) (BASEROW_OUTPUT_DIR cfg) = true →
  fs_isdir (w_fs w') d = fs_isdir (w_fs w) d.
Proof.
  intros Hrun Hdir.
  destruct (fetch_one_spec _ _ _ _ _ _ Hrun Hdir) as [(rows & _ & ->)|[(e & _ & _ & ->)|(e & _ & ->)]];
    [apply fs_isdir_write|done|done].
Qed.

Lemma output_files_elem (rest : list (string * table_status)) (tables : list (string * Z)) e :
  rest.*1 = tables.*1 → e ∈ rest → output_file e.1 ∈ (λ t, output_file t.1) <$> tables.
Proof.
  intros Hfst He. assert (e.1 ∈ tables.*1) as (t & Ht & Hin)%list_elem_of_fmap.
  { rewrite <- Hfst. by apply list_elem_of_fmap_2. }
  apply list_elem_of_fmap. exists t. by rewrite Ht.
Qed.

(** The entries of the rest of the run keep their contract when the
    base file system differs only on a file that is not theirs. *)
Lemma contracts_rebase (rest : list (string * table_status)) (tables : list (string * Z))
    fs0 fs0' fs1 :
  rest.*1 = tables.*1 →
  (∀ p, p ∈ (λ t, output_file t.1) <$> tables → fs_read fs0' p = fs_read fs0 p) →
  Forall (λ e, file_contract fs0' fs1 e.1 e.2) rest →
  Forall (λ e, file_contract fs0 fs1 e.1 e.2) rest.
Proof.
  intros Hfst Hsame Hall. rewrite Forall_forall in Hall |- *. intros [n st] He.
  specialize (Hall _ He). destruct st; simpl in *; [done|].
  destruct Hall as [? ->]. split; [done|]. apply Hsame.
  apply (output_files_elem rest tables (n, TableFailed e)); done.
Qed.

Lemma fetch_all_spec fuel tables summ w summary w' :
  fetch_all fuel tables summ w = (Ok summary, w') →
  fs_isdir (w_fs w) (BASEROW_OUTPUT_DIR cfg) = true →
  NoDup ((λ t, output_file t.1) <$> tables) →
  ∃ rest, summary = summ ++ rest ∧ rest.*1 = tables.*1 ∧
    Forall (λ e, file_contract (w_fs w) (w_fs w') e.1 e.2) rest ∧
    ∀ p, p ∉ (λ t, output_file t.1) <$> tables → fs_read (w_fs w') p = fs_read (w_fs w) p.
Proof.
  revert summ w. induction tables as [|[name id] tables IH]; intros summ w Hrun Hdir Hnd.
  - injection Hrun as <- <-. exists []. rewrite app_nil_r. split_and!; auto.
  - simpl in Hrun. rewrite pym_bind_run in Hrun.
    destruct (fetch_one fuel name id w) as [r w1] eqn:Hone.
    pose proof (fetch_one_isdir _ _ _ _ _ _ (BASEROW_OUTPUT_DIR cfg) Hone Hdir) as Hdir1.
    rewrite fmap_cons in Hnd. apply NoDup_cons in Hnd as [Hnin Hnd]. simpl in Hnin.
    destruct (fetch_one_spec _ _ _ _ _ _ Hone Hdir)
      as [(rows & -> & Hw1)|[(e & -> & He & Hw1)|(e & -> & _)]]; [| |done].
    + destruct (IH _ _ Hrun ltac:(congruence) Hnd) as (rest & -> & Hfst & Hall & Hother).
      exists ((name, TableOk (length rows)) :: rest). rewrite <- app_assoc.
      split_and!; [done|simpl; by f_equal| |].
      * constructor.
        -- exists rows. split; [done|]. cbn [fst].
           rewrite Hother; [rewrite Hw1; apply fs_read_write_eq|done].
        -- apply (contracts_rebase rest tables _ (w_fs w1)); [done| |done].
           intros p Hp. rewrite Hw1. apply fs_read_write_ne. intros <-. contradiction.
      * intros p Hp. rewrite fmap_cons, elem_of_cons in Hp. rewrite Hother by tauto.
        rewrite Hw1. apply fs_read_write_ne. intros <-. tauto.
    + destruct (IH _ _ Hrun ltac:(congruence) Hnd) as (rest & -> & Hfst & Hall & Hother).
      exists ((name, TableFailed e) :: rest). rewrite <- app_assoc.
      split_and!; [done|simpl; by f_equal| |].
      * constructor; [split; [done|]; cbn [fst]; rewrite Hother; [by rewrite Hw1|done]|].
        by rewrite <- Hw1.
      * intros p Hp. rewrite fmap_cons, elem_of_cons in Hp. rewrite Hother by tauto.
        by rewrite Hw1.
Qed.

Lemma output_file_inj a b : output_file a = output_file b → a +:+ ".json" = b +:+ ".json".
Proof. apply path_join_inj. Qed.

(** The three tables of [TABLES] have three different snapshot files. *)
Lemma TABLES_output_files_NoDup : NoDup ((λ t, output_file t.1) <$> TABLES).
Proof.
  apply NoDup_fmap_2_strong; [|by apply NoDup_ListNoDup; vm_compute; repeat constructor; simpl; intuition congruence].
  intros x y Hx Hy Heq%output_file_inj.
  repeat (apply elem_of_cons in Hx as [->|Hx] || apply elem_of_cons in Hy as [->|Hy]);
    try (by apply not_elem_of_nil in Hx || by apply not_elem_of_nil in Hy);
    vm_compute in Heq; congruence.
Qed.

(** What a run of [main] that returns leaves on disk, for the hand-off to
    the Denormalizer. *)
Lemma main_contract fuel w summary w' :
  main fuel w = (Ok summary, w') →
  summary.*1 = TABLES.*1 ∧
  Forall (λ e, file_contract (w_fs w) (w_fs w') e.1 e.2) summary.
Proof.
  intros Hrun. unfold main, validate_config in Hrun.
  destruct (String.eqb (BASEROW_TOKEN cfg) ""); [discriminate|].
  rewrite !pym_bind_run in Hrun. unfold ensure_output_directory, modify in Hrun.
  destruct (fetch_all_spec _ _ _ _ _ _ Hrun (fs_isdir_mkdir _ _) TABLES_output_files_NoDup)
    as (rest & -> & Hfst & Hall & _).
  split; [done|]. eapply contracts_rebase; [done| |exact Hall].
  intros p _. apply fs_read_mkdir.
Qed.

(** One table served as a finite chain of pages: [fetch_one] writes
    their concatenation to the table's snapshot file and reports its
    length. *)
Lemma fetch_one_serves fuel name id ps n w :
  serves (w_clock w) (table_url id) ps n → (n ≤ fuel)%nat →
  fs_isdir (w_fs w) (BASEROW_OUTPUT_DIR cfg) = true →
  fetch_one fuel name id w =
    (Ok (TableOk (length (concat ps))),
     {| w_clock := w_clock w + n; w_sleeps := w_sleeps w;
        w_fs := fs_write (output_file name) (JArr (concat ps)) (w_fs w) |}).
Proof.
  intros Hs Hf Hd. unfold fetch_one. apply try_except_Ok.
  rewrite pym_bind_run. unfold fetch_table_with_pagination.
  rewrite (page_loop_serves_acc _ _ _ _ _ [] w Hs eq_refl Hf), pym_bind_run.
  unfold export_to_json. simpl. by rewrite Hd.
Qed.

(** A run of [main] in which the server serves each of the three tables
    as a finite chain of pages, one table after the other: every table
    is fetched and its snapshot file holds the concatenation of its
    pages. *)
Lemma main_serves fuel w ps1 ps2 ps3 n1 n2 n3 :
  BASEROW_TOKEN cfg ≠ "" →
  serves (w_clock w) (table_url 813469) ps1 n1 →
  serves (w_clock w + n1) (table_url 813470) ps2 n2 →
  serves (w_clock w + n1 + n2) (table_url 813471) ps3 n3 →
  (n1 ≤ fuel)%nat → (n2 ≤ fuel)%nat → (n3 ≤ fuel)%nat →
  main fuel w =
    (Ok [("companies", TableOk (length (concat ps1))); ("tools", TableOk (length (concat ps2)));
         ("libraries", TableOk (length (concat ps3)))],
     {| w_clock := w_clock w + n1 + n2 + n3; w_sleeps := w_sleeps w;
        w_fs := fs_write (output_file "libraries") (JArr (concat ps3))
                 (fs_write (output_file "tools") (JArr (concat ps2))
                   (fs_write (output_file "companies") (JArr (concat ps1))
                     (fs_mkdir (BASEROW_OUTPUT_DIR cfg) (w_fs w)))) |}).
Proof.
  intros Ht H1 H2 H3 F1 F2 F3. unfold main, validate_config.
  rewrite (proj2 (String.eqb_neq _ _) Ht).
  unfold ensure_output_directory, modify. cbn [fetch_all TABLES].
  rewrite !pym_bind_run. cbv beta iota zeta delta [mret pym_ret].
  rewrite pym_bind_run. cbv beta iota.
  rewrite pym_bind_run, (fetch_one_serves _ _ _ ps1 n1) by (simpl; done || apply fs_isdir_mkdir).
  cbv beta iota.
  rewrite pym_bind_run, (fetch_one_serves _ _ _ ps2 n2)
    by (simpl; done || by rewrite fs_isdir_write, fs_isdir_mkdir).
  cbv beta iota.
  rewrite pym_bind_run, (fetch_one_serves _ _ _ ps3 n3)
    by (simpl; done || by rewrite !fs_isdir_write, fs_isdir_mkdir).
  done.
Qed.

(** C8. The summary of a run of [main] that returns names the tables of
    [TABLES] in order, and is true of the snapshot files: a table
    reported with [n] rows has a file of exactly [n] rows written by this
    run; a table reported failed (an exception caught by
    [except Exception]) keeps the file it had before the run, possibly a
    stale snapshot of an earlier run. *)
Theorem main_file_contract fuel w summary w' :
  main fuel w = (Ok summary, w') →
  summary.*1 = TABLES.*1 ∧
  Forall (λ e, file_contract (w_fs w) (w_fs w') e.1 e.2) summary.
Proof. apply main_contract. Qed.

End Fetcher.

(** ** Witnesses *)

Module Examples.
Definition ex_cfg : Config :=
  {| BASEROW_TOKEN := "tok"; BASEROW_BASE_URL := "https://api.baserow.io";
     BASEROW_PAGE_SIZE := 2; BASEROW_OUTPUT_DIR := "data/snapshots" |}.

(** Two pages, then nothing. *)
Definition ex_net (c : nat) (r : request) : outcome :=
  match c with
  | 0 => ok_page [JInt 1; JInt 2] (JStr "https://api.baserow.io/page2")
  | 1 => ok_page [JInt 3] JNull
  | _ => Response 404 None
  end.

(** A 503, a transport failure, then a 200. *)
Definition ex_flaky (c : nat) (r : request) : outcome :=
  match c with
  | 0 => Response 503 None
  | 1 => Transport
  | _ => ok_page [JInt 1] JNull
  end.

Definition ex_w0 : World Disk :=
  {| w_clock := 0; w_sleeps := []; w_fs := {| disk_files := ∅; disk_dirs := ∅ |} |}.
End Examples.
Import Examples.

Lemma attempt_loop_retry_success_witness :
  attempt_loop ex_flaky ex_cfg (JStr "u") (seqZ 0 MAX_RETRIES) None ex_w0 =
    (Ok (Some (200%Z, Some (JObj [("results", JArr [JInt 1]); ("next", JNull)]))),
     {| w_clock := 0 + 3; w_sleeps := [] ++ take 2 RETRY_DELAYS; w_fs := w_fs ex_w0 |}).
Proof.
  apply (attempt_loop_retry_success ex_flaky ex_cfg (JStr "u") ex_w0 2); [lia| |reflexivity].
  intros i Hi. destruct i as [|[|i]]; [right; by do 2 eexists|left; done|lia].
Defined.

Lemma attempt_loop_exhausted_witness :
  attempt_loop (λ _ _, Response 503 None) ex_cfg (JStr "u") (seqZ 0 MAX_RETRIES) None ex_w0 =
    (Err (SystemExit 1), {| w_clock := 0 + 3; w_sleeps := [] ++ [1; 2]%Z; w_fs := w_fs ex_w0 |}).
Proof.
  apply attempt_loop_exhausted. intros i _. right. by do 2 eexists.
Defined.

Lemma attempt_loop_fatal_status_witness :
  attempt_loop (λ c _, if decide (c = 0) then Transport else Response 404 None) ex_cfg
    (JStr "u") (seqZ 0 MAX_RETRIES) None ex_w0 =
    (Err (SystemExit 1),
     {| w_clock := 0 + 2; w_sleeps := [] ++ take 1 RETRY_DELAYS; w_fs := w_fs ex_w0 |}).
Proof.
  apply (attempt_loop_fatal_status _ ex_cfg (JStr "u") ex_w0 1 404 None);
    [lia| |reflexivity|done|reflexivity].
  intros i Hi. destruct i as [|i]; [left; done|lia].
Defined.

Lemma fetch_table_serves_witness :
  fetch_table_with_pagination ex_net ex_cfg 2 813469 None ex_w0 =
    (Ok (concat [[JInt 1; JInt 2]; [JInt 3]]),
     {| w_clock := 0 + 2; w_sleeps := []; w_fs := w_fs ex_w0 |}).
Proof.
  apply fetch_table_serves; [|lia].
  eapply serves_next; [done|done|reflexivity|].
  eapply serves_last; [done|done|reflexivity|done].
Defined.

(** Two pages of two and one rows, a limit of 1: one request. *)
Lemma fetch_table_limit_witness :
  fetch_table_with_pagination ex_net ex_cfg 2 813469 (Some 1%Z) ex_w0 =
    (Ok [JInt 1], {| w_clock := 0 + 1; w_sleeps := w_sleeps ex_w0; w_fs := w_fs ex_w0 |}).
Proof.
  apply (fetch_table_limit ex_net ex_cfg 2 813469 [[JInt 1; JInt 2]; [JInt 3]] 2); [|lia|lia].
  eapply serves_next; [done|done|reflexivity|].
  eapply serves_last; [done|done|reflexivity|done].
Defined.

Lemma fetch_table_fuel_mono_witness :
  fetch_table_with_pagination ex_net ex_cfg 10 813469 None ex_w0 =
    (Ok [JInt 1; JInt 2; JInt 3], {| w_clock := 2; w_sleeps := []; w_fs := w_fs ex_w0 |}).
Proof.
  apply (fetch_table_fuel_mono ex_net ex_cfg 2); [reflexivity|done|lia].
Defined.

Lemma main_no_token_witness :
  main ex_net {| BASEROW_TOKEN := ""; BASEROW_BASE_URL := "https://api.baserow.io";
                 BASEROW_PAGE_SIZE := 2; BASEROW_OUTPUT_DIR := "data/snapshots" |} 5 ex_w0 =
    (Err (SystemExit 1), ex_w0).
Proof. apply main_no_token. reflexivity. Defined.

Lemma main_server_down_witness :
  main (λ _ _, Response 503 None) ex_cfg 5 ex_w0 =
    (Err (SystemExit 1),
     {| w_clock := 0 + 3; w_sleeps := [] ++ [1; 2]%Z;
        w_fs := fs_mkdir "data/snapshots" (w_fs ex_w0) |}).
Proof.
  apply main_server_down; [done| |lia]. intros c r. right. by do 2 eexists.
Defined.

Lemma main_file_contract_witness :
  ∃ summary w', main (λ _ _, ok_page [JInt 1] JNull) ex_cfg 5 ex_w0 = (Ok summary, w') ∧
    summary.*1 = TABLES.*1 ∧
    Forall (λ e, file_contract ex_cfg (w_fs ex_w0) (w_fs w') e.1 e.2) summary.
Proof.
  eexists _, _. split; [reflexivity|]. apply (main_file_contract (λ _ _, ok_page [JInt 1] JNull) ex_cfg 5 ex_w0). reflexivity.
Defined.

End Fetcher.
