(* ===== verification/JsonText.v ===== *)
(** * JSON text: [json.dump(..., indent=2, ensure_ascii=False)] and [json.load]

    Both scripts write every file with
    [json.dump(v, f, indent=2, ensure_ascii=False)] (the Fetcher's
    [export_to_json], lines 148-155, and the six writes of the
    Denormalizer's [main], lines 214-238) and read the snapshots back with
    [json.load] ([load_snapshots], lines 12-25).  This file models the
    text of a file:

    - [dump lvl v] is the text the pure-Python encoder of [json.encoder]
      produces with [indent=2] ([_make_iterencode]: a newline and two
      spaces per level before each item, [','] after every item but the
      last, [': '] between a key and its value, ["[]"] and ["{}"] for
      empty containers), strings escaped as [py_encode_basestring] does
      ([ensure_ascii=False]: only the double quote, the backslash and the
      control characters are escaped);
    - [scan_value] is the scanner of the C accelerator [_json.c]
      ([scan_once_unicode], [_parse_array_unicode],
      [_parse_object_unicode], [scanstring_unicode], [_match_number_unicode])
      and [loads] is [JSONDecoder.decode] (whitespace around one value,
      ["Extra data"] otherwise, a leading BOM rejected).

    Text is a byte string (UTF-8): [\uXXXX] escapes are decoded into the
    UTF-8 bytes of the code point (a lone surrogate, which Python keeps in
    a [str], gets the three bytes of its code point).  Floats are a
    parameter: [float_of] is [float()] on a number lexeme and [float_repr]
    is [float.__repr__] (IEEE rounding is not modelled).  [NaN],
    [Infinity] and [-Infinity], which [json.load] turns into non-finite
    floats, have no value in [json] and are reported as [NonFinite].
    Python's recursion limit on nesting and its 4300-digit limit on
    int/str conversion are not modelled. *)

From S2P Require Import Prelude Json PyDict.
From Stdlib Require Import Ascii QArith_base.
Local Open Scope nat_scope.

Module JsonText.

(** ** Characters *)

Definition code (c : ascii) : nat := nat_of_ascii c.
Definition chr (n : nat) : ascii := ascii_of_nat n.

Definition dq : ascii := chr 34.
Definition bs : ascii := chr 92.
Definition nl : ascii := chr 10.

Definition is_ws (c : ascii) : bool :=
  match code c with 32 | 9 | 10 | 13 => true | _ => false end.

Definition is_digit (c : ascii) : bool := (48 <=? code c)%nat && (code c <=? 57)%nat.

(** ** The encoder *)

Definition hexdig (n : nat) : ascii := if (n <? 10)%nat then chr (48 + n) else chr (87 + n).

(** [ESCAPE_DCT] of [json.encoder]: the escape of one character. *)
Definition escape_char (c : ascii) : string :=
  match code c with
  | 34 => String bs (String dq EmptyString)
  | 92 => String bs (String bs EmptyString)
  | 8 => String bs "b"
  | 12 => String bs "f"
  | 10 => String bs "n"
  | 13 => String bs "r"
  | 9 => String bs "t"
  | n => if (n <? 32)%nat
         then String bs ("u00" +:+ String (hexdig (n / 16)) (String (hexdig (n mod 16)) EmptyString))
         else String c EmptyString
  end.

Fixpoint escape (s : string) : string :=
  match s with
  | EmptyString => EmptyString
  | String c s' => escape_char c +:+ escape s'
  end.

(** [py_encode_basestring]: the string between double quotes. *)
Definition quote (s : string) : string := String dq (escape s +:+ String dq EmptyString).

Fixpoint spaces (n : nat) : string :=
  match n with O => EmptyString | S n' => String " " (spaces n') end.

(** ['\n' + ' ' * (indent * level)] with [indent=2]. *)
Definition newline_indent (lvl : nat) : string := String nl (spaces (2 * lvl)).

(** [_iterencode] at nesting level [lvl]: ints by [int.__repr__], floats by
    their [repr] (finite floats only), lists and dicts item by item. *)
Fixpoint dump (lvl : nat) (v : json) : string :=
  match v with
  | JNull => "null"
  | JBool true => "true"
  | JBool false => "false"
  | JInt z => pretty z
  | JFloat _ r => r
  | JStr s => quote s
  | JArr [] => "[]"
  | JArr (x :: xs) =>
      "[" +:+ newline_indent (S lvl) +:+ dump (S lvl) x +:+
      (fix items (xs : list json) : string :=
         match xs with
         | [] => EmptyString
         | y :: ys => "," +:+ newline_indent (S lvl) +:+ dump (S lvl) y +:+ items ys
         end) xs +:+ newline_indent lvl +:+ "]"
  | JObj [] => "{}"
  | JObj ((k, x) :: kvs) =>
      "{" +:+ newline_indent (S lvl) +:+ quote k +:+ ": " +:+ dump (S lvl) x +:+
      (fix members (kvs : list (string * json)) : string :=
         match kvs with
         | [] => EmptyString
         | (k', y) :: kvs' =>
             "," +:+ newline_indent (S lvl) +:+ quote k' +:+ ": " +:+ dump (S lvl) y +:+
             members kvs'
         end) kvs +:+ newline_indent lvl +:+ "}"
  end.

(** [json.dump(v, f, indent=2, ensure_ascii=False)]: the whole file. *)
Definition dumps (v : json) : string := dump 0 v.

(** ** The scanner *)

Inductive scan_err := Malformed | NonFinite | NoFuel.

Fixpoint skip_ws (s : string) : string :=
  match s with
  | String c s' => if is_ws c then skip_ws s' else s
  | EmptyString => s
  end.

(** The short escapes of [scanstring_unicode]. *)
Definition short_escape (e : ascii) : option ascii :=
  match code e with
  | 34 => Some dq | 92 => Some bs | 47 => Some "/"%char
  | 98 => Some (chr 8) | 102 => Some (chr 12) | 110 => Some nl
  | 114 => Some (chr 13) | 116 => Some (chr 9)
  | _ => None
  end.

Definition hexval (c : ascii) : option nat :=
  let n := code c in
  if (48 <=? n)%nat && (n <=? 57)%nat then Some (n - 48)%nat
  else if (97 <=? n)%nat && (n <=? 102)%nat then Some (n - 87)%nat
  else if (65 <=? n)%nat && (n <=? 70)%nat then Some (n - 55)%nat
  else None.

Definition hex4 (a b c d : ascii) : option nat :=
  x1 ← hexval a; x2 ← hexval b; x3 ← hexval c; x4 ← hexval d;
  Some (((x1 * 16 + x2) * 16 + x3) * 16 + x4)%nat.

(** The UTF-8 bytes of a code point. *)
Definition utf8 (cp : nat) : string :=
  if (cp <? 128)%nat then String (chr cp) EmptyString
  else if (cp <? 2048)%nat then
    String (chr (192 + cp / 64)) (String (chr (128 + cp mod 64)) EmptyString)
  else if (cp <? 65536)%nat then
    String (chr (224 + cp / 4096))
      (String (chr (128 + (cp / 64) mod 64)) (String (chr (128 + cp mod 64)) EmptyString))
  else
    String (chr (240 + cp / 262144)) (String (chr (128 + (cp / 4096) mod 64))
      (String (chr (128 + (cp / 64) mod 64)) (String (chr (128 + cp mod 64)) EmptyString))).

Definition is_high (u : nat) : bool := (55296 <=? u)%nat && (u <=? 56319)%nat.
Definition is_low (u : nat) : bool := (56320 <=? u)%nat && (u <=? 57343)%nat.

Definition cons_str (p : string) (r : scan_err + (string * string)) : scan_err + (string * string) :=
  match r with inl e => inl e | inr (t, rest) => inr (p +:+ t, rest) end.

(** [scanstring_unicode] with [strict=True], after the opening quote: the
    decoded string and the text after the closing quote. *)
Fixpoint scan_string (s : string) : scan_err + (string * string) :=
  match s with
  | EmptyString => inl Malformed
  | String c s1 =>
      if Ascii.eqb c dq then inr (EmptyString, s1)
      else if Ascii.eqb c bs then
        match s1 with
        | EmptyString => inl Malformed
        | String e s2 =>
            match short_escape e with
            | Some d => cons_str (String d EmptyString) (scan_string s2)
            | None =>
                if negb (Ascii.eqb e "u") then inl Malformed else
                match s2 with
                | String h1 (String h2 (String h3 (String h4 s3))) =>
                    match hex4 h1 h2 h3 h4 with
                    | None => inl Malformed
                    | Some u =>
                        if is_high u then
                          match s3 with
                          | String b1 (String b2 (String k1 (String k2 (String k3 (String k4 s4))))) =>
                              if Ascii.eqb b1 bs && Ascii.eqb b2 "u" then
                                match hex4 k1 k2 k3 k4 with
                                | None => inl Malformed
                                | Some u2 =>
                                    if is_low u2
                                    then cons_str (utf8 (65536 + (u - 55296) * 1024 + (u2 - 56320)))
                                           (scan_string s4)
                                    else cons_str (utf8 u) (scan_string s3)
                                end
                              else cons_str (utf8 u) (scan_string s3)
                          | _ => cons_str (utf8 u) (scan_string s3)
                          end
                        else cons_str (utf8 u) (scan_string s3)
                    end
                | _ => inl Malformed
                end
            end
        end
      else if (code c <? 32)%nat then inl Malformed
      else cons_str (String c EmptyString) (scan_string s1)
  end.

(** [NUMBER_RE] of [json.scanner] (an optional minus, [0] or a non-zero
    digit followed by digits, an optional fraction of a dot and digits, an
    optional exponent [e] or [E], a sign and digits) as a deterministic
    automaton; [_match_number_unicode] takes the longest
    prefix that reaches an accepting state. *)
Inductive nstate := NStart | NSign | NZero | NInt | NDot | NFrac | NE | NESign | NExp.

Definition nstep (st : nstate) (c : ascii) : option nstate :=
  let d := is_digit c in
  let dot := Ascii.eqb c "." in
  let e := Ascii.eqb c "e" || Ascii.eqb c "E" in
  let pm := Ascii.eqb c "+" || Ascii.eqb c "-" in
  match st with
  | NStart => if Ascii.eqb c "-" then Some NSign
              else if Ascii.eqb c "0" then Some NZero else if d then Some NInt else None
  | NSign => if Ascii.eqb c "0" then Some NZero else if d then Some NInt else None
  | NZero => if dot then Some NDot else if e then Some NE else None
  | NInt => if d then Some NInt else if dot then Some NDot else if e then Some NE else None
  | NDot => if d then Some NFrac else None
  | NFrac => if d then Some NFrac else if e then Some NE else None
  | NE => if pm then Some NESign else if d then Some NExp else None
  | NESign => if d then Some NExp else None
  | NExp => if d then Some NExp else None
  end.

Definition accepting (st : nstate) : bool :=
  match st with NZero | NInt | NFrac | NExp => true | _ => false end.

(** The longest prefix of [s] that leads from [st] to an accepting
    state, and the rest. *)
Fixpoint nrun (st : nstate) (s : string) : option (string * string) :=
  let stop := if accepting st then Some (EmptyString, s) else None in
  match s with
  | EmptyString => stop
  | String c s' =>
      match nstep st c with
      | Some st' =>
          match nrun st' s' with
          | Some (l, r) => Some (String c l, r)
          | None => stop
          end
      | None => stop
      end
  end.

(** The state reached after reading all of [s]. *)
Fixpoint nrun_state (st : nstate) (s : string) : option nstate :=
  match s with
  | EmptyString => Some st
  | String c s' => st' ← nstep st c; nrun_state st' s'
  end.

(** A lexeme with a fraction or an exponent is a float. *)
Fixpoint has_frac_or_exp (l : string) : bool :=
  match l with
  | EmptyString => false
  | String c l' => Ascii.eqb c "." || Ascii.eqb c "e" || Ascii.eqb c "E" || has_frac_or_exp l'
  end.

Definition digit_val (c : ascii) : N := N.of_nat (code c - 48).

Fixpoint digits_acc (acc : N) (s : string) : N :=
  match s with
  | EmptyString => acc
  | String c s' => digits_acc (10 * acc + digit_val c)%N s'
  end.

(** [int(numstr)] on an int lexeme. *)
Definition int_of_lexeme (l : string) : Z :=
  match l with
  | String c l' => if Ascii.eqb c "-" then (- Z.of_N (digits_acc 0 l'))%Z else Z.of_N (digits_acc 0 l)
  | EmptyString => 0%Z
  end.

(** Whether [s] starts with the literal [w]; the rest if so. *)
Fixpoint strip_prefix (w s : string) : option string :=
  match w, s with
  | EmptyString, _ => Some s
  | String a w', String b s' => if Ascii.eqb a b then strip_prefix w' s' else None
  | _, _ => None
  end.

(** A dict key set with [PyDict_SetItem]: an existing key keeps its
    place and takes the new value. *)
Fixpoint obj_set (kvs : list (string * json)) (k : string) (v : json) : list (string * json) :=
  match kvs with
  | [] => [(k, v)]
  | (k', v') :: kvs' => if String.eqb k' k then (k', v) :: kvs' else (k', v') :: obj_set kvs' k v
  end.

Section Scan.
(** [float()] on a number lexeme and [float.__repr__]. *)
Variable float_of : string → Q.
Variable float_repr : Q → string.

(** A number at the start of [s]. *)
Definition scan_number (s : string) : scan_err + (json * string) :=
  match nrun NStart s with
  | None => inl Malformed
  | Some (l, r) =>
      if has_frac_or_exp l then inr (JFloat (float_of l) (float_repr (float_of l)), r)
      else inr (JInt (int_of_lexeme l), r)
  end.

(** [scan_once_unicode], [_parse_array_unicode] (the loop over items)
    and [_parse_object_unicode] (the loop over members); the fuel bounds
    the number of nested calls. *)
Fixpoint scan_value (fuel : nat) (s : string) : scan_err + (json * string) :=
  match fuel with
  | O => inl NoFuel
  | S f =>
      match s with
      | EmptyString => inl Malformed
      | String c s1 =>
          if Ascii.eqb c dq then
            match scan_string s1 with inl e => inl e | inr (t, r) => inr (JStr t, r) end
          else if Ascii.eqb c "[" then
            match skip_ws s1 with
            | String c' r => if Ascii.eqb c' "]" then inr (JArr [], r) else scan_items f [] (skip_ws s1)
            | EmptyString => inl Malformed
            end
          else if Ascii.eqb c "{" then
            match skip_ws s1 with
            | String c' r => if Ascii.eqb c' "}" then inr (JObj [], r) else scan_members f [] (skip_ws s1)
            | EmptyString => inl Malformed
            end
          else match strip_prefix "null" s with Some r => inr (JNull, r) | None =>
               match strip_prefix "true" s with Some r => inr (JBool true, r) | None =>
               match strip_prefix "false" s with Some r => inr (JBool false, r) | None =>
               match strip_prefix "NaN" s with Some _ => inl NonFinite | None =>
               match strip_prefix "Infinity" s with Some _ => inl NonFinite | None =>
               match strip_prefix "-Infinity" s with Some _ => inl NonFinite | None =>
                 scan_number s
               end end end end end end
      end
  end
with scan_items (fuel : nat) (acc : list json) (s : string) : scan_err + (json * string) :=
  match fuel with
  | O => inl NoFuel
  | S f =>
      match scan_value f s with
      | inl e => inl e
      | inr (v, r) =>
          match skip_ws r with
          | String c r' =>
              if Ascii.eqb c "]" then inr (JArr (acc ++ [v]), r')
              else if Ascii.eqb c "," then scan_items f (acc ++ [v]) (skip_ws r')
              else inl Malformed
          | EmptyString => inl Malformed
          end
      end
  end
with scan_members (fuel : nat) (acc : list (string * json)) (s : string)
    : scan_err + (json * string) :=
  match fuel with
  | O => inl NoFuel
  | S f =>
      match s with
      | String c s1 =>
          if negb (Ascii.eqb c dq) then inl Malformed else
          match scan_string s1 with
          | inl e => inl e
          | inr (k, r) =>
              match skip_ws r with
              | String c' r' =>
                  if negb (Ascii.eqb c' ":") then inl Malformed else
                  match scan_value f (skip_ws r') with
                  | inl e => inl e
                  | inr (v, r2) =>
                      match skip_ws r2 with
                      | String c2 r3 =>
                          if Ascii.eqb c2 "}" then inr (JObj (obj_set acc k v), r3)
                          else if Ascii.eqb c2 "," then scan_members f (obj_set acc k v) (skip_ws r3)
                          else inl Malformed
                      | EmptyString => inl Malformed
                      end
                  end
              | EmptyString => inl Malformed
              end
          end
      | EmptyString => inl Malformed
      end
  end.

(** [json.loads] ([JSONDecoder.decode]): one value between whitespace;
    the fuel, one more than twice the length of the text, is never
    exhausted ([loads_total]). *)
Definition loads (s : string) : scan_err + json :=
  match strip_prefix (String (chr 239) (String (chr 187) (String (chr 191) EmptyString))) s with
  | Some _ => inl Malformed
  | None =>
      match scan_value (S (2 * String.length s)) (skip_ws s) with
      | inl e => inl e
      | inr (v, r) => if String.eqb (skip_ws r) EmptyString then inr v else inl Malformed
      end
  end.
(** ** Values that survive the round trip

    A float's text is the [repr] of its value and [float()] of that text
    gives the value back (Python guarantees both for finite floats), and
    the text is a float lexeme; a dict has distinct keys. *)
Definition float_lexeme (r : string) : bool :=
  match nrun_state NStart r with Some st => accepting st && has_frac_or_exp r | None => false end.

Fixpoint wf (v : json) : bool :=
  match v with
  | JFloat q r => bool_decide (float_of r = q) && String.eqb (float_repr q) r && float_lexeme r
  | JArr l => (fix go (l : list json) : bool :=
                 match l with [] => true | x :: l' => wf x && go l' end) l
  | JObj fs => bool_decide (NoDup fs.*1) &&
               (fix go (fs : list (string * json)) : bool :=
                  match fs with [] => true | (_, x) :: fs' => wf x && go fs' end) fs
  | _ => true
  end.
End Scan.

(** The fuel a value needs: one per value and one per item. *)
Fixpoint jsize (v : json) : nat :=
  match v with
  | JArr l => S ((fix go (l : list json) : nat :=
                    match l with [] => O | x :: l' => S (jsize x) + go l' end) l)
  | JObj fs => S ((fix go (fs : list (string * json)) : nat :=
                     match fs with [] => O | (_, x) :: fs' => S (jsize x) + go fs' end) fs)
  | _ => 1
  end.

(** The items and members after the first, as [dump] prints them. *)
Fixpoint dump_items (lvl : nat) (xs : list json) : string :=
  match xs with
  | [] => EmptyString
  | y :: ys => "," +:+ newline_indent lvl +:+ dump lvl y +:+ dump_items lvl ys
  end.

Fixpoint dump_members (lvl : nat) (kvs : list (string * json)) : string :=
  match kvs with
  | [] => EmptyString
  | (k, y) :: kvs' => "," +:+ newline_indent lvl +:+ quote k +:+ ": " +:+ dump lvl y +:+ dump_members lvl kvs'
  end.

Fixpoint items_size (xs : list json) : nat :=
  match xs with [] => O | x :: xs' => S (jsize x) + items_size xs' end.

Fixpoint members_size (kvs : list (string * json)) : nat :=
  match kvs with [] => O | (_, x) :: kvs' => S (jsize x) + members_size kvs' end.

(** A text whose first character cannot continue a number. *)
Definition num_stop (rest : string) : bool :=
  match rest with
  | EmptyString => true
  | String c _ => negb (is_digit c || Ascii.eqb c "." || Ascii.eqb c "e" || Ascii.eqb c "E")
  end.

(** A string of decimal digits. *)
Fixpoint all_digits (s : string) : bool :=
  match s with EmptyString => true | String c s' => is_digit c && all_digits s' end.

(** The automaton in state [st] cannot read the first character of [rest]. *)
Definition stop_after (st : nstate) (rest : string) : bool :=
  match rest with
  | EmptyString => true
  | String c _ => match nstep st c with None => true | Some _ => false end
  end.

(** A character a value's text can start with and the scanner does
    not skip: not whitespace, not a closing bracket, not a BOM byte. *)
Definition head_ok (c : ascii) : bool :=
  negb (is_ws c) && negb (Ascii.eqb c "]") && negb (Ascii.eqb c "}") && negb (Ascii.eqb c (chr 239)).

(** ** Lemmas *)

(** Induction on [json] through its lists. *)
Section json_nested_ind.
Variable P : json → Prop.
Hypothesis Hnull : P JNull.
Hypothesis Hbool : ∀ b, P (JBool b).
Hypothesis Hint : ∀ z, P (JInt z).
Hypothesis Hfloat : ∀ q r, P (JFloat q r).
Hypothesis Hstr : ∀ s, P (JStr s).
Hypothesis Harr : ∀ l, Forall P l → P (JArr l).
Hypothesis Hobj : ∀ fs, Forall (λ kv, P kv.2) fs → P (JObj fs).

Fixpoint json_nested_ind (v : json) : P v :=
  match v with
  | JNull => Hnull
  | JBool b => Hbool b
  | JInt z => Hint z
  | JFloat q r => Hfloat q r
  | JStr s => Hstr s
  | JArr l => Harr l ((fix go (l : list json) : Forall P l :=
                         match l with
                         | [] => @List.Forall_nil _ P
                         | x :: l' => @List.Forall_cons _ P x l' (json_nested_ind x) (go l')
                         end) l)
  | JObj fs => Hobj fs ((fix go (fs : list (string * json)) : Forall (λ kv, P kv.2) fs :=
                           match fs with
                           | [] => @List.Forall_nil _ (λ kv, P kv.2)
                           | (k, x) :: fs' => @List.Forall_cons _ (λ kv, P kv.2) (k, x) fs' (json_nested_ind x) (go fs')
                           end) fs)
  end.
End json_nested_ind.

(** *** Whitespace and strings *)

Lemma skip_ws_spaces n t : skip_ws (spaces n +:+ t) = skip_ws t.
Proof. induction n; [done|]. exact IHn. Qed.

Lemma skip_ws_space t : skip_ws (" " +:+ t) = skip_ws t.
Proof. reflexivity. Qed.

Lemma colon_space t : ": " +:+ t = String ":" (" " +:+ t).
Proof. reflexivity. Qed.

Lemma skip_ws_indent lvl t : skip_ws (newline_indent lvl +:+ t) = skip_ws t.
Proof. apply skip_ws_spaces. Qed.

Lemma skip_ws_nonws c t : is_ws c = false → skip_ws (String c t) = String c t.
Proof. intros H. simpl. by rewrite H. Qed.

Lemma string_app_cons x (a b : string) : String x a +:+ b = String x (a +:+ b).
Proof. reflexivity. Qed.

Lemma string_app_nil (b : string) : EmptyString +:+ b = b.
Proof. reflexivity. Qed.

Lemma string_app_assoc (a b c : string) : (a +:+ b) +:+ c = a +:+ (b +:+ c).
Proof. induction a as [|x a IH]; [done|]. by rewrite !string_app_cons, IH. Qed.

(** One character: the scanner reads its escape back. *)
Lemma scan_escape_char c t :
  scan_string (escape_char c +:+ t) = cons_str (String c EmptyString) (scan_string t).
Proof. destruct c as [[] [] [] [] [] [] [] []]; reflexivity. Qed.

Lemma cons_str_inr p t rest : cons_str p (inr (t, rest)) = inr (p +:+ t, rest).
Proof. done. Qed.

(** Strings: the scanner reads [escape s] back up to the closing quote. *)
Lemma scan_escape s rest :
  scan_string (escape s +:+ String dq rest) = inr (s, rest).
Proof.
  induction s as [|c s IH]; [done|].
  change (escape (String c s)) with (escape_char c +:+ escape s).
  by rewrite string_app_assoc, scan_escape_char, IH.
Qed.

(** *** Numbers *)

Lemma nrun_state_app st a b : nrun_state st (a +:+ b) = (st' ← nrun_state st a; nrun_state st' b).
Proof.
  revert st. induction a as [|c a IH]; intros st; [done|].
  rewrite string_app_cons. simpl. destruct (nstep st c); [apply IH|done].
Qed.

(** The automaton takes the whole of a lexeme when it cannot go on. *)
Lemma nrun_full st s st' rest :
  nrun_state st s = Some st' → accepting st' = true → stop_after st' rest = true →
  nrun st (s +:+ rest) = Some (s, rest).
Proof.
  revert st. induction s as [|c s IH]; intros st Hs Ha Hstop.
  - injection Hs as <-. destruct rest as [|c r]; simpl; [by rewrite Ha|].
    simpl in Hstop. destruct (nstep st c); [discriminate|]. by rewrite Ha.
  - simpl in Hs. destruct (nstep st c) as [st1|] eqn:E; [|discriminate].
    rewrite string_app_cons. simpl. by rewrite E, (IH st1).
Qed.

Lemma num_stop_after st rest : accepting st = true → num_stop rest = true → stop_after st rest = true.
Proof.
  destruct rest as [|c r]; [done|]. intros Hst H. simpl in H.
  apply negb_true_iff in H. rewrite !orb_false_iff in H. destruct H as [[[Hd Hdot] He] HE].
  destruct st; try discriminate; simpl; by rewrite ?Hd, ?Hdot, ?He, ?HE.
Qed.

Lemma digit_not_special c :
  is_digit c = true → (Ascii.eqb c "." || Ascii.eqb c "e" || Ascii.eqb c "E") = false ∧ Ascii.eqb c "-" = false.
Proof. destruct c as [[] [] [] [] [] [] [] []]; try discriminate; done. Qed.

Lemma all_digits_app a b : all_digits (a +:+ b) = all_digits a && all_digits b.
Proof. induction a as [|c a IH]; [done|]. rewrite string_app_cons. simpl. by rewrite IH, andb_assoc. Qed.

Lemma all_digits_no_frac s : all_digits s = true → has_frac_or_exp s = false.
Proof.
  induction s as [|c s IH]; [done|]. simpl. intros [Hc Hs]%andb_true_iff.
  by rewrite (proj1 (digit_not_special c Hc)), IH.
Qed.

Lemma all_digits_NInt s : all_digits s = true → nrun_state NInt s = Some NInt.
Proof.
  induction s as [|c s IH]; [done|]. simpl. intros [Hc Hs]%andb_true_iff.
  unfold nstep. rewrite Hc. simpl. by apply IH.
Qed.

Lemma digits_acc_app a s t : digits_acc a (s +:+ t) = digits_acc (digits_acc a s) t.
Proof. revert a. induction s as [|c s IH]; intros a; [done|]. apply IH. Qed.

Lemma pretty_N_char_digit n : is_digit (pretty_N_char n) = true.
Proof. unfold pretty_N_char. repeat case_match; reflexivity. Qed.

Lemma digit_val_char n : (n < 10)%N → digit_val (pretty_N_char n) = n.
Proof.
  intros Hn. assert (n = 0 ∨ n = 1 ∨ n = 2 ∨ n = 3 ∨ n = 4 ∨ n = 5 ∨ n = 6 ∨ n = 7 ∨ n = 8 ∨ n = 9)%N
    as H by lia.
  repeat destruct H as [->|H]; [reflexivity..|]. subst. reflexivity.
Qed.

Lemma pretty_N_go_app x s : pretty_N_go x s = pretty_N_go x "" +:+ s.
Proof.
  revert s. induction (N.lt_wf_0 x) as [x _ IH]; intros s.
  destruct (decide (x = 0%N)) as [->|Hx]; [done|].
  rewrite !(pretty_N_go_step x) by lia.
  rewrite (IH (x `div` 10)%N (N.div_lt x 10 ltac:(lia) eq_refl) (String _ s)),
    (IH (x `div` 10)%N (N.div_lt x 10 ltac:(lia) eq_refl) (String _ EmptyString)).
  by rewrite string_app_assoc.
Qed.

(** The digits of [pretty_N_go x]: a non-zero digit first, then digits,
    and their value is [x]. *)
Lemma pretty_N_go_shape x :
  (0 < x)%N →
  ∃ c r, pretty_N_go x "" = String c r ∧ is_digit c = true ∧ all_digits r = true ∧
    nstep NStart c = Some NInt ∧ nstep NSign c = Some NInt.
Proof.
  induction (N.lt_wf_0 x) as [x _ IH]; intros Hx.
  rewrite pretty_N_go_step, pretty_N_go_app by lia.
  destruct (decide (x `div` 10 = 0)%N) as [Hd|Hd].
  - rewrite Hd, pretty_N_go_0. assert (x `mod` 10 = x)%N as -> by (apply N.mod_small; apply N.div_small_iff in Hd; lia).
    apply N.div_small_iff in Hd; [|lia].
    assert (x = 1 ∨ x = 2 ∨ x = 3 ∨ x = 4 ∨ x = 5 ∨ x = 6 ∨ x = 7 ∨ x = 8 ∨ x = 9)%N as H by lia.
    repeat destruct H as [->|H]; [eexists _, _; split_and!; reflexivity..|]. subst.
    eexists _, _; split_and!; reflexivity.
  - destruct (IH (x `div` 10)%N (N.div_lt x 10 ltac:(lia) eq_refl)) as (c & r & -> & Hc & Hr & H1 & H2);
      [by apply N.neq_0_lt_0|].
    exists c, (r +:+ String (pretty_N_char (x `mod` 10)) EmptyString). split_and!; try done.
    rewrite all_digits_app. simpl. by rewrite Hr, pretty_N_char_digit.
Qed.

Lemma digits_acc_pretty x : digits_acc 0 (pretty_N_go x "") = x.
Proof.
  induction (N.lt_wf_0 x) as [x _ IH].
  destruct (decide (x = 0%N)) as [->|Hx]; [done|].
  rewrite pretty_N_go_step, pretty_N_go_app, digits_acc_app by lia.
  rewrite (IH _ (N.div_lt x 10 ltac:(lia) eq_refl)). simpl.
  rewrite digit_val_char by (apply N.mod_lt; lia).
  pose proof (N.div_mod x 10). lia.
Qed.

Lemma pretty_Z_cases z :
  (z = 0%Z ∧ pretty z = "0") ∨
  (∃ p, z = Zpos p ∧ pretty z = pretty_N_go (Npos p) EmptyString) ∨
  (∃ p, z = Zneg p ∧ pretty z = String "-" (pretty_N_go (Npos p) EmptyString)).
Proof.
  destruct z as [|p|p]; [by left|right; left|right; right]; exists p; split; try done;
    unfold pretty, pretty_Z, pretty, pretty_N; by rewrite decide_False.
Qed.

(** A lexeme that starts like a number (a digit, or a minus and a
    digit) is scanned as a number. *)
Lemma lexeme_start r st :
  nrun_state NStart r = Some st → accepting st = true →
  (∃ c t, r = String c t ∧ is_digit c = true) ∨
  (∃ c t, r = String "-" (String c t) ∧ is_digit c = true).
Proof.
  intros Hs Ha. destruct r as [|c t]; [by injection Hs as <-|]. simpl in Hs.
  destruct (Ascii.eqb_spec c "-") as [->|Hm].
  - right. destruct t as [|c' t]; [by injection Hs as <-|]. simpl in Hs.
    destruct (Ascii.eqb c' "0") eqn:E0.
    + apply Ascii.eqb_eq in E0 as ->. by eexists _, _.
    + destruct (is_digit c') eqn:Ed; [by eexists _, _|discriminate].
  - left. destruct (Ascii.eqb c "0") eqn:E0.
    + apply Ascii.eqb_eq in E0 as ->. by eexists _, _.
    + destruct (is_digit c) eqn:Ed; [by eexists _, _|].
      destruct (Ascii.eqb c "-"); discriminate.
Qed.

Section Roundtrip.
Variable float_of : string → Q.
Variable float_repr : Q → string.
Implicit Types (v : json) (rest : string).

Lemma scan_number_int z rest :
  num_stop rest = true → scan_number float_of float_repr (pretty z +:+ rest) = inr (JInt z, rest).
Proof.
  intros Hstop. unfold scan_number.
  destruct (pretty_Z_cases z) as [[-> ->]|[(p & -> & ->)|(p & -> & ->)]].
  - by rewrite (nrun_full NStart "0" NZero) by (done || by apply num_stop_after).
  - destruct (pretty_N_go_shape (Npos p)) as (c & r & E & Hc & Hr & H1 & _); [lia|].
    rewrite E, (nrun_full NStart (String c r) NInt); [| |done|by apply num_stop_after].
    + cbv beta iota. rewrite all_digits_no_frac by (simpl; by rewrite Hc, Hr).
      unfold int_of_lexeme. rewrite (proj2 (digit_not_special c Hc)), <- E, digits_acc_pretty. done.
    + cbn [nrun_state]. rewrite H1. by apply all_digits_NInt.
  - destruct (pretty_N_go_shape (Npos p)) as (c & r & E & Hc & Hr & _ & H2); [lia|].
    rewrite E, (nrun_full NStart (String "-" (String c r)) NInt); [| |done|by apply num_stop_after].
    + cbv beta iota. cbn [has_frac_or_exp].
      rewrite (proj1 (digit_not_special c Hc)), (all_digits_no_frac r Hr).
      unfold int_of_lexeme. rewrite Ascii.eqb_refl, <- E, digits_acc_pretty. done.
    + change (nrun_state NSign (String c r) = Some NInt).
      cbn [nrun_state]. rewrite H2. by apply all_digits_NInt.
Qed.

Lemma scan_number_float r rest :
  float_lexeme r = true → num_stop rest = true →
  scan_number float_of float_repr (r +:+ rest) =
    inr (JFloat (float_of r) (float_repr (float_of r)), rest).
Proof.
  unfold float_lexeme, scan_number. destruct (nrun_state NStart r) as [st|] eqn:Hs; [|discriminate].
  intros [Ha Hf]%andb_true_iff Hstop.
  rewrite (nrun_full NStart r st) by (done || by apply num_stop_after). by rewrite Hf.
Qed.

(** A text that starts with a digit, or with a minus and a digit, is not
    a literal: [scan_once] falls through to the number. *)
Lemma scan_value_digit f c t :
  is_digit c = true → scan_value float_of float_repr (S f) (String c t) = scan_number float_of float_repr (String c t).
Proof. destruct c as [[] [] [] [] [] [] [] []]; try discriminate; reflexivity. Qed.

Lemma scan_value_minus f c t :
  is_digit c = true →
  scan_value float_of float_repr (S f) (String "-" (String c t)) =
    scan_number float_of float_repr (String "-" (String c t)).
Proof. destruct c as [[] [] [] [] [] [] [] []]; try discriminate; reflexivity. Qed.

(** *** The shape of [dump] *)

Lemma dump_arr lvl x xs :
  dump lvl (JArr (x :: xs)) =
    "[" +:+ newline_indent (S lvl) +:+ dump (S lvl) x +:+ dump_items (S lvl) xs +:+
    newline_indent lvl +:+ "]".
Proof.
  cbn [dump]. do 4 f_equal. induction xs as [|y ys IH]; [done|]. simpl. by rewrite IH.
Qed.

Lemma dump_obj lvl k x kvs :
  dump lvl (JObj ((k, x) :: kvs)) =
    "{" +:+ newline_indent (S lvl) +:+ quote k +:+ ": " +:+ dump (S lvl) x +:+
    dump_members (S lvl) kvs +:+ newline_indent lvl +:+ "}".
Proof.
  cbn [dump]. do 6 f_equal. induction kvs as [|[k' y] kvs IH]; [done|]. simpl. by rewrite IH.
Qed.

Lemma jsize_arr l : jsize (JArr l) = S (items_size l).
Proof. reflexivity. Qed.

Lemma jsize_obj fs : jsize (JObj fs) = S (members_size fs).
Proof. reflexivity. Qed.

Lemma wf_arr l : wf float_of float_repr (JArr l) = true ↔ Forall (λ x, wf float_of float_repr x = true) l.
Proof.
  cbn [wf]. induction l as [|x l IH]; [split; constructor|].
  rewrite Forall_cons, andb_true_iff. by rewrite IH.
Qed.

Lemma wf_obj fs :
  wf float_of float_repr (JObj fs) = true ↔
    NoDup fs.*1 ∧ Forall (λ kv, wf float_of float_repr kv.2 = true) fs.
Proof.
  cbn [wf]. rewrite andb_true_iff, bool_decide_eq_true. f_equiv.
  induction fs as [|[k x] fs IH]; [split; constructor|].
  rewrite Forall_cons, andb_true_iff. by rewrite IH.
Qed.

(** *** One step of the scanner *)

Lemma scan_value_str f t str r :
  scan_string t = inr (str, r) → scan_value float_of float_repr (S f) (String dq t) = inr (JStr str, r).
Proof. intros H. cbn [scan_value]. rewrite Ascii.eqb_refl, H. reflexivity. Qed.

Lemma scan_value_arr_empty f s r :
  skip_ws s = String "]" r → scan_value float_of float_repr (S f) (String "[" s) = inr (JArr [], r).
Proof. intros H. cbn [scan_value]. rewrite H. reflexivity. Qed.

Lemma scan_value_arr f s c r :
  skip_ws s = String c r → Ascii.eqb c "]" = false →
  scan_value float_of float_repr (S f) (String "[" s) = scan_items float_of float_repr f [] (skip_ws s).
Proof. intros H Hc. cbn [scan_value]. rewrite H, Hc. reflexivity. Qed.

Lemma scan_value_obj_empty f s r :
  skip_ws s = String "}" r → scan_value float_of float_repr (S f) (String "{" s) = inr (JObj [], r).
Proof. intros H. cbn [scan_value]. rewrite H. reflexivity. Qed.

Lemma scan_value_obj f s c r :
  skip_ws s = String c r → Ascii.eqb c "}" = false →
  scan_value float_of float_repr (S f) (String "{" s) = scan_members float_of float_repr f [] (skip_ws s).
Proof. intros H Hc. cbn [scan_value]. rewrite H, Hc. reflexivity. Qed.

Lemma scan_items_close f acc s v r rest :
  scan_value float_of float_repr f s = inr (v, r) → skip_ws r = String "]" rest →
  scan_items float_of float_repr (S f) acc s = inr (JArr (acc ++ [v]), rest).
Proof. intros H1 H2. simpl. rewrite H1, H2. reflexivity. Qed.

Lemma scan_items_comma f acc s v r r' :
  scan_value float_of float_repr f s = inr (v, r) → skip_ws r = String "," r' →
  scan_items float_of float_repr (S f) acc s = scan_items float_of float_repr f (acc ++ [v]) (skip_ws r').
Proof. intros H1 H2. simpl. rewrite H1, H2. reflexivity. Qed.

Lemma scan_members_close f acc t k r r' v r2 rest :
  scan_string t = inr (k, r) → skip_ws r = String ":" r' →
  scan_value float_of float_repr f (skip_ws r') = inr (v, r2) → skip_ws r2 = String "}" rest →
  scan_members float_of float_repr (S f) acc (String dq t) = inr (JObj (obj_set acc k v), rest).
Proof. intros H1 H2 H3 H4. simpl. rewrite H1. simpl. rewrite H2. simpl. by rewrite H3, H4. Qed.

Lemma scan_members_comma f acc t k r r' v r2 r3 :
  scan_string t = inr (k, r) → skip_ws r = String ":" r' →
  scan_value float_of float_repr f (skip_ws r') = inr (v, r2) → skip_ws r2 = String "," r3 →
  scan_members float_of float_repr (S f) acc (String dq t) =
    scan_members float_of float_repr f (obj_set acc k v) (skip_ws r3).
Proof. intros H1 H2 H3 H4. simpl. rewrite H1. simpl. rewrite H2. simpl. by rewrite H3, H4. Qed.

(** *** The first character of a value's text *)

Lemma digit_head_ok c : is_digit c = true → head_ok c = true.
Proof. destruct c as [[] [] [] [] [] [] [] []]; try discriminate; reflexivity. Qed.

Lemma dump_head lvl v :
  wf float_of float_repr v = true → ∃ c t, dump lvl v = String c t ∧ head_ok c = true.
Proof.
  intros Hwf. destruct v as [|[]|z|q r|str|[|x xs]|[|[k x] kvs]];
    try by (eexists _, _; split; [reflexivity|reflexivity]).
  - cbn [dump]. destruct (pretty_Z_cases z) as [[-> ->]|[(p & -> & ->)|(p & -> & ->)]];
      [by eexists _, _| |by eexists _, _].
    destruct (pretty_N_go_shape (Npos p)) as (c & r & -> & Hc & _); [lia|].
    eexists _, _. split; [done|]. by apply digit_head_ok.
  - cbn [wf] in Hwf. apply andb_true_iff in Hwf as [_ Hl]. unfold float_lexeme in Hl.
    destruct (nrun_state NStart r) as [st|] eqn:E; [|discriminate].
    apply andb_true_iff in Hl as [Ha _].
    destruct (lexeme_start r st E Ha) as [(c & t & -> & Hc)|(c & t & -> & _)]; [|by eexists _, _].
    eexists _, _. split; [done|]. by apply digit_head_ok.
Qed.

Lemma skip_ws_dump lvl v t :
  wf float_of float_repr v = true → skip_ws (dump lvl v +:+ t) = dump lvl v +:+ t.
Proof.
  intros Hwf. destruct (dump_head lvl v Hwf) as (c & t' & -> & Hc).
  rewrite string_app_cons. apply skip_ws_nonws.
  unfold head_ok in Hc. rewrite !andb_true_iff, !negb_true_iff in Hc. tauto.
Qed.

Lemma head_ok_close c : head_ok c = true → Ascii.eqb c "]" = false ∧ Ascii.eqb c "}" = false.
Proof. unfold head_ok. rewrite !andb_true_iff, !negb_true_iff. tauto. Qed.

(** After a value's text inside a list or a dict comes a comma or a
    newline, which cannot continue a number. *)
Lemma num_stop_items lvl lvl' xs t : num_stop (dump_items lvl xs +:+ newline_indent lvl' +:+ t) = true.
Proof. by destruct xs. Qed.

Lemma num_stop_members lvl lvl' kvs t : num_stop (dump_members lvl kvs +:+ newline_indent lvl' +:+ t) = true.
Proof. by destruct kvs as [|[]]. Qed.

Lemma obj_set_new acc k v : k ∉ acc.*1 → obj_set acc k v = acc ++ [(k, v)].
Proof.
  induction acc as [|[k' v'] acc IH]; [done|]. simpl. intros Hk.
  rewrite not_elem_of_cons in Hk. destruct Hk as [Hne Hk].
  rewrite (proj2 (String.eqb_neq k' k)) by congruence. by rewrite IH.
Qed.

Lemma jsize_pos v : 0 < jsize v.
Proof. destruct v; simpl; lia. Qed.

(** The text of an int or a float starts like a number. *)
Lemma num_text_start s :
  (∃ c u, s = String c u ∧ is_digit c = true) ∨ (∃ c u, s = String "-" (String c u) ∧ is_digit c = true) →
  ∀ f t, scan_value float_of float_repr (S f) (s +:+ t) = scan_number float_of float_repr (s +:+ t).
Proof.
  intros [(c & u & -> & Hc)|(c & u & -> & Hc)] f t; rewrite !string_app_cons;
    [by apply scan_value_digit|by apply scan_value_minus].
Qed.

Lemma pretty_start (z : Z) :
  (∃ c u, pretty z = String c u ∧ is_digit c = true) ∨
  (∃ c u, pretty z = String "-" (String c u) ∧ is_digit c = true).
Proof.
  destruct (pretty_Z_cases z) as [[_ ->]|[(p & _ & ->)|(p & _ & ->)]]; [left; by eexists _, _|..];
    destruct (pretty_N_go_shape (Npos p)) as (c & r & -> & Hc & _); try lia;
    [left|right]; by eexists _, _.
Qed.

Lemma quote_app k t : quote k +:+ t = String dq (escape k +:+ String dq t).
Proof. unfold quote. by rewrite string_app_cons, string_app_assoc, string_app_cons. Qed.

Lemma skip_ws_quote k t : skip_ws (quote k +:+ t) = quote k +:+ t.
Proof. by rewrite quote_app. Qed.

(** The items of a list after the opening bracket. *)
Lemma scan_items_dump lvl x xs acc fuel rest :
  Forall (λ y, wf float_of float_repr y = true) (x :: xs) →
  Forall (λ y, wf float_of float_repr y = true → ∀ lvl fuel rest, jsize y < fuel →
     num_stop rest = true → scan_value float_of float_repr fuel (dump lvl y +:+ rest) = inr (y, rest))
    (x :: xs) →
  items_size (x :: xs) < fuel →
  scan_items float_of float_repr fuel acc
    (dump (S lvl) x +:+ dump_items (S lvl) xs +:+ newline_indent lvl +:+ String "]" rest) =
  inr (JArr (acc ++ x :: xs), rest).
Proof.
  revert x acc fuel. induction xs as [|y ys IH]; intros x acc fuel Hwf HP Hf;
    apply Forall_cons in Hwf as [Hwx Hwf]; apply Forall_cons in HP as [Hx HP];
    destruct fuel as [|f]; simpl in Hf; try lia.
  - eapply scan_items_close; [apply Hx; [done|lia|apply num_stop_items]|].
    cbn [dump_items]. by rewrite string_app_nil, skip_ws_indent.
  - apply Forall_cons in Hwf as [Hwy Hwf].
    erewrite scan_items_comma; cycle 1.
    { apply Hx; [done|lia|apply num_stop_items]. }
    { cbn [dump_items]. rewrite !string_app_assoc, string_app_cons, string_app_nil. reflexivity. }
    rewrite skip_ws_indent, skip_ws_dump by done.
    rewrite IH; [by rewrite <- app_assoc|by constructor|done|simpl; lia].
Qed.

(** The members of a dict after the opening brace. *)
Lemma scan_members_dump lvl k x kvs acc fuel rest :
  NoDup (acc ++ (k, x) :: kvs).*1 →
  Forall (λ kv, wf float_of float_repr kv.2 = true) ((k, x) :: kvs) →
  Forall (λ kv, wf float_of float_repr kv.2 = true → ∀ lvl fuel rest, jsize kv.2 < fuel →
     num_stop rest = true → scan_value float_of float_repr fuel (dump lvl kv.2 +:+ rest) = inr (kv.2, rest))
    ((k, x) :: kvs) →
  members_size ((k, x) :: kvs) < fuel →
  scan_members float_of float_repr fuel acc
    (quote k +:+ ": " +:+ dump (S lvl) x +:+ dump_members (S lvl) kvs +:+ newline_indent lvl +:+
     String "}" rest) =
  inr (JObj (acc ++ (k, x) :: kvs), rest).
Proof.
  revert k x acc fuel. induction kvs as [|[k' y] kvs IH]; intros k x acc fuel Hnd Hwf HP Hf;
    apply Forall_cons in Hwf as [Hwx Hwf]; apply Forall_cons in HP as [Hx HP];
    destruct fuel as [|f]; simpl in Hf; try lia;
    assert (k ∉ acc.*1) as Hk
      by (rewrite fmap_app, fmap_cons in Hnd; apply NoDup_app in Hnd as (_ & Hd & _);
          intros Hin; apply (Hd k Hin); simpl; set_solver); simpl in Hx, Hwx;
    rewrite quote_app.
  - rewrite <- (obj_set_new acc k x Hk).
    eapply scan_members_close; [apply scan_escape|rewrite colon_space; reflexivity|..].
    + rewrite skip_ws_space, skip_ws_dump by done. apply Hx; [done|lia|apply num_stop_members].
    + cbn [dump_members]. by rewrite string_app_nil, skip_ws_indent.
  - apply Forall_cons in Hwf as [Hwy Hwf].
    erewrite scan_members_comma; cycle 1.
    { apply scan_escape. }
    { rewrite colon_space; reflexivity. }
    { rewrite skip_ws_space, skip_ws_dump by done. apply Hx; [done|lia|apply num_stop_members]. }
    { cbn [dump_members]. rewrite !string_app_assoc, string_app_cons, string_app_nil. reflexivity. }
    rewrite skip_ws_indent, skip_ws_quote, obj_set_new by done.
    rewrite IH; [by rewrite <- app_assoc|by rewrite <- app_assoc|by constructor|done|simpl; lia].
Qed.

(** The scanner reads back the text of a well-formed value, whatever
    follows it that cannot continue a number, given fuel for its size. *)
Lemma scan_dump v :
  wf float_of float_repr v = true → ∀ lvl fuel rest, jsize v < fuel → num_stop rest = true →
  scan_value float_of float_repr fuel (dump lvl v +:+ rest) = inr (v, rest).
Proof.
  induction v as [|b|z|q r|str|l IH|fs IH] using json_nested_ind;
    intros Hwf lvl fuel rest Hf Hs; (destruct fuel as [|f]; [by apply Nat.nlt_0_r in Hf|]).
  - reflexivity.
  - by destruct b.
  - cbn [dump]. rewrite (num_text_start _ (pretty_start z)). by apply scan_number_int.
  - cbn [wf] in Hwf. rewrite !andb_true_iff, bool_decide_eq_true, String.eqb_eq in Hwf.
    destruct Hwf as [[Hq Hr] Hl]. cbn [dump].
    unfold float_lexeme in Hl. destruct (nrun_state NStart r) as [st|] eqn:E; [|discriminate].
    rewrite (num_text_start _ (lexeme_start _ st E (proj1 (proj1 (andb_true_iff _ _) Hl)))).
    rewrite scan_number_float by (done || (unfold float_lexeme; by rewrite E)). by rewrite Hq, Hr.
  - cbn [dump]. rewrite quote_app. by apply scan_value_str, scan_escape.
  - apply wf_arr in Hwf. rewrite jsize_arr in Hf. destruct l as [|x xs].
    + by apply scan_value_arr_empty.
    + rewrite dump_arr, !string_app_assoc, !string_app_cons, !string_app_nil.
      destruct (dump_head (S lvl) x) as (c & t & Ec & Hc); [by apply Forall_inv in Hwf|].
      assert (skip_ws (newline_indent (S lvl) +:+ dump (S lvl) x +:+ dump_items (S lvl) xs +:+
                newline_indent lvl +:+ String "]" rest) =
              dump (S lvl) x +:+ dump_items (S lvl) xs +:+ newline_indent lvl +:+ String "]" rest)
        as Hsk by (rewrite skip_ws_indent, skip_ws_dump; [done|by apply Forall_inv in Hwf]).
      erewrite scan_value_arr; cycle 1.
      { rewrite Hsk, Ec. apply string_app_cons. }
      { apply (head_ok_close c Hc). }
      rewrite Hsk. apply scan_items_dump; [done|done|lia].
  - apply wf_obj in Hwf as [Hnd Hwf]. rewrite jsize_obj in Hf. destruct fs as [|[k x] kvs].
    + by apply scan_value_obj_empty.
    + rewrite dump_obj, !string_app_assoc, (string_app_cons "{"%char), (string_app_cons "}"%char),
        !string_app_nil.
      erewrite scan_value_obj; cycle 1.
      { rewrite skip_ws_indent, quote_app. reflexivity. }
      { reflexivity. }
      rewrite skip_ws_indent, skip_ws_quote.
      apply (scan_members_dump lvl k x kvs []); [done|done|done|lia].
Qed.

Lemma string_app_nil_r (s : string) : s +:+ EmptyString = s.
Proof. induction s as [|c s IH]; [done|]. by rewrite string_app_cons, IH. Qed.

Lemma spaces_length n : String.length (spaces n) = n.
Proof. induction n; simpl; lia. Qed.

Lemma newline_indent_length lvl : String.length (newline_indent lvl) = S (2 * lvl).
Proof. unfold newline_indent. simpl. by rewrite spaces_length. Qed.

Lemma quote_length k : 2 ≤ String.length (quote k).
Proof. unfold quote. simpl. rewrite string_app_length. simpl. lia. Qed.

Lemma dump_length_pos lvl v : wf float_of float_repr v = true → 1 ≤ String.length (dump lvl v).
Proof. intros Hwf. destruct (dump_head lvl v Hwf) as (c & t & -> & _). simpl. lia. Qed.

Lemma items_size_le lvl xs :
  Forall (λ y, wf float_of float_repr y = true) xs →
  Forall (λ y, wf float_of float_repr y = true → ∀ lvl, jsize y ≤ String.length (dump lvl y)) xs →
  items_size xs ≤ String.length (dump_items lvl xs).
Proof.
  induction xs as [|y ys IH]; intros Hwf HP; [simpl; lia|].
  apply Forall_cons in Hwf as [Hy Hwf]. apply Forall_cons in HP as [Hly HP].
  cbn [dump_items items_size]. rewrite !string_app_length, newline_indent_length.
  specialize (Hly Hy lvl). specialize (IH Hwf HP). simpl. lia.
Qed.

Lemma members_size_le lvl kvs :
  Forall (λ kv, wf float_of float_repr kv.2 = true) kvs →
  Forall (λ kv, wf float_of float_repr kv.2 = true → ∀ lvl, jsize kv.2 ≤ String.length (dump lvl kv.2)) kvs →
  members_size kvs ≤ String.length (dump_members lvl kvs).
Proof.
  induction kvs as [|[k y] kvs IH]; intros Hwf HP; [simpl; lia|].
  apply Forall_cons in Hwf as [Hy Hwf]. apply Forall_cons in HP as [Hly HP].
  cbn [dump_members members_size]. rewrite !string_app_length, newline_indent_length.
  specialize (Hly Hy lvl). specialize (IH Hwf HP). pose proof (quote_length k). simpl in *. lia.
Qed.

(** The fuel [loads] gives, the length of the text, is enough. *)
Lemma jsize_le v : wf float_of float_repr v = true → ∀ lvl, jsize v ≤ String.length (dump lvl v).
Proof.
  induction v as [|b|z|q r|str|l IH|fs IH] using json_nested_ind; intros Hwf lvl;
    try (pose proof (dump_length_pos lvl _ Hwf); simpl jsize; lia).
  - apply wf_arr in Hwf. rewrite jsize_arr. destruct l as [|x xs]; [simpl; lia|].
    rewrite dump_arr, !string_app_length, !newline_indent_length.
    apply Forall_cons in IH as [Hx IH]. pose proof Hwf as Hwf'. apply Forall_cons in Hwf as [Hwx Hwf].
    specialize (Hx Hwx (S lvl)). pose proof (items_size_le (S lvl) xs Hwf IH). simpl. lia.
  - apply wf_obj in Hwf as [_ Hwf]. rewrite jsize_obj. destruct fs as [|[k x] kvs]; [simpl; lia|].
    rewrite dump_obj, !string_app_length, !newline_indent_length.
    apply Forall_cons in IH as [Hx IH]. apply Forall_cons in Hwf as [Hwx Hwf].
    specialize (Hx Hwx (S lvl)). pose proof (members_size_le (S lvl) kvs Hwf IH).
    pose proof (quote_length k). simpl in *. lia.
Qed.

(** C16. Round trip of the file format: [json.load] of the text
    [json.dump(v, f, indent=2, ensure_ascii=False)] writes is [v], for
    every value whose floats print as their [repr] and whose dicts have
    distinct keys; the fuel [loads] gives is enough. *)
Theorem loads_dumps v :
  wf float_of float_repr v = true → loads float_of float_repr (dumps v) = inr v.
Proof.
  intros Hwf. unfold loads, dumps.
  destruct (dump_head 0 v Hwf) as (c & t & E & Hc). pose proof (jsize_le v Hwf 0) as Hle.
  unfold head_ok in Hc. rewrite !andb_true_iff, !negb_true_iff in Hc. destruct Hc as [[[Hws _] _] Hbom].
  rewrite E. cbn [strip_prefix]. rewrite Ascii.eqb_sym, Hbom, skip_ws_nonws by done. rewrite <- E.
  rewrite <- (string_app_nil_r (dump 0 v)) at 2.
  rewrite scan_dump by (done || lia). reflexivity.
Qed.

(** *** The scanner consumes its input *)

Lemma skip_ws_length s : String.length (skip_ws s) ≤ String.length s.
Proof. induction s as [|c s IH]; simpl; [lia|]. destruct (is_ws c); simpl; lia. Qed.

Lemma skip_ws_cons s c r : skip_ws s = String c r → String.length r < String.length s.
Proof. intros H. pose proof (skip_ws_length s) as L. rewrite H in L. simpl in L. lia. Qed.

Lemma cons_str_inv p x t r : cons_str p x = inr (t, r) → ∃ t', x = inr (t', r).
Proof. destruct x as [|[]]; simpl; [discriminate|]. intros [= _ <-]. by eexists. Qed.

Lemma scan_string_length s t r : scan_string s = inr (t, r) → String.length r < String.length s.
Proof.
  remember (String.length s) as n eqn:Hn. revert s t r Hn.
  induction (lt_wf n) as [n _ IH]; intros s t r -> Hs.
  destruct s as [|c s1]; [discriminate|]. cbn [scan_string] in Hs.
  repeat match type of Hs with
  | context [if ?b then _ else _] => destruct b
  | context [match ?x with _ => _ end] => destruct x eqn:?
  end; simplify_eq; cbn [String.length]; try lia;
  match type of Hs with
  | cons_str _ (scan_string ?x) = _ =>
      apply cons_str_inv in Hs as [? Hs];
      apply (IH (String.length x)) in Hs; [cbn [String.length] in *; lia|cbn [String.length]; lia|done]
  end.
Qed.

Lemma cons_str_inl p x e : cons_str p x = inl e → x = inl e.
Proof. by destruct x as [|[]]. Qed.

Lemma scan_string_no_fuel s : scan_string s ≠ inl NoFuel.
Proof.
  remember (String.length s) as n eqn:Hn. revert s Hn.
  induction (lt_wf n) as [n _ IH]; intros s -> Hs.
  destruct s as [|c s1]; [discriminate|]. cbn [scan_string] in Hs.
  repeat match type of Hs with
  | context [if ?b then _ else _] => destruct b
  | context [match ?x with _ => _ end] => destruct x eqn:?
  end; simplify_eq;
  match type of Hs with
  | cons_str _ (scan_string ?x) = _ =>
      apply cons_str_inl in Hs; apply (IH (String.length x)) in Hs; [done|cbn [String.length]; lia|done]
  end.
Qed.

Lemma nrun_split st s l r : nrun st s = Some (l, r) → s = l +:+ r.
Proof.
  revert st l. induction s as [|c s IH]; intros st l; simpl.
  - destruct (accepting st); [by intros [= <- <-]|discriminate].
  - destruct (nstep st c) as [st'|].
    + destruct (nrun st' s) as [[l' r']|] eqn:E.
      * intros [= <- <-]. rewrite string_app_cons. f_equal. by apply (IH st').
      * destruct (accepting st); [by intros [= <- <-]|discriminate].
    + destruct (accepting st); [by intros [= <- <-]|discriminate].
Qed.

Lemma nrun_nonempty st s r : accepting st = false → nrun st s ≠ Some (EmptyString, r).
Proof.
  intros Ha. destruct s as [|c s]; simpl; rewrite ?Ha; [done|].
  destruct (nstep st c); [|done]. by destruct (nrun _ s) as [[]|].
Qed.

Lemma scan_number_length s v r :
  scan_number float_of float_repr s = inr (v, r) → String.length r < String.length s.
Proof.
  unfold scan_number. destruct (nrun NStart s) as [[l r']|] eqn:E; [|discriminate].
  intros Hs. assert (r' = r) as -> by (destruct (has_frac_or_exp l); congruence).
  rewrite (nrun_split _ _ _ _ E), string_app_length.
  destruct l; [by apply nrun_nonempty in E|]. simpl. lia.
Qed.

Lemma strip_prefix_length w s r :
  strip_prefix w s = Some r → (String.length r + String.length w = String.length s)%nat.
Proof.
  revert s. induction w as [|a w IH]; intros [|b s]; simpl; try discriminate;
    [intros H; injection H as H; subst; simpl; lia..|].
  destruct (Ascii.eqb a b); [|discriminate]. intros H%IH. lia.
Qed.

(** Each call of the scanner reads at least one character before the
    next nested call, so fuel twice the length of the text is enough. *)
Lemma scan_progress f :
  (∀ s, 2 * String.length s < f →
     scan_value float_of float_repr f s ≠ inl NoFuel ∧
     ∀ v r, scan_value float_of float_repr f s = inr (v, r) → String.length r < String.length s) ∧
  (∀ acc s, 2 * String.length s + 1 < f →
     scan_items float_of float_repr f acc s ≠ inl NoFuel ∧
     ∀ v r, scan_items float_of float_repr f acc s = inr (v, r) → String.length r < String.length s) ∧
  (∀ acc s, 2 * String.length s + 1 < f →
     scan_members float_of float_repr f acc s ≠ inl NoFuel ∧
     ∀ v r, scan_members float_of float_repr f acc s = inr (v, r) → String.length r < String.length s).
Proof.
  induction f as [|f IH]; [split_and!; intros; lia|]. destruct IH as (IHv & IHi & IHm).
  split_and!.
  - intros [|c s1] Hs; [split; [discriminate|intros; discriminate]|]. cbn [String.length] in Hs.
    cbn [scan_value].
    destruct (Ascii.eqb c dq).
    { destruct (scan_string s1) as [e|[t r]] eqn:E.
      - split; [intros [= ->]; by apply (scan_string_no_fuel s1)|discriminate].
      - split; [discriminate|]. intros ?? [= _ <-]. apply scan_string_length in E. simpl. lia. }
    destruct (Ascii.eqb c "[").
    { destruct (skip_ws s1) as [|c' r] eqn:Ek; [split; [discriminate|intros; discriminate]|].
      rewrite <- Ek. pose proof (skip_ws_length s1).
      destruct (Ascii.eqb c' "]").
      - split; [discriminate|]. intros ?? [= _ <-]. apply skip_ws_cons in Ek. simpl. lia.
      - destruct (IHi [] (skip_ws s1)) as [H1 H2]; [lia|]. split; [done|].
        intros v r' Hr%H2. simpl. lia. }
    destruct (Ascii.eqb c "{").
    { destruct (skip_ws s1) as [|c' r] eqn:Ek; [split; [discriminate|intros; discriminate]|].
      rewrite <- Ek. pose proof (skip_ws_length s1).
      destruct (Ascii.eqb c' "}").
      - split; [discriminate|]. intros ?? [= _ <-]. apply skip_ws_cons in Ek. simpl. lia.
      - destruct (IHm [] (skip_ws s1)) as [H1 H2]; [lia|]. split; [done|].
        intros v r' Hr%H2. simpl. lia. }
    repeat match goal with
    | |- context [strip_prefix ?w ?x] =>
        let E := fresh "E" in
        destruct (strip_prefix w x) eqn:E;
        [try (apply strip_prefix_length in E; split; [discriminate|intros ?? [= _ <-]; simpl in *; lia])|]
    end.
    all: try (split; [discriminate|intros; discriminate]).
    destruct (scan_number float_of float_repr (String c s1)) as [e|[v r]] eqn:En.
    + split; [|discriminate]. unfold scan_number in En. intros [= ->].
      destruct (nrun NStart _) as [[l r]|]; [destruct (has_frac_or_exp l)|]; discriminate.
    + split; [discriminate|]. intros ?? [= _ <-]. by apply scan_number_length in En.
  - intros acc s Hs. simpl scan_items.
    destruct (IHv s) as [H1 H2]; [lia|].
    destruct (scan_value float_of float_repr f s) as [e|[v r]] eqn:E;
      [split; [intros [= ->]; by apply H1|discriminate]|].
    specialize (H2 v r eq_refl). pose proof (skip_ws_length r).
    destruct (skip_ws r) as [|c r'] eqn:Ek; [split; [discriminate|intros; discriminate]|].
    pose proof (skip_ws_cons r c r' Ek). pose proof (skip_ws_length r').
    destruct (Ascii.eqb c "]"); [split; [discriminate|intros ?? [= _ <-]; lia]|].
    destruct (Ascii.eqb c ","); [|split; [discriminate|intros; discriminate]].
    destruct (IHi (acc ++ [v]) (skip_ws r')) as [G3 G4]; [lia|]. split; [done|].
    intros ?? Hr%G4. lia.
  - intros acc [|c s1] Hs; [split; [discriminate|intros; discriminate]|]. cbn [String.length] in Hs.
    simpl scan_members.
    destruct (negb (Ascii.eqb c dq)); [split; [discriminate|intros; discriminate]|].
    destruct (scan_string s1) as [e|[k r]] eqn:E;
      [split; [intros [= ->]; by apply (scan_string_no_fuel s1)|discriminate]|].
    apply scan_string_length in E.
    destruct (skip_ws r) as [|c' r'] eqn:Ek; [split; [discriminate|intros; discriminate]|].
    apply skip_ws_cons in Ek.
    destruct (negb (Ascii.eqb c' ":")); [split; [discriminate|intros; discriminate]|].
    pose proof (skip_ws_length r').
    destruct (IHv (skip_ws r')) as [H1 H2]; [lia|].
    destruct (scan_value float_of float_repr f (skip_ws r')) as [e|[v r2]] eqn:E2;
      [split; [intros [= ->]; by apply H1|discriminate]|].
    specialize (H2 v r2 eq_refl).
    destruct (skip_ws r2) as [|c2 r3] eqn:Ek2; [split; [discriminate|intros; discriminate]|].
    apply skip_ws_cons in Ek2. pose proof (skip_ws_length r3).
    destruct (Ascii.eqb c2 "}"); [split; [discriminate|intros ?? [= _ <-]; simpl; lia]|].
    destruct (Ascii.eqb c2 ","); [|split; [discriminate|intros; discriminate]].
    destruct (IHm (obj_set acc k v) (skip_ws r3)) as [G3 G4]; [lia|]. split; [done|].
    intros ?? Hr%G4. simpl. lia.
Qed.

(** C19. Termination of [json.load]: the fuel of [loads] is never the
    reason it fails, so [loads] is the total function [json.loads] is;
    it either returns a value or reports a malformed (or non-finite)
    document. *)
Theorem loads_total s : loads float_of float_repr s ≠ inl NoFuel.
Proof.
  unfold loads. destruct (strip_prefix _ s); [discriminate|].
  pose proof (skip_ws_length s).
  destruct (proj1 (scan_progress (S (2 * String.length s))) (skip_ws s)) as [Hnf _]; [lia|].
  destruct (scan_value _ _ _ _) as [e|[v r]]; [intros [= ->]; by apply Hnf|].
  by destruct (String.eqb _ _).
Qed.

(** *** The values [json.load] returns *)

Lemma obj_set_keys acc k v : NoDup acc.*1 → NoDup (obj_set acc k v).*1.
Proof.
  induction acc as [|[k' v'] acc IH]; simpl; [intros; apply NoDup_singleton|].
  intros [Hk Hnd]%NoDup_cons. case_match; simpl; constructor; [done|done| |by apply IH].
  apply String.eqb_neq in H. intros Hin. apply Hk.
  clear -Hin H. induction acc as [|[k'' v''] acc IH]; simpl in *; [set_solver|].
  case_match; simpl in *; set_solver.
Qed.

Lemma obj_set_wf acc k v :
  Forall (λ kv, wf float_of float_repr kv.2 = true) acc → wf float_of float_repr v = true →
  Forall (λ kv, wf float_of float_repr kv.2 = true) (obj_set acc k v).
Proof.
  induction acc as [|[k' v'] acc IH]; simpl; intros Hacc Hv; [by repeat constructor|].
  apply Forall_cons in Hacc as [Hv' Hacc]. case_match; constructor; auto.
Qed.

(** [float(repr(x)) == x] and [repr(x)] is a float lexeme, for the
    floats [float()] returns. *)
Hypothesis float_repr_ok :
  ∀ l, float_of (float_repr (float_of l)) = float_of l ∧
       float_lexeme (float_repr (float_of l)) = true.

Lemma scan_wf f :
  (∀ s v r, scan_value float_of float_repr f s = inr (v, r) → wf float_of float_repr v = true) ∧
  (∀ acc s v r, Forall (λ x, wf float_of float_repr x = true) acc →
     scan_items float_of float_repr f acc s = inr (v, r) → wf float_of float_repr v = true) ∧
  (∀ acc s v r, NoDup acc.*1 → Forall (λ kv, wf float_of float_repr kv.2 = true) acc →
     scan_members float_of float_repr f acc s = inr (v, r) → wf float_of float_repr v = true).
Proof.
  induction f as [|f IH]; [split_and!; discriminate|]. destruct IH as (IHv & IHi & IHm).
  split_and!.
  - intros [|c s1] v r Hs; [discriminate|]. cbn [scan_value] in Hs.
    destruct (Ascii.eqb c dq).
    { destruct (scan_string s1) as [|[]]; [discriminate|]. by injection Hs as <-. }
    destruct (Ascii.eqb c "[").
    { destruct (skip_ws s1) as [|c' r']; [discriminate|].
      destruct (Ascii.eqb c' "]"); [by injection Hs as <-|].
      by apply (IHi [] (String c' r') _ r); [constructor|exact Hs]. }
    destruct (Ascii.eqb c "{").
    { destruct (skip_ws s1) as [|c' r']; [discriminate|].
      destruct (Ascii.eqb c' "}"); [by injection Hs as <-|].
      by apply (IHm [] (String c' r') _ r); [constructor|constructor|exact Hs]. }
    repeat (case_match; [try (injection Hs as <-; done); try discriminate|]).
    unfold scan_number in Hs. destruct (nrun NStart _) as [[l r']|]; [|discriminate].
    destruct (has_frac_or_exp l); injection Hs as <-; [|done].
    destruct (float_repr_ok l) as [Hq Hlex]. cbn [wf].
    rewrite Hq, Hlex, String.eqb_refl, bool_decide_true by done. done.
  - intros acc s v r Hacc Hs. simpl scan_items in Hs.
    destruct (scan_value float_of float_repr f s) as [|[x r1]] eqn:E; [discriminate|].
    pose proof (IHv _ _ _ E) as Hx.
    destruct (skip_ws r1) as [|c r']; [discriminate|].
    destruct (Ascii.eqb c "]").
    + injection Hs as <-. apply wf_arr, Forall_app. split; [done|by constructor].
    + destruct (Ascii.eqb c ","); [|discriminate].
      apply (IHi (acc ++ [x]) (skip_ws r') v r); [apply Forall_app; split; [done|by constructor]|exact Hs].
  - intros acc [|c s1] v r Hnd Hacc Hs; [discriminate|]. simpl scan_members in Hs.
    destruct (negb (Ascii.eqb c dq)); [discriminate|].
    destruct (scan_string s1) as [|[k r1]]; [discriminate|].
    destruct (skip_ws r1) as [|c' r']; [discriminate|].
    destruct (negb (Ascii.eqb c' ":")); [discriminate|].
    destruct (scan_value float_of float_repr f (skip_ws r')) as [|[x r2]] eqn:E; [discriminate|].
    pose proof (IHv _ _ _ E) as Hx.
    destruct (skip_ws r2) as [|c2 r3]; [discriminate|].
    destruct (Ascii.eqb c2 "}").
    + injection Hs as <-. apply wf_obj. split; [by apply obj_set_keys|by apply obj_set_wf].
    + destruct (Ascii.eqb c2 ","); [|discriminate].
      apply (IHm _ _ _ _ (obj_set_keys _ _ _ Hnd) (obj_set_wf _ _ _ Hacc Hx) Hs).
Qed.

(** C18. Every value [json.load] returns can be written back: it is well
    formed, and [json.load] of its [json.dump] text is the same value
    (given Python's guarantee that [float(repr(x)) == x]). *)
Theorem loads_reload s v :
  loads float_of float_repr s = inr v →
  wf float_of float_repr v = true ∧ loads float_of float_repr (dumps v) = inr v.
Proof.
  intros Hl. assert (wf float_of float_repr v = true) as Hwf.
  { unfold loads in Hl. destruct (strip_prefix _ s); [discriminate|].
    destruct (scan_value _ _ _ _) as [|[x r]] eqn:E; [discriminate|].
    destruct (String.eqb _ _); [|discriminate]. injection Hl as <-.
    by apply (proj1 (scan_wf _) _ _ _ E). }
  split; [done|by apply loads_dumps].
Qed.

End Roundtrip.

(** ** Witnesses *)

Module Examples.
(** A float model in which every lexeme reads as 0 and 0 prints as
    [0.0]: enough for values whose floats are all 0. *)
Definition ex_float_of (_ : string) : Q := 0%Q.
Definition ex_float_repr (_ : Q) : string := "0.0".

Definition ex_value : json :=
  JObj [("id", JInt 7); ("name", JStr "Zotero"); ("tags", JArr [JStr "ml"; JNull; JInt (-12)]);
        ("rating", JFloat 0 "0.0"); ("notes", JObj []); ("ok", JBool true)].
End Examples.
Import Examples.

Lemma loads_dumps_witness :
  wf ex_float_of ex_float_repr ex_value = true ∧
  loads ex_float_of ex_float_repr (dumps ex_value) = inr ex_value.
Proof. split; [reflexivity|]. apply loads_dumps. reflexivity. Defined.

Lemma loads_reload_witness :
  loads ex_float_of ex_float_repr (dumps ex_value) = inr ex_value ∧
  wf ex_float_of ex_float_repr ex_value = true ∧
  loads ex_float_of ex_float_repr (dumps ex_value) = inr ex_value.
Proof.
  split; [vm_compute; reflexivity|].
  apply (loads_reload ex_float_of ex_float_repr (λ l, conj eq_refl eq_refl) (dumps ex_value)).
  vm_compute. reflexivity.
Defined.

End JsonText.
