(* ===== verification/TextStore.v ===== *)
(** * Files as text: the refinement of [Disk]

    [FileStore.Disk] stores in a file the JSON value [json.dump] wrote,
    and [read_json] gives it back.  On a real disk a file holds the text
    of [JsonText.dumps] and [open] + [json.load] decodes it.  This file
    gives that disk, [TextDisk], with the operations the scripts perform
    on it ([text_write]: [open(p, 'w')] and [json.dump]; [text_load]:
    [open(p)] and [json.load]; [text_mkdir]: [Path.mkdir(exist_ok=True)];
    [text_isdir]), and proves that it refines [Disk]: related states stay
    related under every write of a well-formed value and every [mkdir],
    and reads and directory tests agree.  So every theorem proved over
    [Disk] holds of the text files, for the values the scripts write. *)

From S2P Require Import Prelude Json PyDict FileStore JsonText.
From Stdlib Require Import QArith_base.

Module TextStore.
Import JsonText.

Record TextDisk := { text_files : gmap string string; text_dirs : gset string }.

Section TextStore.
Variable float_of : string → Q.
Variable float_repr : Q → string.

(** [with open(p, 'w') as f: json.dump(v, f, indent=2, ensure_ascii=False)]
    in an existing directory: the file's text is replaced. *)
Definition text_write (p : string) (v : json) (s : TextDisk) : TextDisk :=
  {| text_files := <[p := dumps v]> (text_files s); text_dirs := text_dirs s |}.

(** [Path(d).mkdir(exist_ok=True)]. *)
Definition text_mkdir (d : string) (s : TextDisk) : TextDisk :=
  {| text_files := text_files s; text_dirs := {[d]} ∪ text_dirs s |}.

Definition text_isdir (s : TextDisk) (d : string) : bool := bool_decide (d ∈ text_dirs s).

(** [with open(p) as f: json.load(f)]: [FileNotFoundError], or the
    outcome of the decoder ([inl] a [JSONDecodeError] or a non-finite
    number, [inr] the value). *)
Definition text_load (s : TextDisk) (p : string) : res (scan_err + json) :=
  match text_files s !! p with
  | None => Err (FileNotFoundError p)
  | Some t => Ok (loads float_of float_repr t)
  end.

(** The abstraction: same directories, every file holds the text of the
    value [Disk] has for it, and those values are well formed. *)
Definition text_abs (ts : TextDisk) (d : Disk) : Prop :=
  text_dirs ts = disk_dirs d ∧
  (∀ p, text_files ts !! p = dumps <$> disk_files d !! p) ∧
  (∀ p v, disk_files d !! p = Some v → wf float_of float_repr v = true).

(** The file operations of the scripts, in the order they run. *)
Inductive file_op := OpWrite (p : string) (v : json) | OpMkdir (d : string).

Definition disk_step (d : Disk) (o : file_op) : Disk :=
  match o with OpWrite p v => fs_write p v d | OpMkdir dir => fs_mkdir dir d end.

Definition text_step (ts : TextDisk) (o : file_op) : TextDisk :=
  match o with OpWrite p v => text_write p v ts | OpMkdir dir => text_mkdir dir ts end.

Definition op_wf (o : file_op) : bool :=
  match o with OpWrite _ v => wf float_of float_repr v | OpMkdir _ => true end.

(** ** Lemmas *)

Lemma text_abs_write ts d p v :
  text_abs ts d → wf float_of float_repr v = true → text_abs (text_write p v ts) (fs_write p v d).
Proof.
  intros (Hdirs & Hfiles & Hwf) Hv. split_and!; [done| |].
  - intros q. simpl. destruct (decide (p = q)) as [<-|Hne].
    + by rewrite !lookup_insert_eq.
    + rewrite !lookup_insert_ne by done. apply Hfiles.
  - intros q w. simpl. destruct (decide (p = q)) as [<-|Hne].
    + rewrite lookup_insert_eq. by intros [= <-].
    + rewrite lookup_insert_ne by done. apply Hwf.
Qed.

Lemma text_abs_mkdir ts d dir : text_abs ts d → text_abs (text_mkdir dir ts) (fs_mkdir dir d).
Proof. intros (Hdirs & Hfiles & Hwf). split_and!; [simpl; by rewrite Hdirs|done|done]. Qed.

Lemma text_abs_load ts d p :
  text_abs ts d → text_load ts p = inr <$> read_json d p.
Proof.
  intros (_ & Hfiles & Hwf). unfold text_load, read_json. rewrite Hfiles. simpl.
  destruct (disk_files d !! p) as [v|] eqn:E; simpl; [|done].
  by rewrite loads_dumps by (by apply (Hwf p)).
Qed.

Lemma text_abs_isdir ts d dir : text_abs ts d → text_isdir ts dir = fs_isdir d dir.
Proof. intros (Hdirs & _ & _). unfold text_isdir. simpl. by rewrite Hdirs. Qed.

Lemma text_abs_step ts d o :
  text_abs ts d → op_wf o = true → text_abs (text_step ts o) (disk_step d o).
Proof. destruct o; simpl; intros; [by apply text_abs_write|by apply text_abs_mkdir]. Qed.

(** C17. The text files refine the value store: after any sequence of
    [json.dump] writes of well-formed values and [mkdir]s, from related
    states, the text disk is still related to [Disk], [json.load] of any
    path gives what [read_json] gives on [Disk], and the directories
    agree. *)
Theorem text_refines ops ts d :
  text_abs ts d → Forall (λ o, op_wf o = true) ops →
  text_abs (foldl text_step ts ops) (foldl disk_step d ops) ∧
  (∀ p, text_load (foldl text_step ts ops) p = inr <$> read_json (foldl disk_step d ops) p) ∧
  (∀ dir, text_isdir (foldl text_step ts ops) dir = fs_isdir (foldl disk_step d ops) dir).
Proof.
  intros Habs Hops. assert (text_abs (foldl text_step ts ops) (foldl disk_step d ops)) as H.
  { revert ts d Habs. induction Hops as [|o ops Ho _ IH]; intros ts d Habs; [done|].
    apply IH. by apply text_abs_step. }
  split_and!; [done|intros p; by apply text_abs_load|intros dir; by apply text_abs_isdir].
Qed.

End TextStore.

(** ** Witnesses *)

Definition ex_text_disk : TextDisk := {| text_files := ∅; text_dirs := ∅ |}.
Definition ex_disk : Disk := {| disk_files := ∅; disk_dirs := ∅ |}.
Definition ex_ops : list file_op :=
  [OpMkdir "data/web"; OpWrite "data/web/companies.json" JsonText.Examples.ex_value].

Lemma text_refines_witness :
  text_abs JsonText.Examples.ex_float_of JsonText.Examples.ex_float_repr ex_text_disk ex_disk ∧
  text_load JsonText.Examples.ex_float_of JsonText.Examples.ex_float_repr (foldl text_step ex_text_disk ex_ops)
    "data/web/companies.json" = Ok (inr JsonText.Examples.ex_value).
Proof.
  assert (text_abs JsonText.Examples.ex_float_of JsonText.Examples.ex_float_repr ex_text_disk ex_disk) as Habs.
  { split_and!; [done|intros p; simpl; by rewrite !lookup_empty|intros p v; simpl; by rewrite lookup_empty]. }
  split; [exact Habs|].
  destruct (text_refines JsonText.Examples.ex_float_of JsonText.Examples.ex_float_repr ex_ops _ _ Habs) as (_ & Hl & _).
  - repeat constructor.
  - rewrite Hl. reflexivity.
Defined.
End TextStore.
