(* ===== verification/FetchConfig.v ===== *)
(** * The Fetcher's configuration: what happens when the module is imported

    Before [main] runs, importing [fetch_baserow_tables.py] (lines 14-34)
    checks that [requests] can be imported (or prints and calls
    [sys.exit(1)]), lets python-dotenv copy the [.env] file into the
    process environment when the package is installed, and reads the four
    settings with [os.getenv] and their defaults, the page size through
    Python's [int()], which raises [ValueError] on a text that is not an
    integer literal.  The script then runs [main()] (lines 188-189).

    - [py_int] is [int(s)] on a [str] in base 10 as CPython parses it
      ([PyLong_FromString]): surrounding white space, one optional sign,
      digits with single underscores between them, and at most
      [max_str_digits] digits ([sys.int_info.default_max_str_digits]).
      Strings are byte strings: the non-ASCII white space and decimal
      digits [int()] also accepts are not modelled.
    - The environment is a [gmap]; [load_dotenv] (override=False) adds the
      assignments of [.env], already parsed, for the keys the process
      environment lacks.  The parsing of [.env] and the search for the
      file are python-dotenv's and are not modelled.
    - [module_init] is the import, [run] the script: the import, then
      [Fetcher.main] on the configuration it read. *)

From S2P Require Import Prelude Json FileStore Fetcher JsonText.
From Stdlib Require Import Ascii.

Module FetchConfig.
Import Fetcher JsonText.

(** ** Python's [int()] on a [str] *)

(** [Py_ISSPACE], the white space [int()] skips around an ASCII
    literal: [\t \n \v \f \r] and the space. *)
Definition py_isspace (c : ascii) : bool :=
  let n := code c in ((9 <=? n) && (n <=? 13)) || (n =? 32).

Fixpoint lstrip (s : string) : string :=
  match s with
  | String c s' => if py_isspace c then lstrip s' else s
  | EmptyString => EmptyString
  end.

Definition max_str_digits : nat := 4300.

(** The digits of an integer literal with single underscores between
    them: the value, the number of digits and the rest.  [prev_us] says
    that an underscore (or the start, where an underscore is refused too)
    came last, so that the next character must be a digit. *)
Fixpoint scan_digits (s : string) (acc : N) (nd : nat) (prev_us : bool) : option (N * nat * string) :=
  match s with
  | String c s' =>
      if is_digit c then scan_digits s' (10 * acc + digit_val c)%N (S nd) false
      else if prev_us then None
      else if Ascii.eqb c "_" then scan_digits s' acc nd true
      else Some (acc, nd, s)
  | EmptyString => if prev_us then None else Some (acc, nd, EmptyString)
  end.

Definition split_sign (s : string) : Z * string :=
  match s with
  | String c s' => if Ascii.eqb c "+" then (1%Z, s') else if Ascii.eqb c "-" then ((-1)%Z, s') else (1%Z, s)
  | EmptyString => (1%Z, s)
  end.

Definition py_int (s : string) : res Z :=
  let '(sign, body) := split_sign (lstrip s) in
  match scan_digits body 0 0 true with
  | Some (v, nd, rest) =>
      if (max_str_digits <? nd)%nat then Err ValueError
      else if String.eqb (lstrip rest) "" then Ok (sign * Z.of_N v)%Z
      else Err ValueError
  | None => Err ValueError
  end.

(** ** The import *)

(** [os.getenv(k, d)]. *)
Definition os_getenv (env : gmap string string) (k d : string) : string := default d (env !! k).

(** [load_dotenv()]: the assignments of [.env] for the keys the process
    environment does not have ([∪] on maps keeps the left value). *)
Definition load_dotenv (dotenv env : gmap string string) : gmap string string := env ∪ dotenv.

(** Lines 14-34: [has_requests] and [has_dotenv] say whether the two
    imports succeed. *)
Definition module_init (has_requests has_dotenv : bool) (dotenv env : gmap string string) : res Config :=
  if negb has_requests then Err (SystemExit 1)
  else
    let env := if has_dotenv then load_dotenv dotenv env else env in
    page_size ← py_int (os_getenv env "BASEROW_PAGE_SIZE" "100");
    Ok {| BASEROW_TOKEN := os_getenv env "BASEROW_TOKEN" "";
          BASEROW_BASE_URL := os_getenv env "BASEROW_BASE_URL" "https://api.baserow.io";
          BASEROW_PAGE_SIZE := page_size;
          BASEROW_OUTPUT_DIR := os_getenv env "BASEROW_OUTPUT_DIR" "data/snapshots" |}.

(** [python fetch_baserow_tables.py]: the import, then [main()] on the
    world [w]; an exception of the import leaves the world as it was. *)
Definition run {FS} `{FileSystem FS} (net : nat → request → outcome)
    (has_requests has_dotenv : bool) (dotenv env : gmap string string) (fuel : nat) (w : World FS)
    : res (list (string * table_status)) * World FS :=
  match module_init has_requests has_dotenv dotenv env with
  | Err e => (Err e, w)
  | Ok cfg => Fetcher.main net cfg fuel w
  end.

(** ** Reference functions for the theorems *)

(** Every byte is white space for [int()]. *)
Fixpoint all_space (s : string) : bool :=
  match s with EmptyString => true | String c s' => py_isspace c && all_space s' end.

(** The digits of a literal may stop before [s]: it is empty or starts
    with neither a digit nor an underscore. *)
Definition digits_stop (s : string) : bool :=
  match s with
  | EmptyString => true
  | String c _ => negb (is_digit c) && negb (Ascii.eqb c "_")
  end.

(** ** Lemmas *)

Lemma lstrip_spaces ws t : all_space ws = true → lstrip (ws +:+ t) = lstrip t.
Proof.
  induction ws as [|c ws IH]; [done|]. rewrite string_app_cons.
  simpl. intros [Hc Hws]%andb_true_iff. rewrite Hc. by apply IH.
Qed.

Lemma lstrip_all_space ws : all_space ws = true → lstrip ws = "".
Proof. intros H. rewrite <- (string_app_nil_r ws). by rewrite lstrip_spaces. Qed.

Lemma digit_not_space c : is_digit c = true → py_isspace c = false.
Proof. destruct c as [[] [] [] [] [] [] [] []]; by vm_compute. Qed.

Lemma digit_not_sign c : is_digit c = true → Ascii.eqb c "+" = false ∧ Ascii.eqb c "-" = false.
Proof. destruct c as [[] [] [] [] [] [] [] []]; by vm_compute. Qed.

Lemma space_digits_stop ws : all_space ws = true → digits_stop ws = true.
Proof. destruct ws as [|c ws]; [done|]. destruct c as [[] [] [] [] [] [] [] []]; by vm_compute. Qed.

Lemma scan_digits_all d r acc nd b :
  all_digits d = true → d ≠ "" → digits_stop r = true →
  scan_digits (d +:+ r) acc nd b = Some (digits_acc acc d, (nd + String.length d)%nat, r).
Proof.
  revert acc nd b. induction d as [|c d IH]; intros acc nd b; [done|].
  rewrite string_app_cons. simpl. intros [Hc Hd]%andb_true_iff _ Hr. rewrite Hc.
  destruct d as [|c' d'].
  - rewrite string_app_nil, Nat.add_succ_r. simpl String.length. rewrite Nat.add_0_r.
    destruct r as [|c' r]; simpl in *; [done|].
    apply andb_true_iff in Hr as [H1 H2]. apply negb_true_iff in H1, H2. by rewrite H1, H2.
  - rewrite IH by done. simpl. by rewrite (Nat.add_succ_r nd (S _)).
Qed.

(** The digits [str()] prints for a positive number, followed by white
    space, are read back by [int()] with the sign [sign] ([int()]'s last
    steps). *)
Lemma py_int_digits sign x ws :
  all_space ws = true → (String.length (pretty_N_go x "") ≤ max_str_digits)%nat → (0 < x)%N →
  match scan_digits (pretty_N_go x "" +:+ ws) 0 0 true with
  | Some (v, nd, rest) =>
      if (max_str_digits <? nd)%nat then Err ValueError
      else if String.eqb (lstrip rest) "" then Ok (sign * Z.of_N v)%Z
      else Err ValueError
  | None => Err ValueError
  end = Ok (sign * Z.of_N x)%Z.
Proof.
  intros Hws Hlen Hx. destruct (pretty_N_go_shape x Hx) as (c & r & Hcr & Hc & Hr & _ & _).
  rewrite scan_digits_all, digits_acc_pretty; [|rewrite Hcr; simpl; by rewrite Hc, Hr
    |by rewrite Hcr|by apply space_digits_stop].
  simpl. rewrite (proj2 (Nat.ltb_ge _ _) Hlen), lstrip_all_space by done. done.
Qed.

(** [pretty_N_go x ""] starts with a digit, which [lstrip] and
    [split_sign] leave in place. *)
Lemma lstrip_sign_digit c t : is_digit c = true → split_sign (lstrip (String c t)) = (1%Z, String c t).
Proof.
  intros Hc. simpl. rewrite digit_not_space by done.
  simpl. destruct (digit_not_sign c Hc) as [-> ->]. done.
Qed.

Lemma lstrip_sign_digits x ws :
  (0 < x)%N →
  split_sign (lstrip (pretty_N_go x "" +:+ ws)) = (1%Z, pretty_N_go x "" +:+ ws).
Proof.
  intros Hx. destruct (pretty_N_go_shape x Hx) as (c & r & Hcr & Hc & _).
  rewrite Hcr, string_app_cons. by apply lstrip_sign_digit.
Qed.

Lemma load_dotenv_lookup dotenv env k :
  load_dotenv dotenv env !! k = match env !! k with Some v => Some v | None => dotenv !! k end.
Proof.
  unfold load_dotenv. rewrite lookup_union. by destruct (env !! k), (dotenv !! k).
Qed.

Lemma os_getenv_dotenv dotenv env k d :
  os_getenv (load_dotenv dotenv env) k d =
  match env !! k with Some v => v | None => os_getenv dotenv k d end.
Proof. unfold os_getenv. rewrite load_dotenv_lookup. by destruct (env !! k). Qed.

(** ** The claims *)

(** C32. [int()] reads back what [str()] prints: the text of any integer
    of at most [max_str_digits] digits, with white space around it, is
    parsed as that integer (so a [BASEROW_PAGE_SIZE] written by a
    program gives back its value). *)
Theorem py_int_pretty z ws1 ws2 :
  all_space ws1 = true → all_space ws2 = true →
  (String.length (pretty (Z.abs z)) ≤ max_str_digits)%nat →
  py_int (ws1 +:+ pretty z +:+ ws2) = Ok z.
Proof.
  intros Hws1 Hws2 Hlen. unfold py_int. rewrite lstrip_spaces by done.
  destruct (pretty_Z_cases z) as [[-> ->]|[(p & -> & Hp)|(p & -> & Hp)]].
  - rewrite string_app_cons, lstrip_sign_digit, <- string_app_cons by done.
    rewrite (scan_digits_all "0" ws2) by (done || by apply space_digits_stop).
    simpl. by rewrite lstrip_all_space.
  - rewrite Hp, lstrip_sign_digits by done.
    change (pretty (Z.abs (Zpos p))) with (pretty_N_go (Npos p) "") in Hlen.
    rewrite py_int_digits by done. by rewrite Z.mul_1_l.
  - rewrite Hp, string_app_cons. simpl.
    change (pretty (Z.abs (Zneg p))) with (pretty_N_go (Npos p) "") in Hlen.
    by rewrite py_int_digits.
Qed.

(** C31. The import can end the script before [main]: without [requests]
    it exits with status 1; a [BASEROW_PAGE_SIZE] that is not an integer
    literal (an empty one included) raises [ValueError]; and with a page
    size but no non-empty [BASEROW_TOKEN] (the process environment first,
    then [.env]) [main] exits with status 1.  In each case no request is
    made and the world is left as it was. *)
Theorem run_import_errors {FS} `{FileSystem FS} (net : nat → request → outcome) (has_dotenv : bool)
    (dotenv env : gmap string string) (fuel : nat) (w : World FS) :
  let env' := if has_dotenv then load_dotenv dotenv env else env in
  run net false has_dotenv dotenv env fuel w = (Err (SystemExit 1), w) ∧
  (py_int (os_getenv env' "BASEROW_PAGE_SIZE" "100") = Err ValueError →
   run net true has_dotenv dotenv env fuel w = (Err ValueError, w)) ∧
  (∀ n, py_int (os_getenv env' "BASEROW_PAGE_SIZE" "100") = Ok n →
   os_getenv env' "BASEROW_TOKEN" "" = "" →
   run net true has_dotenv dotenv env fuel w = (Err (SystemExit 1), w)).
Proof.
  cbv zeta. split_and!; [done| |].
  - intros He. unfold run, module_init. simpl. by rewrite He.
  - intros n Hn Ht. unfold run, module_init. simpl. rewrite Hn. simpl.
    by apply main_no_token.
Qed.

(** ** Witnesses *)

Lemma py_int_pretty_witness :
  all_space " " = true ∧ py_int (" " +:+ pretty (-4200)%Z +:+ "  ") = Ok (-4200)%Z.
Proof. split; [reflexivity|]. apply py_int_pretty; [reflexivity|reflexivity|apply Nat.leb_le; reflexivity]. Defined.

(** A set but empty [BASEROW_PAGE_SIZE], as a workflow passes a secret
    that is not defined: the import raises [ValueError]. *)
Lemma run_import_errors_witness :
  run Fetcher.Examples.ex_net true false ∅ {[ "BASEROW_PAGE_SIZE" := "" ]} 5 Fetcher.Examples.ex_w0 =
    (Err ValueError, Fetcher.Examples.ex_w0).
Proof.
  destruct (run_import_errors Fetcher.Examples.ex_net false ∅ {[ "BASEROW_PAGE_SIZE" := "" ]} 5
              Fetcher.Examples.ex_w0) as (_ & Hv & _).
  apply Hv. vm_compute. reflexivity.
Defined.

End FetchConfig.
