(* ===== verification/Pipeline.v ===== *)
(** * The Denormalizer's [main] and the hand-off between the scripts

    [process_for_web.main] (lines 189-247) reads the three snapshots
    ([load_snapshots], lines 12-25) from [<root>/data/snapshots], runs
    the processing modelled by [Denormalizer.process], makes
    [<root>/data/web] and writes six files with [json.dump] (lines
    207-238).  This file gives the JSON values [json.dump] writes for the
    output records (the dicts of the source, keys in insertion order), the
    two file-system operations in the monad [PyM] over any [FileSystem]
    ([Report] adds the [print]s of [main]),
    and the theorems that connect the Fetcher's snapshot files to what
    the Denormalizer reads. *)

From S2P Require Import Prelude Json PyDict FileStore Denormalizer Fetcher.

Module Pipeline.
Import Denormalizer.

(** ** The dicts [json.dump] writes *)

(** The embedded tool of a company (lines 47-56). *)
Definition company_tool_json (ct : CompanyTool) : json :=
  JObj [("id", ct_id ct); ("name", ct_name ct);
        ("description_short", ct_description_short ct);
        ("description_long", ct_description_long ct);
        ("tags", JArr (ct_tags ct)); ("rating", ct_rating ct);
        ("cost", ct_cost ct); ("url", ct_url ct)].

(** A web company (lines 58-65). *)
Definition web_company_json (c : WebCompany) : json :=
  JObj [("id", wc_id c); ("name", wc_name c); ("url", wc_url c);
        ("notes", wc_notes c); ("tools", JArr (company_tool_json <$> wc_tools c));
        ("tool_count", JInt (Z.of_nat (wc_tool_count c)))].

(** The embedded company of a tool (lines 89-93). *)
Definition tool_company_json (tc : ToolCompany) : json :=
  JObj [("id", tc_id tc); ("name", tc_name tc); ("url", tc_url tc)].

(** A dict key as [json.dump] writes it: a str as is, an int or a float
    as its [repr], [True]/[False]/[None] as [true]/[false]/[null]; any
    other key raises [TypeError]. *)
Definition json_key (k : json) : res string :=
  match k with
  | JStr s => Ok s
  | JInt z => Ok (pretty z)
  | JFloat _ r => Ok r
  | JBool true => Ok "true"
  | JBool false => Ok "false"
  | JNull => Ok "null"
  | _ => Err TypeError
  end.

(** [json.dump] of a dict with [json] values, entries in insertion order. *)
Definition dict_json (d : dict json) : res json :=
  fields ← mapM (λ e, k ← json_key (e_obj e); Ok (k, e_val e)) d;
  Ok (JObj fields).

(** A web tool (lines 104-116); its [tag_colors] is a dict keyed by tag
    names. *)
Definition web_tool_json (t : WebTool) : res json :=
  tc ← dict_json (wt_tag_colors t);
  Ok (JObj [("id", wt_id t); ("name", wt_name t);
            ("description_short", wt_description_short t);
            ("description_long", wt_description_long t);
            ("tags", JArr (wt_tags t)); ("tag_colors", tc);
            ("companies", JArr (tool_company_json <$> wt_companies t));
            ("rating", wt_rating t); ("cost", wt_cost t); ("url", wt_url t);
            ("last_modified", wt_last_modified t)]).

(** An entry of the search index (lines 136-143 and 150-158). *)
Definition search_entry_json (e : SearchEntry) : json :=
  match e with
  | CompanyEntry id name url st n =>
      JObj [("type", JStr "company"); ("id", id); ("name", name); ("url", url);
            ("search_text", JStr st); ("tool_count", JInt (Z.of_nat n))]
  | ToolEntry id name url tags st n =>
      JObj [("type", JStr "tool"); ("id", id); ("name", name); ("url", url);
            ("tags", JArr tags); ("search_text", JStr st);
            ("company_count", JInt (Z.of_nat n))]
  end.

(** An entry of the tag catalog (line 173). *)
Definition tag_json (p : json * json) : json :=
  JObj [("name", p.1); ("color", p.2)].

(** The statistics (lines 180-186). *)
Definition stats_json (s : Stats) : json :=
  JObj [("total_companies", JInt (Z.of_nat (total_companies s)));
        ("total_tools", JInt (Z.of_nat (total_tools s)));
        ("companies_with_tools", JInt (Z.of_nat (companies_with_tools s)));
        ("tools_with_companies", JInt (Z.of_nat (tools_with_companies s)));
        ("total_tags", JInt (Z.of_nat (total_tags s)))].

(** ** The shapes of the six files

    What a reader of [data/web] may rely on: the keys of every record, in
    the order [json.dump] writes them, and the fields [process_for_web.py]
    computes (counts, search texts, the [type] tag of a search entry);
    the fields copied from Baserow keep whatever value the row had. *)
Definition company_tool_ty : jty :=
  TObj [("id", TAny); ("name", TAny); ("description_short", TAny);
        ("description_long", TAny); ("tags", TArr TAny); ("rating", TAny);
        ("cost", TAny); ("url", TAny)].

Definition company_ty : jty :=
  TObj [("id", TAny); ("name", TAny); ("url", TAny); ("notes", TAny);
        ("tools", TArr company_tool_ty); ("tool_count", TInt)].

Definition tool_company_ty : jty := TObj [("id", TAny); ("name", TAny); ("url", TAny)].

Definition tool_ty : jty :=
  TObj [("id", TAny); ("name", TAny); ("description_short", TAny);
        ("description_long", TAny); ("tags", TArr TAny); ("tag_colors", TDict TAny);
        ("companies", TArr tool_company_ty); ("rating", TAny); ("cost", TAny);
        ("url", TAny); ("last_modified", TAny)].

Definition search_entry_ty : jty :=
  TOr (TObj [("type", TLit "company"); ("id", TAny); ("name", TAny); ("url", TAny);
             ("search_text", TStr); ("tool_count", TInt)])
      (TObj [("type", TLit "tool"); ("id", TAny); ("name", TAny); ("url", TAny);
             ("tags", TArr TAny); ("search_text", TStr); ("company_count", TInt)]).

Definition tag_ty : jty := TObj [("name", TAny); ("color", TAny)].

Definition stats_ty : jty :=
  TObj [("total_companies", TInt); ("total_tools", TInt); ("companies_with_tools", TInt);
        ("tools_with_companies", TInt); ("total_tags", TInt)].

Definition web_schema : list (string * jty) :=
  [("companies.json", TArr company_ty); ("tools.json", TArr tool_ty);
   ("search_index.json", TArr search_entry_ty); ("tags.json", TArr tag_ty);
   ("stats.json", stats_ty);
   ("all_data.json", TObj [("companies", TArr company_ty); ("tools", TArr tool_ty);
                           ("tags", TArr tag_ty); ("stats", stats_ty)])].

(** ** The file operations of [process_for_web.py] *)

Section Pipeline.
Context {FS : Type} `{FileSystem FS}.

(** [Path(__file__).parent.parent]: the directory that holds [scripts/]. *)
Variable root : string.

(** [Path(__file__).parent.parent / 'data' / 'snapshots'] (line 14). *)
Definition data_dir : string := path_join (path_join root "data") "snapshots".

(** [Path(__file__).parent.parent / 'data' / 'web'] (line 208). *)
Definition output_dir : string := path_join (path_join root "data") "web".

(** [load_snapshots] (lines 12-25): three [open] + [json.load], in this
    order; a missing file raises [FileNotFoundError]. *)
Definition load_snapshots (s : FS) : res (json * json * json) :=
  companies ← read_json s (path_join data_dir "companies.json");
  tools ← read_json s (path_join data_dir "tools.json");
  libraries ← read_json s (path_join data_dir "libraries.json");
  Ok (companies, tools, libraries).

(** [with open(output_dir / name, 'w') as f: json.dump(v, f)]. *)
Definition dump (name : string) (v : json) : PyM FS unit :=
  λ s, if fs_isdir s output_dir then (Ok tt, fs_write (path_join output_dir name) v s)
       else (Err (FileNotFoundError (path_join output_dir name)), s).

(** The six [json.dump] writes of [main] (lines 213-238).  [json.dump]
    of the tools, which can raise on a key of [tag_colors], is evaluated
    where line 218 evaluates it. *)
Definition save (d : WebData) : PyM FS unit :=
  let wcs := JArr (web_company_json <$> web_companies d) in
  dump "companies.json" wcs;;
  wts ← lift (mapM web_tool_json (web_tools d));
  dump "tools.json" (JArr wts);;
  dump "search_index.json" (JArr (search_entry_json <$> search_index d));;
  dump "tags.json" (JArr (tag_json <$> all_tags d));;
  dump "stats.json" (stats_json (stats d));;
  dump "all_data.json"
    (JObj [("companies", wcs); ("tools", JArr wts);
           ("tags", JArr (tag_json <$> all_tags d)); ("stats", stats_json (stats d))]).

(** [main] (lines 189-238), without its [print]s ([Report] adds them). *)
Definition main : PyM FS unit :=
  snap ← gets load_snapshots;
  '(companies, tools, libraries) ← lift snap;
  d ← lift (process companies tools libraries);
  modify (fs_mkdir output_dir);;
  save d.

(** The six files of lines 214-238, in the order [main] writes them. *)
Definition web_files (d : WebData) (wts : list json) : list (string * json) :=
  let wcs := JArr (web_company_json <$> web_companies d) in
  [("companies.json", wcs); ("tools.json", JArr wts);
   ("search_index.json", JArr (search_entry_json <$> search_index d));
   ("tags.json", JArr (tag_json <$> all_tags d));
   ("stats.json", stats_json (stats d));
   ("all_data.json",
     JObj [("companies", wcs); ("tools", JArr wts);
           ("tags", JArr (tag_json <$> all_tags d)); ("stats", stats_json (stats d))])].

Fixpoint write_files (files : list (string * json)) (s : FS) : FS :=
  match files with
  | [] => s
  | (n, v) :: files' => write_files files' (fs_write (path_join output_dir n) v s)
  end.

(** ** Lemmas *)

Lemma json_key_to_key k kk : to_key k = Ok kk → ∃ s, json_key k = Ok s.
Proof. destruct k as [|[]| | | | |]; simpl; eauto; discriminate. Qed.

Lemma dict_json_ok (d : dict json) : dict_keys_ok d → ∃ fs, dict_json d = Ok (JObj fs).
Proof.
  intros Hok. unfold dict_json.
  destruct (mapM_res_total (λ e, k ← json_key (e_obj e); Ok (k, e_val e)) d) as [fs ->];
    [|by exists fs].
  intros e He. unfold dict_keys_ok in Hok. rewrite Forall_forall in Hok.
  destruct (json_key_to_key _ _ (Hok e He)) as [k ->]. by eexists.
Qed.

Lemma process_keys_ok c t l d :
  process c t l = Ok d → Forall (λ wt, dict_keys_ok (wt_tag_colors wt)) (web_tools d).
Proof.
  unfold process, build_web. intros Hp. res_inv. subst d. simpl. by eapply create_web_tools_keys_ok.
Qed.

(** [json.dump] of the web tools of a run never raises. *)
Lemma web_tools_json_ok c t l d :
  process c t l = Ok d → ∃ wts, mapM web_tool_json (web_tools d) = Ok wts.
Proof.
  intros Hp%process_keys_ok. apply mapM_res_total. intros wt Hwt.
  rewrite Forall_forall in Hp. destruct (dict_json_ok _ (Hp wt Hwt)) as [fs Hfs].
  unfold web_tool_json. rewrite Hfs. by eexists.
Qed.

Lemma company_json_ty c : has_type company_ty (web_company_json c).
Proof. unfold company_ty, web_company_json, company_tool_ty, company_tool_json. typecheck. Qed.

Lemma tool_json_ty t j : web_tool_json t = Ok j → has_type tool_ty j.
Proof.
  unfold web_tool_json, dict_json.
  destruct (mapM _ (wt_tag_colors t)); intros [= <-].
  unfold tool_ty, tool_company_ty, tool_company_json. typecheck.
Qed.

Lemma search_entry_json_ty e : has_type search_entry_ty (search_entry_json e).
Proof.
  unfold search_entry_ty. rewrite has_type_or, orb_True.
  destruct e; [left|right]; simpl search_entry_json; typecheck.
Qed.

(** Each of the six files has the shape [web_schema] gives it. *)
Lemma web_files_schema d wts :
  mapM web_tool_json (web_tools d) = Ok wts →
  Forall2 (λ f t, f.1 = t.1 ∧ has_type t.2 f.2) (web_files d wts) web_schema.
Proof.
  intros Hw. assert (has_type (TArr tool_ty) (JArr wts)) as Ht.
  { simpl. apply Is_true_true, forallb_forall. intros j Hj%list_elem_of_In.
    destruct (mapM_res_elem _ _ _ _ Hw Hj) as (t & _ & Hj').
    apply Is_true_true. by apply (tool_json_ty t). }
  assert (has_type (TArr company_ty) (JArr (web_company_json <$> web_companies d))) as Hc
    by (apply has_type_arr_fmap, company_json_ty).
  assert (has_type (TArr tag_ty) (JArr (tag_json <$> all_tags d))) as Htg
    by (apply has_type_arr_fmap; intros; unfold tag_ty, tag_json; typecheck).
  assert (has_type stats_ty (stats_json (stats d))) as Hs by (unfold stats_ty, stats_json; typecheck).
  unfold web_files, web_schema.
  repeat (constructor; [split; [done|]; cbn [fst snd]|]).
  all: first [done | apply Forall2_nil | apply has_type_arr_fmap, search_entry_json_ty | typecheck].
Qed.

Context `{!FileSystemLaws FS}.

Lemma write_files_read_ne files s p :
  p ∉ (λ f, path_join output_dir f.1) <$> files → fs_read (write_files files s) p = fs_read s p.
Proof.
  revert s. induction files as [|[n v] files IH]; intros s Hp; [done|].
  rewrite fmap_cons, not_elem_of_cons in Hp. destruct Hp as [Hn Hp].
  simpl. rewrite IH by done. by apply fs_read_write_ne.
Qed.

Lemma write_files_read files s n v :
  NoDup files.*1 → (n, v) ∈ files → fs_read (write_files files s) (path_join output_dir n) = Some v.
Proof.
  revert s. induction files as [|[n' v'] files IH]; intros s Hnd Hin; [set_solver|].
  rewrite fmap_cons in Hnd. apply NoDup_cons in Hnd as [Hn' Hnd]. simpl.
  apply elem_of_cons in Hin as [[= -> ->]|Hin]; [|by apply IH].
  rewrite write_files_read_ne; [apply fs_read_write_eq|].
  intros (f & Heq%path_join_inj & Hf)%list_elem_of_fmap. apply Hn'. subst.
  simpl. by apply list_elem_of_fmap_2.
Qed.

Lemma write_files_isdir files s d : fs_isdir (write_files files s) d = fs_isdir s d.
Proof.
  revert s. induction files as [|[n v] files IH]; intros s; [done|]. simpl.
  by rewrite IH, fs_isdir_write.
Qed.

Lemma dump_run name v s :
  fs_isdir s output_dir = true →
  dump name v s = (Ok tt, fs_write (path_join output_dir name) v s).
Proof. intros Hd. unfold dump. by rewrite Hd. Qed.

(** [save] on an existing output directory writes the six files, in
    order. *)
Lemma save_run d wts s :
  mapM web_tool_json (web_tools d) = Ok wts → fs_isdir s output_dir = true →
  save d s = (Ok tt, write_files (web_files d wts) s).
Proof.
  intros Hw Hd. unfold save.
  repeat (rewrite pym_bind_run;
          first [rewrite dump_run by (rewrite ?fs_isdir_write; exact Hd)
                |unfold lift at 1; rewrite Hw]).
  rewrite dump_run by (rewrite ?fs_isdir_write; exact Hd). reflexivity.
Qed.

(** A run of [main] on snapshots that load and process writes the six
    files, in order, into the new output directory. *)
Lemma main_run s c t l d wts :
  load_snapshots s = Ok (c, t, l) → process c t l = Ok d →
  mapM web_tool_json (web_tools d) = Ok wts →
  main s = (Ok tt, write_files (web_files d wts) (fs_mkdir output_dir s)).
Proof.
  intros Hl Hp Hw. unfold main. rewrite pym_bind_run. unfold gets at 1. rewrite Hl.
  rewrite pym_bind_run. cbn [lift]. rewrite pym_bind_run. unfold lift at 1. rewrite Hp.
  rewrite pym_bind_run. unfold modify at 1. by apply save_run; [|apply fs_isdir_mkdir].
Qed.

Lemma main_load_err s e : load_snapshots s = Err e → main s = (Err e, s).
Proof. intros Hl. unfold main. rewrite pym_bind_run. unfold gets at 1. by rewrite Hl. Qed.

Lemma main_process_err s c t l e :
  load_snapshots s = Ok (c, t, l) → process c t l = Err e → main s = (Err e, s).
Proof.
  intros Hl Hp. unfold main. rewrite pym_bind_run. unfold gets at 1. rewrite Hl.
  rewrite pym_bind_run. cbn [lift]. rewrite pym_bind_run. unfold lift at 1. by rewrite Hp.
Qed.

Lemma load_snapshots_missing s name :
  name ∈ ["companies.json"; "tools.json"; "libraries.json"] →
  fs_read s (path_join data_dir name) = None →
  ∃ p, load_snapshots s = Err (FileNotFoundError p).
Proof.
  intros Hn Hr. unfold load_snapshots, read_json.
  repeat (apply elem_of_cons in Hn as [->|Hn] || apply not_elem_of_nil in Hn as []);
    rewrite ?Hr; simpl; eauto;
    repeat (destruct (fs_read s _); simpl; eauto).
Qed.

Lemma web_files_names d wts :
  (web_files d wts).*1 = ["companies.json"; "tools.json"; "search_index.json";
                          "tags.json"; "stats.json"; "all_data.json"].
Proof. reflexivity. Qed.

Lemma web_files_NoDup d wts : NoDup (web_files d wts).*1.
Proof. rewrite web_files_names. apply (bool_decide_unpack _). vm_compute. reflexivity. Qed.

Lemma main_ok_inv s s' :
  main s = (Ok tt, s') →
  ∃ c t l d wts, load_snapshots s = Ok (c, t, l) ∧ process c t l = Ok d ∧
    mapM web_tool_json (web_tools d) = Ok wts ∧
    s' = write_files (web_files d wts) (fs_mkdir output_dir s).
Proof.
  intros Hm. destruct (load_snapshots s) as [[[c t] l]|e] eqn:Hl;
    [|by rewrite (main_load_err _ _ Hl) in Hm].
  destruct (process c t l) as [d|e] eqn:Hp;
    [|by rewrite (main_process_err _ _ _ _ _ Hl Hp) in Hm].
  destruct (web_tools_json_ok _ _ _ _ Hp) as [wts Hw].
  rewrite (main_run _ _ _ _ _ _ Hl Hp Hw) in Hm. injection Hm as <-.
  by exists c, t, l, d, wts.
Qed.

Lemma summary_shape {A B} (l : list (A * B)) a b c :
  l.*1 = [a; b; c] → ∃ x y z, l = [(a, x); (b, y); (c, z)].
Proof. destruct l as [|[??] [|[??] [|[??] []]]]; simpl; intros; simplify_eq; eauto. Qed.

(** The Fetcher's file of a table is the file [load_snapshots] reads when
    [BASEROW_OUTPUT_DIR] is the Denormalizer's snapshot directory. *)
Lemma output_file_data_dir cfg name :
  BASEROW_OUTPUT_DIR cfg = data_dir →
  Fetcher.output_file cfg name = path_join data_dir (name +:+ ".json").
Proof. intros Hd. unfold Fetcher.output_file. by rewrite Hd. Qed.

Lemma fetch_failed_file net cfg fuel (w w' : World FS) summary name e :
  BASEROW_OUTPUT_DIR cfg = data_dir →
  Fetcher.main net cfg fuel w = (Ok summary, w') →
  (name, Fetcher.TableFailed e) ∈ summary →
  fs_read (w_fs w') (path_join data_dir (name +:+ ".json")) =
  fs_read (w_fs w) (path_join data_dir (name +:+ ".json")).
Proof.
  intros Hd Hrun Hin. destruct (Fetcher.main_contract _ _ _ _ _ _ Hrun) as [_ Hall].
  rewrite Forall_forall in Hall. destruct (Hall _ Hin) as [_ Heq].
  by rewrite !output_file_data_dir in Heq.
Qed.

(** ** The hand-off between the Fetcher and the Denormalizer *)

(** C4. Hand-off: when the Fetcher writes where the Denormalizer reads
    and the server serves each of the three tables as a finite chain of
    pages, the run reports every table fetched with its number of rows,
    and [load_snapshots] reads back exactly the rows the server served
    for each table: the concatenation of its pages, in order. *)
Theorem handoff net cfg fuel (w w' : World FS) summary ps1 ps2 ps3 n1 n2 n3 :
  BASEROW_OUTPUT_DIR cfg = data_dir → BASEROW_TOKEN cfg ≠ "" →
  Fetcher.serves net cfg (w_clock w) (Fetcher.table_url cfg 813469) ps1 n1 →
  Fetcher.serves net cfg (w_clock w + n1) (Fetcher.table_url cfg 813470) ps2 n2 →
  Fetcher.serves net cfg (w_clock w + n1 + n2) (Fetcher.table_url cfg 813471) ps3 n3 →
  (n1 ≤ fuel)%nat → (n2 ≤ fuel)%nat → (n3 ≤ fuel)%nat →
  Fetcher.main net cfg fuel w = (Ok summary, w') →
  load_snapshots (w_fs w') = Ok (JArr (concat ps1), JArr (concat ps2), JArr (concat ps3)) ∧
  summary = [("companies", Fetcher.TableOk (length (concat ps1)));
             ("tools", Fetcher.TableOk (length (concat ps2)));
             ("libraries", Fetcher.TableOk (length (concat ps3)))].
Proof.
  intros Hd Ht H1 H2 H3 F1 F2 F3 Hrun.
  rewrite (Fetcher.main_serves _ _ _ _ _ _ _ _ _ _ Ht H1 H2 H3 F1 F2 F3) in Hrun.
  injection Hrun as <- <-. split; [|done].
  unfold load_snapshots, read_json. simpl w_fs. rewrite !output_file_data_dir by done.
  change ("companies" +:+ ".json") with "companies.json".
  change ("tools" +:+ ".json") with "tools.json".
  change ("libraries" +:+ ".json") with "libraries.json".
  repeat first [rewrite fs_read_write_eq
               |rewrite fs_read_write_ne by (intros ?%path_join_inj; discriminate)].
  done.
Qed.

(** A table the Fetcher reports failed keeps the snapshot file it
    had before the run: the Denormalizer then reads an earlier run's rows
    beside this run's (the spec says a failed table produces no file). *)
Theorem handoff_stale net cfg fuel (w w' : World FS) summary name e :
  BASEROW_OUTPUT_DIR cfg = data_dir →
  Fetcher.main net cfg fuel w = (Ok summary, w') →
  (name, Fetcher.TableFailed e) ∈ summary →
  read_json (w_fs w') (path_join data_dir (name +:+ ".json")) =
  read_json (w_fs w) (path_join data_dir (name +:+ ".json")).
Proof. intros Hd Hrun Hin. unfold read_json. by erewrite fetch_failed_file. Qed.

(** C10. The Denormalizer detects a failed first fetch: if a table the
    Fetcher reports failed had no snapshot before the run, the
    Denormalizer's [main] raises [FileNotFoundError] and writes nothing. *)
Theorem pipeline_detects_missing net cfg fuel (w w' : World FS) summary name e :
  BASEROW_OUTPUT_DIR cfg = data_dir →
  Fetcher.main net cfg fuel w = (Ok summary, w') →
  (name, Fetcher.TableFailed e) ∈ summary →
  fs_read (w_fs w) (path_join data_dir (name +:+ ".json")) = None →
  ∃ p, main (w_fs w') = (Err (FileNotFoundError p), w_fs w').
Proof.
  intros Hd Hrun Hin Hnone.
  destruct (Fetcher.main_contract _ _ _ _ _ _ Hrun) as [Hfst _].
  destruct (summary_shape summary _ _ _ Hfst) as (x & y & z & ->).
  destruct (load_snapshots_missing (w_fs w') (name +:+ ".json")) as [p Hp].
  - set_unfold in Hin. by destruct Hin as [[= -> _]|[[= -> _]|[[= -> _]|[]]]]; set_solver.
  - by erewrite fetch_failed_file.
  - exists p. by apply main_load_err.
Qed.

(** ** The Denormalizer's [main] *)

(** A missing snapshot is fatal: if any of the three snapshot files
    is absent, [main] raises [FileNotFoundError] before it makes the
    output directory or writes any file. *)
Theorem main_missing_snapshot s name :
  name ∈ ["companies.json"; "tools.json"; "libraries.json"] →
  fs_read s (path_join data_dir name) = None →
  ∃ p, main s = (Err (FileNotFoundError p), s).
Proof.
  intros Hn Hr. destruct (load_snapshots_missing _ _ Hn Hr) as [p Hp].
  exists p. by apply main_load_err.
Qed.

(** C11. When the snapshots load and process, [main] returns normally
    ([json.dump] of the tools cannot raise: every [tag_colors] key is a
    scalar) and leaves exactly the six files of [web_files] in
    [data/web], every other file unchanged. *)
Theorem main_outputs s c t l d :
  load_snapshots s = Ok (c, t, l) → process c t l = Ok d →
  ∃ wts s', mapM web_tool_json (web_tools d) = Ok wts ∧ main s = (Ok tt, s') ∧
    (∀ n v, (n, v) ∈ web_files d wts → fs_read s' (path_join output_dir n) = Some v) ∧
    (∀ p, p ∉ (λ f, path_join output_dir f.1) <$> web_files d wts → fs_read s' p = fs_read s p).
Proof.
  intros Hl Hp. destruct (web_tools_json_ok _ _ _ _ Hp) as [wts Hw].
  eexists wts, _. split_and!; [done|by eapply main_run| |].
  - intros n v Hin. by apply write_files_read; [apply web_files_NoDup|].
  - intros p Hp'. by rewrite write_files_read_ne, fs_read_mkdir.
Qed.

(** Every file [main] writes has its shape: the six files exist
    after a successful run, the keys of every record are the ones the
    source writes, in its order, and the computed fields are ints and
    strs (a [type] of ["company"] or ["tool"] in the search index). *)
Theorem main_output_shapes s s' :
  main s = (Ok tt, s') →
  ∀ n ty, (n, ty) ∈ web_schema →
    ∃ v, fs_read s' (path_join output_dir n) = Some v ∧ has_type ty v.
Proof.
  intros (c & t & l & d & wts & _ & _ & Hw & ->)%main_ok_inv n ty
    (i & Hi)%list_elem_of_lookup.
  destruct (Forall2_lookup_r _ _ _ _ _ (web_files_schema _ _ Hw) Hi) as ([n' v] & Hv & Hn & Ht).
  simpl in Hn, Ht. subst n'. exists v. split; [|done].
  apply write_files_read; [apply web_files_NoDup|]. by eapply list_elem_of_lookup_2.
Qed.

End Pipeline.

(** ** [json.dump] of [tag_colors] *)

(** Round trip of a [tag_colors] dict whose keys are strs: in the
    object [json.dump] writes, looking a name up gives the colour the
    dict held for it. *)
Theorem dict_json_roundtrip (d : dict json) fields :
  dict_keys_ok d → Forall (λ e, ∃ s, e_obj e = JStr s) d →
  dict_json d = Ok (JObj fields) →
  ∀ s, assoc s fields = dict_lookup (KStr s) d.
Proof.
  unfold dict_json. intros Hok Hs Hj s. res_inv. simplify_eq.
  apply mapM_res_Ok_Forall2 in Ha.
  induction Ha as [|e f d fs Hef _ IH]; [done|].
  apply Forall_cons in Hok as [Hk Hok]. apply Forall_cons in Hs as [[s' Hs'] Hs].
  rewrite Hs' in Hef, Hk. simpl in Hef, Hk. simplify_eq/=.
  rewrite IH by done. destruct (String.eqb_spec s' s); case_decide; congruence.
Qed.

(** Two tags of one tool named [1] (an int) and ['1'] (a str) are
    two keys of [tag_colors], but [json.dump] writes both as the key
    ["1"]: the written object has a duplicate key, and a reader keeps
    only one of the two colours. *)
Example tag_colors_key_collision :
  (wt ← web_tool_of []
          (JObj [("UUID", JStr "t"); ("ToolName", JStr "T");
                 ("Tool Tags", JArr [JObj [("value", JInt 1); ("color", JStr "red")];
                                     JObj [("value", JStr "1"); ("color", JStr "blue")]])]);
   j ← web_tool_json wt; getitem j "tag_colors")
  = Ok (JObj [("1", JStr "red"); ("1", JStr "blue")]).
Proof. reflexivity. Qed.

(** ** Witnesses *)

Module Examples.
Definition ex_root : string := "app".

Definition ex_cfg : Config :=
  {| BASEROW_TOKEN := "tok"; BASEROW_BASE_URL := "https://api.baserow.io";
     BASEROW_PAGE_SIZE := 100; BASEROW_OUTPUT_DIR := data_dir ex_root |}.

(** Every request is answered with one row and no next page. *)
Definition ex_net_ok (c : nat) (r : request) : outcome := Fetcher.ok_page [JInt 1] JNull.

(** The first request gets a 200 whose body is not JSON; the others one row. *)
Definition ex_net_bad (c : nat) (r : request) : outcome :=
  if decide (c = 0) then Response 200 None else Fetcher.ok_page [JInt 1] JNull.

(** The snapshots of the Denormalizer's example, already on disk. *)
Definition ex_disk : Disk :=
  {| disk_files :=
       <[path_join (data_dir ex_root) "companies.json" := JArr Examples.ex2_companies]>
       (<[path_join (data_dir ex_root) "tools.json" := JArr Examples.ex2_tools]>
       (<[path_join (data_dir ex_root) "libraries.json" := JArr []]> ∅));
     disk_dirs := {[data_dir ex_root]} |}.

Definition ex_empty : Disk := {| disk_files := ∅; disk_dirs := ∅ |}.

Definition ex_web : WebData :=
  res_default {| web_companies := []; web_tools := []; search_index := []; all_tags := [];
                 stats := {| total_companies := 0; total_tools := 0; companies_with_tools := 0;
                             tools_with_companies := 0; total_tags := 0 |} |}
    (process (JArr Examples.ex2_companies) (JArr Examples.ex2_tools) (JArr [])).

(** The disk after the Denormalizer's run on [ex_disk]. *)
Definition ex_disk' : Disk := (main ex_root ex_disk).2.

Definition ex_world (s : Disk) : World Disk := {| w_clock := 0; w_sleeps := []; w_fs := s |}.
End Examples.
Import Examples.


Lemma handoff_witness :
  ∃ summary w', Fetcher.main ex_net_ok ex_cfg 5 (ex_world ex_empty) = (Ok summary, w') ∧
  load_snapshots ex_root (w_fs w') = Ok (JArr [JInt 1], JArr [JInt 1], JArr [JInt 1]).
Proof.
  eexists _, _. split; [reflexivity|].
  eapply (handoff ex_root ex_net_ok ex_cfg 5 (ex_world ex_empty) _ _ [[JInt 1]] [[JInt 1]] [[JInt 1]] 1 1 1);
    try (reflexivity || discriminate || lia);
    eapply Fetcher.serves_last; (reflexivity || discriminate).
Defined.

Lemma handoff_stale_witness :
  ∃ summary w', Fetcher.main ex_net_bad ex_cfg 5 (ex_world ex_disk) = (Ok summary, w') ∧
  read_json (w_fs w') (path_join (data_dir ex_root) ("companies" +:+ ".json")) =
  read_json ex_disk (path_join (data_dir ex_root) ("companies" +:+ ".json")).
Proof.
  eexists _, _. split; [reflexivity|].
  eapply (handoff_stale ex_root ex_net_bad ex_cfg 5 (ex_world ex_disk) _ _ "companies" ValueError);
    [reflexivity|reflexivity|].
  by apply (list_elem_of_lookup_2 _ 0).
Defined.

Lemma pipeline_detects_missing_witness :
  ∃ summary w', Fetcher.main ex_net_bad ex_cfg 5 (ex_world ex_empty) = (Ok summary, w') ∧
  ∃ p, main ex_root (w_fs w') = (Err (FileNotFoundError p), w_fs w').
Proof.
  eexists _, _. split; [reflexivity|].
  eapply (pipeline_detects_missing ex_root ex_net_bad ex_cfg 5 (ex_world ex_empty) _ _
           "companies" ValueError); [reflexivity|reflexivity| |reflexivity].
  by apply (list_elem_of_lookup_2 _ 0).
Defined.

Lemma main_missing_snapshot_witness :
  ∃ p, main ex_root ex_empty = (Err (FileNotFoundError p), ex_empty).
Proof.
  apply (main_missing_snapshot ex_root ex_empty "tools.json"); [|reflexivity].
  by apply (list_elem_of_lookup_2 _ 1).
Defined.

Lemma main_outputs_witness :
  process (JArr Examples.ex2_companies) (JArr Examples.ex2_tools) (JArr []) = Ok ex_web ∧
  ∃ wts s', mapM web_tool_json (web_tools ex_web) = Ok wts ∧ main ex_root ex_disk = (Ok tt, s') ∧
    (∀ n v, (n, v) ∈ web_files ex_web wts → fs_read s' (path_join (output_dir ex_root) n) = Some v) ∧
    (∀ p, p ∉ (λ f, path_join (output_dir ex_root) f.1) <$> web_files ex_web wts →
          fs_read s' p = fs_read ex_disk p).
Proof.
  split; [vm_compute; reflexivity|].
  apply (main_outputs ex_root ex_disk (JArr Examples.ex2_companies) (JArr Examples.ex2_tools)
           (JArr [])); vm_compute; reflexivity.
Defined.

Lemma main_output_shapes_witness :
  main ex_root ex_disk = (Ok tt, ex_disk') ∧
  ∃ v, fs_read ex_disk' (path_join (output_dir ex_root) "search_index.json") = Some v ∧
    has_type (TArr search_entry_ty) v.
Proof.
  split; [vm_compute; reflexivity|].
  apply (main_output_shapes ex_root ex_disk); [vm_compute; reflexivity|].
  by apply (list_elem_of_lookup_2 _ 2).
Defined.

Lemma dict_json_roundtrip_witness :
  assoc "ai" [("ml", JStr "blue"); ("ai", JStr "x")] =
       dict_lookup (KStr "ai") [Entry (KStr "ml") (JStr "ml") (JStr "blue");
                             Entry (KStr "ai") (JStr "ai") (JStr "x")].
Proof.
  apply dict_json_roundtrip; [repeat constructor|repeat constructor; eexists; reflexivity|reflexivity].
Defined.

End Pipeline.
