(* ===== verification/Report.v ===== *)
(** * The standard output of [process_for_web.py]

    [main] prints a line before each stage and a summary at the end
    (lines 191, 198, 211, 240-247).  [Pipeline.main] gives the file
    effects of [main]; this file runs the same statements over a state
    that is the file system together with the lines printed so far, as a
    writer of the trace of [print] calls, and shows:
    - that erasing the output gives back [Pipeline.main]: the same result
      and the same files, the output only growing ([main_io_erase]);
    - that the summary tells the truth about the files: after a run that
      returns, the numbers printed are the values written to
      [stats.json], and the companies, tools and tags it counts are the
      records of [companies.json], [tools.json] and [tags.json].

    [print] writes its text and a newline; each call is one element of
    the trace, its text as the source has it (the bytes of the two
    symbols included).  [root] is absolute ([__file__] of a script run
    as [__main__] is absolute), so [output_dir.absolute()] prints as
    [output_dir]. *)

From S2P Require Import Prelude Json PyDict FileStore Denormalizer Fetcher Pipeline.
From Stdlib Require Import Ascii.

Module Report.
Import Denormalizer Pipeline.

(** [print(line)]: one line of the output. *)
Definition print {FS} (line : string) : PyM (FS * list string) unit :=
  λ st, (Ok tt, (st.1, st.2 ++ [line])).

Fixpoint prints {FS} (lines : list string) : PyM (FS * list string) unit :=
  match lines with
  | [] => mret tt
  | l :: lines' => print l;; prints lines'
  end.

(** A statement that only touches the file system. *)
Definition on_fs {FS A} (m : PyM FS A) : PyM (FS * list string) A :=
  λ st, let r := m st.1 in (r.1, (r.2, st.2)).

Definition newline : string := String (ascii_of_nat 10) EmptyString.

(** Lines 240-247: the summary, from the [stats] dict and the output
    directory. *)
Definition summary_lines (st : Stats) (out_dir : string) : list string :=
  [newline +:+ "‚úÖ Processing complete!";
   "   Companies: " +:+ pretty (Z.of_nat (total_companies st));
   "   Tools: " +:+ pretty (Z.of_nat (total_tools st));
   "   Tags: " +:+ pretty (Z.of_nat (total_tags st));
   "   Companies with tools: " +:+ pretty (Z.of_nat (companies_with_tools st));
   "   Tools with companies: " +:+ pretty (Z.of_nat (tools_with_companies st));
   newline +:+ "üìÅ Output saved to: " +:+ out_dir].

Section Report.
Context {FS : Type} `{FileSystem FS}.
Variable root : string.

(** [main] (lines 189-247) with its [print]s, in the order the source
    runs them: the two lookup tables (lines 195-196) are built before
    ["Processing data..."] is printed. *)
Definition main_io : PyM (FS * list string) unit :=
  print "Loading Baserow snapshots...";;
  snap ← on_fs (gets (load_snapshots root));
  '(companies, tools, libraries) ← lift snap;
  tools_by_id ← lift (by_id tools);
  companies_by_id ← lift (by_id companies);
  print "Processing data...";;
  d ← lift (build_web companies tools tools_by_id companies_by_id);
  on_fs (modify (fs_mkdir (output_dir root)));;
  print ("Saving to " +:+ output_dir root +:+ "...");;
  on_fs (save root d);;
  prints (summary_lines (stats d) (output_dir root)).
End Report.

(** ** Lemmas *)

Lemma print_run {FS} line (s : FS) out : print line (s, out) = (Ok tt, (s, out ++ [line])).
Proof. reflexivity. Qed.

Lemma prints_run {FS} lines (s : FS) out : prints lines (s, out) = (Ok tt, (s, out ++ lines)).
Proof.
  revert out. induction lines as [|l lines IH]; intros out; simpl; [by rewrite app_nil_r|].
  rewrite pym_bind_run, print_run, IH. by rewrite <- app_assoc.
Qed.

Lemma on_fs_run {FS A} (m : PyM FS A) s out : on_fs m (s, out) = ((m s).1, ((m s).2, out)).
Proof. reflexivity. Qed.

Lemma process_build c t l d :
  process c t l = Ok d →
  ∃ tbi cbi, by_id t = Ok tbi ∧ by_id c = Ok cbi ∧ build_web c t tbi cbi = Ok d.
Proof. unfold process. intros H. res_inv. eauto. Qed.

Lemma build_web_stats c t tbi cbi d :
  build_web c t tbi cbi = Ok d →
  total_companies (stats d) = length (web_companies d) ∧
  total_tools (stats d) = length (web_tools d) ∧
  total_tags (stats d) = length (all_tags d).
Proof.
  unfold build_web. intros H. res_inv. subst d. simpl.
  unfold calculate_stats in *. res_inv. rewrite Ha2 in Ha4. injection Ha4 as <-. by subst.
Qed.

Section ReportLemmas.
Context {FS : Type} `{FileSystem FS} `{!FileSystemLaws FS}.
Variable root : string.

Ltac io_step :=
  repeat (rewrite ?pym_bind_run, ?print_run, ?on_fs_run, ?res_bind_Ok, ?res_bind_Err;
          cbn [fst snd gets lift modify]).
Ltac io_close := split_and!; try done; rewrite <- ?app_assoc; by eexists.

(** Erasing the output of [main_io] gives [Pipeline.main]: the same
    result, the same files, and the output only grows. *)
Lemma main_io_erase s out :
  (main_io root (s, out)).1 = (main root s).1 ∧
  (main_io root (s, out)).2.1 = (main root s).2 ∧
  ∃ printed, (main_io root (s, out)).2.2 = out ++ printed.
Proof.
  unfold main_io, main, process. io_step.
  destruct (load_snapshots root s) as [[[c t] l]|e]; io_step; [|io_close].
  destruct (by_id t) as [tbi|e]; io_step; [|io_close].
  destruct (by_id c) as [cbi|e]; io_step; [|io_close].
  destruct (build_web c t tbi cbi) as [d|e]; io_step; [|io_close].
  destruct (save root d (fs_mkdir (output_dir root) s)) as [[[]|e] s2]; io_step;
    rewrite ?prints_run; io_close.
Qed.

(** A run whose snapshots load and process prints the three progress
    lines and the summary of [stats]. *)
Lemma main_io_run s out c t l d wts :
  load_snapshots root s = Ok (c, t, l) → process c t l = Ok d →
  mapM web_tool_json (web_tools d) = Ok wts →
  main_io root (s, out) =
    (Ok tt, (write_files root (web_files d wts) (fs_mkdir (output_dir root) s),
             out ++ ["Loading Baserow snapshots..."; "Processing data...";
                     "Saving to " +:+ output_dir root +:+ "..."] ++
                 summary_lines (stats d) (output_dir root))).
Proof.
  intros Hl (tbi & cbi & Ht & Hc & Hb)%process_build Hw. unfold main_io. io_step.
  rewrite Hl. io_step. rewrite Ht. io_step. rewrite Hc. io_step. rewrite Hb. io_step.
  rewrite (save_run root d wts) by (done || apply fs_isdir_mkdir). io_step.
  rewrite prints_run. by rewrite <- !app_assoc.
Qed.

(** ** The claim *)

(** C26. The summary [main] prints tells the truth about the files it
    wrote: after a run that returns, the output is the three progress
    lines and the summary of the statistics written to [stats.json], and
    the companies, tools and tags it counts are exactly the records of
    [companies.json], [tools.json] and [tags.json]. *)
Theorem main_io_report s s' out :
  main_io root (s, []) = (Ok tt, (s', out)) →
  ∃ cs ts tags st,
    fs_read s' (path_join (output_dir root) "companies.json") = Some (JArr cs) ∧
    fs_read s' (path_join (output_dir root) "tools.json") = Some (JArr ts) ∧
    fs_read s' (path_join (output_dir root) "tags.json") = Some (JArr tags) ∧
    fs_read s' (path_join (output_dir root) "stats.json") = Some (stats_json st) ∧
    total_companies st = length cs ∧ total_tools st = length ts ∧ total_tags st = length tags ∧
    out = ["Loading Baserow snapshots..."; "Processing data...";
           "Saving to " +:+ output_dir root +:+ "..."] ++ summary_lines st (output_dir root).
Proof.
  intros Hio. destruct (main_io_erase s []) as (H1 & H2 & _). rewrite Hio in H1, H2.
  destruct (main_ok_inv root s s') as (c & t & l & d & wts & Hl & Hp & Hw & Hs');
    [by rewrite (surjective_pairing (main root s)), <- H1, <- H2|].
  rewrite (main_io_run s [] c t l d wts Hl Hp Hw) in Hio. injection Hio as _ <-.
  destruct (process_build _ _ _ _ Hp) as (tbi & cbi & _ & _ & (Hc & Ht & Htg)%build_web_stats).
  exists (web_company_json <$> web_companies d), wts, (tag_json <$> all_tags d), (stats d).
  subst s'. clear H1 H2. assert (∀ n v, (n, v) ∈ web_files d wts →
    fs_read (write_files root (web_files d wts) (fs_mkdir (output_dir root) s))
      (path_join (output_dir root) n) = Some v) as Hr
    by (intros; apply (write_files_read root _); [apply web_files_NoDup|done]).
  erewrite !Hr by (unfold web_files; repeat constructor).
  split_and!; try done.
  - by rewrite length_fmap.
  - by rewrite (mapM_res_Ok_length _ _ _ Hw).
  - by rewrite length_fmap.
Qed.
End ReportLemmas.

(** ** Witness *)

(** The example snapshots of [Pipeline]: two companies, two tools. *)
Lemma main_io_report_witness :
  ∃ s' out, main_io Pipeline.Examples.ex_root (Pipeline.Examples.ex_disk, []) = (Ok tt, (s', out)) ∧
    ∃ cs st,
      fs_read s' (path_join (output_dir Pipeline.Examples.ex_root) "companies.json") = Some (JArr cs) ∧
      total_companies st = length cs ∧
      out = ["Loading Baserow snapshots..."; "Processing data...";
             "Saving to " +:+ output_dir Pipeline.Examples.ex_root +:+ "..."] ++
            summary_lines st (output_dir Pipeline.Examples.ex_root).
Proof.
  do 2 eexists. split; [vm_compute; reflexivity|].
  edestruct (main_io_report Pipeline.Examples.ex_root Pipeline.Examples.ex_disk) as
    (cs & ts & tags & st & Hc & _ & _ & _ & Htc & _ & _ & Hout); [vm_compute; reflexivity|].
  exists cs, st. split_and!; [exact Hc|exact Htc|exact Hout].
Defined.

End Report.
