(* ===== verification/Dashboard.v ===== *)
(** * The dashboard: [src/dashboard/tools_dashboard.py]

    The dashboard reads the tools snapshot with [pd.read_json] (a
    DataFrame with one row per record), derives per-tool columns (lines
    27-48: company, tags, cost, rating, the [Has*] flags, the price
    tier), offers four filter widgets and a reset button (lines 71-111),
    and renders views that all depend on [get_filtered_data] (lines
    113-130).

    - A cell of the DataFrame is a [cell]: [None] where the record has no
      such key (pandas fills [NaN], which is truthy and not subscriptable),
      [Some j] for the JSON value of the record.
    - The derived columns are computed column by column, as the
      [df[...] = df[...].apply(...)] statements do ([prepare]): the first
      exception of the first column that raises is the one the script
      raises.
    - The widgets' values are a record [UI]; a user event changes one
      value ([step]), the reset button sets all four in order
      ([reset_filters]).  A [MultiChoice] only offers its options, which
      is the guard of [step].
    - [ToolName.str.contains(search, case=False)] is a regular-expression
      search; its semantics is given by the Section variables [compile_ci]
      (compiling the pattern, which may raise) and [rsearch] of
      [get_filtered_data], with the law, used by the theorems that need
      it, that a pattern with no metacharacter is searched as a literal,
      ignoring case.
    - [pd.to_numeric(..., errors='coerce')] on a str is modelled for
      decimal literals ([-12], [3.50], [.5]); other texts pandas accepts
      (exponents, [inf], surrounding blanks) are coerced to [NaN] by the
      model. *)

From S2P Require Import Prelude Json PyDict.
From Stdlib Require Import QArith Ascii Lqa.

Module Dashboard.

(** ** Cells and columns *)

Definition cell := option json.

(** [df[col]] at a row built from a record. *)
Definition column (row : json) (col : string) : cell :=
  match row with JObj fs => assoc col fs | _ => None end.

(** [bool(x)] of a cell: [NaN] is truthy. *)
Definition cell_truthy (c : cell) : bool :=
  match c with None => true | Some j => truthy j end.

(** [x[0]]. *)
Definition subscript0 (j : json) : res json :=
  match j with
  | JArr l => py_index l 0
  | JStr s => py_index (chars s) 0
  | JObj _ => Err (KeyError "0")
  | _ => Err TypeError
  end.

(** ** Feature extraction (lines 16-24) *)

(** [extract_company] (lines 16-17). *)
Definition extract_company (company_list : cell) : res json :=
  if cell_truthy company_list then
    match company_list with
    | None => Err TypeError
    | Some l => first ← subscript0 l; get first "value" (JStr "Unknown")
    end
  else Ok (JStr "No Company Data").

(** [extract_tags_list] (lines 19-20). *)
Definition extract_tags_list (tags_list : cell) : res (list json) :=
  if cell_truthy tags_list then
    match tags_list with
    | None => Err TypeError
    | Some l => items ← py_iter l; mapM (λ tag, get tag "value" (JStr "")) items
    end
  else Ok [].

(** [extract_tags_str] (lines 22-24). *)
Definition extract_tags_str (tags_list : cell) : res json :=
  tags ← extract_tags_list tags_list;
  match tags with
  | [] => Ok (JStr "Uncategorized")
  | _ => s ← py_join ", " tags; Ok (JStr s)
  end.

(** ** [pd.to_numeric(..., errors='coerce')] (lines 31-32) *)

Definition digit (c : Ascii.ascii) : option Z :=
  let n := Ascii.nat_of_ascii c in
  if (48 <=? n)%nat && (n <=? 57)%nat then Some (Z.of_nat n - 48)%Z else None.

(** The longest prefix of digits, as (value, number of digits, rest). *)
Fixpoint take_digits (s : string) (acc : Z) (n : nat) : Z * nat * string :=
  match s with
  | String c s' =>
      match digit c with
      | Some d => take_digits s' (10 * acc + d)%Z (S n)
      | None => (acc, n, s)
      end
  | EmptyString => (acc, n, s)
  end.

(** An unsigned decimal literal [ddd], [ddd.ddd], [ddd.] or [.ddd]. *)
Definition parse_unsigned (s : string) : option Q :=
  let '(i, ni, rest) := take_digits s 0 0 in
  match rest with
  | EmptyString => if (ni =? 0)%nat then None else Some (inject_Z i)
  | String c rest' =>
      if Ascii.eqb c "."%char then
        let '(f, nf, rest'') := take_digits rest' 0 0 in
        match rest'' with
        | EmptyString =>
            if (ni + nf =? 0)%nat then None
            else Some (inject_Z i + (f # Z.to_pos (10 ^ Z.of_nat nf)))%Q
        | _ => None
        end
      else None
  end.

Definition parse_number (s : string) : option Q :=
  match s with
  | String c s' =>
      if Ascii.eqb c "-"%char then option_map Qopp (parse_unsigned s')
      else if Ascii.eqb c "+"%char then parse_unsigned s'
      else parse_unsigned s
  | EmptyString => None
  end.

(** A missing value, [None], a list or a dict, and a text that is not a
    number all become [NaN] ([None] here). *)
Definition to_numeric (c : cell) : option Q :=
  match c with
  | Some (JStr s) => parse_number s
  | Some j => num_val j
  | None => None
  end.

(** ** Market segmentation (lines 40-46) *)

Definition categorize_cost (cost : option Q) : string :=
  match cost with
  | None => "Unknown"
  | Some c =>
      if Qeq_bool c 0 then "Free"
      else if Qlt_le_dec c 500 then "Low (<$500)"
      else if Qlt_le_dec c 2000 then "Medium ($500-$2K)"
      else if Qlt_le_dec c 10000 then "High ($2K-$10K)"
      else "Enterprise (>$10K)"
  end.

(** The options of the price-tier filter (line 95) and the order of the
    segmentation chart (line 219). *)
Definition TIER_OPTIONS : list string :=
  ["Free"; "Low (<$500)"; "Medium ($500-$2K)"; "High ($2K-$10K)"; "Enterprise (>$10K)"].
Definition TIER_ORDER : list string := TIER_OPTIONS ++ ["Unknown"].

(** ** The derived DataFrame (lines 27-48) *)

(** A row of [df] with the columns the dashboard uses. *)
Record Tool := {
  tool_name : cell;             (* ToolName *)
  company : json;               (* Company *)
  tags_list : list json;        (* TagsList *)
  tags : json;                  (* Tags *)
  cost : option Q;              (* Cost *)
  rating : option Q;            (* Rating *)
  description_long : cell       (* ToolDescription_long *)
}.

(** [df['HasCompany']] .. [df['HasRating']] (lines 33-37) and
    [df['CostTier']] (line 48). *)
Definition has_company (t : Tool) : bool := negb (py_eq (company t) (JStr "No Company Data")).
Definition has_tags (t : Tool) : bool := negb (py_eq (tags t) (JStr "Uncategorized")).
Definition has_cost (t : Tool) : bool := bool_decide (is_Some (cost t)).
Definition has_description (t : Tool) : bool :=
  match description_long t with
  | None | Some JNull => false
  | Some j => negb (py_eq j (JStr ""))
  end.
Definition has_rating (t : Tool) : bool :=
  match rating t with Some r => negb (Qle_bool r 0) | None => false end.
Definition cost_tier (t : Tool) : string := categorize_cost (cost t).

Fixpoint mk_tools (rows : list json) (cs : list json) (tls : list (list json)) (ts : list json)
    : list Tool :=
  match rows, cs, tls, ts with
  | r :: rows', c :: cs', tl :: tls', t :: ts' =>
      {| tool_name := column r "ToolName"; company := c; tags_list := tl; tags := t;
         cost := to_numeric (column r "Annual License Cost");
         rating := to_numeric (column r "Overall Rating");
         description_long := column r "ToolDescription_long" |}
      :: mk_tools rows' cs' tls' ts'
  | _, _, _, _ => []
  end.

(** Lines 27-32, one column after the other. *)
Definition prepare (rows : list json) : res (list Tool) :=
  cs ← mapM (λ r, extract_company (column r "ToolCompany")) rows;
  tls ← mapM (λ r, extract_tags_list (column r "Tool Tags")) rows;
  ts ← mapM (λ r, extract_tags_str (column r "Tool Tags")) rows;
  Ok (mk_tools rows cs tls ts).

(** ** The filter options (lines 78-79) *)

(** [pd.unique] and [set]: the first of values equal under [==] is kept. *)
Fixpoint py_unique (l : list json) (seen : list json) : list json :=
  match l with
  | [] => []
  | x :: l' => if py_in x seen then py_unique l' seen else x :: py_unique l' (seen ++ [x])
  end.

Definition json_str (j : json) : string := match j with JStr s => s | _ => "" end.
Definition json_num (j : json) : Q := default 0%Q (num_val j).
Definition str_le (a b : json) : Prop := String.le (json_str a) (json_str b).
Definition num_le (a b : json) : Prop := Qle (json_num a) (json_num b).

#[export] Instance str_le_dec : RelDecision str_le.
Proof. intros a b. unfold str_le. apply _. Defined.
#[export] Instance num_le_dec : RelDecision num_le.
Proof. intros a b. apply Qle_dec. Defined.

Definition is_strj (j : json) : bool := match j with JStr _ => true | _ => false end.

(** [sorted(l)] (a stable sort): strs by code points, numbers by value;
    two values of kinds Python cannot compare raise [TypeError].  A list
    of lists (compared lexicographically by Python) is not modelled and
    raises [TypeError] here. *)
Definition py_sorted (l : list json) : res (list json) :=
  if (length l <=? 1)%nat then Ok l
  else if forallb is_strj l then Ok (merge_sort str_le l)
  else if forallb (λ j, bool_decide (is_Some (num_val j))) l then Ok (merge_sort num_le l)
  else Err TypeError.

(** [all_companies] (line 78). *)
Definition all_companies (df : list Tool) : res (list json) :=
  py_sorted (filter (λ c, negb (py_eq c (JStr "No Company Data")))
                    (py_unique (company <$> df) [])).

(** [all_tags] (line 79). *)
Definition all_tags (df : list Tool) : res (list json) :=
  py_sorted (py_unique (filter truthy (concat (tags_list <$> df))) []).

(** ** The widgets (lines 71-111) *)

(** The values of [search], [company_filter], [tag_filter] and
    [cost_tier_filter]. *)
Record UI := {
  search_value : string;
  company_value : list json;
  tag_value : list json;
  tier_value : list string }.

Definition ui_init : UI :=
  {| search_value := ""; company_value := []; tag_value := []; tier_value := [] |}.

(** [reset_filters] (lines 105-109): four assignments, in this order; each
    one re-renders the views, so the intermediate values are observable. *)
Definition set_search (s : string) (u : UI) : UI :=
  {| search_value := s; company_value := company_value u; tag_value := tag_value u;
     tier_value := tier_value u |}.
Definition set_companies (l : list json) (u : UI) : UI :=
  {| search_value := search_value u; company_value := l; tag_value := tag_value u;
     tier_value := tier_value u |}.
Definition set_tags (l : list json) (u : UI) : UI :=
  {| search_value := search_value u; company_value := company_value u; tag_value := l;
     tier_value := tier_value u |}.
Definition set_tiers (l : list string) (u : UI) : UI :=
  {| search_value := search_value u; company_value := company_value u;
     tag_value := tag_value u; tier_value := l |}.

Definition reset_trace (u : UI) : list UI :=
  let u1 := set_search "" u in
  let u2 := set_companies [] u1 in
  let u3 := set_tags [] u2 in
  let u4 := set_tiers [] u3 in
  [u1; u2; u3; u4].

Definition reset_filters (u : UI) : UI := set_tiers [] (set_tags [] (set_companies [] (set_search "" u))).

Inductive event :=
| SetSearch (s : string)
| SetCompanies (l : list json)
| SetTags (l : list json)
| SetTiers (l : list string)
| ClickReset.

(** A user event: a [MultiChoice] only offers its options. *)
Inductive step (company_options tag_options : list json) : UI → event → UI → Prop :=
| step_search u s : step company_options tag_options u (SetSearch s) (set_search s u)
| step_companies u l :
    Forall (λ c, c ∈ company_options) l →
    step company_options tag_options u (SetCompanies l) (set_companies l u)
| step_tags u l :
    Forall (λ t, t ∈ tag_options) l →
    step company_options tag_options u (SetTags l) (set_tags l u)
| step_tiers u l :
    Forall (λ t, t ∈ TIER_OPTIONS) l →
    step company_options tag_options u (SetTiers l) (set_tiers l u)
| step_reset u : step company_options tag_options u ClickReset (reset_filters u).

Inductive reachable (company_options tag_options : list json) : UI → Prop :=
| reach_init : reachable company_options tag_options ui_init
| reach_step u e u' :
    reachable company_options tag_options u → step company_options tag_options u e u' →
    reachable company_options tag_options u'.

(** ** [get_filtered_data] (lines 113-130) *)

Section Filter.
(** [re.compile(pattern, re.IGNORECASE)], which raises on a malformed
    pattern, and [rx.search(text) is not None]. *)
Variable regex : Type.
Variable compile_ci : string → res regex.
Variable rsearch : regex → string → bool.

(** [filtered['ToolName'].str.contains(search_val, case=False, na=False)]:
    a cell that is not a str gives [False]. *)
Definition name_contains (rx : regex) (t : Tool) : bool :=
  match tool_name t with Some (JStr s) => rsearch rx s | _ => false end.

Definition get_filtered_data (df : list Tool) (search_val : string) (companies tags : list json)
    (tiers : list string) : res (list Tool) :=
  filtered ← (if String.eqb search_val "" then Ok df
              else rx ← compile_ci search_val; Ok (filter (name_contains rx) df));
  let filtered := if bool_decide (companies = []) then filtered
                  else filter (λ t, py_in (company t) companies) filtered in
  let filtered := if bool_decide (tags = []) then filtered
                  else filter (λ t, existsb (λ tg, py_in tg (tags_list t)) tags) filtered in
  let filtered := if bool_decide (tiers = []) then filtered
                  else filter (λ t, bool_decide (cost_tier t ∈ tiers)) filtered in
  Ok filtered.

(** The views call it with the widgets' values. *)
Definition filtered_for (df : list Tool) (u : UI) : res (list Tool) :=
  get_filtered_data df (search_value u) (company_value u) (tag_value u) (tier_value u).
(** The first step of [get_filtered_data] and the row predicate of the
    three others: a reference description of the filter. *)
Definition search_stage (df : list Tool) (search_val : string) : res (list Tool) :=
  if String.eqb search_val "" then Ok df
  else rx ← compile_ci search_val; Ok (filter (name_contains rx) df).
End Filter.

Definition keep (companies tags : list json) (tiers : list string) (t : Tool) : bool :=
  (bool_decide (companies = []) || py_in (company t) companies) &&
  (bool_decide (tags = []) || existsb (λ tg, py_in tg (tags_list t)) tags) &&
  (bool_decide (tiers = []) || bool_decide (cost_tier t ∈ tiers)).

(** ** The views (lines 132-259) *)

(** [x.sum() / total * 100 if total > 0 else 0] (lines 141-143). *)
Definition pct (n total : nat) : Q :=
  if (0 <? total)%nat then (inject_Z (Z.of_nat n) / inject_Z (Z.of_nat total) * 100)%Q else 0%Q.

(** The numbers of [stats_cards] (lines 133-169); [None] is the
    ['No data available'] pane. *)
Record Cards := {
  card_total : nat; card_company_pct : Q; card_tags_pct : Q; card_cost_pct : Q;
  card_company_records : nat; card_tags_records : nat }.

Definition stats_cards (filtered : list Tool) : option Cards :=
  let total := length filtered in
  if (total =? 0)%nat then None
  else Some {| card_total := total;
               card_company_pct := pct (length (filter has_company filtered)) total;
               card_tags_pct := pct (length (filter has_tags filtered)) total;
               card_cost_pct := pct (length (filter has_cost filtered)) total;
               card_company_records := length (filter has_company filtered);
               card_tags_records := length (filter has_tags filtered) |}.

(** [value_counts()] of the price tiers, reindexed in [tier_order]
    (lines 218-220). *)
Definition tier_count (filtered : list Tool) (tier : string) : nat :=
  length (filter (λ t, String.eqb (cost_tier t) tier) filtered).

Definition market_segmentation (filtered : list Tool) : list (string * nat) :=
  (λ tier, (tier, tier_count filtered tier)) <$>
    filter (λ tier, (0 <? tier_count filtered tier)%nat) TIER_ORDER.

(** The loop of [tag_chart] (lines 249-252). *)
Fixpoint count_tags (acc : dict Z) (tlist : list json) : res (dict Z) :=
  match tlist with
  | [] => Ok acc
  | t :: tlist' =>
      c ← dict_get acc t;
      acc' ← dict_set acc t (default 0 c + 1)%Z;
      count_tags acc' tlist'
  end.

Fixpoint tag_counts_loop (acc : dict Z) (rows : list Tool) : res (dict Z) :=
  match rows with
  | [] => Ok acc
  | r :: rows' => acc' ← count_tags acc (tags_list r); tag_counts_loop acc' rows'
  end.

(** [tag_chart] (lines 245-252) up to the plot; [None] is the
    ['No tag data'] pane. *)
Definition tag_chart (filtered : list Tool) : option (res (dict Z)) :=
  if (length (filter has_tags filtered) =? 0)%nat then None
  else Some (tag_counts_loop [] (filter has_tags filtered)).

(** ** Reference functions for the theorems *)

(** The position of a tier in [tier_order] (line 219). *)
Definition tier_rank (tier : string) : nat :=
  if String.eqb tier "Free" then 0
  else if String.eqb tier "Low (<$500)" then 1
  else if String.eqb tier "Medium ($500-$2K)" then 2
  else if String.eqb tier "High ($2K-$10K)" then 3
  else if String.eqb tier "Enterprise (>$10K)" then 4
  else 5.

(** How many tags of the rows hash to [k], duplicates included. *)
Definition occurrences (k : pykey) (rows : list Tool) : nat :=
  length (filter (λ tg, to_key tg = Ok k) (concat (tags_list <$> rows))).

(** A count [n] added to a [dict.get(k, 0)]-style entry. *)
Definition bump (o : option Z) (n : nat) : option Z :=
  if (n =? 0)%nat then o else Some (default 0%Z o + Z.of_nat n)%Z.

(** ** Lemmas *)

Lemma filter_if {A} (b : bool) (p : A → bool) (l : list A) :
  (if b then l else filter p l) = filter (λ x, b || p x) l.
Proof.
  destruct b; simpl; [|done].
  induction l as [|x l IH]; [done|]. rewrite filter_cons_True; [by f_equal|done].
Qed.

Lemma filter_mono_sublist {A} (p q : A → bool) (l : list A) :
  (∀ x, p x → q x) → filter p l `sublist_of` filter q l.
Proof.
  intros Hpq. rewrite <- (list_filter_filter_l (λ x, p x) (λ x, q x) l) by done.
  apply sublist_filter.
Qed.

Lemma cost_tier_cases t :
  cost_tier t ∈ TIER_ORDER ∧ (cost_tier t = "Unknown" ↔ cost t = None).
Proof.
  unfold cost_tier, categorize_cost. destruct (cost t) as [c|]; [|split; [set_solver|done]].
  split; [|split; [|done]].
  - destruct (Qeq_bool c 0), (Qlt_le_dec c 500), (Qlt_le_dec c 2000), (Qlt_le_dec c 10000);
      set_solver.
  - destruct (Qeq_bool c 0), (Qlt_le_dec c 500), (Qlt_le_dec c 2000), (Qlt_le_dec c 10000);
      discriminate.
Qed.

Section FilterLemmas.
Variable regex : Type.
Variable compile_ci : string → res regex.
Variable rsearch : regex → string → bool.
Abbreviation get_filtered_data := (get_filtered_data regex compile_ci rsearch).
Abbreviation filtered_for := (filtered_for regex compile_ci rsearch).
Abbreviation search_stage := (search_stage regex compile_ci rsearch).

(** The four filters applied one after the other keep exactly the rows
    of the search stage that satisfy all three selections. *)
Lemma get_filtered_data_keep df s companies tags tiers :
  get_filtered_data df s companies tags tiers =
  (l ← search_stage df s; Ok (filter (keep companies tags tiers) l)).
Proof.
  unfold get_filtered_data, search_stage.
  destruct (String.eqb s ""); [|destruct (compile_ci s)]; simpl; try done;
    rewrite !filter_if, !list_filter_filter; f_equal; apply list_filter_iff;
    intros t; unfold keep; rewrite !andb_True; tauto.
Qed.

Lemma search_stage_sublist df s l : search_stage df s = Ok l → l `sublist_of` df.
Proof.
  unfold search_stage. destruct (String.eqb s ""); [by intros [= <-]|].
  destruct (compile_ci s); intros [= <-]. apply sublist_filter.
Qed.

Lemma get_filtered_data_sublist df s companies tags tiers l :
  get_filtered_data df s companies tags tiers = Ok l → l `sublist_of` df.
Proof.
  rewrite get_filtered_data_keep. intros H. res_inv. subst l.
  etrans; [apply sublist_filter|]. by eapply search_stage_sublist.
Qed.

Lemma filtered_for_cleared_search df u :
  search_value u = "" →
  filtered_for df u = Ok (filter (keep (company_value u) (tag_value u) (tier_value u)) df).
Proof.
  intros Hs. unfold filtered_for. rewrite get_filtered_data_keep. unfold search_stage.
  by rewrite Hs.
Qed.

End FilterLemmas.

Lemma reachable_options company_options tag_options u :
  reachable company_options tag_options u →
  Forall (λ c, c ∈ company_options) (company_value u) ∧
  Forall (λ t, t ∈ tag_options) (tag_value u) ∧
  Forall (λ t, t ∈ TIER_OPTIONS) (tier_value u).
Proof.
  induction 1 as [|u e u' _ IH Hstep]; [split_and!; constructor|].
  destruct IH as (? & ? & ?). inversion Hstep; subst; simpl; split_and!; done || constructor.
Qed.

(** The transitions of the widgets, whatever the event. *)
Definition ui_step (company_options tag_options : list json) (u u' : UI) : Prop :=
  ∃ e, step company_options tag_options u e u'.

Lemma reset_filters_init u : reset_filters u = ui_init.
Proof. by destruct u. Qed.

Lemma reachable_rtc company_options tag_options u :
  reachable company_options tag_options u → rtc (ui_step company_options tag_options) ui_init u.
Proof.
  induction 1 as [|u e u' _ IH Hs]; [done|].
  eapply rtc_r; [exact IH|]. by exists e.
Qed.

Lemma keep_clear_companies cs ts tiers t : keep cs ts tiers t → keep [] ts tiers t.
Proof. unfold keep. rewrite !andb_True. naive_solver. Qed.
Lemma keep_clear_tags ts tiers t : keep [] ts tiers t → keep [] [] tiers t.
Proof. unfold keep. rewrite !andb_True. naive_solver. Qed.
Lemma keep_clear_tiers tiers t : keep [] [] tiers t → keep [] [] [] t.
Proof. unfold keep. rewrite !andb_True. naive_solver. Qed.
Lemma keep_nothing t : keep [] [] [] t.
Proof. done. Qed.

Lemma tier_count_cons t l tier :
  tier_count (t :: l) tier = ((if String.eqb (cost_tier t) tier then 1 else 0) + tier_count l tier)%nat.
Proof. unfold tier_count. rewrite filter_cons. by destruct (String.eqb _ _). Qed.

(** Every tool is counted in exactly one tier of [TIER_ORDER]. *)
Lemma sum_tiers l : sum_list (tier_count l <$> TIER_ORDER) = length l.
Proof.
  induction l as [|t l IH]; [done|]. cbn [fmap list_fmap TIER_ORDER TIER_OPTIONS app sum_list] in IH |- *.
  rewrite !tier_count_cons. destruct (cost_tier_cases t) as [Hin _].
  cbn [TIER_ORDER TIER_OPTIONS app] in Hin.
  unfold id in *.
  repeat (apply elem_of_cons in Hin as [Hin|Hin]; [rewrite Hin; simpl; lia|]).
  by apply not_elem_of_nil in Hin.
Qed.

Lemma bump_bump o a b : bump (bump o a) b = bump o (a + b).
Proof.
  unfold bump. destruct (a =? 0)%nat eqn:Ha, (b =? 0)%nat eqn:Hb, (a + b =? 0)%nat eqn:Hab;
    rewrite ?Nat.eqb_eq, ?Nat.eqb_neq in *; simpl; try lia; try done; f_equal; lia.
Qed.

Lemma count_tags_spec acc tl acc' k :
  count_tags acc tl = Ok acc' →
  dict_lookup k acc' = bump (dict_lookup k acc) (length (filter (λ tg, to_key tg = Ok k) tl)).
Proof.
  revert acc. induction tl as [|t tl IH]; intros acc Hc; [by injection Hc as <-|].
  simpl in Hc. unfold dict_get, dict_set in Hc. destruct (to_key t) as [kt|] eqn:Hkt;
    [|discriminate]. simpl in Hc. rewrite (IH _ Hc), dict_lookup_insert, filter_cons.
  destruct (decide (kt = k)) as [->|Hne].
  - rewrite decide_True by done. simpl length.
    change (S ?n) with (1 + n)%nat. rewrite <- bump_bump. unfold bump at 2. simpl. done.
  - rewrite decide_False by congruence. done.
Qed.

Lemma tag_counts_loop_spec acc rows d k :
  tag_counts_loop acc rows = Ok d → dict_lookup k d = bump (dict_lookup k acc) (occurrences k rows).
Proof.
  revert acc. induction rows as [|r rows IH]; intros acc Hl.
  - injection Hl as <-. unfold bump, occurrences. done.
  - simpl in Hl. destruct (count_tags acc (tags_list r)) as [acc1|] eqn:Hc; [|discriminate].
    simpl in Hl. rewrite (IH _ Hl), (count_tags_spec _ _ _ _ Hc), bump_bump.
    unfold occurrences. by rewrite fmap_cons, concat_cons, filter_app, length_app.
Qed.

Lemma pct_bounds n total : (n ≤ total)%nat → (0 <= pct n total <= 100)%Q.
Proof.
  intros Hn. unfold pct. destruct (0 <? total)%nat eqn:Ht; [|split; discriminate].
  apply Nat.ltb_lt in Ht.
  assert (0 < inject_Z (Z.of_nat total))%Q as Hpos.
  { change 0%Q with (inject_Z 0). rewrite <- Zlt_Qlt. lia. }
  split.
  - apply Qmult_le_0_compat; [|discriminate].
    apply Qle_shift_div_l; [done|]. rewrite Qmult_0_l. change 0%Q with (inject_Z 0).
    rewrite <- Zle_Qle. lia.
  - rewrite <- (Qmult_1_l 100) at 2. apply Qmult_le_compat_r; [|discriminate].
    apply Qle_shift_div_r; [done|]. rewrite Qmult_1_l. rewrite <- Zle_Qle. lia.
Qed.

(** ** The filters: the claims *)

(** C33. Price tiers: once a price tier is selected (from the options the
    widget offers, which do not include ['Unknown']), no tool without a
    numeric cost is shown, by any view; no choice of the widgets shows
    them alongside priced tools of a tier. *)
Theorem tier_filter_hides_unknown_cost company_options tag_options regex compile_ci rsearch
    df u l :
  reachable company_options tag_options u → tier_value u ≠ [] →
  filtered_for regex compile_ci rsearch df u = Ok l →
  Forall (λ t, has_cost t = true) l.
Proof.
  intros Hr Hne Hf. destruct (reachable_options _ _ _ Hr) as (_ & _ & Htiers).
  unfold filtered_for in Hf. rewrite get_filtered_data_keep in Hf. res_inv. subst l.
  apply Forall_forall. intros t (Hk & _)%list_elem_of_filter.
  unfold keep in Hk. rewrite !andb_True, !orb_True in Hk.
  destruct Hk as (_ & [Hnil%bool_decide_unpack|Hin%bool_decide_unpack]); [done|].
  rewrite Forall_forall in Htiers. specialize (Htiers _ Hin).
  destruct (cost_tier_cases t) as [_ Hu]. unfold has_cost. apply bool_decide_eq_true.
  destruct (cost t) as [c|]; [done|]. rewrite (proj2 Hu eq_refl) in Htiers.
  vm_compute in Htiers. set_solver.
Qed.

(** Reset: the four assignments of [reset_filters] re-render the views
    four times; each render shows the rows of the one before and more,
    and the last one shows the whole table. *)
Theorem reset_widens regex compile_ci rsearch df u :
  ∃ l1 l2 l3 l4,
    Forall2 (λ u' l, filtered_for regex compile_ci rsearch df u' = Ok l) (reset_trace u)
      [l1; l2; l3; l4] ∧
    l1 `sublist_of` l2 ∧ l2 `sublist_of` l3 ∧ l3 `sublist_of` l4 ∧ l4 = df.
Proof.
  eexists _, _, _, _. split_and!;
    [repeat (constructor; [apply filtered_for_cleared_search; reflexivity|]); constructor
    |apply filter_mono_sublist, keep_clear_companies
    |apply filter_mono_sublist, keep_clear_tags
    |apply filter_mono_sublist, keep_clear_tiers
    |apply list_filter_all; intros; apply keep_nothing].
Qed.

(** C34. A search text without regular-expression metacharacters is
    searched as a literal, ignoring case: the rows shown are, in the
    table's order, the tools whose name is a str containing the text
    (ASCII case folded) and that pass the three selections. *)
Theorem filter_literal_search regex compile_ci rsearch df s companies tags tiers rx :
  s ≠ "" → compile_ci s = Ok rx → (∀ n, rsearch rx n = substring (lower s) (lower n)) →
  get_filtered_data regex compile_ci rsearch df s companies tags tiers =
    Ok (filter (λ t, match tool_name t with
                     | Some (JStr n) => substring (lower s) (lower n)
                     | _ => false
                     end && keep companies tags tiers t) df).
Proof.
  intros Hs Hc Hr. rewrite get_filtered_data_keep. unfold search_stage.
  rewrite (proj2 (String.eqb_neq _ _) Hs), Hc. simpl. f_equal.
  rewrite list_filter_filter. apply list_filter_iff. intros t.
  unfold name_contains. rewrite andb_True. destruct (tool_name t) as [[]|]; simpl;
    rewrite ?Hr; tauto.
Qed.

(** C20. The widgets never get stuck: from any state, the reset button
    brings back the whole table, and every state the user can reach from
    the start can be reached again. *)
Theorem reset_recovers company_options tag_options regex compile_ci rsearch df u v :
  reachable company_options tag_options v →
  filtered_for regex compile_ci rsearch df (reset_filters u) = Ok df ∧
  rtc (ui_step company_options tag_options) u v.
Proof.
  intros Hv. rewrite reset_filters_init. split.
  - rewrite filtered_for_cleared_search by done. f_equal.
    apply list_filter_all. intros. apply keep_nothing.
  - eapply rtc_l; [exists ClickReset; apply step_reset|].
    rewrite reset_filters_init. by apply reachable_rtc.
Qed.

(** ** The views and the derived columns: the claims *)

(** Market segmentation: the bars of the chart are the tiers that occur,
    in the order of [tier_order], each with a positive count, and the
    counts add up to the number of rows shown. *)
Theorem market_segmentation_total filtered :
  sum_list (snd <$> market_segmentation filtered) = length filtered ∧
  Forall (λ p, 0 < p.2)%nat (market_segmentation filtered) ∧
  (market_segmentation filtered).*1 `sublist_of` TIER_ORDER.
Proof.
  unfold market_segmentation. rewrite <- !list_fmap_compose. split_and!.
  - rewrite (list_fmap_ext _ (tier_count filtered)) by done.
    by rewrite sum_list_filter_pos, sum_tiers.
  - apply Forall_fmap, Forall_forall. intros tier (Hp & _)%list_elem_of_filter.
    simpl. apply Nat.ltb_lt. by apply Is_true_true.
  - rewrite (list_fmap_ext _ id), list_fmap_id by done. apply sublist_filter.
Qed.

(** C35. Tag chart: the count of a tag is the number of its occurrences in
    the tag lists of the rows with tags, duplicates within one tool
    included (the chart's title says tools). *)
Theorem tag_chart_counts filtered d k :
  tag_chart filtered = Some (Ok d) →
  dict_lookup k d =
    (let n := occurrences k (filter has_tags filtered) in
     if (n =? 0)%nat then None else Some (Z.of_nat n)).
Proof.
  unfold tag_chart. destruct (_ =? 0)%nat; [discriminate|]. intros [= Hl].
  by rewrite (tag_counts_loop_spec _ _ _ _ Hl).
Qed.

(** C36. A record without a ['ToolCompany'] key (a [NaN] cell, which is
    truthy and cannot be indexed) makes the dashboard raise while it
    derives its columns. *)
Theorem prepare_missing_company rows r :
  r ∈ rows → column r "ToolCompany" = None → ∃ e, prepare rows = Err e.
Proof.
  intros Hr Hc. unfold prepare.
  destruct (mapM_res_Err_elem (λ r, extract_company (column r "ToolCompany")) rows r TypeError)
    as [e ->]; [done|by rewrite Hc|]. by exists e.
Qed.

(** C37. Price tiers are monotone in the cost for costs of at least 0: a
    larger cost never lands in an earlier tier of [tier_order].  (A
    negative cost lands in the ['Low (<$500)'] tier, after ['Free'].) *)
Theorem categorize_cost_monotone c1 c2 :
  (0 <= c1)%Q → (c1 <= c2)%Q →
  (tier_rank (categorize_cost (Some c1)) <= tier_rank (categorize_cost (Some c2)))%nat.
Proof.
  intros H1 H12. unfold categorize_cost.
  destruct (Qeq_bool c1 0) eqn:E1; [apply Nat.le_0_l|]. apply Qeq_bool_neq in E1.
  destruct (Qeq_bool c2 0) eqn:E2; [apply Qeq_bool_eq in E2; exfalso; apply E1; lra|].
  destruct (Qlt_le_dec c1 500), (Qlt_le_dec c2 500), (Qlt_le_dec c1 2000),
    (Qlt_le_dec c2 2000), (Qlt_le_dec c1 10000), (Qlt_le_dec c2 10000);
    first [exfalso; lra | vm_compute; lia].
Qed.

(** The overview cards: shown only for a non-empty selection, with the
    number of rows and three percentages between 0 and 100. *)
Theorem stats_cards_bounds filtered c :
  stats_cards filtered = Some c →
  card_total c = length filtered ∧ (0 < card_total c)%nat ∧
  (0 <= card_company_pct c <= 100)%Q ∧ (0 <= card_tags_pct c <= 100)%Q ∧
  (0 <= card_cost_pct c <= 100)%Q.
Proof.
  unfold stats_cards. destruct (length filtered =? 0)%nat eqn:Hz; [discriminate|].
  apply Nat.eqb_neq in Hz. intros [= <-]. simpl.
  split_and!; try done; try lia; apply pct_bounds, length_filter.
Qed.

(** ** Witnesses *)

Module Examples.
(** Two Baserow rows: a free tool of a company with a repeated tag, and a
    tool with no company, no tags and a cost that is not a number. *)
Definition ex_rows : list json :=
  [JObj [("ToolName", JStr "Zotero"); ("ToolCompany", JArr [JObj [("value", JStr "Corp")]]);
         ("Tool Tags", JArr [JObj [("value", JStr "ml")]; JObj [("value", JStr "ml")]]);
         ("Annual License Cost", JStr "0.00"); ("Overall Rating", JStr "4.5")];
   JObj [("ToolName", JStr "Other"); ("ToolCompany", JArr []); ("Tool Tags", JArr []);
         ("Annual License Cost", JStr "n/a")]].

Definition ex_df : list Tool := res_default [] (prepare ex_rows).

(** A literal search, ignoring ASCII case. *)
Definition ex_compile (p : string) : res string := Ok p.
Definition ex_rsearch (p n : string) : bool := substring (lower p) (lower n).

Definition ex_ui : UI := set_tiers ["Free"] ui_init.
End Examples.
Import Examples.

Lemma tier_filter_hides_unknown_cost_witness :
  ∃ l, filtered_for string ex_compile ex_rsearch ex_df ex_ui = Ok l ∧
       Forall (λ t, has_cost t = true) l.
Proof.
  eexists. split; [reflexivity|].
  apply (tier_filter_hides_unknown_cost [] [] string ex_compile ex_rsearch ex_df ex_ui).
  - eapply (reach_step _ _ ui_init (SetTiers ["Free"])); [constructor|].
    constructor. repeat constructor.
  - discriminate.
  - reflexivity.
Defined.

Lemma filter_literal_search_witness :
  get_filtered_data string ex_compile ex_rsearch ex_df "ZOT" [] [] [] =
    Ok (filter (λ t, match tool_name t with
                     | Some (JStr n) => substring (lower "ZOT") (lower n)
                     | _ => false
                     end && keep [] [] [] t) ex_df).
Proof. apply (filter_literal_search _ _ _ _ _ _ _ _ "ZOT"); [discriminate|reflexivity|done]. Defined.

Lemma tag_chart_counts_witness :
  ∃ d, tag_chart ex_df = Some (Ok d) ∧
  dict_lookup (KStr "ml") d =
    (let n := occurrences (KStr "ml") (filter has_tags ex_df) in
     if (n =? 0)%nat then None else Some (Z.of_nat n)).
Proof. eexists. split; [reflexivity|]. apply tag_chart_counts. reflexivity. Defined.

Lemma prepare_missing_company_witness :
  ∃ e, prepare (JObj [("ToolName", JStr "X")] :: ex_rows) = Err e.
Proof. apply (prepare_missing_company _ (JObj [("ToolName", JStr "X")])); [left|reflexivity]. Defined.

Lemma categorize_cost_monotone_witness :
  (tier_rank (categorize_cost (Some 100%Q)) <= tier_rank (categorize_cost (Some 700%Q)))%nat.
Proof. apply categorize_cost_monotone; discriminate. Defined.

Lemma reset_recovers_witness :
  reachable [] [] ex_ui ∧ rtc (ui_step [] []) ui_init ex_ui.
Proof.
  assert (reachable [] [] ex_ui) as Hr.
  { eapply reach_step; [apply reach_init|]. apply step_tiers. repeat constructor. }
  split; [exact Hr|].
  destruct (reset_recovers [] [] string ex_compile ex_rsearch ex_df ui_init ex_ui Hr) as [_ H].
  exact H.
Defined.

Lemma stats_cards_bounds_witness :
  ∃ c, stats_cards ex_df = Some c ∧
  card_total c = length ex_df ∧ (0 < card_total c)%nat ∧
  (0 <= card_company_pct c <= 100)%Q ∧ (0 <= card_tags_pct c <= 100)%Q ∧
  (0 <= card_cost_pct c <= 100)%Q.
Proof. eexists. split; [reflexivity|]. apply stats_cards_bounds. reflexivity. Defined.

End Dashboard.
