(* ===== verification/DashStats.v ===== *)
(** * Descriptive statistics of the dashboard

    [calculate_statistics] (lines 51-68 of [tools_dashboard.py])
    summarises a numeric column after [dropna()]: count, mean, median,
    standard deviation, extremes, quartiles and their range, skewness and
    kurtosis; [stats_cards] shows the median cost (lines 145-146).

    Values are exact rationals: the rounding of numpy's float sums is not
    modelled.  The standard deviation is modelled by its square, the
    sample variance ([ddof=1], [NaN] for a single value), since a square
    root is not rational; skewness and kurtosis (computed by scipy) are not
    modelled.  [quantile] is numpy's default linear interpolation, which
    [Series.quantile] uses; [median] is numpy's median (the middle value,
    or the mean of the two middle ones). *)

From S2P Require Import Prelude Json PyDict Dashboard.
From Stdlib Require Import QArith Qminmax Qround Lqa.

Module DashStats.
Import Dashboard.

(** [series.dropna()] (line 53). *)
Definition dropna (series : list (option Q)) : list Q := omap id series.

Definition sort_q (l : list Q) : list Q := merge_sort Qle l.

Definition q_sum (l : list Q) : Q := foldr Qplus 0%Q l.

(** [clean.mean()] (line 58). *)
Definition q_mean (l : list Q) : Q := (q_sum l / inject_Z (Z.of_nat (length l)))%Q.

(** [clean.min()] and [clean.max()] (lines 61-62). *)
Definition q_min (l : list Q) : Q := match l with [] => 0%Q | x :: l' => foldr Qmin x l' end.
Definition q_max (l : list Q) : Q := match l with [] => 0%Q | x :: l' => foldr Qmax x l' end.

(** [clean.median()] (line 59). *)
Definition median (l : list Q) : Q :=
  let xs := sort_q l in
  let n := length xs in
  if Nat.even n then ((nth (n / 2 - 1) xs 0 + nth (n / 2) xs 0) / 2)%Q
  else nth (n / 2) xs 0%Q.

(** [clean.quantile(p)] (lines 63-65): the value at the virtual index
    [(n - 1) * p] of the sorted values, interpolated linearly. *)
Definition quantile (l : list Q) (p : Q) : Q :=
  let xs := sort_q l in
  let h := (inject_Z (Z.of_nat (length xs - 1)) * p)%Q in
  let lo := Z.to_nat (Qfloor h) in
  let a := nth lo xs 0%Q in
  let b := nth (S lo) xs a in
  (a + (b - a) * (h - inject_Z (Qfloor h)))%Q.

(** The square of [clean.std()] (line 60): [NaN] ([None]) for one value. *)
Definition sample_var (l : list Q) : option Q :=
  if (length l <? 2)%nat then None
  else Some (q_sum ((λ x, (x - q_mean l) * (x - q_mean l)) <$> l)
             / inject_Z (Z.of_nat (length l - 1)))%Q.

Record Statistics := {
  st_count : nat; st_mean : Q; st_median : Q; st_var : option Q;
  st_min : Q; st_max : Q; st_q25 : Q; st_q75 : Q; st_iqr : Q }.

(** [calculate_statistics] (lines 51-68); [None] is the empty dict of
    line 55. *)
Definition calculate_statistics (series : list (option Q)) : option Statistics :=
  let clean := dropna series in
  if (length clean =? 0)%nat then None
  else Some {| st_count := length clean; st_mean := q_mean clean; st_median := median clean;
               st_var := sample_var clean; st_min := q_min clean; st_max := q_max clean;
               st_q25 := quantile clean (1 # 4); st_q75 := quantile clean (3 # 4);
               st_iqr := (quantile clean (3 # 4) - quantile clean (1 # 4))%Q |}.

(** The median cost of [stats_cards] (lines 145-146); [None] is ['N/A']. *)
Definition median_cost (filtered : list Tool) : option Q :=
  st_median <$> calculate_statistics (cost <$> filtered).

(** ** Sorted values *)

#[export] Instance Qle_total : Total Qle.
Proof. intros x y. destruct (Qlt_le_dec x y); [left; by apply Qlt_le_weak|by right]. Qed.
#[export] Instance Qle_transitive : Transitive Qle.
Proof. intros x y z. apply Qle_trans. Qed.

Lemma sort_q_sorted l : StronglySorted Qle (sort_q l).
Proof. apply (StronglySorted_merge_sort Qle); apply _. Qed.

Lemma sort_q_perm l : sort_q l ≡ₚ l.
Proof. apply merge_sort_Permutation. Qed.

Lemma sorted_nth_le xs i j d :
  StronglySorted Qle xs → (i ≤ j)%nat → (j < length xs)%nat → (nth i xs d <= nth j xs d)%Q.
Proof.
  intros Hs. revert i j. induction Hs as [|x xs Hs IH Hx]; intros i j Hij Hj; [simpl in Hj; lia|].
  destruct i as [|i], j as [|j]; simpl in *; try lia.
  - apply Qle_refl.
  - rewrite Forall_forall in Hx. apply Hx, list_elem_of_In, nth_In. lia.
  - apply IH; lia.
Qed.

(** The index of a value of a sorted list. *)
Lemma sorted_elem_between xs y d :
  StronglySorted Qle xs → y ∈ xs →
  (nth 0 xs d <= y)%Q ∧ (y <= nth (length xs - 1) xs d)%Q.
Proof.
  intros Hs (i & Hi)%list_elem_of_lookup. pose proof (lookup_lt_Some _ _ _ Hi) as Hlt.
  rewrite <- (nth_lookup_Some _ _ d _ Hi). split; apply sorted_nth_le; auto with lia.
Qed.

(** ** Minimum and maximum *)

Lemma Qmin_cases x y : (Qmin x y = x ∧ x <= y)%Q ∨ (Qmin x y = y ∧ y <= x)%Q.
Proof.
  unfold Qmin, GenericMinMax.gmin.
  destruct (Qcompare_spec x y) as [H|H|H]; [left|left|right]; split; auto; lra.
Qed.

Lemma Qmax_cases x y : (Qmax x y = x ∧ y <= x)%Q ∨ (Qmax x y = y ∧ x <= y)%Q.
Proof.
  unfold Qmax, GenericMinMax.gmax.
  destruct (Qcompare_spec x y) as [H|H|H]; [left|right|left]; split; auto; lra.
Qed.

Lemma foldr_Qmin_spec x l :
  foldr Qmin x l ∈ x :: l ∧ ∀ y, y ∈ x :: l → (foldr Qmin x l <= y)%Q.
Proof.
  induction l as [|z l [Hin Hle]]; simpl.
  - split; [set_solver|]. intros y ->%list_elem_of_singleton. apply Qle_refl.
  - destruct (Qmin_cases z (foldr Qmin x l)) as [[-> Hz]|[-> Hz]]; (split; [set_solver|]);
      intros y Hy; (destruct (decide (y = z)) as [->|Hne]; [lra|]);
      specialize (Hle y ltac:(set_solver)); lra.
Qed.

Lemma foldr_Qmax_spec x l :
  foldr Qmax x l ∈ x :: l ∧ ∀ y, y ∈ x :: l → (y <= foldr Qmax x l)%Q.
Proof.
  induction l as [|z l [Hin Hle]]; simpl.
  - split; [set_solver|]. intros y ->%list_elem_of_singleton. apply Qle_refl.
  - destruct (Qmax_cases z (foldr Qmax x l)) as [[-> Hz]|[-> Hz]]; (split; [set_solver|]);
      intros y Hy; (destruct (decide (y = z)) as [->|Hne]; [lra|]);
      specialize (Hle y ltac:(set_solver)); lra.
Qed.

Lemma sort_q_length l : length (sort_q l) = length l.
Proof. apply Permutation_length, sort_q_perm. Qed.

Lemma sort_q_elem l x : x ∈ sort_q l ↔ x ∈ l.
Proof. by rewrite sort_q_perm. Qed.

Lemma q_min_sorted l : l ≠ [] → (q_min l == nth 0 (sort_q l) 0)%Q.
Proof.
  intros Hl. destruct l as [|x l']; [done|]. unfold q_min at 1.
  destruct (foldr_Qmin_spec x l') as [Hin Hle].
  pose proof (sort_q_sorted (x :: l')) as Hs. pose proof (sort_q_perm (x :: l')) as Hp.
  apply Qle_antisym.
  - apply Hle. apply sort_q_elem, list_elem_of_In, nth_In.
    rewrite sort_q_length. simpl. lia.
  - apply (sorted_elem_between _ _ 0 Hs). by apply sort_q_elem.
Qed.

Lemma q_max_sorted l : l ≠ [] → (q_max l == nth (length l - 1) (sort_q l) 0)%Q.
Proof.
  intros Hl. destruct l as [|x l']; [done|]. unfold q_max at 1.
  destruct (foldr_Qmax_spec x l') as [Hin Hle].
  pose proof (sort_q_sorted (x :: l')) as Hs. pose proof (sort_q_perm (x :: l')) as Hp.
  apply Qle_antisym.
  - rewrite <- (sort_q_length (x :: l')). apply (sorted_elem_between _ _ 0 Hs).
    by apply sort_q_elem.
  - apply Hle. apply sort_q_elem, list_elem_of_In, nth_In.
    rewrite sort_q_length. simpl. lia.
Qed.

(** ** Quantiles *)

(** The virtual index [(n - 1) * p] of [p] in a list of [n] values. *)
Lemma virtual_index_bounds (n : nat) p :
  (0 <= p <= 1)%Q →
  (0 <= inject_Z (Z.of_nat n) * p <= inject_Z (Z.of_nat n))%Q ∧
  (0 <= Qfloor (inject_Z (Z.of_nat n) * p) <= Z.of_nat n)%Z.
Proof.
  intros Hp. assert (0 <= inject_Z (Z.of_nat n))%Q as HN.
  { change 0%Q with (inject_Z 0). rewrite <- Zle_Qle. lia. }
  assert (0 <= inject_Z (Z.of_nat n) * p <= inject_Z (Z.of_nat n))%Q as Hh by nra.
  split; [done|]. split.
  - change 0%Z with (Qfloor 0). apply Qfloor_resp_le. apply Hh.
  - apply (Z.le_trans _ (Qfloor (inject_Z (Z.of_nat n)))); [apply Qfloor_resp_le, Hh|].
    by rewrite Qfloor_Z.
Qed.

Lemma frac_bounds h : (0 <= h - inject_Z (Qfloor h) < 1)%Q.
Proof.
  pose proof (Qfloor_le h). pose proof (Qlt_floor h). rewrite inject_Z_plus in *. change (inject_Z 1) with 1%Q in *. lra.
Qed.

(** The pieces of [quantile]: the value [a] at the lower index, the value
    [b] above it (the last value when there is none) and the weight. *)
Lemma quantile_parts l p :
  l ≠ [] → (0 <= p <= 1)%Q →
  let xs := sort_q l in
  let h := (inject_Z (Z.of_nat (length xs - 1)) * p)%Q in
  let lo := Z.to_nat (Qfloor h) in
  (lo < length xs)%nat ∧ (0 <= Qfloor h)%Z ∧
  (nth lo xs 0 <= nth (Nat.min (S lo) (length xs - 1)) xs 0)%Q ∧
  quantile l p =
    (nth lo xs 0 + (nth (Nat.min (S lo) (length xs - 1)) xs 0 - nth lo xs 0)
                   * (h - inject_Z (Qfloor h)))%Q.
Proof.
  intros Hl Hp xs h lo.
  assert (length xs ≠ 0)%nat as Hn.
  { unfold xs. rewrite sort_q_length. by destruct l. }
  destruct (virtual_index_bounds (length xs - 1) p Hp) as [_ [Hf0 Hf1]].
  fold h in Hf0, Hf1. assert (lo < length xs)%nat as Hlo by (unfold lo; lia).
  split_and!; [done|done| |].
  - apply sorted_nth_le; [apply sort_q_sorted|lia|lia].
  - unfold quantile. fold xs h lo. f_equal. f_equal. f_equal.
    destruct (decide (S lo < length xs)%nat).
    + rewrite Nat.min_l by lia. apply nth_indep. done.
    + rewrite Nat.min_r by lia. rewrite nth_overflow by lia. f_equal. lia.
Qed.

(** A quantile lies between the sorted values around its virtual index. *)
Lemma quantile_between l p :
  l ≠ [] → (0 <= p <= 1)%Q →
  let xs := sort_q l in
  let lo := Z.to_nat (Qfloor (inject_Z (Z.of_nat (length xs - 1)) * p)) in
  (nth lo xs 0 <= quantile l p <= nth (Nat.min (S lo) (length xs - 1)) xs 0)%Q.
Proof.
  intros Hl Hp xs lo. destruct (quantile_parts l p Hl Hp) as (_ & _ & Hab & ->).
  pose proof (frac_bounds (inject_Z (Z.of_nat (length xs - 1)) * p)). fold xs lo in Hab |- *.
  nra.
Qed.

Lemma quantile_mono l p1 p2 :
  l ≠ [] → (0 <= p1)%Q → (p1 <= p2)%Q → (p2 <= 1)%Q → (quantile l p1 <= quantile l p2)%Q.
Proof.
  intros Hl H1 H12 H2.
  destruct (quantile_parts l p1 Hl ltac:(lra)) as (Hlo1 & Hf1 & Hab1 & Hq1).
  destruct (quantile_parts l p2 Hl ltac:(lra)) as (Hlo2 & Hf2 & Hab2 & Hq2).
  set (xs := sort_q l) in *. set (N := inject_Z (Z.of_nat (length xs - 1))) in *.
  assert (0 <= N)%Q as HN by (unfold N; change 0%Q with (inject_Z 0); rewrite <- Zle_Qle; lia).
  assert (N * p1 <= N * p2)%Q as Hh by nra.
  pose proof (Qfloor_resp_le _ _ Hh) as Hfl.
  destruct (Z.eq_dec (Qfloor (N * p1)) (Qfloor (N * p2))) as [Heq|Hne].
  - rewrite Hq1, Hq2, <- Heq in *. nra.
  - pose proof (quantile_between l p1 Hl ltac:(lra)) as B1.
    pose proof (quantile_between l p2 Hl ltac:(lra)) as B2. cbv zeta in B1, B2.
    fold xs N in B1, B2.
    assert (nth (Nat.min (S (Z.to_nat (Qfloor (N * p1)))) (length xs - 1)) xs 0
            <= nth (Z.to_nat (Qfloor (N * p2))) xs 0)%Q.
    { apply sorted_nth_le; [apply sort_q_sorted|lia|lia]. }
    lra.
Qed.

Lemma Qfloor_half z : Qfloor (inject_Z z * (1 # 2)) = (z / 2)%Z.
Proof. unfold Qfloor. simpl. by rewrite Z.mul_1_r. Qed.

Lemma inject_Z_nat_sub_1 (m : nat) :
  (0 < m)%nat → inject_Z (Z.of_nat (m - 1)) == (inject_Z (Z.of_nat m) - 1)%Q.
Proof.
  intros Hm. replace (Z.of_nat (m - 1)) with (Z.of_nat m + - 1)%Z by lia.
  rewrite inject_Z_plus. reflexivity.
Qed.

(** numpy's median is the quantile at 1/2. *)
Lemma median_eq_quantile l : l ≠ [] → (median l == quantile l (1 # 2))%Q.
Proof.
  intros Hl. destruct (quantile_parts l (1 # 2) Hl ltac:(lra)) as (_ & _ & _ & ->).
  unfold median. set (xs := sort_q l) in *.
  assert (length xs ≠ 0)%nat as Hn by (unfold xs; rewrite sort_q_length; by destruct l).
  rewrite Qfloor_half. destruct (Nat.Even_or_Odd (length xs)) as [[k Hk]|[k Hk]].
  - assert (Z.of_nat (length xs - 1) / 2 = Z.of_nat k - 1)%Z as Hd.
    { symmetry. apply Z.div_unique with 1%Z; lia. }
    rewrite Hd. replace (Nat.even (length xs)) with true
      by (symmetry; apply Nat.even_spec; by exists k).
    replace (length xs / 2)%nat with k by (rewrite Hk, Nat.mul_comm, Nat.div_mul; lia).
    replace (Z.to_nat (Z.of_nat k - 1)) with (k - 1)%nat by lia.
    replace (Nat.min (S (k - 1)) (length xs - 1)) with k by lia.
    rewrite inject_Z_nat_sub_1 by lia. rewrite Hk.
    replace (Z.of_nat k - 1)%Z with (Z.of_nat k + - 1)%Z by lia.
    rewrite inject_Z_plus, Nat2Z.inj_mul, inject_Z_mult. change (inject_Z (-1)) with (-1)%Q.
    change (inject_Z (Z.of_nat 2)) with 2%Q. field.
  - assert (Z.of_nat (length xs - 1) / 2 = Z.of_nat k)%Z as Hd.
    { symmetry. apply Z.div_unique with 0%Z; lia. }
    rewrite Hd. replace (Nat.even (length xs)) with false
      by (rewrite Hk, Nat.add_comm, Nat.even_add_mul_2; reflexivity).
    replace (length xs / 2)%nat with k.
    2:{ rewrite Hk. apply Nat.div_unique with 1%nat; lia. }
    rewrite Nat2Z.id. replace (length xs - 1)%nat with (2 * k)%nat by lia.
    rewrite Nat2Z.inj_mul, inject_Z_mult. change (inject_Z (Z.of_nat 2)) with 2%Q. field.
Qed.

Lemma q_sum_ge l m : (∀ x, x ∈ l → m <= x)%Q → (inject_Z (Z.of_nat (length l)) * m <= q_sum l)%Q.
Proof.
  induction l as [|x l IH]; intros Hm; [unfold q_sum; simpl; rewrite Qmult_0_l; apply Qle_refl|].
  change (q_sum (x :: l)) with (x + q_sum l)%Q. change (length (x :: l)) with (S (length l)).
  rewrite Nat2Z.inj_succ, <- Z.add_1_r, inject_Z_plus.
  assert (m <= x)%Q by (apply Hm; set_solver). specialize (IH ltac:(set_solver)).
  change (inject_Z 1) with 1%Q. lra.
Qed.

Lemma q_sum_le l m : (∀ x, x ∈ l → x <= m)%Q → (q_sum l <= inject_Z (Z.of_nat (length l)) * m)%Q.
Proof.
  induction l as [|x l IH]; intros Hm; [unfold q_sum; simpl; rewrite Qmult_0_l; apply Qle_refl|].
  change (q_sum (x :: l)) with (x + q_sum l)%Q. change (length (x :: l)) with (S (length l)).
  rewrite Nat2Z.inj_succ, <- Z.add_1_r, inject_Z_plus.
  assert (x <= m)%Q by (apply Hm; set_solver). specialize (IH ltac:(set_solver)).
  change (inject_Z 1) with 1%Q. lra.
Qed.

Lemma dropna_nonempty series : (length (dropna series) =? 0)%nat = false → dropna series ≠ [].
Proof. intros H Heq. rewrite Heq in H. discriminate. Qed.

(** ** The claims *)

(** C24. The median cost of the overview card is the 50% quantile of the
    known costs: numpy's median (mean of the two middle values) agrees
    with linear interpolation at 1/2. *)
Theorem median_cost_quantile filtered m :
  median_cost filtered = Some m → (m == quantile (dropna (cost <$> filtered)) (1 # 2))%Q.
Proof.
  unfold median_cost, calculate_statistics.
  destruct (length (dropna _) =? 0)%nat eqn:Hz; [discriminate|]. intros [= <-]. simpl.
  by apply median_eq_quantile, dropna_nonempty.
Qed.

(** C25. The statistics of a non-empty column are ordered: minimum, first
    quartile, median, third quartile and maximum increase, the
    interquartile range is not negative and the mean lies between the
    extremes; the count is the number of known values. *)
Theorem calculate_statistics_order series st :
  calculate_statistics series = Some st →
  st_count st = length (dropna series) ∧ (0 < st_count st)%nat ∧
  (st_min st <= st_q25 st <= st_median st)%Q ∧ (st_median st <= st_q75 st <= st_max st)%Q ∧
  (0 <= st_iqr st)%Q ∧ (st_min st <= st_mean st <= st_max st)%Q.
Proof.
  unfold calculate_statistics. set (l := dropna series).
  destruct (length l =? 0)%nat eqn:Hz; [discriminate|]. intros [= <-]. simpl.
  apply Nat.eqb_neq in Hz. assert (l ≠ []) as Hl by (by intros ->).
  set (xs := sort_q l). pose proof (sort_q_length l) as Hlen. fold xs in Hlen.
  rewrite (median_eq_quantile l Hl), (q_min_sorted l Hl), (q_max_sorted l Hl). fold xs.
  pose proof (quantile_mono l (1 # 4) (1 # 2) Hl ltac:(lra) ltac:(lra) ltac:(lra)).
  pose proof (quantile_mono l (1 # 2) (3 # 4) Hl ltac:(lra) ltac:(lra) ltac:(lra)).
  pose proof (quantile_between l (1 # 4) Hl ltac:(lra)) as B1.
  pose proof (quantile_between l (3 # 4) Hl ltac:(lra)) as B3. cbv zeta in B1, B3. fold xs in B1, B3.
  assert (nth 0 xs 0 <= nth (Z.to_nat (Qfloor (inject_Z (Z.of_nat (length xs - 1)) * (1 # 4)))) xs 0)%Q.
  { apply sorted_nth_le; [apply sort_q_sorted|lia|].
    destruct (quantile_parts l (1 # 4) Hl ltac:(lra)) as [? _]. done. }
  assert (nth (Nat.min (S (Z.to_nat (Qfloor (inject_Z (Z.of_nat (length xs - 1)) * (3 # 4)))))
                (length xs - 1)) xs 0 <= nth (length l - 1) xs 0)%Q.
  { apply sorted_nth_le; [apply sort_q_sorted|lia|lia]. }
  assert (∀ x, x ∈ l → nth 0 xs 0 <= x <= nth (length l - 1) xs 0)%Q as Hx.
  { intros x Hx%sort_q_elem. rewrite <- Hlen. apply (sorted_elem_between _ _ 0); [apply sort_q_sorted|done]. }
  pose proof (q_sum_ge l (nth 0 xs 0) (λ x H, proj1 (Hx x H))).
  pose proof (q_sum_le l (nth (length l - 1) xs 0) (λ x H, proj2 (Hx x H))).
  assert (0 < inject_Z (Z.of_nat (length l)))%Q.
  { change 0%Q with (inject_Z 0). rewrite <- Zlt_Qlt. lia. }
  split_and!; try done; try lia; try lra; unfold q_mean.
  - apply Qle_shift_div_l; [done|]. lra.
  - apply Qle_shift_div_r; [done|]. lra.
Qed.

(** ** Witnesses *)

Lemma median_cost_quantile_witness :
  ∃ m, median_cost Examples.ex_df = Some m ∧
  (m == quantile (dropna (cost <$> Examples.ex_df)) (1 # 2))%Q.
Proof. eexists. split; [reflexivity|]. apply median_cost_quantile. reflexivity. Defined.

Definition ex_series : list (option Q) := [Some 3; None; Some 1; Some 2; Some 10]%Q.

Lemma calculate_statistics_order_witness :
  ∃ st, calculate_statistics ex_series = Some st ∧
  st_count st = length (dropna ex_series) ∧ (0 < st_count st)%nat ∧
  (st_min st <= st_q25 st <= st_median st)%Q ∧ (st_median st <= st_q75 st <= st_max st)%Q ∧
  (0 <= st_iqr st)%Q ∧ (st_min st <= st_mean st <= st_max st)%Q.
Proof. eexists. split; [reflexivity|]. apply calculate_statistics_order. reflexivity. Defined.

End DashStats.
