(* ===== verification/DashViews.v ===== *)
(** * The views of the dashboard and its HTML export

    The charts of [tools_dashboard.py] (lines 172-278) all start from
    [get_filtered_data]; this file gives, for each, the data the chart is
    drawn from or the message pane shown instead ([pane]), and the export
    of lines 320-336 (a timestamped file under [exports/]); [load_tools]
    is the loading of the snapshot (lines 12-13).

    - [value_counts] is [Series.value_counts()]: the missing values
      ([None]) dropped, then the counts of the distinct values, largest
      first.  pandas sorts the counts with a
      quicksort, whose order among equal counts is not specified; the
      model sorts stably (first appearance first), and the theorems do
      not depend on that order.
    - The plot objects (hvplot), colours, sizes and the Tabulator options
      are presentation and are not modelled; the HTML the template saves
      is a parameter [html] of the export.
    - [datetime.now().strftime("%Y%m%d_%H%M%S")] is [strftime_ts] on a
      [DateTime]; years are taken from 1000 to 9999, where [%Y] has four
      digits on every platform. *)

From S2P Require Import Prelude Json PyDict FileStore Dashboard DashStats.
From Stdlib Require Import QArith Ascii.

Module DashViews.
Import Dashboard DashStats.

(** ** Panes *)

Inductive pane :=
| Markdown (text : string)
| BoxPlot (ys : list Q) (n : nat)
| Histogram (ys : list Q) (bins : nat) (mean : Q) (var : option Q)
| BarH (bars : list (json * Z)) (n : nat).

Definition nl : string := String (Ascii.ascii_of_nat 10) EmptyString.

(** The costs of the rows that have one ([filtered[filtered['HasCost']]]). *)
Definition cost_data (filtered : list Tool) : list Q := omap cost (filter has_cost filtered).

(** [cost_boxplot] (lines 173-190). *)
Definition cost_boxplot (filtered : list Tool) : pane :=
  let cd := cost_data filtered in
  if (length cd =? 0)%nat
  then Markdown ("### Cost Distribution (Box Plot)" +:+ nl +:+ nl +:+ "*No cost data available*")
  else BoxPlot cd (length cd).

(** [cost_histogram] (lines 193-211): the title reads [stats_info["mean"]]
    and [stats_info["std"]], a [KeyError] if the statistics are the empty
    dict. *)
Definition cost_histogram (filtered : list Tool) : res pane :=
  let cd := cost_data filtered in
  if (length cd =? 0)%nat then Ok (Markdown "*No cost data*")
  else match calculate_statistics (Some <$> cd) with
       | Some st => Ok (Histogram cd 25 (st_mean st) (st_var st))
       | None => Err (KeyError "mean")
       end.

(** [count_ge a b]: [a] comes before [b] in a descending sort of counts. *)
Definition count_ge (a b : json * Z) : Prop := (b.2 <= a.2)%Z.
#[export] Instance count_ge_dec : RelDecision count_ge.
Proof. intros a b. unfold count_ge. apply _. Defined.

(** [count_le a b]: [a] comes before [b] in an ascending sort of counts. *)
Definition count_le (a b : json * Z) : Prop := (a.2 <= b.2)%Z.
#[export] Instance count_le_dec : RelDecision count_le.
Proof. intros a b. unfold count_le. apply _. Defined.

(** pandas' missing value: [None] (a JSON [null]). *)
Definition is_na (j : json) : bool := match j with JNull => true | _ => false end.

(** [Series.value_counts()] (line 236): the missing values are dropped
    ([dropna=True]), then the distinct values (by hash and [==]) with
    their counts, largest first; an unhashable value raises [TypeError]. *)
Definition value_counts (l : list json) : res (list (json * Z)) :=
  d ← count_tags [] (filter (λ j, negb (is_na j)) l); Ok (merge_sort count_ge (dict_items d)).

(** [company_chart] (lines 232-242). *)
Definition company_chart (filtered : list Tool) : res pane :=
  let with_company := filter has_company filtered in
  if (length with_company =? 0)%nat then Ok (Markdown "*No company data*")
  else (vc ← value_counts (company <$> with_company);
        Ok (BarH (take 15 vc) (length with_company))).

(** How many values of [l] are [==] to a value hashing to [k]. *)
Definition count_key (k : pykey) (l : list json) : nat :=
  length (filter (λ c, to_key c = Ok k) l).

(** The bars of [tag_chart] (lines 253-258):
    [pd.Series(tag_counts).sort_values(ascending=True).tail(15)]. *)
Definition tag_chart_bars (filtered : list Tool) : res pane :=
  match tag_chart filtered with
  | None => Ok (Markdown "*No tag data*")
  | Some r =>
      d ← r;
      let s := merge_sort count_le (dict_items d) in
      Ok (BarH (drop (length s - 15) s) (length (filter has_tags filtered)))
  end.

(** A row of [data_table] (lines 262-278): the columns ToolName, Company,
    Tags, Cost, Rating and CostTier, renamed for display. *)
Record TableRow := {
  tr_tool : cell; tr_company : json; tr_categories : json;
  tr_cost : option Q; tr_rating : option Q; tr_tier : string }.

Definition DISPLAY_COLUMNS : list string :=
  ["Tool"; "Company"; "Categories"; "Annual Cost ($)"; "Rating"; "Price Tier"].

Definition data_table (filtered : list Tool) : list TableRow :=
  (λ t, {| tr_tool := tool_name t; tr_company := company t; tr_categories := tags t;
           tr_cost := cost t; tr_rating := rating t; tr_tier := cost_tier t |}) <$> filtered.

(** ** The HTML export (lines 320-336) *)

Record DateTime := {
  year : nat; month : nat; day : nat; hour : nat; minute : nat; second : nat }.

#[export] Instance DateTime_eq_dec : EqDecision DateTime.
Proof. solve_decision. Defined.

Definition valid_dt (t : DateTime) : bool :=
  (1000 <=? year t)%nat && (year t <? 10 ^ 4)%nat &&
  (1 <=? month t)%nat && (month t <=? 12)%nat && (1 <=? day t)%nat && (day t <=? 31)%nat &&
  (hour t <? 24)%nat && (minute t <? 60)%nat && (second t <? 60)%nat.

Definition dec_digit (n : nat) : Ascii.ascii := Ascii.ascii_of_nat (48 + n).

(** The last [w] decimal digits of [n], zero padded, as [%m] or [%Y] print. *)
Fixpoint pad (w n : nat) : string :=
  match w with
  | O => EmptyString
  | S w' => pad w' (n / 10) +:+ String (dec_digit (n mod 10)) EmptyString
  end.

(** [strftime("%Y%m%d_%H%M%S")] (line 330). *)
Definition strftime_ts (t : DateTime) : string :=
  pad 4 (year t) +:+ pad 2 (month t) +:+ pad 2 (day t) +:+ "_" +:+
  pad 2 (hour t) +:+ pad 2 (minute t) +:+ pad 2 (second t).

(** [export_dir / f"{timestamp}_tools_dashboard.html"] (lines 326-331). *)
Definition export_filename (t : DateTime) : string :=
  path_join "exports" (strftime_ts t +:+ "_tools_dashboard.html").

Section Export.
Context {FS : Type} `{FileSystem FS}.

(** [data_dir] (line 12), relative to the working directory. *)
Definition dashboard_data_dir : string := "../baserow_api/data/snapshots".

(** [tools_df = pd.read_json(data_dir / 'tools.json')] (line 13) followed
    by the derived columns.  The model covers the array of records the
    Fetcher writes; pandas also builds frames from other JSON documents
    (a dict of columns), which are reported here as [ValueError]. *)
Definition load_tools (s : FS) : res (list Tool) :=
  j ← read_json s (path_join dashboard_data_dir "tools.json");
  match j with JArr rows => prepare rows | _ => Err ValueError end.

(** [export_dir.mkdir(exist_ok=True)] then [template.save(filename)]. *)
Definition export_dashboard (t : DateTime) (html : string) (s : FS) : FS :=
  fs_write (export_filename t) (JStr html) (fs_mkdir "exports" s).
End Export.

(** [print(f"Dashboard exported to {filename}")] (line 337). *)
Definition export_message (t : DateTime) : string :=
  "Dashboard exported to " +:+ export_filename t.

(** ** Lemmas *)

Lemma dropna_Some (l : list Q) : dropna (Some <$> l) = l.
Proof.
  induction l as [|x l IH]; [done|]. unfold dropna in *.
  change (omap id (Some <$> x :: l)) with (x :: omap id (Some <$> l)). by rewrite IH.
Qed.

Lemma pad_length w n : String.length (pad w n) = w.
Proof.
  revert n. induction w as [|w IH]; intros n; [done|]. simpl pad.
  rewrite string_app_length, IH. simpl. lia.
Qed.

Lemma dec_digit_inj a b : (a < 10)%nat → (b < 10)%nat → dec_digit a = dec_digit b → a = b.
Proof.
  unfold dec_digit. intros Ha Hb Heq.
  apply (f_equal Ascii.nat_of_ascii) in Heq. rewrite !Ascii.nat_ascii_embedding in Heq by lia. lia.
Qed.

Lemma pad_inj w n m : (n < 10 ^ w)%nat → (m < 10 ^ w)%nat → pad w n = pad w m → n = m.
Proof.
  revert n m. induction w as [|w IH]; intros n m Hn Hm Heq; [simpl in *; lia|].
  cbn [pad] in Heq. apply string_app_inv in Heq as [Hhi Hlo]; [|by rewrite !pad_length].
  assert (n mod 10 = m mod 10) as Hd.
  { apply dec_digit_inj; [apply Nat.mod_upper_bound; lia..|congruence]. }
  apply IH in Hhi; [|apply Nat.Div0.div_lt_upper_bound; simpl in *; lia..].
  rewrite (Nat.div_mod_eq n 10), (Nat.div_mod_eq m 10). lia.
Qed.

Lemma strftime_ts_length t : String.length (strftime_ts t) = 15%nat.
Proof. unfold strftime_ts. rewrite !string_app_length, !pad_length. reflexivity. Qed.

(** [strftime] is injective on valid date-times: each field is printed
    with a fixed width. *)
Lemma strftime_ts_inj t1 t2 :
  valid_dt t1 → valid_dt t2 → strftime_ts t1 = strftime_ts t2 → t1 = t2.
Proof.
  unfold valid_dt, strftime_ts. rewrite !andb_True, !Is_true_true, !Nat.leb_le, !Nat.ltb_lt.
  intros H1 H2 Heq. destruct_and!.
  repeat match type of Heq with
  | pad ?w ?a +:+ _ = pad ?w ?b +:+ _ =>
      let E := fresh "E" in
      apply string_app_inv in Heq as [E Heq]; [|by rewrite !pad_length];
      apply pad_inj in E; [|first [assumption | simpl; lia]..]
  | "_" +:+ _ = "_" +:+ _ => apply string_app_inv in Heq as [_ Heq]; [|done]
  end.
  apply pad_inj in Heq; [|simpl; lia..].
  destruct t1, t2; simpl in *; by subst.
Qed.

#[export] Instance count_ge_total : Total count_ge.
Proof. intros a b. unfold count_ge. lia. Qed.
#[export] Instance count_ge_trans : Transitive count_ge.
Proof. intros a b c. unfold count_ge. lia. Qed.

Lemma count_tags_inv acc l d :
  count_tags acc l = Ok d → dict_wf acc → dict_keys_ok acc → dict_wf d ∧ dict_keys_ok d.
Proof.
  revert acc. induction l as [|t l IH]; intros acc Hc Hwf Hok; [by injection Hc as <-|].
  simpl in Hc. destruct (dict_get acc t) as [c|]; [|discriminate]. simpl in Hc.
  destruct (dict_set acc t _) as [acc'|] eqn:Hs; [|discriminate].
  destruct (dict_set_inv _ _ _ _ Hs Hwf Hok). by apply (IH acc').
Qed.

Lemma count_key_pos k l c : c ∈ l → to_key c = Ok k → (0 < count_key k l)%nat.
Proof.
  intros Hc Hk. unfold count_key.
  assert (c ∈ filter (λ c, to_key c = Ok k) l) as Hf by (by apply list_elem_of_filter).
  destruct (filter _ l); [by apply not_elem_of_nil in Hf|simpl; lia].
Qed.

Lemma value_counts_lookup l d k :
  count_tags [] l = Ok d →
  dict_lookup k d = if (count_key k l =? 0)%nat then None else Some (Z.of_nat (count_key k l)).
Proof. intros Hc. rewrite (count_tags_spec _ _ _ _ Hc). done. Qed.

(** The counts of [count_tags] sorted by decreasing count: each pair is a
    hashable value with its positive count, and every hashable value of
    [l] has its pair. *)
Lemma count_tags_sorted_spec l d :
  count_tags [] l = Ok d →
  let s := merge_sort count_ge (dict_items d) in
  StronglySorted count_ge s ∧
  (∀ p, p ∈ s → ∃ k, to_key p.1 = Ok k ∧ count_key k l ≠ 0%nat ∧
     p.2 = Z.of_nat (count_key k l)) ∧
  (∀ c k, c ∈ l → to_key c = Ok k →
     ∃ p, p ∈ s ∧ to_key p.1 = Ok k ∧ p.2 = Z.of_nat (count_key k l)).
Proof.
  intros Hc s. destruct (count_tags_inv _ _ _ Hc) as [Hwf Hok]; [constructor..|].
  pose proof (λ k, value_counts_lookup _ _ k Hc) as Hl. split_and!.
  - apply StronglySorted_merge_sort; apply _.
  - intros [kj v] Hp. unfold s in Hp. rewrite merge_sort_Permutation in Hp.
    destruct (dict_items_key _ _ _ Hok Hp) as [k Hk]. exists k. split; [done|].
    pose proof (dict_items_lookup _ _ _ _ Hwf Hok Hk Hp) as Hv. rewrite (Hl k) in Hv.
    destruct (_ =? 0)%nat eqn:Hz; [discriminate|]. apply Nat.eqb_neq in Hz.
    by injection Hv as <-.
  - intros c k Hcl Hk. pose proof (count_key_pos _ _ _ Hcl Hk) as Hpos.
    specialize (Hl k). destruct (count_key k l =? 0)%nat eqn:Hz; [apply Nat.eqb_eq in Hz; lia|].
    destruct (dict_lookup_items _ _ _ Hok Hl) as (kj & Hp & Hkj).
    exists (kj, Z.of_nat (count_key k l)). unfold s. by rewrite merge_sort_Permutation.
Qed.

(** Dropping the missing values changes no count but [None]'s. *)
Lemma count_key_dropna k l :
  k ≠ KNone → count_key k (filter (λ j, negb (is_na j)) l) = count_key k l.
Proof.
  intros Hk. unfold count_key. rewrite list_filter_filter. f_equal. apply list_filter_iff.
  intros []; simpl; split; try tauto; intros H; [by injection H as <-|..]; destruct H as [H _];
    by injection H as <-.
Qed.

Lemma count_key_dropna_pos k l : count_key k (filter (λ j, negb (is_na j)) l) ≠ 0%nat → k ≠ KNone.
Proof.
  unfold count_key. rewrite list_filter_filter. intros Hn ->.
  destruct (filter _ l) as [|j l'] eqn:E; [done|].
  assert (j ∈ filter (λ x, to_key x = Ok KNone ∧ negb (is_na x)) l) as Hj by (rewrite E; left).
  apply list_elem_of_filter in Hj as [[Hkey Hna] _]. destruct j; simpl in *; try discriminate.
  done.
Qed.

(** [value_counts]: sorted by decreasing count; each pair is a hashable
    value that is not [None] with its count; every hashable value of [l]
    other than [None] has its pair. *)
Lemma value_counts_spec l s :
  value_counts l = Ok s →
  StronglySorted count_ge s ∧
  (∀ p, p ∈ s → ∃ k, to_key p.1 = Ok k ∧ k ≠ KNone ∧ p.2 = Z.of_nat (count_key k l)) ∧
  (∀ c k, c ∈ l → to_key c = Ok k → k ≠ KNone →
     ∃ p, p ∈ s ∧ to_key p.1 = Ok k ∧ p.2 = Z.of_nat (count_key k l)).
Proof.
  unfold value_counts. destruct (count_tags [] _) as [d|] eqn:Hc; [|discriminate].
  intros [= <-]. destruct (count_tags_sorted_spec _ _ Hc) as (Hs & Hp & Hall).
  split_and!; [done| |].
  - intros p Hin. destruct (Hp p Hin) as (k & Hk & Hnz & Hv).
    pose proof (count_key_dropna_pos _ _ Hnz) as Hkn.
    exists k. split_and!; [done|done|]. by rewrite Hv, count_key_dropna.
  - intros c k Hc' Hk Hkn. destruct (Hall c k) as (p & Hin & Hpk & Hv).
    + apply list_elem_of_filter. split; [|done]. destruct c; try done. by injection Hk.
    + done.
    + exists p. by rewrite <- count_key_dropna.
Qed.

Lemma export_filename_inj t1 t2 :
  valid_dt t1 → valid_dt t2 → export_filename t1 = export_filename t2 → t1 = t2.
Proof.
  unfold export_filename. intros H1 H2 Heq%path_join_inj.
  apply string_app_inv in Heq as [Heq _]; [|by rewrite !strftime_ts_length].
  by apply strftime_ts_inj.
Qed.

(** ** The views: the claims *)

(** C22. Company chart: the bars are at most 15 (value, count) pairs in
    decreasing order of count, each the count of rows with that company,
    [None] never among them (pandas drops missing values); a company of
    the selection other than [None] is left out only when 15 bars are
    shown, and then its count is at most the count of every bar. *)
Theorem company_chart_top filtered bars n :
  company_chart filtered = Ok (BarH bars n) →
  let cs := company <$> filter has_company filtered in
  n = length cs ∧ (length bars ≤ 15)%nat ∧ StronglySorted count_ge bars ∧
  (∀ p, p ∈ bars → ∃ k, to_key p.1 = Ok k ∧ k ≠ KNone ∧ p.2 = Z.of_nat (count_key k cs)) ∧
  (∀ c k, c ∈ cs → to_key c = Ok k → k ≠ KNone → (∀ p, p ∈ bars → to_key p.1 ≠ Ok k) →
     length bars = 15%nat ∧ ∀ p, p ∈ bars → (Z.of_nat (count_key k cs) <= p.2)%Z).
Proof.
  unfold company_chart. destruct (_ =? 0)%nat; [discriminate|].
  destruct (value_counts _) as [s|] eqn:Hv; [|discriminate]. intros [= <- <-].
  destruct (value_counts_spec _ _ Hv) as (Hs & Hp & Hc).
  rewrite <- (take_drop 15 s) in Hs. apply StronglySorted_app in Hs as (Hge & Hst & _).
  split_and!; [by rewrite length_fmap|rewrite length_take; lia|done| |].
  - intros p Hin. apply Hp. rewrite <- (take_drop 15 s). set_solver.
  - intros c k Hcs Hk Hkn Hout. destruct (Hc c k Hcs Hk Hkn) as (q & Hq & Hqk & Hqc).
    destruct (elem_of_take_drop q 15 s Hq) as [Hin|Hin]; [by destruct (Hout q Hin)|].
    split; [by eapply take_full|]. intros p Hp'. rewrite <- Hqc. by apply (Hge p q).
Qed.

(** The histogram never raises: with no cost data it is the message
    pane, and otherwise its title's mean and standard deviation are those
    of the costs shown (the [KeyError] of an empty statistics dict cannot
    happen, since the guard comes first). *)
Theorem cost_histogram_total filtered :
  cost_histogram filtered =
    Ok (if (length (cost_data filtered) =? 0)%nat then Markdown "*No cost data*"
        else Histogram (cost_data filtered) 25 (q_mean (cost_data filtered))
               (sample_var (cost_data filtered))).
Proof.
  unfold cost_histogram, calculate_statistics. rewrite dropna_Some.
  by destruct (length (cost_data filtered) =? 0)%nat.
Qed.

Section ExportClaims.
Context {FS : Type} `{FileSystemLaws FS}.

(** C23. Two exports: the file named by the first timestamp holds the first
    dashboard unless the second export ran in the same second, in which
    case it was overwritten (timestamps have a resolution of one second). *)
Theorem export_twice t1 t2 h1 h2 (s : FS) :
  valid_dt t1 → valid_dt t2 →
  fs_read (export_dashboard t2 h2 (export_dashboard t1 h1 s)) (export_filename t1) =
    Some (JStr (if decide (t1 = t2) then h2 else h1)) ∧
  fs_isdir (export_dashboard t2 h2 (export_dashboard t1 h1 s)) "exports" = true.
Proof.
  intros H1 H2. unfold export_dashboard. split; [|by rewrite fs_isdir_write, fs_isdir_mkdir].
  case_decide as Heq; [subst; by rewrite fs_read_write_eq|].
  rewrite fs_read_write_ne, fs_read_mkdir, fs_read_write_eq; [done|].
  intros Hf. by apply Heq, export_filename_inj.
Qed.

(** The message printed after an export names the file that holds the
    page just saved. *)
Lemma export_message_file t html (s : FS) :
  ∃ p, export_message t = "Dashboard exported to " +:+ p ∧
       fs_read (export_dashboard t html s) p = Some (JStr html).
Proof. exists (export_filename t). split; [done|]. apply fs_read_write_eq. Qed.
End ExportClaims.

(** ** Witnesses *)

Module Examples.
Import Dashboard.Examples.

Definition ex_t1 : DateTime :=
  {| year := 2025; month := 3; day := 7; hour := 9; minute := 5; second := 59 |}.
Definition ex_t2 : DateTime :=
  {| year := 2025; month := 3; day := 7; hour := 9; minute := 6; second := 0 |}.

Definition ex_disk0 : Disk := {| disk_files := ∅; disk_dirs := ∅ |}.
End Examples.
Import Examples Dashboard.Examples.

Lemma company_chart_top_witness :
  company_chart ex_df = Ok (BarH [(JStr "Corp", 1%Z)] 1) ∧
  (length [(JStr "Corp", 1%Z)] ≤ 15)%nat.
Proof.
  split; [vm_compute; reflexivity|].
  destruct (company_chart_top ex_df [(JStr "Corp", 1%Z)] 1) as (_ & Hl & _);
    [vm_compute; reflexivity|exact Hl].
Defined.

Lemma export_twice_witness :
  fs_read (export_dashboard ex_t2 "b" (export_dashboard ex_t1 "a" ex_disk0))
    (export_filename ex_t1) = Some (JStr "a").
Proof.
  destruct (export_twice ex_t1 ex_t2 "a" "b" ex_disk0) as [-> _]; [done..|].
  by rewrite decide_False.
Defined.

End DashViews.
