(* ===== verification/DashPage.v ===== *)
(** * The page of the dashboard

    Every view of [tools_dashboard.py] is a function decorated with
    [@pn.depends(search, company_filter, tag_filter, cost_tier_filter)]
    (lines 132, 172, 192, 213, 231, 244, 261): Panel calls it with the
    four widgets' values, and it starts by calling [get_filtered_data]
    itself.  The [FastListTemplate] of lines 281-316 places the widgets in
    the sidebar and the seven views in the main area, and
    [template.servable()] (line 318) serves it.

    This file gives [depends] (the decorator with the first line of each
    view), the card grid of [stats_cards] with its median card
    ([stats_view]), the seven views of a widget state ([views]), the
    layout of the template as data ([template], with the nested
    [pn.Row]/[pn.Column] as the nested inductive [item]) and the page it
    renders ([serve]).  The theorems show that the views of one state
    agree with each other (each count on the page counts rows of the same
    selection), that a search the regular-expression engine rejects
    breaks every view alike, and that the main area shows each view
    once. *)

From S2P Require Import Prelude Json PyDict FileStore Dashboard DashStats DashViews.
From Stdlib Require Import QArith.

Module DashPage.
Import Dashboard DashStats DashViews.

(** ** The card grid of [stats_cards] (lines 133-170) *)

(** The ['No data available'] pane, or the grid of four cards, the last
    showing the median cost ([None] is ['N/A']). *)
Inductive card_pane := NoData | CardGrid (c : Cards) (median : option Q).

Definition stats_view (filtered : list Tool) : card_pane :=
  match stats_cards filtered with
  | None => NoData
  | Some c => CardGrid c (median_cost filtered)
  end.

(** The bars of [market_segmentation] with the [n] of its title
    (lines 213-229). *)
Definition segmentation_view (filtered : list Tool) : list (string * nat) * nat :=
  (market_segmentation filtered, length filtered).

(** ** The widgets and views of the template (lines 281-316) *)

Inductive widget := WSearch | WCompanyFilter | WTagFilter | WCostTierFilter | WResetButton.

Inductive view_fn :=
| VStatsCards | VCostBoxplot | VCostHistogram | VMarketSegmentation
| VCompanyChart | VTagChart | VDataTable.

(** A pane of the template: a [pn.pane.Markdown], a widget, a view, a
    [pn.Row] of panes or a [pn.Column] around one. *)
Inductive item :=
| IMarkdown (text : string)
| IWidget (w : widget)
| IView (v : view_fn)
| IRow (cols : list item)
| IColumn (i : item).

Record Template := {
  tpl_title : string;
  tpl_sidebar : list item;
  tpl_main : list item;
  tpl_accent_base_color : string;
  tpl_header_background : string }.

Definition template : Template := {|
  tpl_title := "Research Tools Landscape Analysis";
  tpl_sidebar :=
    [IMarkdown "## Research Controls"; IMarkdown "### Filters";
     IWidget WSearch; IWidget WCompanyFilter; IWidget WTagFilter; IWidget WCostTierFilter;
     IMarkdown "---"; IWidget WResetButton];
  tpl_main :=
    [IMarkdown "## Overview Statistics"; IView VStatsCards;
     IMarkdown "## Descriptive Statistics";
     IRow [IColumn (IView VCostBoxplot); IColumn (IView VCostHistogram)];
     IMarkdown "## Market Analysis";
     IRow [IColumn (IView VMarketSegmentation)];
     IMarkdown "## Market Composition";
     IRow [IColumn (IView VCompanyChart); IColumn (IView VTagChart)];
     IMarkdown "## Complete Dataset";
     IMarkdown "*Table shows all tools matching current filter criteria. Click column headers to sort.*";
     IView VDataTable];
  tpl_accent_base_color := "#2c3e50";
  tpl_header_background := "#34495e" |}.

(** ** The views of one widget state *)

(** What each view returns, or the exception it raises. *)
Record Views := {
  v_stats : res card_pane;
  v_boxplot : res pane;
  v_histogram : res pane;
  v_segmentation : res (list (string * nat) * nat);
  v_company : res pane;
  v_tags : res pane;
  v_table : res (list TableRow) }.

(** A rendered pane of the page. *)
Inductive shown :=
| SMarkdown (text : string)
| SWidget (w : widget)
| SCards (r : res card_pane)
| SPane (r : res pane)
| SSegmentation (r : res (list (string * nat) * nat))
| STable (r : res (list TableRow))
| SRow (cols : list shown)
| SColumn (s : shown).

Definition view_shown (vs : Views) (v : view_fn) : shown :=
  match v with
  | VStatsCards => SCards (v_stats vs)
  | VCostBoxplot => SPane (v_boxplot vs)
  | VCostHistogram => SPane (v_histogram vs)
  | VMarketSegmentation => SSegmentation (v_segmentation vs)
  | VCompanyChart => SPane (v_company vs)
  | VTagChart => SPane (v_tags vs)
  | VDataTable => STable (v_table vs)
  end.

Fixpoint render (vs : Views) (i : item) : shown :=
  match i with
  | IMarkdown t => SMarkdown t
  | IWidget w => SWidget w
  | IView v => view_shown vs v
  | IRow cols => SRow (List.map (render vs) cols)
  | IColumn i' => SColumn (render vs i')
  end.

(** The views named by a layout, in the order they appear. *)
Fixpoint item_views (i : item) : list view_fn :=
  match i with
  | IMarkdown _ | IWidget _ => []
  | IView v => [v]
  | IRow cols => List.flat_map item_views cols
  | IColumn i' => item_views i'
  end.

Section Page.
Context (regex : Type) (compile_ci : string → res regex) (rsearch : regex → string → bool).

(** [@pn.depends(...)] and the first line of the view,
    [filtered = get_filtered_data(search_val, companies, tags, tiers)]. *)
Definition depends {A} (view : list Tool → res A) (df : list Tool) (u : UI) : res A :=
  filtered ← filtered_for regex compile_ci rsearch df u; view filtered.

Definition views (df : list Tool) (u : UI) : Views := {|
  v_stats := depends (λ f, Ok (stats_view f)) df u;
  v_boxplot := depends (λ f, Ok (cost_boxplot f)) df u;
  v_histogram := depends cost_histogram df u;
  v_segmentation := depends (λ f, Ok (segmentation_view f)) df u;
  v_company := depends company_chart df u;
  v_tags := depends tag_chart_bars df u;
  v_table := depends (λ f, Ok (data_table f)) df u |}.

(** [template.servable()]: the sidebar and the main area as rendered for
    the widget state [u]. *)
Definition serve (df : list Tool) (u : UI) : list shown * list shown :=
  (List.map (render (views df u)) (tpl_sidebar template),
   List.map (render (views df u)) (tpl_main template)).
End Page.

(** ** Reference functions for the theorems *)

(** The number of rows a pane is drawn from: the [n] of a box plot or a
    bar chart, the values of a histogram, none for a message. *)
Definition pane_count (p : pane) : nat :=
  match p with
  | Markdown _ => 0
  | BoxPlot _ n => n
  | Histogram ys _ _ _ => length ys
  | BarH _ n => n
  end.

Definition cards_total (c : card_pane) : nat :=
  match c with NoData => 0 | CardGrid c _ => card_total c end.
Definition cards_companies (c : card_pane) : nat :=
  match c with NoData => 0 | CardGrid c _ => card_company_records c end.
Definition cards_tags (c : card_pane) : nat :=
  match c with NoData => 0 | CardGrid c _ => card_tags_records c end.

(** The rows of the table that show a cost. *)
Definition priced_rows (rows : list TableRow) : nat :=
  length (filter (λ r, bool_decide (is_Some (tr_cost r))) rows).

(** The view panes of a rendered pane, in the order they appear. *)
Fixpoint shown_views (s : shown) : list shown :=
  match s with
  | SMarkdown _ | SWidget _ => []
  | SRow cols => List.flat_map shown_views cols
  | SColumn s' => shown_views s'
  | _ => [s]
  end.

(** ** Lemmas *)

(** Induction on [item] through the panes of a [pn.Row]. *)
Section item_nested_ind.
Variable P : item → Prop.
Hypothesis Hmd : ∀ t, P (IMarkdown t).
Hypothesis Hwidget : ∀ w, P (IWidget w).
Hypothesis Hview : ∀ v, P (IView v).
Hypothesis Hrow : ∀ cols, Forall P cols → P (IRow cols).
Hypothesis Hcolumn : ∀ i, P i → P (IColumn i).

Fixpoint item_nested_ind (i : item) : P i :=
  match i with
  | IMarkdown t => Hmd t
  | IWidget w => Hwidget w
  | IView v => Hview v
  | IRow cols => Hrow cols ((fix go (l : list item) : Forall P l :=
                               match l with
                               | [] => @List.Forall_nil _ P
                               | x :: l' => @List.Forall_cons _ P x l' (item_nested_ind x) (go l')
                               end) cols)
  | IColumn i' => Hcolumn i' (item_nested_ind i')
  end.
End item_nested_ind.

Lemma render_views vs i : shown_views (render vs i) = view_shown vs <$> item_views i.
Proof.
  induction i as [t|w|v|cols IH|i' IH] using item_nested_ind; simpl; try done.
  - by destruct v.
  - induction IH as [|c cols Hc _ IHcols]; [done|]. simpl.
    by rewrite fmap_app, Hc, IHcols.
Qed.

Lemma render_list_views vs l :
  List.flat_map shown_views (List.map (render vs) l) = view_shown vs <$> List.flat_map item_views l.
Proof.
  induction l as [|i l IH]; [done|]. simpl. by rewrite fmap_app, render_views, IH.
Qed.

Section PageLemmas.
Context (regex : Type) (compile_ci : string → res regex) (rsearch : regex → string → bool).

Lemma depends_Ok_inv {A} (view : list Tool → res A) df u a :
  depends regex compile_ci rsearch view df u = Ok a →
  ∃ f, filtered_for regex compile_ci rsearch df u = Ok f ∧ view f = Ok a.
Proof. unfold depends. destruct (filtered_for _ _ _ df u) as [f|]; [by exists f|done]. Qed.

Lemma depends_Ok {A} (view : list Tool → res A) df u f :
  filtered_for regex compile_ci rsearch df u = Ok f →
  depends regex compile_ci rsearch view df u = view f.
Proof. unfold depends. by intros ->. Qed.

Lemma depends_Err {A} (view : list Tool → res A) df u e :
  filtered_for regex compile_ci rsearch df u = Err e →
  depends regex compile_ci rsearch view df u = Err e.
Proof. unfold depends. by intros ->. Qed.

Lemma search_Err df u e :
  search_value u ≠ "" → compile_ci (search_value u) = Err e →
  filtered_for regex compile_ci rsearch df u = Err e.
Proof.
  intros Hs He. unfold filtered_for, get_filtered_data.
  destruct (String.eqb_spec (search_value u) "") as [|_]; [done|]. by rewrite He.
Qed.
End PageLemmas.

Lemma cost_data_length f : length (cost_data f) = length (filter has_cost f).
Proof.
  unfold cost_data. induction f as [|t f IH]; [done|]. rewrite filter_cons.
  destruct (has_cost t) eqn:Hc; simpl; [|done].
  unfold has_cost in Hc. destruct (cost t) eqn:Ec; [|done]. simpl. by rewrite <- IH.
Qed.

Lemma priced_rows_data_table f : priced_rows (data_table f) = length (cost_data f).
Proof.
  rewrite cost_data_length. unfold priced_rows, data_table.
  induction f as [|t f IH]; [done|]. rewrite fmap_cons, !filter_cons. simpl.
  unfold has_cost. by case_bool_decide; simpl; rewrite IH.
Qed.

Lemma stats_view_counts f :
  cards_total (stats_view f) = length f ∧
  cards_companies (stats_view f) = length (filter has_company f) ∧
  cards_tags (stats_view f) = length (filter has_tags f).
Proof.
  unfold stats_view, stats_cards. destruct (length f =? 0)%nat eqn:E; [|done].
  apply Nat.eqb_eq, length_zero_iff_nil in E as ->. done.
Qed.

Lemma cost_boxplot_count f : pane_count (cost_boxplot f) = length (cost_data f).
Proof. unfold cost_boxplot. destruct (length (cost_data f) =? 0)%nat eqn:E; simpl; [|done]. by apply Nat.eqb_eq in E. Qed.

Lemma cost_histogram_count f p : cost_histogram f = Ok p → pane_count p = length (cost_data f).
Proof.
  unfold cost_histogram. destruct (length (cost_data f) =? 0)%nat eqn:E.
  - intros [= <-]. simpl. by apply Nat.eqb_eq in E.
  - destruct (calculate_statistics _); by intros [= <-].
Qed.

Lemma company_chart_count f p : company_chart f = Ok p → pane_count p = length (filter has_company f).
Proof.
  unfold company_chart. destruct (length (filter has_company f) =? 0)%nat eqn:E.
  - intros [= <-]. simpl. by apply Nat.eqb_eq in E.
  - destruct (value_counts _); simpl; [by intros [= <-]|done].
Qed.

Lemma tag_chart_bars_count f p : tag_chart_bars f = Ok p → pane_count p = length (filter has_tags f).
Proof.
  unfold tag_chart_bars, tag_chart. destruct (length (filter has_tags f) =? 0)%nat eqn:E.
  - intros [= <-]. simpl. by apply Nat.eqb_eq in E.
  - destruct (tag_counts_loop _ _); simpl; [by intros [= <-]|done].
Qed.

Lemma data_table_length f : length (data_table f) = length f.
Proof. apply length_fmap. Qed.

(** ** The claims *)

(** C21. The views of one widget state agree: every view is drawn from the
    same selection of rows, so the total of the cards, the [n] of the
    segmentation chart and the sum of its bars are the number of rows of
    the table; the box plot and the histogram are drawn from the rows of
    the table that show a cost; and the [n] of the company and tag charts
    are the record counts of the company and tag cards. *)
Theorem page_consistent regex compile_ci rsearch df u cards box hist seg n company tags rows :
  let vs := views regex compile_ci rsearch df u in
  v_stats vs = Ok cards → v_boxplot vs = Ok box → v_histogram vs = Ok hist →
  v_segmentation vs = Ok (seg, n) → v_company vs = Ok company → v_tags vs = Ok tags →
  v_table vs = Ok rows →
  cards_total cards = length rows ∧ n = length rows ∧ sum_list seg.*2 = length rows ∧
  pane_count box = priced_rows rows ∧ pane_count hist = priced_rows rows ∧
  pane_count company = cards_companies cards ∧ pane_count tags = cards_tags cards.
Proof.
  simpl. intros Hs Hb Hh Hseg Hc Ht Htab.
  destruct (depends_Ok_inv _ _ _ _ _ _ _ Htab) as (f & Hf & Hrows).
  repeat match goal with
  | H : depends _ _ _ _ _ _ = _ |- _ => rewrite (depends_Ok _ _ _ _ _ _ _ Hf) in H
  end. simplify_eq.
  destruct (stats_view_counts f) as (-> & -> & ->).
  rewrite data_table_length, priced_rows_data_table, cost_boxplot_count,
    (cost_histogram_count _ _ Hh), (company_chart_count _ _ Hc), (tag_chart_bars_count _ _ Ht).
  split_and!; try done. apply market_segmentation_total.
Qed.

(** A search the regular-expression engine rejects breaks every view of
    the page with the same exception. *)
Lemma page_search_error regex compile_ci rsearch df u e :
  search_value u ≠ "" → compile_ci (search_value u) = Err e →
  views regex compile_ci rsearch df u =
    {| v_stats := Err e; v_boxplot := Err e; v_histogram := Err e; v_segmentation := Err e;
       v_company := Err e; v_tags := Err e; v_table := Err e |}.
Proof.
  intros Hs He. pose proof (search_Err regex compile_ci rsearch df u e Hs He) as H.
  unfold views. by rewrite !(depends_Err _ _ _ _ _ _ _ H).
Qed.

(** The sidebar of the page shows the four filters and the reset button
    and no view; the main area shows each of the seven views once, in
    the order of the template. *)
Lemma serve_views regex compile_ci rsearch df u :
  let page := serve regex compile_ci rsearch df u in
  List.flat_map shown_views page.1 = [] ∧
  List.flat_map shown_views page.2 =
    view_shown (views regex compile_ci rsearch df u) <$>
      [VStatsCards; VCostBoxplot; VCostHistogram; VMarketSegmentation;
       VCompanyChart; VTagChart; VDataTable].
Proof.
  cbv zeta. split; [reflexivity|]. unfold serve. cbn [snd]. rewrite render_list_views. reflexivity.
Qed.

(** ** Witnesses *)

(** The two example rows of [Dashboard] with the tier filter set to
    ['Free'] and a literal search engine. *)
Lemma page_consistent_witness :
  let vs := views string Dashboard.Examples.ex_compile Dashboard.Examples.ex_rsearch
              Dashboard.Examples.ex_df Dashboard.Examples.ex_ui in
  ∃ cards box hist seg n company tags rows,
    v_stats vs = Ok cards ∧ v_boxplot vs = Ok box ∧ v_histogram vs = Ok hist ∧
    v_segmentation vs = Ok (seg, n) ∧ v_company vs = Ok company ∧ v_tags vs = Ok tags ∧
    v_table vs = Ok rows ∧ cards_total cards = length rows ∧ pane_count hist = priced_rows rows.
Proof.
  cbv zeta. do 8 eexists.
  do 7 (split; [vm_compute; reflexivity|]).
  edestruct (page_consistent string Dashboard.Examples.ex_compile Dashboard.Examples.ex_rsearch
               Dashboard.Examples.ex_df Dashboard.Examples.ex_ui) as (Ht & _ & _ & _ & Hh & _);
    [vm_compute; reflexivity ..|].
  split; [exact Ht|exact Hh].
Defined.

End DashPage.
